(* ===== verification/_CoqProject ===== *)
-Q . S2P
Prelude.v
Amount.v
PyFloat.v
Format.v
Colorama.v
Binary64.v
FloatRepr.v
ReprDigits.v
TextIO.v
PyVal.v
Storage.v
JsonText.v
JsonScan.v
JsonRound.v
Codec.v
LedgerSpec.v
Tracker.v
Refinement.v
Persistence.v
Sequences.v
Report.v
Console.v
Cli.v
Lifecycle.v
Scenarios.v
Findings.v
