(* ===== verification/Prelude.v ===== *)
(** * A verification development for Expense_Calculator.py

    ** The program

    [src/Expense_Calculator.py] is a personal expense tracker: one class,
    [ExpenseTracker], holds [self.data], a dict [{"income", "expenses",
    "balance"}] loaded from and saved to [expenses.json] with the [json]
    module; [add_income] and [add_expense] validate a user-typed amount
    with [float()] and update the dict in place ([+=], [-=], [append])
    and save it; [show_summary] prints totals and per-category subtotals;
    [plot_expenses] sums the expenses per category and saves a pie chart;
    [main] is a menu loop over [input()].  Amounts are Python floats.
    The library behaviour modelled is that of CPython 3.12 on a POSIX
    system in a UTF-8 locale (the version matters for [sum()], which
    compensates float additions from 3.12 on).

    ** Files, in dependency order, and what they model

    - [Prelude] (this file): the exception-state monad [pym E S X]
      (statements that change a state and may raise, changes before a
      [raise] kept), its notation [let! x := m in k] in [py_scope],
      [try/except] as [ptry], association lists as Python dicts keep them
      ([assoc], [assoc_set]), fallible folds ([foldE]), and their lemmas.
    - [Amount]: the interface [PyNum] of the number operations the code
      uses ([+], [-], [<], [<=], [float()] of a literal); [ExactNum], an
      embedding into [Q] that makes the arithmetic exact; instances for
      [Q] and for primitive binary64 floats with CPython's correctly
      rounded decimal conversion ([dec_float], [round_ratio]), which
      overflows to infinity exactly from [2^1024 - 2^970] on.
    - [PyFloat]: CPython's [float(str)] grammar ([parse_float]):
      whitespace (ASCII, and NEL and no-break space), sign, digits with
      single underscores, fraction, exponent, [inf]/[infinity]/[nan] in
      any case; every plain numeral reads as its digits and scale.
    - [Format]: [format(v, " .2f")] (sign column, digits, two decimals
      rounded half to even on the exact value, [inf]/[nan]) for exact
      and binary64 amounts, and [repr()] of a string; a printed amount
      typed back into [float()] reads within half a cent; the text depends
      only on the value (a [Proper] instance for [Qeq]), and a binary64
      amount prints as its exact dyadic value does.
    - [Colorama]: [init(autoreset=True)] (line 10): the codes [Fore.*]
      and [Style.*], the wrapper stream that strips ANSI sequences when
      standard output is not a terminal (its two regular expressions
      matched as [re.finditer] does) and resets after each write when it
      is one.
    - [Binary64]: [float()] of a decimal within half a unit of a
      binary64 number (a quarter below a power of two) returns that
      number, through the specification of Rocq's primitive floats.
    - [FloatRepr]: [float.__repr__], which [json.dump] uses for every
      amount: the shortest digits (1 to 17) that read back, laid out by
      [format_float_short]; [float(repr(x))] is [x] bit for bit.
    - [ReprDigits]: 17 digits always read back, so [repr] prints at
      most 17 significant digits and never the exact expansion
      ([float_repr_17_digits]).
    - [TextIO]: [file.read()] (CPython's strict UTF-8 decoder with its
      [UnicodeDecodeError] messages, universal newlines) and
      [file.write()] (the UTF-8 encoder): written text reads back, and
      a bad byte is reported at its offset with CPython's message.
    - [PyVal]: the values [json.load] returns ([pyval]), the exceptions
      ([exn], [verr]) and the Python operations the methods apply to them,
      each with the exception CPython raises on other operand types, and
      the builtin [sum()] ([py_sum]: int fast path, float path with
      Neumaier compensation), which with exact amounts is the plain
      left-to-right total ([fsum_exact]).
    - [Storage]: the [json] module as the interface [JsonCodec] (content
      written, the [UnicodeDecodeError] reading a content raises, the
      document read back or a [JSONDecodeError]) with the round-trip laws
      [JsonCodecLaws], the file system as a [gmap], and the document-store
      instance [stored] used to run the model on exact amounts.
    - [JsonText]: the text [json.dump(self.data, file, indent=4)] writes
      ([_make_iterencode], [c_encode_basestring_ascii], [floatstr]).
    - [JsonScan]: [json.loads] with the C scanner of [Modules/_json.c]
      ([scanstring], [_match_number], objects, arrays, named constants).
    - [JsonRound]: the scanner reads back exactly what the encoder wrote,
      and refuses every strict prefix of the text of a list or a dict.
    - [Codec]: the instance [Json_codec] of [JsonCodec] on the bytes of
      real files ([dumps] = encoder then [file.write], [loads] =
      [file.read] then [json.loads] then the objects the scanner builds),
      with [JsonCodecLaws] proved; so every theorem proved against the
      interface holds of the real [json] module on binary64 amounts.
    - [LedgerSpec]: the contract of spec sections 3-4: typed [ledger]s,
      [spec_add_income] and [spec_add_expense], the stored document
      [ledger_to_py] with its type checker [py_to_ledger] (accepting
      exactly the documents of ledgers), and the exact invariant
      [ledger_ok] (balance = income - expenses, income >= 0, records
      positive and categorised) with its decision procedure [ledger_okb].
    - [Tracker]: the [world] (the object's attributes, files, stdout,
      stdin, clock, chart) and the methods [tracker_init] ([__init__]),
      [load_data] (missing file, undecodable bytes, text that is not
      JSON, a document), [save_data], [add_income], [add_expense],
      translated statement by statement.
    - [Refinement]: the methods refine the contract on ledger worlds;
      rejections leave the world unchanged on any world; with exact
      amounts both methods preserve [tracker_ok].
    - [Persistence]: save/load round trip, reopening after a commit,
      missing, corrupted and undecodable files, and construction
      establishing [tracker_ok].
    - [Sequences]: many [add_income] / [add_expense] calls in a row
      ([pfor]): the income is the sum of the accepted amounts, the
      balance stays income minus expenses (spec section 7).
    - [Report]: [show_summary] and [plot_expenses], their refinement of
      the spec's summarize() and categoryBreakdown(), and, with exact
      amounts, that the summary's subtotals and the chart's slices agree
      value for value and that the chart's totals add up to the summary's
      total (on binary64 they may differ in the last bits, a finding).
    - [Console]: the text each recorded event prints ([render_msg]),
      from the f-strings of the source, the whole standard output
      ([transcript]), the strings each [print()] writes with its colour
      codes ([writes]) and what reaches standard output through the
      colorama wrapper ([stdout_text]): on a pipe, exactly the transcript.
    - [Cli]: [main()]: [input()] over the list of remaining input lines
      ([py_input], [EOFError] at the end), [str.capitalize()] on ASCII,
      the [if/elif] dispatch ([menu_dispatch]), one loop iteration
      ([menu_step]) and the [while True] loop ([main_loop]); that the loop
      ends, that its fuel is enough, that the queries only print, and that
      a whole session keeps the ledger sound.
    - [Lifecycle]: processes over a shared file system as a step
      relation [lstep] on [Down w] / [Up w] (construction, a method call
      that returns, one whose exception ends the process, exit); one rule
      induction over a ledger property kept by the contract's operations
      gives that the file and [self.data] stay sound across restarts and
      that every ledger held or saved is reached by the contract's
      operations ([spec_op]) from the empty or the initial ledger, that
      the program can always be started again, and, for every amount
      type, that the data keeps the ledger type [py_to_ledger] checks.
    - [Scenarios]: the spec's scenario run on exact amounts, as method
      calls and as lines typed at the menu, and the witnesses of the
      theorems with hypotheses.
    - [Findings]: where the code departs from the spec, as theorems over
      all worlds (NaN accepted, uncaught [TypeError], any JSON list as a
      data file, a half-applied update on a dict without "balance", a
      data file that is not text ending the program, [EOFError] escaping
      [main] at the end of the input, and a process killed during
      [save_data] losing the whole saved ledger at the next start), and
      two runs on binary64 kept as examples: the balance drifting from
      income minus the summed expenses, and the summary's compensated
      subtotal differing from the chart's [+=] total.

    ** Choices

    No loop of the tracker's methods needs fuel: each is over a list.
    The [while True] loop of [main] is a [Fixpoint] on fuel returning
    [false] when the fuel runs out; every iteration that does not raise
    reads at least one input line, so [main] gives it one more iteration
    than there are lines, and [main_terminates] shows that fuel never runs
    out while [main_loop_enough_fuel] shows more fuel changes nothing.
    [dec_digits] (the integer part of a printed amount) takes one digit
    per round with [log2 n + 1] rounds, enough since a number below
    [2^k] has at most [k] decimal digits ([dec_digits_ok]).  The
    clock is a field of the world ([now]), read by [add_expense].  The
    tracker is proved against the codec interface; [Storage.stored]
    keeps the document a file denotes and runs the model on exact
    amounts, [Codec.Json_codec] is the real text and bytes.  The scanner
    ([scan_once]) takes fuel, one unit per nested value, and
    [decode_doc] gives it one more than the length of the text, which
    every value of the text needs at most ([scans_all]); the decoder
    [decode_from] takes the number of bytes as fuel, one per code point.
    [repr] tries 1 to 17 digits ([candidate]); the exact decimal after
    them keeps the function total, and [float_repr_17_digits] shows it
    is never reached, as in CPython.
    Amounts are generic: the
    refinement and error theorems hold for every [PyNum], the invariant
    theorems for every [ExactNum] (exact arithmetic, as the spec means
    it), and the findings are proved on binary64, Python's arithmetic.

    ** Not modelled

    The drawing done by matplotlib (the chart is its labels and sizes;
    the library is only called), Windows consoles (colorama's win32
    calls; POSIX is assumed), failures of the file system (writes always
    succeed; the spec leaves them unhandled and fatal), the real clock
    (a field of the world), locales other than UTF-8, and
    [RecursionError] on JSON nested more deeply than Python's recursion
    limit (the scanner here has no limit).  JSON ints and floats are
    both amounts ([PNum]), so an int in a hand-edited data file is taken
    as the float of the same literal (Python agrees on every int below
    2^53, which the program only adds to floats).  Text in [pyval] is a
    sequence of code points below 256: a JSON string holding a larger
    code point has no value here ([Codec.to_pyval] gives [None]);
    [repr()] is modelled on all of them, [str.capitalize()] changes the
    case of ASCII letters only (Python would also change Latin-1 letters
    such as 0xC0). *)

From stdpp Require Import base list.
From Stdlib Require Import String ZArith Lia.

(** * Prelude: the exception-state monad, notation, automation

    Python code runs statements in order; a statement can change the
    state and can raise an exception, and the changes made before the
    exception stay.  [pym E S X] is that effect: a computation from a
    state [S] to an [outcome] (a value or a raised exception of type [E])
    and the state reached, the changes made before a [raise] included. *)

Declare Scope py_scope.
Delimit Scope py_scope with py.

Inductive outcome (E X : Type) : Type :=
| Ret (x : X)
| Exc (e : E).
Arguments Ret {E X} x.
Arguments Exc {E X} e.

Definition pym (E S X : Type) : Type := S -> outcome E X * S.

Section Monad.
Context {E S : Type}.

Definition pret {X} (x : X) : pym E S X := fun s => (Ret x, s).

Definition pbind {X Y} (m : pym E S X) (k : X -> pym E S Y) : pym E S Y :=
  fun s => match m s with
           | (Ret x, s') => k x s'
           | (Exc e, s') => (Exc e, s')
           end.

Definition praise {X} (e : E) : pym E S X := fun s => (Exc e, s).

Definition pget : pym E S S := fun s => (Ret s, s).

Definition pput (s : S) : pym E S unit := fun _ => (Ret tt, s).

Definition pmodify (f : S -> S) : pym E S unit := fun s => (Ret tt, f s).

(** [try: m except <h>]: [h e] is [Some handler] for the exceptions the
    [except] clause names, [None] for those that propagate. *)
Definition ptry {X} (m : pym E S X) (h : E -> option (pym E S X)) : pym E S X :=
  fun s => match m s with
           | (Exc e, s') => match h e with
                            | Some k => k s'
                            | None => (Exc e, s')
                            end
           | r => r
           end.

(** Lift a fallible pure computation. *)
Definition plift {X} (r : E + X) : pym E S X :=
  match r with
  | inl e => praise e
  | inr x => pret x
  end.

(** Run a list of actions in order (a Python [for] loop whose body does
    not break). *)
Fixpoint pfor {X} (l : list X) (body : X -> pym E S unit) : pym E S unit :=
  match l with
  | [] => pret tt
  | x :: l' => pbind (body x) (fun _ => pfor l' body)
  end.

(** A left fold with an accumulator, as in [for x in l: acc = f(acc, x)]. *)
Fixpoint pfold {X Y} (f : Y -> X -> pym E S Y) (acc : Y) (l : list X)
  : pym E S Y :=
  match l with
  | [] => pret acc
  | x :: l' => pbind (f acc x) (fun acc' => pfold f acc' l')
  end.
End Monad.

Notation "'let!' x ':=' m 'in' k" := (pbind m (fun x => k))
  (at level 10, x name, m at level 100, k at level 200) : py_scope.
Notation "m ';;!' k" := (pbind m (fun _ => k))
  (at level 100, right associativity) : py_scope.

(** Pure fallible computations: [E + X] with [inl] the exception. *)
Notation "'let?' x ':=' m 'in' k" :=
  (match m with inl e => inl e | inr x => k end)
  (at level 10, x name, m at level 100, k at level 200) : py_scope.

(** A left fold whose step can fail, stopping at the first failure: a
    Python loop that accumulates and may raise. *)
Fixpoint foldE {E X Y : Type} (f : Y -> X -> E + Y) (acc : Y) (l : list X) : E + Y :=
  match l with
  | [] => inr acc
  | x :: r => match f acc x with
              | inl e => inl e
              | inr acc' => foldE f acc' r
              end
  end.

(** ** Association lists keyed by strings (a Python dict in insertion
    order) *)

(** Lookup, first binding wins. *)
Fixpoint assoc {V : Type} (k : string) (kvs : list (string * V)) : option V :=
  match kvs with
  | [] => None
  | (k', v) :: r => if String.eqb k k' then Some v else assoc k r
  end.

(** [d[k] = v]: replace the binding of [k] in place, or add it at the end
    (a dict keeps the position of a key that is assigned again). *)
Fixpoint assoc_set {V : Type} (k : string) (v : V) (kvs : list (string * V))
  : list (string * V) :=
  match kvs with
  | [] => [(k, v)]
  | (k', v') :: r => if String.eqb k k' then (k', v) :: r else (k', v') :: assoc_set k v r
  end.

Create HintDb pysimp.
Create Rewrite HintDb pysimp.

(** ** Laws of the monad, pointwise in the start state *)
Section MonadLaws.
Context {E S : Type}.

Lemma pbind_ret {X Y} (x : X) (k : X -> pym E S Y) s :
  pbind (pret x) k s = k x s.
Proof. reflexivity. Qed.

Lemma pbind_raise {X Y} (e : E) (k : X -> pym E S Y) s :
  pbind (praise e) k s = (Exc e, s).
Proof. reflexivity. Qed.

Lemma pbind_assoc {X Y Z} (m : pym E S X) (f : X -> pym E S Y)
      (g : Y -> pym E S Z) s :
  pbind (pbind m f) g s = pbind m (fun x => pbind (f x) g) s.
Proof. unfold pbind. destruct (m s) as [[x|e] s']; reflexivity. Qed.

Lemma pbind_Ret {X Y} (m : pym E S X) (k : X -> pym E S Y) s x s' :
  m s = (Ret x, s') -> pbind m k s = k x s'.
Proof. unfold pbind. intros ->. reflexivity. Qed.

Lemma pbind_Exc {X Y} (m : pym E S X) (k : X -> pym E S Y) s e s' :
  m s = (Exc e, s') -> pbind m k s = (Exc e, s').
Proof. unfold pbind. intros ->. reflexivity. Qed.

Lemma ptry_Ret {X} (m : pym E S X) h s x s' :
  m s = (Ret x, s') -> ptry m h s = (Ret x, s').
Proof. unfold ptry. intros ->. reflexivity. Qed.

Lemma ptry_Exc_caught {X} (m : pym E S X) h s e s' k :
  m s = (Exc e, s') -> h e = Some k -> ptry m h s = k s'.
Proof. unfold ptry. intros -> ->. reflexivity. Qed.

Lemma ptry_Exc_uncaught {X} (m : pym E S X) h s e s' :
  m s = (Exc e, s') -> h e = None -> ptry m h s = (Exc e, s').
Proof. unfold ptry. intros -> ->. reflexivity. Qed.

Lemma pfor_app {X} (l1 l2 : list X) (body : X -> pym E S unit) s :
  pfor (l1 ++ l2) body s = pbind (pfor l1 body) (fun _ => pfor l2 body) s.
Proof.
  revert s. induction l1 as [|x l1 IH]; intros s; simpl; [reflexivity|].
  rewrite pbind_assoc. specialize (IH (snd (body x s))).
  unfold pbind in *. destruct (body x s) as [[u|e] s']; [exact IH|reflexivity].
Qed.

(** A fold whose step never raises and never changes the state is the
    pure [foldl]. *)
Lemma foldE_pure {X Y} (f : Y -> X -> Y) (acc : Y) (l : list X) :
  @foldE E X Y (fun a x => inr (f a x)) acc l = inr (foldl f acc l).
Proof. revert acc. induction l as [|x l IH]; intros acc; [reflexivity|apply IH]. Qed.

(** A fallible fold over mapped items whose step cannot fail there. *)
Lemma foldE_map {X X' Y} (f : Y -> X' -> E + Y) (g : X -> X') (f' : Y -> X -> Y)
      (acc : Y) (l : list X) :
  (forall a x, f a (g x) = inr (f' a x)) ->
  foldE f acc (map g l) = inr (foldl f' acc l).
Proof.
  intros Hf. revert acc. induction l as [|x l IH]; intros acc; [reflexivity|].
  simpl. rewrite Hf. apply IH.
Qed.

Lemma pfold_pure {X Y} (f : Y -> X -> Y) (acc : Y) (l : list X) (s : S) :
  @pfold E S X Y (fun a x => pret (f a x)) acc l s = (Ret (foldl f acc l), s).
Proof. revert acc. induction l as [|x l IH]; intros acc; [reflexivity|apply IH]. Qed.
End MonadLaws.

#[export] Hint Rewrite @pbind_ret @pbind_raise @pbind_assoc : pysimp.

(** [pyrun] unfolds the monad's plumbing on a concrete program prefix. *)
Ltac pyrun :=
  repeat (unfold pbind, pret, praise, pget, pput, pmodify, plift, ptry in *;
          simpl in *).


(** ** Tables: association lists with one entry per key of a list *)

Definition table {V : Type} (f : string -> V) (keys : list string) : list (string * V) :=
  map (fun k => (k, f k)) keys.

Section Assoc.
Context {V : Type}.

(** Assigning [d[k'] = v] leaves the other keys alone. *)
Lemma assoc_set_other (kvs : list (string * V)) k k' v :
  k <> k' -> assoc k (assoc_set k' v kvs) = assoc k kvs.
Proof.
  intros Hne. induction kvs as [|[k0 v0] r IH]; cbn.
  - destruct (String.eqb_spec k k'); congruence.
  - destruct (String.eqb_spec k' k0) as [->|Hk']; cbn.
    + destruct (String.eqb_spec k k0); congruence.
    + destruct (String.eqb k k0); [reflexivity|exact IH].
Qed.

Lemma assoc_table (f : string -> V) keys k :
  k ∈ keys -> assoc k (table f keys) = Some (f k).
Proof.
  induction keys as [|k' keys IH]; simpl; intros Hk; [by apply not_elem_of_nil in Hk|].
  destruct (String.eqb_spec k k') as [->|Hne]; [reflexivity|].
  apply IH. apply elem_of_cons in Hk as [?|?]; [congruence|done].
Qed.

Lemma assoc_table_notin (f : string -> V) keys k :
  k ∉ keys -> assoc k (table f keys) = None.
Proof.
  induction keys as [|k' keys IH]; simpl; intros Hk; [reflexivity|].
  apply not_elem_of_cons in Hk as [Hne Hk].
  destruct (String.eqb_spec k k'); [congruence|by apply IH].
Qed.

Lemma table_ext (f g : string -> V) keys :
  (forall k, k ∈ keys -> f k = g k) -> table f keys = table g keys.
Proof.
  intros Hfg. apply map_ext_in. intros k Hk. f_equal. apply Hfg. by apply list_elem_of_In.
Qed.

(** Assigning a key of a table with distinct keys updates its entry. *)
Lemma assoc_set_table (f : string -> V) keys k v :
  NoDup keys -> k ∈ keys ->
  assoc_set k v (table f keys) = table (fun c => if String.eqb c k then v else f c) keys.
Proof.
  induction keys as [|k' keys IH]; simpl; intros Hnd Hk; [by apply not_elem_of_nil in Hk|].
  apply NoDup_cons in Hnd as [Hk' Hnd].
  destruct (String.eqb_spec k k') as [->|Hne].
  - rewrite String.eqb_refl. f_equal. apply table_ext. intros c Hc.
    destruct (String.eqb_spec c k'); [subst; contradiction|reflexivity].
  - destruct (String.eqb_spec k' k); [congruence|]. f_equal.
    apply IH; [done|]. apply elem_of_cons in Hk as [?|?]; [congruence|done].
Qed.

(** Assigning a fresh key appends it. *)
Lemma assoc_set_table_notin (f : string -> V) keys k v :
  k ∉ keys -> assoc_set k v (table f keys) = table f keys ++ [(k, v)].
Proof.
  induction keys as [|k' keys IH]; simpl; intros Hk; [reflexivity|].
  apply not_elem_of_cons in Hk as [Hne Hk].
  destruct (String.eqb_spec k k'); [congruence|]. by rewrite IH.
Qed.

(** [{k: z for k in keys}] for distinct keys is the constant table. *)
Lemma foldl_assoc_set_const (z : V) pre keys :
  NoDup (pre ++ keys) ->
  foldl (fun d k => assoc_set k z d) (table (fun _ => z) pre) keys
  = table (fun _ => z) (pre ++ keys).
Proof.
  revert pre. induction keys as [|k keys IH]; intros pre Hnd; simpl.
  - by rewrite app_nil_r.
  - rewrite assoc_set_table_notin.
    + replace (table (fun _ => z) pre ++ [(k, z)]) with (table (fun _ : string => z) (pre ++ [k]))
        by (unfold table; by rewrite map_app).
      rewrite IH; [by rewrite <- app_assoc|by rewrite <- app_assoc].
    + intros Hk. apply NoDup_app in Hnd as (_ & Hdis & _).
      apply (Hdis k Hk). left.
Qed.
End Assoc.

(** ** Frames: what a computation never changes

    [frames proj m]: whatever the start state and however [m] ends, the
    projection [proj] of the state is the same after [m].  The lemmas
    follow the combinators, so [frames_step] proves a frame of a method
    by walking its body. *)

Definition frames {E S X Y : Type} (proj : S -> Y) (m : pym E S X) : Prop :=
  forall s, proj (m s).2 = proj s.

Create HintDb pyframe.

Section Frames.
Context {E S Y : Type} (proj : S -> Y).

Lemma frames_ret {X} (x : X) : frames (E:=E) proj (pret x).
Proof. intros s. reflexivity. Qed.

Lemma frames_raise {X} (e : E) : frames proj (@praise E S X e).
Proof. intros s. reflexivity. Qed.

Lemma frames_get : frames (E:=E) proj pget.
Proof. intros s. reflexivity. Qed.

Lemma frames_lift {X} (r : E + X) : frames (S:=S) proj (plift r).
Proof. destruct r; intros s; reflexivity. Qed.

Lemma frames_modify (f : S -> S) : (forall s, proj (f s) = proj s) -> frames (E:=E) proj (pmodify f).
Proof. intros Hf s. apply Hf. Qed.

Lemma frames_bind {X Z} (m : pym E S X) (k : X -> pym E S Z) :
  frames proj m -> (forall x, frames proj (k x)) -> frames proj (pbind m k).
Proof.
  intros Hm Hk s. unfold pbind. specialize (Hm s).
  destruct (m s) as [[x|e] s']; simpl in *; [by rewrite Hk|done].
Qed.

Lemma frames_try {X} (m : pym E S X) (h : E -> option (pym E S X)) :
  frames proj m -> (forall e k, h e = Some k -> frames proj k) -> frames proj (ptry m h).
Proof.
  intros Hm Hh s. unfold ptry. specialize (Hm s).
  destruct (m s) as [[x|e] s']; simpl in *; [done|].
  destruct (h e) as [k|] eqn:He; [by rewrite (Hh e k He)|done].
Qed.

Lemma frames_for {X} (l : list X) (body : X -> pym E S unit) :
  (forall x, frames proj (body x)) -> frames proj (pfor l body).
Proof.
  intros Hb. induction l as [|x l IH]; simpl; [apply frames_ret|].
  apply frames_bind; [apply Hb|intros _; exact IH].
Qed.
End Frames.

(** Walk a computation's body with the frame lemmas. *)
Ltac frames_step :=
  match goal with
  | |- frames _ (pret _) => apply frames_ret
  | |- frames _ (praise _) => apply frames_raise
  | |- frames _ pget => apply frames_get
  | |- frames _ (plift _) => apply frames_lift
  | |- frames _ (pbind _ _) => apply frames_bind; [|intros ?]
  | |- frames _ (ptry _ _) =>
      apply frames_try;
      [|let e := fresh "e" in let k := fresh "k" in let Hk := fresh "Hk" in
        intros e k Hk; destruct e; simpl in Hk; try discriminate; injection Hk as <-]
  | |- frames _ (pfor _ _) => apply frames_for; intros ?
  | |- frames _ (pmodify _) => apply frames_modify; intros []; reflexivity
  | |- frames _ (if ?b then _ else _) => destruct b
  | |- frames _ (match ?x with _ => _ end) => destruct x
  | |- frames _ _ => solve [eauto with pyframe]
  end.

(** ** Preservation of a state predicate *)

Definition preserves {E S X : Type} (P : S -> Prop) (m : pym E S X) : Prop :=
  forall s, P s -> P (m s).2.

Create HintDb pypres.

Section Preserves.
Context {E S : Type} (P : S -> Prop).

Lemma preserves_ret {X} (x : X) : preserves (E:=E) P (pret x).
Proof. intros s Hs. exact Hs. Qed.

Lemma preserves_raise {X} (e : E) : preserves P (@praise E S X e).
Proof. intros s Hs. exact Hs. Qed.

Lemma preserves_get : preserves (E:=E) P pget.
Proof. intros s Hs. exact Hs. Qed.

Lemma preserves_lift {X} (r : E + X) : preserves (S:=S) P (plift r).
Proof. destruct r; intros s Hs; exact Hs. Qed.

Lemma preserves_bind {X Z} (m : pym E S X) (k : X -> pym E S Z) :
  preserves P m -> (forall x, preserves P (k x)) -> preserves P (pbind m k).
Proof.
  intros Hm Hk s Hs. unfold pbind. specialize (Hm s Hs).
  destruct (m s) as [[x|e] s']; simpl in *; [by apply Hk|done].
Qed.

Lemma preserves_try {X} (m : pym E S X) (h : E -> option (pym E S X)) :
  preserves P m -> (forall e k, h e = Some k -> preserves P k) -> preserves P (ptry m h).
Proof.
  intros Hm Hh s Hs. unfold ptry. specialize (Hm s Hs).
  destruct (m s) as [[x|e] s']; simpl in *; [done|].
  destruct (h e) as [k|] eqn:He; [by apply (Hh e k He)|done].
Qed.

Lemma preserves_for {X} (l : list X) (body : X -> pym E S unit) :
  (forall x, preserves P (body x)) -> preserves P (pfor l body).
Proof.
  intros Hb. induction l as [|x l IH]; simpl; [apply preserves_ret|].
  apply preserves_bind; [apply Hb|intros _; exact IH].
Qed.

(** A computation that keeps every field [P] reads preserves [P]. *)
Lemma frames_preserves {X Y} (proj : S -> Y) (m : pym E S X) :
  (forall s s', proj s' = proj s -> P s -> P s') -> frames proj m -> preserves P m.
Proof. intros HP Hm s Hs. apply (HP s); [apply Hm|exact Hs]. Qed.
End Preserves.

Ltac preserves_step :=
  match goal with
  | |- preserves _ (pret _) => apply preserves_ret
  | |- preserves _ (praise _) => apply preserves_raise
  | |- preserves _ pget => apply preserves_get
  | |- preserves _ (plift _) => apply preserves_lift
  | |- preserves _ (pbind _ _) => apply preserves_bind; [|intros ?]
  | |- preserves _ (pfor _ _) => apply preserves_for; intros ?
  | |- preserves _ (if ?b then _ else _) => destruct b
  | |- preserves _ (match ?x with _ => _ end) => destruct x
  | |- preserves _ _ => solve [eauto with pypres]
  end.


(** ** Integers: comparisons and bit fields *)

(** [zif] decides the integer comparisons of a goal's [if]s one at a time,
    dropping the branches that contradict the hypotheses. *)
Ltac zif :=
  repeat (match goal with
          | |- context [Z.ltb ?a ?b] => destruct (Z.ltb_spec a b)
          | |- context [Z.leb ?a ?b] => destruct (Z.leb_spec a b)
          | |- context [Z.eqb ?a ?b] => destruct (Z.eqb_spec a b)
          end; try (exfalso; lia); cbn [andb orb negb]).

(** Setting the low bits of a number whose low [k] bits are clear adds. *)
Lemma lor_high (h a k : Z) :
  (0 <= k -> 0 <= a < 2 ^ k -> Z.lor (h * 2 ^ k) a = h * 2 ^ k + a)%Z.
Proof.
  intros Hk Ha.
  assert (Z.land (h * 2 ^ k) a = 0)%Z as H0.
  { apply Z.bits_inj'. intros i Hi. rewrite Z.land_spec, Z.bits_0.
    destruct (Z.lt_ge_cases i k).
    - rewrite <- Z.shiftl_mul_pow2, Z.shiftl_spec_low by lia. done.
    - rewrite <- (Z.mod_small a (2 ^ k)), Z.mod_pow2_bits_high by lia. apply andb_false_r. }
  by rewrite <- (Z.lxor_lor _ _ H0), <- (Z.add_nocarry_lxor _ _ H0).
Qed.

(** The same, for a constant [h] whose low [k] bits are clear. *)
Lemma lor_lead (h a k : Z) :
  (0 <= k -> 0 <= a < 2 ^ k -> h mod 2 ^ k = 0 -> Z.lor h a = h + a)%Z.
Proof.
  intros Hk Ha Hh. apply Z.div_exact in Hh; [|apply Z.pow_nonzero; lia].
  rewrite Hh, (Z.mul_comm (2 ^ k)). by apply lor_high.
Qed.

(** [len_simpl H] spells out the lengths of concatenations and conses in
    [H] and in the goal. *)
Ltac len_simpl H :=
  repeat progress (rewrite ?length_app in H; rewrite ?length_app; cbn [List.length] in H |- * ).
