(* ===== verification/Amount.v ===== *)
(** * Amount: the numbers the tracker computes with

    Expense_Calculator.py keeps every amount as a Python [float] (IEEE 754
    binary64) and uses only [float(x)], [+], [-], [<], [<=] and the literal
    [0.0] on it.  [PyNum] is that interface.  Two instances:
    - [Q_PyNum]: exact rational arithmetic, the arithmetic the program's
      bookkeeping means ([ExactNum] states it through an embedding in Q);
    - [Float_PyNum]: Rocq's primitive binary64 floats, the arithmetic the
      program really performs, with Python's correctly rounded [float()]
      conversion of decimal literals.
    The components are proved once against [PyNum] (and [ExactNum] where a
    claim needs exact arithmetic), and run on both instances.  The bound
    proved here is where [float()]'s rounding overflows: exactly from the
    midpoint [2^1024 - 2^970] between the largest finite binary64 number
    and [2^1024] on ([round_ratio_overflow]). *)

From stdpp Require Import base.
From Stdlib Require Import ZArith QArith Qround Lqa Lia Floats Uint63.
From S2P Require Import Prelude.

Local Open Scope Z_scope.

(** A literal accepted by Python's [float()]: [(-1)^neg * mant * 10^exp10]
    for a finite one ([mant >= 0]), or an infinity, or a NaN. *)
Inductive flit : Type :=
| FLFinite (neg : bool) (mant : Z) (exp10 : Z)
| FLInf (neg : bool)
| FLNan.

Class PyNum (A : Type) := {
  num_zero : A;                     (** [0.0] and the int [0] *)
  num_one : A;                      (** the int [1] ([True] in arithmetic) *)
  num_add : A -> A -> A;            (** [x + y] *)
  num_sub : A -> A -> A;            (** [x - y] *)
  num_ltb : A -> A -> bool;         (** [x < y] *)
  num_leb : A -> A -> bool;         (** [x <= y] *)
  num_of_lit : flit -> option A     (** the value [float()] gives a literal *)
}.

(** The exact value of a finite literal. *)
Definition dec_Q (neg : bool) (m e : Z) : Q :=
  let v := if 0 <=? e then inject_Z (m * 10 ^ e) else (m # Z.to_pos (10 ^ (- e))) in
  if neg then Qopp v else v.

(** An exact amount type: a homomorphic embedding into Q that also
    decides the order, and a [float()] that reads every finite literal
    exactly. *)
Class ExactNum (A : Type) `{PyNum A} := {
  to_Q : A -> Q;
  to_Q_zero : (to_Q num_zero == 0)%Q;
  to_Q_one : (to_Q num_one == 1)%Q;
  to_Q_add x y : (to_Q (num_add x y) == to_Q x + to_Q y)%Q;
  to_Q_sub x y : (to_Q (num_sub x y) == to_Q x - to_Q y)%Q;
  num_ltb_Q x y : num_ltb x y = true <-> (to_Q x < to_Q y)%Q;
  num_leb_Q x y : num_leb x y = true <-> (to_Q x <= to_Q y)%Q;
  num_of_lit_Q neg m e :
    exists x, num_of_lit (FLFinite neg m e) = Some x /\ (to_Q x == dec_Q neg m e)%Q
}.

(** ** Exact instance *)

Definition Qltb (x y : Q) : bool := negb (Qle_bool y x).

#[export] Instance Q_PyNum : PyNum Q := {|
  num_zero := 0%Q;
  num_one := 1%Q;
  num_add := Qplus;
  num_sub := Qminus;
  num_ltb := Qltb;
  num_leb := Qle_bool;
  num_of_lit l := match l with
                  | FLFinite neg m e => Some (dec_Q neg m e)
                  | _ => None
                  end
|}.

Lemma Qltb_iff (x y : Q) : Qltb x y = true <-> (x < y)%Q.
Proof.
  unfold Qltb. rewrite negb_true_iff. split; intros H.
  - apply Qnot_le_lt. intros Hle. apply Qle_bool_iff in Hle. congruence.
  - destruct (Qle_bool y x) eqn:E; [|reflexivity].
    apply Qle_bool_iff in E. exfalso. apply (Qlt_not_le x y); assumption.
Qed.

#[export] Program Instance Q_ExactNum : ExactNum Q := {| to_Q := fun x => x |}.
Next Obligation. reflexivity. Qed.
Next Obligation. reflexivity. Qed.
Next Obligation. reflexivity. Qed.
Next Obligation. reflexivity. Qed.
Next Obligation. apply Qltb_iff. Qed.
Next Obligation. apply Qle_bool_iff. Qed.
Next Obligation. eexists; split; reflexivity. Qed.

(** ** Binary64 instance *)

(** A non-negative integer below [2^53] as a float (exact). *)
Definition float_of_Z (m : Z) : float := PrimFloat.of_uint63 (Uint63.of_Z m).

(** [p / q] scaled by [2^-e], as a fraction of integers. *)
Definition scale2 (p q e : Z) : Z * Z :=
  if e <? 0 then (p * 2 ^ (- e), q) else (p, q * 2 ^ e).

(** The positive rational [p / q] rounded to the nearest binary64 value,
    ties to even, as CPython's [float()] (David Gay's strtod) rounds it:
    the exponent [e] puts the significand in [[2^52, 2^53)] (or is the
    subnormal exponent [-1074]), the quotient is rounded on its remainder,
    a carry to [2^53] moves to the next binade, and an exponent above 971
    overflows to infinity. *)
Definition round_exponent (p q : Z) : Z :=
  let e0 := Z.log2 p - Z.log2 q - 52 in
  let e1 := let '(n, d) := scale2 p q e0 in
            if n <? 2 ^ 52 * d then e0 - 1 else e0 in
  Z.max e1 (-1074).

(** The rounded significand and its exponent, before the overflow test. *)
Definition round_parts (p q : Z) : Z * Z :=
  let e := round_exponent p q in
  let '(n, d) := scale2 p q e in
  let m := n / d in
  let r := n mod d in
  let m' := if (d <? 2 * r) || ((2 * r =? d) && Z.odd m) then m + 1 else m in
  if m' =? 2 ^ 53 then (2 ^ 52, e + 1) else (m', e).

Definition round_ratio (p q : Z) : float :=
  let '(m, e) := round_parts p q in
  if 971 <? e then PrimFloat.infinity else Z.ldexp (float_of_Z m) e.

(** [float()] of a finite literal: the correctly rounded value, with a
    shortcut for literals far outside the binary64 range (a mantissa of
    at least 1 times [10^309] overflows; below [10^-325] rounds to 0). *)
Definition dec_float (neg : bool) (m e : Z) : float :=
  let v := if m <=? 0 then 0%float
           else if 309 <=? e then PrimFloat.infinity
           else if e <? - (325 + Z.log2 m) then 0%float
           else if 0 <=? e then round_ratio (m * 10 ^ e) 1
           else round_ratio m (10 ^ (- e)) in
  if neg then PrimFloat.opp v else v.

#[export] Instance Float_PyNum : PyNum float := {|
  num_zero := 0%float;
  num_one := 1%float;
  num_add := PrimFloat.add;
  num_sub := PrimFloat.sub;
  num_ltb := PrimFloat.ltb;
  num_leb := PrimFloat.leb;
  num_of_lit l := Some (match l with
                        | FLFinite neg m e => dec_float neg m e
                        | FLInf neg => if neg then PrimFloat.neg_infinity else PrimFloat.infinity
                        | FLNan => PrimFloat.nan
                        end)
|}.

(** ** Reading the comparisons of an exact amount type *)
Section ExactFacts.
Context {A : Type} `{ExactNum A}.
Local Open Scope Q_scope.

Lemma num_ltb_false_Q (x y : A) : num_ltb x y = false -> to_Q y <= to_Q x.
Proof.
  intros Hf. apply Qnot_lt_le. intros Hlt.
  apply num_ltb_Q in Hlt. congruence.
Qed.

Lemma num_leb_false_Q (x y : A) : num_leb x y = false -> to_Q y < to_Q x.
Proof.
  intros Hf. apply Qnot_le_lt. intros Hle.
  apply num_leb_Q in Hle. congruence.
Qed.
End ExactFacts.

(** ** Where [float()] overflows

    The largest finite binary64 number is [2^1024 - 2^971]; a ratio at
    or above the midpoint [2^1024 - 2^970] rounds (a tie goes to the even
    neighbour, here [2^1024]) to infinity, and every smaller ratio to a
    finite number. *)
Section Overflow.

Lemma log2_bounds p : 0 < p -> 2 ^ Z.log2 p <= p < 2 * 2 ^ Z.log2 p.
Proof.
  intros Hp. pose proof (Z.log2_spec p Hp) as [H1 H2]. rewrite Z.pow_succ_r in H2 by (apply Z.log2_nonneg).
  lia.
Qed.

Lemma scale2_nonneg p q e : 0 <= e -> scale2 p q e = (p, q * 2 ^ e).
Proof. intros He. unfold scale2. rewrite (proj2 (Z.ltb_ge e 0)) by lia. reflexivity. Qed.

(** [2^(x + y) = 2^x * 2^y] for non-negative exponents. *)
Lemma pow2_add x y : 0 <= x -> 0 <= y -> 2 ^ (x + y) = 2 ^ x * 2 ^ y.
Proof. intros. apply Z.pow_add_r; assumption. Qed.

(** A non-negative exponent puts the significand in [[2^52, 2^53)]. *)
Lemma round_exponent_normal p q :
  0 < p -> 0 < q -> 0 <= round_exponent p q ->
  2 ^ 52 * (q * 2 ^ round_exponent p q) <= p < 2 ^ 53 * (q * 2 ^ round_exponent p q).
Proof.
  intros Hp Hq. unfold round_exponent.
  pose proof (log2_bounds p Hp) as Ha. pose proof (log2_bounds q Hq) as Hb.
  pose proof (Z.log2_nonneg q) as Hb0.
  set (a := Z.log2 p) in *. set (b := Z.log2 q) in *. set (e0 := a - b - 52).
  destruct (Z.ltb_spec (a - b - 52) 0) as [Hneg|Hnn].
  { unfold scale2. rewrite (proj2 (Z.ltb_lt _ 0)) by lia.
    destruct (_ <? _); lia. }
  rewrite scale2_nonneg by lia. fold e0.
  replace (2 ^ a) with (2 ^ 52 * 2 ^ b * 2 ^ e0) in Ha
    by (rewrite <- !pow2_add by lia; f_equal; lia).
  destruct (Z.ltb_spec p (2 ^ 52 * (q * 2 ^ e0))) as [Hlt|Hge].
  - intros He. rewrite Z.max_l in * by lia.
    replace (2 ^ e0) with (2 * 2 ^ (e0 - 1)) in * by (rewrite <- Z.pow_succ_r by lia; f_equal; lia).
    split; nia.
  - intros He. rewrite Z.max_l in * by lia. split; [lia|nia].
Qed.

(** An exponent at most 970 means a ratio below [2^1023]. *)
Lemma round_exponent_small p q :
  0 < p -> 0 < q -> round_exponent p q <= 970 -> p < 2 ^ 1023 * q.
Proof.
  intros Hp Hq. unfold round_exponent.
  pose proof (log2_bounds p Hp) as Ha. pose proof (log2_bounds q Hq) as Hb.
  pose proof (Z.log2_nonneg q) as Hb0. pose proof (Z.log2_nonneg p) as Ha0.
  set (a := Z.log2 p) in *. set (b := Z.log2 q) in *.
  destruct (Z.leb_spec (a - b - 52) 970) as [Hle|Hgt].
  - intros _. assert (2 * 2 ^ a <= 2 ^ 1023 * 2 ^ b); [|nia].
    rewrite <- Z.pow_succ_r, <- pow2_add by lia. apply Z.pow_le_mono_r; lia.
  - rewrite scale2_nonneg by lia.
    destruct (Z.ltb_spec p (2 ^ 52 * (q * 2 ^ (a - b - 52)))) as [Hlt|Hge]; [|lia].
    intros He. replace (a - b - 52) with 971 in Hlt by lia. lia.
Qed.
(** The exponent after rounding passes 971 exactly from the midpoint on. *)
Lemma round_parts_overflow p q :
  0 < p -> 0 < q -> (971 < snd (round_parts p q) <-> (2 ^ 1024 - 2 ^ 970) * q <= p).
Proof.
  intros Hp Hq. unfold round_parts.
  destruct (Z.leb_spec (round_exponent p q) 970) as [Hs|Hb].
  { pose proof (round_exponent_small p q Hp Hq Hs).
    set (e := round_exponent p q) in *. destruct (scale2 p q e) as [n d].
    destruct (_ =? _); simpl; split; lia. }
  pose proof (round_exponent_normal p q Hp Hq ltac:(lia)) as Hn.
  set (e := round_exponent p q) in *. rewrite scale2_nonneg by lia.
  set (d := q * 2 ^ e) in *.
  assert (0 < d) by (apply Z.mul_pos_pos; [lia|apply Z.pow_pos_nonneg; lia]).
  pose proof (Z.div_mod p d ltac:(lia)) as Hdm. pose proof (Z.mod_pos_bound p d ltac:(lia)) as Hr.
  set (m := p / d) in *. set (r := p mod d) in *.
  assert (2 ^ 52 <= m < 2 ^ 53) as Hm by nia.
  destruct (Z.leb_spec 972 e) as [Hbig|Hsmall].
  - assert (2 ^ 972 <= 2 ^ e) by (apply Z.pow_le_mono_r; lia).
    destruct (_ =? _); simpl; split; intros; nia.
  - assert (e = 971) as He by lia. subst d. rewrite He in *.
    assert (Z.odd (2 ^ 53 - 1) = true) as Hodd by reflexivity.
    destruct (Z.eq_dec m (2 ^ 53 - 1)) as [Hmax|Hnot].
    + rewrite Hmax, Hodd.
      destruct (Z.ltb_spec (q * 2 ^ 971) (2 * r)), (Z.eqb_spec (2 * r) (q * 2 ^ 971));
        simpl; split; intros; lia.
    + assert (m + 1 <> 2 ^ 53) by lia.
      destruct (_ || _); [rewrite (proj2 (Z.eqb_neq (m + 1) _)) by lia
                         |rewrite (proj2 (Z.eqb_neq m _)) by lia]; simpl; split; intros; nia.
Qed.

(** C27: float()'s rounding of a positive ratio p/q to binary64 gives infinity
    exactly when p/q is at least 2^1024 - 2^970, halfway between the largest
    finite binary64 number and 2^1024; below that it returns the rounded
    significand scaled by its exponent. *)
Theorem round_ratio_overflow p q :
  0 < p -> 0 < q ->
  round_ratio p q = if (2 ^ 1024 - 2 ^ 970) * q <=? p then PrimFloat.infinity
                    else let '(m, e) := round_parts p q in Z.ldexp (float_of_Z m) e.
Proof.
  intros Hp Hq. pose proof (round_parts_overflow p q Hp Hq) as Ho. unfold round_ratio.
  destruct (round_parts p q) as [m e]. simpl in Ho.
  destruct (Z.ltb_spec 971 e) as [He|He], (Z.leb_spec ((2 ^ 1024 - 2 ^ 970) * q) p) as [Hp'|Hp'];
    [reflexivity|apply Ho in He; lia|apply Ho in Hp'; lia|reflexivity].
Qed.
End Overflow.
