(* ===== verification/PyFloat.v ===== *)
(** * PyFloat: Python's [float()] on a string

    [add_income] and [add_expense] call [float(amount)] on the text the
    user typed (Expense_Calculator.py lines 37 and 50).  CPython's
    [float(str)] strips surrounding whitespace and reads
      [sign] (digitpart ["." [digitpart]] | "." digitpart) [exponent]
    or [sign] ("inf" | "infinity" | "nan") in any letter case, where
    digitpart is digits with single underscores between digits and
    exponent is ("e" | "E") [sign] digitpart; anything else raises
    [ValueError].  [parse_float] is that grammar over strings of code
    points below 256; it yields a literal [flit] that [Amount.num_of_lit]
    turns into a value. *)

From stdpp Require Import base list strings.
From Stdlib Require Import ZArith Ascii String.
From S2P Require Import Prelude Amount.

Local Open Scope Z_scope.

(** Whitespace [float()] strips: ASCII space, tab, newline, vertical
    tab, form feed and carriage return, and the non-ASCII whitespace
    CPython first turns into a space (NEL 0x85 and no-break space 0xa0
    among the code points below 256). *)
Definition is_space (c : ascii) : bool :=
  match nat_of_ascii c with
  | 32 | 9 | 10 | 11 | 12 | 13 | 133 | 160 => true
  | _ => false
  end%nat.

Definition is_digit (c : ascii) : bool :=
  (48 <=? nat_of_ascii c)%nat && (nat_of_ascii c <=? 57)%nat.

Definition digit_val (c : ascii) : Z := Z.of_nat (nat_of_ascii c) - 48.

(** ASCII lower case, as [str.lower] acts on ASCII letters. *)
Definition lower (c : ascii) : ascii :=
  let n := nat_of_ascii c in
  if (65 <=? n)%nat && (n <=? 90)%nat then ascii_of_nat (n + 32) else c.

Fixpoint drop_space (l : list ascii) : list ascii :=
  match l with
  | c :: r => if is_space c then drop_space r else l
  | [] => []
  end.

(** [str.strip()] on ASCII whitespace. *)
Definition strip (l : list ascii) : list ascii :=
  rev (drop_space (rev (drop_space l))).

(** The digits after the first one of a digitpart: a digit, or an
    underscore followed by a digit, repeatedly.  [acc] is the value read
    so far, [k] the number of digits read. *)
Fixpoint digits_rest (acc : Z) (k : nat) (l : list ascii) : Z * nat * list ascii :=
  match l with
  | c :: r =>
      if is_digit c then digits_rest (acc * 10 + digit_val c) (S k) r
      else if (c =? "_")%char then
        match r with
        | d :: r' => if is_digit d then digits_rest (acc * 10 + digit_val d) (S k) r'
                     else (acc, k, l)
        | [] => (acc, k, l)
        end
      else (acc, k, l)
  | [] => (acc, k, [])
  end.

(** A digitpart continuing the value [acc]; [None] when [l] does not
    start with a digit. *)
Definition digitpart (acc : Z) (l : list ascii) : option (Z * nat * list ascii) :=
  match l with
  | c :: r => if is_digit c then Some (digits_rest (acc * 10 + digit_val c) 1 r) else None
  | [] => None
  end.

Definition parse_sign (l : list ascii) : bool * list ascii :=
  match l with
  | c :: r => if (c =? "-")%char then (true, r)
              else if (c =? "+")%char then (false, r) else (false, l)
  | [] => (false, l)
  end.

(** The mantissa: its digits as one integer and the number of digits
    after the point. *)
Definition parse_mantissa (l : list ascii) : option (Z * nat * list ascii) :=
  match digitpart 0 l with
  | Some (ip, _, r) =>
      match r with
      | c :: r' =>
          if (c =? ".")%char then
            match digitpart ip r' with
            | Some (v, k, r'') => Some (v, k, r'')
            | None => Some (ip, 0%nat, r')
            end
          else Some (ip, 0%nat, r)
      | [] => Some (ip, 0%nat, [])
      end
  | None =>
      match l with
      | c :: r => if (c =? ".")%char then digitpart 0 r else None
      | [] => None
      end
  end.

Definition parse_exponent (l : list ascii) : option (Z * list ascii) :=
  match l with
  | c :: r =>
      if (lower c =? "e")%char then
        let '(neg, r') := parse_sign r in
        match digitpart 0 r' with
        | Some (v, _, r'') => Some (if neg then - v else v, r'')
        | None => None
        end
      else Some (0, l)
  | [] => Some (0, [])
  end.

Definition is_word (w : string) (l : list ascii) : bool :=
  bool_decide (map lower l = list_ascii_of_string w).

(** [float(s)] for a string [s]: the literal it denotes, or [None] when
    CPython raises [ValueError]. *)
Definition parse_float (s : string) : option flit :=
  let '(neg, body) := parse_sign (strip (list_ascii_of_string s)) in
  if is_word "inf" body || is_word "infinity" body then Some (FLInf neg)
  else if is_word "nan" body then Some FLNan
  else match parse_mantissa body with
       | Some (m, k, r) =>
           match parse_exponent r with
           | Some (e, []) => Some (FLFinite neg m (e - Z.of_nat k))
           | _ => None
           end
       | None => None
       end.

(** ** Plain numerals *)

(** The integer a run of decimal digits denotes, continuing [acc]. *)
Definition digits_value (acc : Z) (ds : list ascii) : Z :=
  fold_left (fun v c => v * 10 + digit_val c) ds acc.

(** The character after a digit run does not continue it. *)
Definition ends_run (r : list ascii) : Prop :=
  match r with
  | c :: _ => is_digit c = false /\ (c =? "_")%char = false
  | [] => True
  end.

Lemma digits_rest_run acc k ds r :
  Forall (fun c => is_digit c = true) ds -> ends_run r ->
  digits_rest acc k (ds ++ r) = (digits_value acc ds, (k + List.length ds)%nat, r).
Proof.
  revert acc k. induction ds as [|d ds IH]; intros acc k Hds Hr; simpl.
  - rewrite Nat.add_0_r. destruct r as [|c r]; [done|]. simpl in Hr. destruct Hr as [Hc Hu].
    simpl. by rewrite Hc, Hu.
  - apply Forall_cons in Hds as [-> Hds]. rewrite IH by done. do 2 f_equal. lia.
Qed.

Lemma digits_rest_all acc k ds :
  Forall (fun c => is_digit c = true) ds ->
  digits_rest acc k ds = (digits_value acc ds, (k + List.length ds)%nat, []).
Proof. intros Hds. rewrite <- (app_nil_r ds) at 1. rewrite digits_rest_run by done. done. Qed.

Lemma digitpart_run acc d ds r :
  Forall (fun c => is_digit c = true) (d :: ds) -> ends_run r ->
  digitpart acc (d :: ds ++ r) = Some (digits_value acc (d :: ds), List.length (d :: ds), r).
Proof.
  intros Hds Hr. pose proof Hds as Hd. apply Forall_cons in Hd as [Hd Hds'].
  simpl. rewrite Hd, digits_rest_run by done. done.
Qed.

(** A list that does not start with whitespace. *)
Definition starts_solid (l : list ascii) : Prop :=
  match l with
  | c :: _ => is_space c = false
  | [] => True
  end.

Lemma drop_space_app sp l :
  Forall (fun c => is_space c = true) sp -> starts_solid l -> drop_space (sp ++ l) = l.
Proof.
  intros Hsp Hl. induction Hsp as [|c sp Hc _ IH]; simpl; [|by rewrite Hc].
  destruct l as [|c l]; simpl in *; [done|by rewrite Hl].
Qed.

(** [str.strip()] removes exactly the padding around a text that neither
    starts nor ends with whitespace. *)
Lemma strip_pad sp1 l sp2 :
  Forall (fun c => is_space c = true) sp1 -> Forall (fun c => is_space c = true) sp2 ->
  l <> [] -> starts_solid l -> starts_solid (rev l) ->
  strip (sp1 ++ l ++ sp2) = l.
Proof.
  intros H1 H2 Hne Hl Hr. unfold strip. rewrite drop_space_app by (try done; by destruct l).
  rewrite rev_app_distr, drop_space_app by (try done; by apply Forall_rev).
  apply rev_involutive.
Qed.

Lemma digit_not_space c : is_digit c = true -> is_space c = false.
Proof. destruct c as [[] [] [] [] [] [] [] []]; vm_compute; congruence. Qed.

Lemma lower_digit c : is_digit c = true -> lower c = c.
Proof. destruct c as [[] [] [] [] [] [] [] []]; vm_compute; congruence. Qed.

Lemma digit_not_sign c : is_digit c = true -> (c =? "-")%char = false /\ (c =? "+")%char = false.
Proof. destruct c as [[] [] [] [] [] [] [] []]; vm_compute; intros H; by try discriminate H. Qed.

Lemma solid_ends l :
  Forall (fun c => is_space c = false) l -> starts_solid l /\ starts_solid (rev l).
Proof.
  intros Hl. split; [destruct Hl; simpl; done|].
  apply Forall_rev in Hl. destruct Hl; simpl; done.
Qed.

(** A word spelled from a non-digit never matches a text that starts with a digit. *)
Lemma is_word_digit (w : string) c r :
  is_digit c = true ->
  match w with String c0 _ => is_digit c0 = false | EmptyString => True end ->
  is_word w (c :: r) = false.
Proof.
  intros Hc Hw. unfold is_word. apply bool_decide_eq_false. intros Heq.
  destruct w as [|c0 w]; simpl in Heq; [discriminate|].
  injection Heq as Hc0 _. rewrite lower_digit in Hc0 by exact Hc. congruence.
Qed.

(** The text of a plain numeral: an optional minus sign, the digits of
    the integer part, and optionally a point followed by fraction digits. *)
Definition numeral (neg : bool) (ip : list ascii) (frac : option (list ascii)) : list ascii :=
  (if neg then ["-"%char] else []) ++ ip ++
  match frac with Some fp => "."%char :: fp | None => [] end.

Lemma parse_mantissa_numeral d ds frac :
  Forall (fun c => is_digit c = true) (d :: ds) ->
  Forall (fun c => is_digit c = true) (default [] frac) ->
  parse_mantissa ((d :: ds) ++ match frac with Some fp => "."%char :: fp | None => [] end)
  = Some (digits_value 0 ((d :: ds) ++ default [] frac), List.length (default [] frac), []).
Proof.
  intros Hip Hfp. unfold parse_mantissa.
  rewrite <- app_comm_cons, digitpart_run by (try done; by destruct frac).
  destruct frac as [[|f fs]|]; simpl in *; rewrite ?app_nil_r; try done.
  apply Forall_cons in Hfp as [Hf Hfs]. rewrite Hf, digits_rest_all by done.
  unfold digits_value. by rewrite fold_left_app.
Qed.

Lemma parse_float_numeral_run (neg : bool) (ip : list ascii) (frac : option (list ascii)) sp1 sp2 :
  ip <> [] -> Forall (fun c => is_digit c = true) ip ->
  Forall (fun c => is_digit c = true) (default [] frac) ->
  Forall (fun c => is_space c = true) sp1 -> Forall (fun c => is_space c = true) sp2 ->
  parse_float (string_of_list_ascii (sp1 ++ numeral neg ip frac ++ sp2))
  = Some (FLFinite neg (digits_value 0 (ip ++ default [] frac))
                   (- Z.of_nat (List.length (default [] frac)))).
Proof.
  intros Hne Hip Hfp H1 H2. destruct ip as [|d ds]; [done|].
  pose proof Hip as Hd. apply Forall_cons in Hd as [Hd _].
  assert (Forall (fun c => is_space c = false) (numeral neg (d :: ds) frac)) as Hsolid.
  { unfold numeral. repeat apply Forall_app_2.
    - destruct neg; repeat constructor.
    - eapply Forall_impl; [exact Hip|]. intros c. apply digit_not_space.
    - destruct frac as [fp|]; [|constructor]. constructor; [reflexivity|].
      eapply Forall_impl; [exact Hfp|]. intros c. apply digit_not_space. }
  destruct (solid_ends _ Hsolid) as [Hs Hr].
  unfold parse_float. rewrite list_ascii_of_string_of_list_ascii.
  rewrite strip_pad by (try done; by destruct neg).
  assert (parse_sign (numeral neg (d :: ds) frac)
          = (neg, (d :: ds) ++ match frac with Some fp => "."%char :: fp | None => [] end)) as ->.
  { destruct neg; [reflexivity|]. simpl. by destruct (digit_not_sign d Hd) as [-> ->]. }
  rewrite <- app_comm_cons, !is_word_digit by done. rewrite app_comm_cons.
  rewrite parse_mantissa_numeral by done. simpl. done.
Qed.

(** float() reads a plain numeral (optional minus sign, integer digits,
    optionally a point and fraction digits) surrounded by any whitespace as
    its digits scaled by ten to the minus number of fraction digits. *)
Theorem parse_float_numeral (neg : bool) (ip : list ascii) (frac : option (list ascii)) sp1 sp2 :
  ip <> [] -> Forall (fun c => is_digit c = true) ip ->
  Forall (fun c => is_digit c = true) (default [] frac) ->
  Forall (fun c => is_space c = true) sp1 -> Forall (fun c => is_space c = true) sp2 ->
  parse_float (string_of_list_ascii (sp1 ++ numeral neg ip frac ++ sp2))
  = Some (FLFinite neg (digits_value 0 (ip ++ default [] frac))
                   (- Z.of_nat (List.length (default [] frac)))).
Proof. apply parse_float_numeral_run. Qed.
