(* ===== verification/Format.v ===== *)
(** * Format: the text Python prints for amounts and strings

    Every amount the program prints goes through the format spec
    [" .2f"] (Expense_Calculator.py lines 43, 65, 72-80): a space for a
    non-negative number and a minus sign for a negative one (the sign of
    the value, so [-0.001] prints as [-0.00]), the integer part, a point
    and two digits, rounded half to even on the exact value; infinities
    and NaN print as [inf] and [nan] with the same sign column.  Binary64
    values are dyadic rationals, so both amount types go through the one
    exact routine [fixed2].  [float()]'s error message quotes the text
    with [repr()] ([repr_str]).  The theorems of this file: the round
    trip (the text printed for an exact amount, typed back into
    [float()], reads as the amount rounded to the cent, within half a
    cent of it); the text depends only on the value ([fmt_2f_Q_proper]);
    and a binary64 amount prints as its exact value does. *)

From stdpp Require Import base list strings.
From Stdlib Require Import ZArith QArith Qabs Ascii String Floats Morphisms.
From S2P Require Import Prelude Amount PyFloat.

Local Open Scope Z_scope.

(** ** Decimal digits *)

Definition digit_char (d : Z) : ascii := ascii_of_nat (Z.to_nat (48 + d)).

(** The decimal digits of [n >= 0] in front of [acc]; each round takes
    one digit, and [fuel] bounds the rounds. *)
Fixpoint dec_digits_fuel (fuel : nat) (n : Z) (acc : list ascii) : list ascii :=
  match fuel with
  | O => acc
  | S f =>
      let acc' := digit_char (n mod 10) :: acc in
      if n <? 10 then acc' else dec_digits_fuel f (n / 10) acc'
  end.

(** [str(n)] for [n >= 0]: a number below [2^k] has at most [k] digits,
    so [log2 n + 1] rounds are enough. *)
Definition dec_digits (n : Z) : list ascii :=
  dec_digits_fuel (S (Z.to_nat (Z.log2 n))) n [].

(** ** [format(v, " .2f")] *)

(** [p / d] rounded to an integer, ties to even ([d > 0]). *)
Definition round_half_even (p d : Z) : Z :=
  let q := p / d in
  let r := p mod d in
  if 2 * r <? d then q
  else if d <? 2 * r then q + 1
  else if Z.even q then q else q + 1.

Definition two_digits (r : Z) : list ascii := [digit_char (r / 10); digit_char (r mod 10)].

(** The digits of [p / d] with two decimals ([p >= 0], [d > 0]). *)
Definition fixed2 (p d : Z) : list ascii :=
  let n := round_half_even (100 * p) d in
  dec_digits (n / 100) ++ "."%char :: two_digits (n mod 100).

Definition sign_col (neg : bool) : ascii := if neg then "-"%char else " "%char.

Definition fmt_2f_Q (q : Q) : string :=
  string_of_list_ascii (sign_col (Qltb q 0) :: fixed2 (Z.abs (Qnum q)) (Zpos (Qden q))).

Definition fmt_2f_float (x : float) : string :=
  match Prim2SF x with
  | S754_zero s => string_of_list_ascii (sign_col s :: fixed2 0 1)
  | S754_infinity s => string_of_list_ascii (sign_col s :: list_ascii_of_string "inf")
  | S754_nan => " nan"
  | S754_finite s m e =>
      string_of_list_ascii
        (sign_col s :: if 0 <=? e then fixed2 (Zpos m * 2 ^ e) 1 else fixed2 (Zpos m) (2 ^ (- e)))
  end.

(** The format each amount type prints with. *)
Class PyFormat (A : Type) := fmt_2f : A -> string.
#[export] Instance Q_PyFormat : PyFormat Q := fmt_2f_Q.
#[export] Instance Float_PyFormat : PyFormat float := fmt_2f_float.

(** ** [repr()] of a string

    A string is a sequence of code points below 256 (one [ascii] each).
    CPython quotes with a single quote unless the text holds a single
    quote and no double quote (code 34), then with a double quote; it
    escapes the quote and the backslash, writes tab, newline and carriage
    return as [\t], [\n], [\r], other non-printable code points (controls,
    DEL, 0x80-0xa0 and the soft hyphen 0xad) as [\xhh], and keeps the
    rest. *)

Definition char_of (n : nat) : ascii := ascii_of_nat n.

Definition hex_digit (n : nat) : ascii :=
  if (n <? 10)%nat then char_of (48 + n) else char_of (87 + n).

Definition repr_printable (n : nat) : bool :=
  negb ((n <? 32)%nat || ((127 <=? n)%nat && (n <=? 160)%nat) || (n =? 173)%nat).

Definition repr_char (quote : ascii) (c : ascii) : list ascii :=
  let n := nat_of_ascii c in
  if (c =? quote)%char || (n =? 92)%nat then [char_of 92; c]
  else if (n =? 9)%nat then [char_of 92; "t"%char]
  else if (n =? 10)%nat then [char_of 92; "n"%char]
  else if (n =? 13)%nat then [char_of 92; "r"%char]
  else if repr_printable n then [c]
  else [char_of 92; "x"%char; hex_digit (n / 16); hex_digit (n mod 16)].

Definition repr_str (s : string) : string :=
  let l := list_ascii_of_string s in
  let q := if existsb (fun c => (c =? char_of 39)%char) l && negb (existsb (fun c => (c =? char_of 34)%char) l)
           then char_of 34 else char_of 39 in
  string_of_list_ascii (q :: flat_map (repr_char q) l ++ [q]).

(** ** Digits read back *)

Lemma digit_char_ok d : 0 <= d < 10 -> is_digit (digit_char d) = true /\ digit_val (digit_char d) = d.
Proof.
  intros Hd. assert (d = 0 \/ d = 1 \/ d = 2 \/ d = 3 \/ d = 4 \/ d = 5 \/ d = 6 \/ d = 7 \/ d = 8 \/ d = 9)
    as Hc by lia.
  repeat destruct Hc as [->|Hc]; [..|subst]; split; reflexivity.
Qed.

Lemma dec_digits_fuel_S f n acc :
  dec_digits_fuel (S f) n acc
  = if n <? 10 then digit_char (n mod 10) :: acc
    else dec_digits_fuel f (n / 10) (digit_char (n mod 10) :: acc).
Proof. reflexivity. Qed.

Lemma dec_digits_fuel_ok f n acc :
  0 <= n < 2 ^ Z.of_nat (S f) -> Forall (fun c => is_digit c = true) acc ->
  Forall (fun c => is_digit c = true) (dec_digits_fuel (S f) n acc) /\
  dec_digits_fuel (S f) n acc <> [] /\
  digits_value 0 (dec_digits_fuel (S f) n acc) = digits_value n acc.
Proof.
  revert n acc. induction f as [|f IH]; intros n acc Hn Hacc;
    destruct (digit_char_ok (n mod 10)) as [Hd Hv]; try (apply Z.mod_pos_bound; lia);
    rewrite dec_digits_fuel_S; destruct (n <? 10) eqn:Hlt.
  1,3: split; [by constructor|split; [done|]]; simpl; rewrite Hv;
       apply Z.ltb_lt in Hlt; by rewrite Z.mod_small by lia.
  - rewrite Nat2Z.inj_succ, Z.pow_succ_r, Z.pow_0_r in Hn by lia. apply Z.ltb_ge in Hlt. lia.
  - apply Z.ltb_ge in Hlt. destruct (IH (n / 10) (digit_char (n mod 10) :: acc)) as (H1 & H2 & H3).
    + split; [apply Z.div_pos; lia|]. apply Z.div_lt_upper_bound; [lia|].
      rewrite (Nat2Z.inj_succ (S f)), Z.pow_succ_r in Hn by lia. lia.
    + by constructor.
    + split; [done|split; [done|]]. rewrite H3. simpl. rewrite Hv. f_equal.
      rewrite Z.mul_comm. symmetry. apply Z.div_mod. lia.
Qed.

Lemma dec_digits_ok n :
  0 <= n ->
  Forall (fun c => is_digit c = true) (dec_digits n) /\ dec_digits n <> [] /\
  digits_value 0 (dec_digits n) = n.
Proof.
  intros Hn. apply dec_digits_fuel_ok; [|constructor]. split; [done|].
  rewrite Nat2Z.inj_succ, Z2Nat.id by apply Z.log2_nonneg.
  destruct (Z.eq_dec n 0) as [->|Hn0]; [reflexivity|]. apply Z.log2_spec. lia.
Qed.

Lemma digits_value_app v xs ys : digits_value v (xs ++ ys) = digits_value (digits_value v xs) ys.
Proof. apply fold_left_app. Qed.

Lemma round_half_even_spec p d :
  0 < d -> 0 <= p -> 0 <= round_half_even p d /\ 2 * Z.abs (round_half_even p d * d - p) <= d.
Proof.
  intros Hd Hp. unfold round_half_even.
  pose proof (Z.div_mod p d ltac:(lia)) as Hdm. pose proof (Z.mod_pos_bound p d Hd) as Hr.
  pose proof (Z.div_pos p d Hp Hd) as Hq.
  set (q := p / d) in *. set (r := p mod d) in *.
  destruct (2 * r <? d) eqn:H1; [apply Z.ltb_lt in H1|apply Z.ltb_ge in H1];
    [|destruct (d <? 2 * r) eqn:H2; [apply Z.ltb_lt in H2|apply Z.ltb_ge in H2;
                                     destruct (Z.even q)]];
    split; try lia; apply Z.abs_le; split; nia.
Qed.

Lemma two_digits_ok r :
  0 <= r < 100 ->
  Forall (fun c => is_digit c = true) (two_digits r) /\
  forall v, digits_value v (two_digits r) = v * 100 + r.
Proof.
  intros Hr. destruct (digit_char_ok (r / 10)) as [H1 V1]; [split; [apply Z.div_pos|apply Z.div_lt_upper_bound]; lia|].
  destruct (digit_char_ok (r mod 10)) as [H2 V2]; [apply Z.mod_pos_bound; lia|].
  split; [repeat constructor; done|]. intros v. unfold digits_value; simpl. rewrite V1, V2.
  pose proof (Z.div_mod r 10 ltac:(lia)). lia.
Qed.

(** The text [sign_col neg] followed by [fixed2 p d] reads back as the
    rounded cents. *)
Lemma parse_fixed2 neg p d :
  0 < d -> 0 <= p ->
  parse_float (string_of_list_ascii (sign_col neg :: fixed2 p d))
  = Some (FLFinite neg (round_half_even (100 * p) d) (-2)).
Proof.
  intros Hd Hp. destruct (round_half_even_spec (100 * p) d Hd ltac:(lia)) as [Hn _].
  set (n := round_half_even (100 * p) d) in *.
  destruct (dec_digits_ok (n / 100)) as (Hip & Hne & Hv); [apply Z.div_pos; lia|].
  destruct (two_digits_ok (n mod 100)) as [Hfp Hv2]; [apply Z.mod_pos_bound; lia|].
  assert (sign_col neg :: fixed2 p d
          = (if neg then [] else [" "%char]) ++ numeral neg (dec_digits (n / 100)) (Some (two_digits (n mod 100))) ++ [])
    as -> by (destruct neg; simpl; by rewrite app_nil_r).
  rewrite parse_float_numeral_run; [|done|done|done|by destruct neg; repeat constructor|constructor].
  simpl default. rewrite digits_value_app, Hv, Hv2. simpl. do 2 f_equal. pose proof (Z.div_mod n 100 ltac:(lia)). lia.
Qed.

Lemma Qltb_0_num (q : Q) : Qltb q 0 = (Qnum q <? 0).
Proof.
  destruct q as [N D]. unfold Qltb, Qle_bool; simpl. rewrite Z.mul_1_r.
  destruct (Z.ltb_spec N 0), (Z.leb_spec 0 N); simpl; lia.
Qed.

(** The text [f"{q: .2f}"] reads back as [q] rounded to the cent. *)
Lemma fmt_2f_Q_reads (q : Q) :
  let n := round_half_even (100 * Z.abs (Qnum q)) (Zpos (Qden q)) in
  parse_float (fmt_2f_Q q) = Some (FLFinite (Qltb q 0) n (-2)) /\
  (Qabs (dec_Q (Qltb q 0) n (-2) - q) <= 1 # 200)%Q.
Proof.
  intros n. split; [apply parse_fixed2; lia|].
  destruct (round_half_even_spec (100 * Z.abs (Qnum q)) (Zpos (Qden q))) as [Hn Hb]; [lia|lia|].
  fold n in Hn, Hb. rewrite Qltb_0_num. destruct q as [N D]; simpl in *.
  assert (- Z.pos D <= 2 * (n * Z.pos D - 100 * Z.abs N) <= Z.pos D) as Hb' by lia.
  clear Hb. unfold dec_Q; simpl.
  destruct (Z.ltb_spec N 0);
    [rewrite Z.abs_neq in Hb' by lia|rewrite Z.abs_eq in Hb' by lia];
    unfold Qle, Qminus, Qplus, Qopp; simpl; rewrite !Pos2Z.inj_mul; simpl; lia.
Qed.

(** C28: The text f'{q: .2f}' prints for an exact amount q, typed back into
    float(), reads as q rounded half to even to the cent, within half a cent
    of q. *)
Theorem fmt_2f_Q_roundtrip (q : Q) :
  let n := round_half_even (100 * Z.abs (Qnum q)) (Zpos (Qden q)) in
  parse_float (fmt_2f_Q q) = Some (FLFinite (Qltb q 0) n (-2)) /\
  (Qabs (dec_Q (Qltb q 0) n (-2) - q) <= 1 # 200)%Q.
Proof. apply fmt_2f_Q_reads. Qed.

(** ** The printed text depends only on the value *)

Lemma round_half_even_scale p d k :
  0 < d -> 0 < k -> round_half_even (k * p) (k * d) = round_half_even p d.
Proof.
  intros Hd Hk. unfold round_half_even.
  rewrite Z.div_mul_cancel_l, Z.mul_mod_distr_l by lia.
  replace (2 * (k * (p mod d)) <? k * d) with (2 * (p mod d) <? d)
    by (apply Bool.eq_iff_eq_true; rewrite !Z.ltb_lt; nia).
  replace (k * d <? 2 * (k * (p mod d))) with (d <? 2 * (p mod d))
    by (apply Bool.eq_iff_eq_true; rewrite !Z.ltb_lt; nia).
  done.
Qed.

Lemma fixed2_cross n1 d1 n2 d2 :
  0 < d1 -> 0 < d2 -> n1 * d2 = n2 * d1 -> fixed2 n1 d1 = fixed2 n2 d2.
Proof.
  intros H1 H2 Hx. unfold fixed2.
  rewrite <- (round_half_even_scale (100 * n1) d1 d2), <- (round_half_even_scale (100 * n2) d2 d1) by lia.
  by replace (d2 * (100 * n1)) with (d1 * (100 * n2)) by lia; rewrite (Z.mul_comm d2 d1).
Qed.

Lemma fmt_2f_Q_Qeq (q1 q2 : Q) : (q1 == q2)%Q -> fmt_2f_Q q1 = fmt_2f_Q q2.
Proof.
  destruct q1 as [n1 d1], q2 as [n2 d2]. unfold Qeq, fmt_2f_Q. rewrite !Qltb_0_num. simpl. intros Hx.
  rewrite (fixed2_cross (Z.abs n1) (Zpos d1) (Z.abs n2) (Zpos d2)); [|lia|lia|].
  - do 2 f_equal. destruct (Z.ltb_spec n1 0), (Z.ltb_spec n2 0); nia.
  - rewrite <- (Z.abs_eq (Zpos d2)), <- (Z.abs_eq (Zpos d1)), <- !Z.abs_mul by lia. by rewrite Hx.
Qed.

#[export] Instance fmt_2f_Q_proper : Proper (Qeq ==> eq) fmt_2f_Q.
Proof. intros q1 q2. apply fmt_2f_Q_Qeq. Qed.

(** The exact value of a finite binary64 number: a dyadic rational. *)
Definition sf_value (f : spec_float) : Q :=
  match f with
  | S754_finite s m e =>
      let v := if 0 <=? e then inject_Z (Zpos m * 2 ^ e) else (Zpos m # Z.to_pos (2 ^ (- e))) in
      if s then Qopp v else v
  | _ => 0%Q
  end.

(** A finite binary64 amount other than negative zero prints as the
    text of its exact dyadic value, whatever fraction represents it. *)
Lemma fmt_2f_float_exact (x : float) (q : Q) :
  match Prim2SF x with S754_finite _ _ _ | S754_zero false => True | _ => False end ->
  (q == sf_value (Prim2SF x))%Q -> fmt_2f_float x = fmt_2f_Q q.
Proof.
  intros Hx Hq. rewrite Hq. unfold fmt_2f_float.
  destruct (Prim2SF x) as [[]|[]| |s m e]; try contradiction; [reflexivity|].
  unfold sf_value, fmt_2f_Q. rewrite Qltb_0_num.
  destruct (Z.leb_spec 0 e) as [He|He], s; simpl.
  1,2: assert (0 < Z.pos m * 2 ^ e) by (apply Z.mul_pos_pos; [lia|apply Z.pow_pos_nonneg; lia]).
  - by rewrite (proj2 (Z.ltb_lt _ 0)), Z.abs_neq, Z.opp_involutive by lia.
  - by rewrite (proj2 (Z.ltb_ge _ 0)), Z.abs_eq by lia.
  - by rewrite Z2Pos.id by (apply Z.pow_pos_nonneg; lia).
  - by rewrite Z2Pos.id by (apply Z.pow_pos_nonneg; lia).
Qed.

(** C26: For every finite binary64 amount (zeros included), the text f'{x:
    .2f}' prints, typed back into float(), reads as a number of cents within
    half a cent of the exact value of x. *)
Theorem fmt_2f_float_roundtrip (x : float) :
  match Prim2SF x with S754_finite _ _ _ | S754_zero _ => True | _ => False end ->
  exists neg n, parse_float (fmt_2f_float x) = Some (FLFinite neg n (-2)) /\
                (Qabs (dec_Q neg n (-2) - sf_value (Prim2SF x)) <= 1 # 200)%Q.
Proof.
  intros Hx. destruct (Prim2SF x) as [s|s| |s m e] eqn:Hp; try contradiction.
  - exists s, 0. unfold fmt_2f_float. rewrite Hp. split; [apply parse_fixed2; lia|].
    destruct s; vm_compute; congruence.
  - rewrite (fmt_2f_float_exact x (sf_value (S754_finite s m e))); rewrite ?Hp; [|done|reflexivity].
    destruct (fmt_2f_Q_reads (sf_value (S754_finite s m e))) as [Hr Hb].
    eexists _, _. split; [exact Hr|exact Hb].
Qed.
