(* ===== verification/Colorama.v ===== *)
(** * Colorama: the colour codes and the stream [init(autoreset=True)] installs

    Line 10 calls colorama's [init(autoreset=True)], which replaces
    [sys.stdout] by a wrapper stream ([AnsiToWin32(...).stream]).  On
    POSIX (Windows consoles, where the wrapper turns the codes into win32
    calls, are not modelled) the wrapper strips the ANSI sequences when
    standard output is not a terminal ([strip = not have_tty]) and, after
    every write, writes [Style.RESET_ALL] unless it strips (autoreset);
    at exit colorama's [atexit] handler writes one more [RESET_ALL] to a
    terminal.  [Fore.RED] and the other attributes are the sequences
    [ESC [ <code> m] ([code_to_chars]).

    Stripping is [write_and_convert]: [convert_osc] first deletes the
    matches of [ANSI_OSC_RE] (the spans are found in the original text
    and deleted one after the other from the text being changed, and a
    title sequence calls [winterm.set_title] on [winterm = None], an
    [AttributeError] on POSIX); then the text between the matches of
    [ANSI_CSI_RE] is written.  The regular expressions are matched as
    [re.finditer] does: left to right, the scan resuming after a match. *)

From stdpp Require Import base list strings.
From Stdlib Require Import ZArith Ascii String.
From S2P Require Import Prelude PyFloat Format.

Local Open Scope string_scope.

Definition ESC : ascii := ascii_of_nat 27.
Definition BEL : ascii := ascii_of_nat 7.
Definition SOH : ascii := ascii_of_nat 1.
Definition STX : ascii := ascii_of_nat 2.

(** [code_to_chars(code)]: [CSI + str(code) + 'm'] with [CSI = '\033[']. *)
Definition code_to_chars (code : Z) : string :=
  String ESC (String "[" (string_of_list_ascii (dec_digits code) ++ "m")).

Definition Fore_RED : string := code_to_chars 31.
Definition Fore_GREEN : string := code_to_chars 32.
Definition Fore_YELLOW : string := code_to_chars 33.
Definition Fore_CYAN : string := code_to_chars 36.
Definition Style_BRIGHT : string := code_to_chars 1.
Definition Style_RESET_ALL : string := code_to_chars 0.

(** ** The two regular expressions

    A matcher takes the text from the position tried and gives the
    groups and the text after the match. *)

Fixpoint skip_while (p : ascii -> bool) (l : list ascii) : list ascii * list ascii :=
  match l with
  | c :: r => if p c then let '(xs, r') := skip_while p r in (c :: xs, r') else ([], l)
  | [] => ([], [])
  end.

Definition is_letter (c : ascii) : bool :=
  let n := nat_of_ascii c in (((65 <=? n) && (n <=? 90)) || ((97 <=? n) && (n <=? 122)))%nat.

Definition is_csi_param (c : ascii) : bool := is_digit c || (c =? ";")%char.

(** The optional [\002] closing a match. *)
Definition opt_stx (l : list ascii) : list ascii :=
  match l with c :: r => if (c =? STX)%char then r else l | [] => [] end.

(** The optional [\001] opening a match (the core of both expressions
    starts with [ESC], so a text starting with [\001] can only match
    with it). *)
Definition opt_soh {G} (core : list ascii -> option (G * list ascii)) (l : list ascii) :=
  match l with c :: r => if (c =? SOH)%char then core r else core l | [] => core l end.

(** [ANSI_CSI_RE]: [\001]?, [ESC], [\[], a run of digits and [;], one
    ASCII letter, [\002]?  ([\d] on code points below 256 is an ASCII
    digit). *)
Definition csi_core (l : list ascii) : option (unit * list ascii) :=
  match l with
  | e :: b :: r =>
      if (e =? ESC)%char && (b =? "[")%char then
        match (skip_while is_csi_param r).2 with
        | c :: r' => if is_letter c then Some (tt, opt_stx r') else None
        | [] => None
        end
      else None
  | _ => None
  end.

(** [ANSI_OSC_RE]: [\001]?, [ESC], [\]], the parameters (no BEL), a BEL,
    [\002]?: the parameters run to the first BEL. *)
Definition osc_core (l : list ascii) : option (list ascii * list ascii) :=
  match l with
  | e :: b :: r =>
      if (e =? ESC)%char && (b =? "]")%char then
        match skip_while (fun c => negb (c =? BEL)%char) r with
        | (ps, _ :: r') => Some (ps, opt_stx r')
        | (_, []) => None
        end
      else None
  | _ => None
  end.

Definition ANSI_CSI_RE := opt_soh csi_core.
Definition ANSI_OSC_RE := opt_soh osc_core.

(** [re.finditer]: the spans [(start, end)] and groups of the matches,
    from position [pos]; [fuel] bounds the positions tried. *)
Fixpoint finditer {G} (re : list ascii -> option (G * list ascii)) (fuel pos : nat)
         (l : list ascii) : list (nat * nat * G) :=
  match fuel with
  | O => []
  | S f =>
      match re l with
      | Some (g, r) => let e := pos + (List.length l - List.length r) in (pos, e, g) :: finditer re f e r
      | None => match l with [] => [] | _ :: r => finditer re f (S pos) r end
      end
  end.

(** The text with the matches deleted: what [write_plain_text] writes
    between the matches. *)
Fixpoint delete_matches {G} (re : list ascii -> option (G * list ascii)) (fuel : nat)
         (l : list ascii) : list ascii :=
  match fuel with
  | O => l
  | S f =>
      match re l with
      | Some (_, r) => delete_matches re f r
      | None => match l with [] => [] | c :: r => c :: delete_matches re f r end
      end
  end.

(** ** The wrapper *)

(** [convert_osc]: [text = text[:start] + text[end:]] for each span of
    the original text; a title sequence ([paramstring.count(";") == 1]
    and [params[0] in '02']) calls [winterm.set_title], and [winterm] is
    [None] on POSIX ([None] here: an [AttributeError]). *)
Definition sets_title (ps : list ascii) : bool :=
  match filter (fun c => c = ";"%char) ps with
  | [_] => let p0 := (skip_while (fun c => negb (c =? ";")%char) ps).1 in
           bool_decide (p0 = []) || bool_decide (p0 = ["0"%char]) ||
           bool_decide (p0 = ["2"%char]) || bool_decide (p0 = ["0"%char; "2"%char])
  | _ => false
  end.

Definition convert_osc (l : list ascii) : option (list ascii) :=
  fold_left (fun acc '(s, e, ps) =>
               match acc with
               | Some t => if sets_title ps then None else Some (take s t ++ drop e t)%list
               | None => None
               end)
            (finditer ANSI_OSC_RE (S (List.length l)) 0 l) (Some l).

(** [write_and_convert] without conversion: what reaches the stream. *)
Definition write_and_convert (text : string) : option string :=
  match convert_osc (list_ascii_of_string text) with
  | Some t => Some (string_of_list_ascii (delete_matches ANSI_CSI_RE (S (List.length t)) t))
  | None => None
  end.

(** The wrapper [init(autoreset=True)] puts around standard output on
    POSIX: it strips when the stream is not a terminal. *)
Record wrapper : Type := mkWrapper { w_strip : bool; w_autoreset : bool }.

Definition init_stdout (tty : bool) : wrapper := mkWrapper (negb tty) true.

(** [reset_all()] without conversion. *)
Definition reset_all (w : wrapper) : string := if w_strip w then "" else Style_RESET_ALL.

(** [AnsiToWin32.write(text)]: the text, converted when stripping, then
    the reset of autoreset; [None] for the exception of [convert_osc]. *)
Definition wrapper_write (w : wrapper) (text : string) : option string :=
  match (if w_strip w then write_and_convert text else Some text) with
  | Some t => Some (t ++ if w_autoreset w then reset_all w else "")
  | None => None
  end.

(** colorama's [atexit] handler: [reset_all()] of a fresh wrapper of the
    original standard output (autoreset off). *)
Definition atexit_reset (tty : bool) : string := reset_all (mkWrapper (negb tty) false).

(** [ESC [ params letter] as the only escapes: every [ESC] opens a CSI
    sequence and no [\001] occurs. *)
Fixpoint csi_only (l : list ascii) : bool :=
  match l with
  | [] => true
  | c :: r =>
      (if (c =? ESC)%char then match r with b :: _ => (b =? "[")%char | [] => false end
       else negb (c =? SOH)%char) && csi_only r
  end.

(** A character that no sequence can start, end or absorb. *)
Definition plain_char (c : ascii) : bool :=
  negb ((c =? ESC)%char || (c =? SOH)%char || (c =? STX)%char).

Definition plain_text (s : string) : bool := forallb plain_char (list_ascii_of_string s).

(** The text a code-free reader sees: the CSI sequences deleted. *)
Definition strip_ansi (s : string) : string :=
  let l := list_ascii_of_string s in string_of_list_ascii (delete_matches ANSI_CSI_RE (S (List.length l)) l).

(** ** Stripping a coloured line gives its text *)

Local Close Scope string_scope.

Create HintDb colorama.
Create Rewrite HintDb colorama.

Lemma list_ascii_of_string_app (s t : string) :
  list_ascii_of_string (s ++ t)%string = list_ascii_of_string s ++ list_ascii_of_string t.
Proof. induction s as [|c s IH]; simpl; [done|by rewrite IH]. Qed.

Lemma plain_text_app (s t : string) : plain_text (s ++ t)%string = plain_text s && plain_text t.
Proof. unfold plain_text. by rewrite list_ascii_of_string_app, forallb_app. Qed.

#[export] Hint Rewrite plain_text_app : colorama.

Lemma plain_char_cases (c : ascii) :
  plain_char c = true -> (Ascii.eqb c ESC) = false /\ (Ascii.eqb c SOH) = false /\ (Ascii.eqb c STX) = false.
Proof. unfold plain_char. by destruct (Ascii.eqb c ESC), (Ascii.eqb c SOH), (Ascii.eqb c STX). Qed.

Lemma csi_only_plain (l : list ascii) : forallb plain_char l = true -> csi_only l = true.
Proof.
  induction l as [|c l IH]; [done|]. simpl. intros [Hc Hl]%andb_prop.
  destruct (plain_char_cases c Hc) as (-> & -> & _). by rewrite IH.
Qed.

Lemma csi_only_app (x y : list ascii) :
  csi_only x = true -> csi_only y = true -> csi_only (x ++ y) = true.
Proof.
  induction x as [|c x IH]; [done|]. simpl. intros [Hc Hx]%andb_prop Hy.
  rewrite IH by done. destruct (Ascii.eqb c ESC); [|by rewrite Hc].
  by destruct x; [|rewrite andb_true_r].
Qed.

(** No OSC sequence starts where only CSI sequences occur. *)
Lemma osc_none (l : list ascii) : csi_only l = true -> ANSI_OSC_RE l = None.
Proof.
  destruct l as [|c r]; [done|]. cbn [csi_only]. unfold ANSI_OSC_RE, opt_soh, osc_core.
  destruct (Ascii.eqb c ESC) eqn:He.
  - apply Ascii.eqb_eq in He as ->. destruct r as [|b r]; [done|].
    intros [Hb _]%andb_prop. apply Ascii.eqb_eq in Hb as ->. reflexivity.
  - intros [Hs _]%andb_prop. destruct (Ascii.eqb c SOH); [done|].
    destruct r as [|b r]; [done|]. by cbn.
Qed.

Lemma finditer_osc_none f pos (l : list ascii) :
  csi_only l = true -> finditer ANSI_OSC_RE f pos l = [].
Proof.
  revert pos l. induction f as [|f IH]; intros pos l Hl; [done|]. simpl.
  rewrite osc_none by done. destruct l as [|c r]; [done|].
  apply IH. simpl in Hl. by apply andb_prop in Hl as [_ ?].
Qed.

Lemma convert_osc_csi_only (l : list ascii) : csi_only l = true -> convert_osc l = Some l.
Proof. intros Hl. unfold convert_osc. by rewrite finditer_osc_none. Qed.

Lemma delete_matches_nil {G} (re : list ascii -> option (G * list ascii)) f :
  (re [] = None) -> delete_matches re f [] = [].
Proof. intros Hre. destruct f; simpl; [done|]. by rewrite Hre. Qed.

Lemma delete_matches_S {G} (re : list ascii -> option (G * list ascii)) f l :
  delete_matches re (S f) l
  = match re l with
    | Some (_, r) => delete_matches re f r
    | None => match l with [] => [] | c :: r => c :: delete_matches re f r end
    end.
Proof. reflexivity. Qed.

Lemma csi_plain_head (c : ascii) r : plain_char c = true -> ANSI_CSI_RE (c :: r) = None.
Proof.
  intros Hc. destruct (plain_char_cases c Hc) as (He & Hs & _).
  unfold ANSI_CSI_RE, opt_soh. rewrite Hs. destruct r; [done|]. cbn. by rewrite He.
Qed.

(** Plain characters are written as they are. *)
Lemma delete_plain f (l rest : list ascii) :
  forallb plain_char l = true -> List.length l <= f ->
  delete_matches ANSI_CSI_RE f (l ++ rest) = l ++ delete_matches ANSI_CSI_RE (f - List.length l) rest.
Proof.
  revert f. induction l as [|c l IH]; intros f Hl Hf; simpl; [by rewrite Nat.sub_0_r|].
  apply andb_prop in Hl as [Hc Hl]. destruct f as [|f]; [simpl in Hf; lia|].
  rewrite delete_matches_S, csi_plain_head by done.
  rewrite IH by (done || simpl in Hf; lia). reflexivity.
Qed.

Lemma skip_while_app (p : ascii -> bool) xs y r :
  forallb p xs = true -> p y = false -> (skip_while p (xs ++ y :: r)).2 = y :: r.
Proof.
  induction xs as [|x xs IH]; simpl; [by intros _ ->|].
  intros [Hx Hxs]%andb_prop Hy. rewrite Hx. specialize (IH Hxs Hy).
  revert IH. by destruct (skip_while _ _).
Qed.

Lemma digit_plain (c : ascii) : is_digit c = true -> plain_char c = true.
Proof. destruct c as [[] [] [] [] [] [] [] []]; vm_compute; auto. Qed.

Lemma dec_digits_fuel_plain f n acc :
  forallb plain_char acc = true -> forallb plain_char (dec_digits_fuel f n acc) = true.
Proof.
  revert n acc. induction f as [|f IH]; intros n acc Hacc; [done|]. simpl.
  assert (plain_char (digit_char (n mod 10)) = true).
  { apply digit_plain, (digit_char_ok (n mod 10)), Z.mod_pos_bound. lia. }
  destruct (n <? 10)%Z; [|apply IH]; simpl; by apply andb_true_intro.
Qed.

Lemma dec_digits_plain n : forallb plain_char (dec_digits n) = true.
Proof. by apply dec_digits_fuel_plain. Qed.

Lemma code_chars (k : Z) :
  (0 <= k)%Z ->
  list_ascii_of_string (code_to_chars k) = ESC :: "["%char :: dec_digits k ++ ["m"%char].
Proof.
  intros Hk. unfold code_to_chars. simpl. rewrite list_ascii_of_string_app.
  by rewrite list_ascii_of_string_of_list_ascii.
Qed.

Lemma code_csi_only (k : Z) : (0 <= k)%Z -> csi_only (list_ascii_of_string (code_to_chars k)) = true.
Proof.
  intros Hk. rewrite code_chars by done. simpl. rewrite (csi_only_app (dec_digits k)); [done| |done].
  apply csi_only_plain. destruct (dec_digits_ok k Hk) as [Hd _].
  apply forallb_forall. intros c Hc. rewrite List.Forall_forall in Hd.
  specialize (Hd c Hc). unfold plain_char, is_digit in *.
  destruct c as [[] [] [] [] [] [] [] []]; simpl in *; done.
Qed.

(** A colour code is one match. *)
Lemma delete_code (k : Z) f rest :
  (0 <= k)%Z ->
  delete_matches ANSI_CSI_RE (S f) (list_ascii_of_string (code_to_chars k) ++ rest)
  = delete_matches ANSI_CSI_RE f (opt_stx rest).
Proof.
  intros Hk. rewrite code_chars by done. simpl. unfold ANSI_CSI_RE at 1, opt_soh at 1. simpl.
  rewrite <- app_assoc. simpl. rewrite skip_while_app; [reflexivity| |reflexivity].
  destruct (dec_digits_ok k Hk) as [Hd _]. apply forallb_forall. intros c Hc.
  rewrite List.Forall_forall in Hd. unfold is_csi_param. by rewrite Hd.
Qed.

Lemma plain_text_list s : plain_text s = true -> forallb plain_char (list_ascii_of_string s) = true.
Proof. done. Qed.

(** A text with no escape is written as it is. *)
Lemma write_plain (s : string) : plain_text s = true -> write_and_convert s = Some s.
Proof.
  intros Hs. unfold write_and_convert. rewrite convert_osc_csi_only by (by apply csi_only_plain).
  f_equal. rewrite <- (app_nil_r (list_ascii_of_string s)) at 2.
  rewrite delete_plain by (done || lia). rewrite delete_matches_nil by done.
  rewrite app_nil_r. apply string_of_list_ascii_of_string.
Qed.

Lemma opt_stx_line (b : list ascii) :
  forallb plain_char b = true ->
  opt_stx (b ++ list_ascii_of_string Style_RESET_ALL) = b ++ list_ascii_of_string Style_RESET_ALL.
Proof.
  destruct b as [|c r]; [reflexivity|]. simpl. intros [Hc _]%andb_prop.
  by destruct (plain_char_cases c Hc) as (_ & _ & ->).
Qed.

Lemma delete_line (k : Z) f (b : list ascii) :
  (0 <= k)%Z -> forallb plain_char b = true -> List.length b + 1 <= f ->
  delete_matches ANSI_CSI_RE (S f)
    (list_ascii_of_string (code_to_chars k) ++ b ++ list_ascii_of_string Style_RESET_ALL) = b.
Proof.
  intros Hk Hb Hf. rewrite delete_code, opt_stx_line, delete_plain by (done || lia).
  destruct (f - List.length b) as [|n] eqn:E; [lia|].
  rewrite <- (app_nil_r (list_ascii_of_string Style_RESET_ALL)).
  unfold Style_RESET_ALL. rewrite delete_code by lia.
  rewrite delete_matches_nil by done. apply app_nil_r.
Qed.

(** A line [code + text + Style.RESET_ALL] is written as its text. *)
Lemma write_colored (k : Z) (s : string) :
  (0 <= k)%Z -> plain_text s = true ->
  write_and_convert (code_to_chars k ++ s ++ Style_RESET_ALL)%string = Some s.
Proof.
  intros Hk Hs. unfold write_and_convert. rewrite !list_ascii_of_string_app.
  rewrite convert_osc_csi_only.
  2: { apply csi_only_app; [by apply code_csi_only|].
       apply csi_only_app; [by apply csi_only_plain|by apply code_csi_only]. }
  rewrite delete_line by (done || rewrite !length_app, code_chars by done; simpl; lia).
  f_equal. apply string_of_list_ascii_of_string.
Qed.
