(* ===== verification/Binary64.v ===== *)
(** * Binary64: [float()] of a decimal near a binary64 number returns it

    [Amount.dec_float] is CPython's correctly rounded [float(str)]: the
    decimal [m * 10^e] as a ratio [p / q], rounded by [round_ratio] to
    the nearest binary64 value.  This file shows that on a decimal within
    half a unit [2^e] of a finite binary64 number [x = M * 2^e] (within a
    quarter below [x = 2^52 * 2^e], where the units below are halved),
    of any length, it returns [x] itself ([dec_float_near]), and so on
    a decimal equal to [x] ([same_value_near]): the shortcuts for huge
    and tiny literals are not taken, [round_exponent] finds the exponent
    of [x] ([round_exponent_range]), the quotient rounds to [M] or
    carries to [M] from the binade below ([round_parts_near]), and the result
    [Z.ldexp (float_of_Z m) e] of the primitive operations is [x].  The
    last step goes through the specification of primitive floats
    ([Prim2SF], [SpecFloat.binary_round]): a canonical significand is
    shifted left to 53 bits by [float_of_Z], and [Z.ldexp] puts it back at
    its exponent, dropping only zero bits for a subnormal number.  The
    float [repr] of [FloatRepr] relies on this for its round trip, and
    [ReprDigits] for its 17-digit bound. *)

From stdpp Require Import base list.
From Stdlib Require Import ZArith Lia Floats Uint63.
From S2P Require Import Prelude Amount.

Local Open Scope Z_scope.

(** Decimals and binary numbers as fractions [num / den]. *)
Definition dec_ratio (D q : Z) : Z * Z := if 0 <=? q then (D * 10 ^ q, 1) else (D, 10 ^ (- q)).
Definition bin_ratio (m : positive) (e : Z) : Z * Z :=
  if 0 <=? e then (Zpos m * 2 ^ e, 1) else (Zpos m, 2 ^ (- e)).

(** [D * 10^q] equals [m * 2^e]. *)
Definition same_value (D q : Z) (m : positive) (e : Z) : Prop :=
  (dec_ratio D q).1 * (bin_ratio m e).2 = (bin_ratio m e).1 * (dec_ratio D q).2.


(** [n / d] is within half a unit of [M] (a significand at exponent
    [e]), and within a quarter below [M = 2^52] above the subnormal
    range, where the binade below has units half as wide. *)
Definition near_at (n d M e : Z) : Prop :=
  - d < 2 * (n - M * d) < d /\ (M = 2 ^ 52 -> -1074 < e -> n < M * d -> 4 * (M * d - n) <= d).

(** [D * 10^q] is near [m * 2^e]: [float()] rounds it to [m * 2^e]. *)
Definition near_value (D q : Z) (m : positive) (e : Z) : Prop :=
  near_at (scale2 (dec_ratio D q).1 (dec_ratio D q).2 e).1 (scale2 (dec_ratio D q).1 (dec_ratio D q).2 e).2 (Zpos m) e.

(** ** Rounding by the specification of primitive floats *)

Lemma digits2_size (p : positive) : SpecFloat.digits2_pos p = Pos.size p.
Proof. induction p as [p IH|p IH|]; simpl; rewrite ?IH; reflexivity. Qed.

Lemma digits2_log2 (p : positive) : Zpos (SpecFloat.digits2_pos p) = Z.log2 (Zpos p) + 1.
Proof.
  rewrite digits2_size. destruct p as [p|p|]; simpl; [| |reflexivity]; lia.
Qed.

Lemma iter_xO (m k : positive) : Zpos (Pos.iter xO m k) = Zpos m * 2 ^ Zpos k.
Proof.
  induction k as [|k IH] using Pos.peano_ind; [simpl; lia|].
  rewrite Pos.iter_succ, Pos2Z.inj_succ, Z.pow_succ_r by lia.
  change (Zpos (Pos.iter xO m k)~0) with (2 * Zpos (Pos.iter xO m k)). rewrite IH. lia.
Qed.

(** [fexp] of binary64. *)
Lemma fexp64 (z : Z) : SpecFloat.fexp 53 1024 z = Z.max (z - 53) (-1074).
Proof. reflexivity. Qed.

(** Rounding a significand already at its exponent changes nothing. *)
Lemma round_aux_exact sx (mz : positive) ez :
  SpecFloat.fexp 53 1024 (Zpos (SpecFloat.digits2_pos mz) + ez) = ez -> ez <= 971 ->
  SpecFloat.binary_round_aux 53 1024 sx (Zpos mz) ez SpecFloat.loc_Exact = S754_finite sx mz ez.
Proof.
  intros Hf He. unfold SpecFloat.binary_round_aux, SpecFloat.shr_fexp. simpl SpecFloat.Zdigits2.
  rewrite Hf, Z.sub_diag. simpl. rewrite Hf, Z.sub_diag. simpl.
  replace (ez <=? 1024 - 53) with true by lia. reflexivity.
Qed.

Lemma log2_shl (m : positive) (k : Z) : 0 <= k -> Z.log2 (Zpos m * 2 ^ k) = Z.log2 (Zpos m) + k.
Proof. intros Hk. rewrite Z.log2_mul_pow2 by lia. lia. Qed.

(** With no bits to drop, rounding shifts the significand left to its
    exponent. *)
Lemma binary_round_left sx (mx : positive) ex :
  -1074 <= ex -> Zpos (SpecFloat.digits2_pos mx) <= 53 ->
  Z.max (Zpos (SpecFloat.digits2_pos mx) + ex - 53) (-1074) <= 971 ->
  exists mz : positive,
    Zpos mz = Zpos mx * 2 ^ (ex - Z.max (Zpos (SpecFloat.digits2_pos mx) + ex - 53) (-1074)) /\
    SpecFloat.binary_round 53 1024 sx mx ex
    = S754_finite sx mz (Z.max (Zpos (SpecFloat.digits2_pos mx) + ex - 53) (-1074)).
Proof.
  intros He Hd Hf. set (f := Z.max _ _) in *.
  unfold SpecFloat.binary_round, SpecFloat.shl_align. rewrite fexp64. fold f.
  destruct (f - ex) as [|k|k] eqn:Hk.
  - exists mx. split; [replace (ex - f) with 0 by lia; lia|].
    assert (Hfe : f = ex) by lia. rewrite Hfe.
    apply round_aux_exact; [rewrite fexp64; lia|lia].
  - lia.
  - exists (Pos.iter xO mx k). split; [rewrite iter_xO; do 2 f_equal; lia|].
    apply round_aux_exact; [|lia]. rewrite fexp64, digits2_log2, iter_xO, log2_shl by lia.
    unfold f in *. rewrite !digits2_log2 in *. lia.
Qed.

Lemma shr_1_double (Y : Z) :
  0 < Y -> SpecFloat.shr_1 (SpecFloat.Build_shr_record (2 * Y) false false)
           = SpecFloat.Build_shr_record Y false false.
Proof. destruct Y as [|y|y]; [lia|reflexivity|lia]. Qed.

(** Dropping [p] zero bits. *)
Lemma shr_iter (p : positive) (a M : Z) :
  0 < M -> 0 <= a ->
  SpecFloat.iter_pos SpecFloat.shr_1 p (SpecFloat.Build_shr_record (M * 2 ^ (a + Zpos p)) false false)
  = SpecFloat.Build_shr_record (M * 2 ^ a) false false.
Proof.
  revert a. induction p as [p IH|p IH|]; intros a HM Ha; cbn [SpecFloat.iter_pos].
  - replace (M * 2 ^ (a + Zpos p~1)) with (2 * (M * 2 ^ ((a + Zpos p) + Zpos p)))
      by (replace (a + Zpos p~1) with (Z.succ ((a + Zpos p) + Zpos p)) by lia;
          rewrite Z.pow_succ_r by lia; ring).
    rewrite shr_1_double by (apply Z.mul_pos_pos; [lia|apply Z.pow_pos_nonneg; lia]).
    rewrite IH by lia. apply IH; lia.
  - replace (a + Zpos p~0) with ((a + Zpos p) + Zpos p) by lia.
    rewrite IH by lia. apply IH; lia.
  - replace (M * 2 ^ (a + 1)) with (2 * (M * 2 ^ a)) by (rewrite Z.pow_add_r by lia; ring).
    apply shr_1_double. apply Z.mul_pos_pos; [lia|apply Z.pow_pos_nonneg; lia].
Qed.

(** [float_of_Z m] for [0 < m < 2^53]: [m] shifted to 53 bits. *)
Lemma float_of_Z_spec (m : positive) :
  Zpos m < 2 ^ 53 ->
  exists mz : positive,
    Zpos mz = Zpos m * 2 ^ (53 - Zpos (SpecFloat.digits2_pos m)) /\
    Prim2SF (float_of_Z (Zpos m)) = S754_finite false mz (Zpos (SpecFloat.digits2_pos m) - 53).
Proof.
  intros Hm. unfold float_of_Z. rewrite of_uint63_spec, of_Z_spec.
  rewrite Z.mod_small by (split; [lia|]; change wB with (2 ^ 63); lia).
  assert (Zpos (SpecFloat.digits2_pos m) <= 53).
  { rewrite digits2_log2. assert (Z.log2 (Zpos m) < 53) by (apply Z.log2_lt_pow2; lia). lia. }
  destruct (binary_round_left false m 0) as (mz & Hmz & Hr); [lia|done|lia|].
  exists mz. rewrite Z.add_0_r in *. split; [rewrite Hmz; do 2 f_equal; lia|].
  change (SpecFloat.binary_normalize _ _ (Zpos m) 0 false) with (SpecFloat.binary_round 53 1024 false m 0).
  rewrite Hr. f_equal. lia.
Qed.

Lemma ldexp_spec64 (f : float) (e : Z) :
  -2099 <= e <= 2098 -> Prim2SF (Z.ldexp f e) = SpecFloat.SFldexp 53 1024 (Prim2SF f) e.
Proof.
  intros He. unfold Z.ldexp. rewrite ldshiftexp_spec, of_Z_spec.
  change (SpecFloat.emin prec emax) with (-1074). change shift with 2101. change prec with 53.
  change emax with 1024. rewrite Z.mod_small by (change wB with (2 ^ 63); lia).
  f_equal. lia.
Qed.

Lemma digits2_bounds (m : positive) :
  2 ^ (Zpos (SpecFloat.digits2_pos m) - 1) <= Zpos m < 2 ^ Zpos (SpecFloat.digits2_pos m).
Proof.
  rewrite digits2_log2. replace (Z.log2 (Zpos m) + 1 - 1) with (Z.log2 (Zpos m)) by lia.
  split; [apply Z.log2_spec; lia|]. rewrite Z.add_1_r. apply Z.log2_spec. lia.
Qed.

(** A canonical significand and exponent: [Z.ldexp (float_of_Z m) e] is exactly [m * 2^e]. *)
Lemma ldexp_exact (m : positive) (e : Z) :
  -1074 <= e <= 971 -> Zpos m < 2 ^ 53 -> (2 ^ 52 <= Zpos m \/ e = -1074) ->
  Prim2SF (Z.ldexp (float_of_Z (Zpos m)) e) = S754_finite false m e.
Proof.
  intros He Hm Hcase. destruct (float_of_Z_spec m Hm) as (mz & Hmz & Hf).
  rewrite ldexp_spec64, Hf by lia. cbn [SpecFloat.SFldexp].
  pose proof (digits2_bounds m) as Hdb. pose proof (digits2_log2 m) as Hdl.
  remember (Zpos (SpecFloat.digits2_pos m)) as d eqn:Hd.
  assert (d <= 53) by (destruct (Z.le_gt_cases d 53) as [|Hgt]; [done|];
                       assert (2 ^ 53 <= 2 ^ (d - 1)) by (apply Z.pow_le_mono_r; lia); lia).
  destruct (Z.le_gt_cases (2 ^ 52) (Zpos m)) as [Hn|Hs].
  - assert (d = 53).
    { destruct (Z.le_gt_cases 53 d); [lia|]. assert (2 ^ d <= 2 ^ 52) by (apply Z.pow_le_mono_r; lia). lia. }
    assert (mz = m) as -> by (apply Pos2Z.inj; rewrite Hmz; replace (53 - d) with 0 by lia; lia).
    replace (d - 53 + e) with e by lia.
    destruct (binary_round_left false m e) as (mz' & Hmz' & Hr); [lia|lia|lia|].
    rewrite Hr, <- Hd. replace (Z.max (d + e - 53) (-1074)) with e in * by lia.
    f_equal. apply Pos2Z.inj. rewrite Hmz', <- Hd. replace (Z.max (d + e - 53) (-1074)) with e by lia.
    rewrite Z.sub_diag. lia.
  - destruct Hcase as [Hc| ->]; [lia|].
    assert (Hdz : Zpos (SpecFloat.digits2_pos mz) = 53).
    { rewrite digits2_log2, Hmz, log2_shl by lia. lia. }
    unfold SpecFloat.binary_round, SpecFloat.shl_align. rewrite Hdz, fexp64.
    assert (d <= 52) by (destruct (Z.le_gt_cases d 52); [done|]; assert (2 ^ 52 <= 2 ^ (d - 1)) by (apply Z.pow_le_mono_r; lia); lia).
    set (k := Z.to_pos (53 - d)). assert (Hk : Zpos k = 53 - d) by (unfold k; rewrite Z2Pos.id; lia).
    replace (Z.max (53 + (d - 53 + -1074) - 53) (-1074) - (d - 53 + -1074)) with (Zpos k) by lia.
    unfold SpecFloat.binary_round_aux, SpecFloat.shr_fexp, SpecFloat.shr. cbn [SpecFloat.Zdigits2].
    rewrite Hdz, fexp64.
    replace (Z.max (53 + (d - 53 + -1074) - 53) (-1074) - (d - 53 + -1074)) with (Zpos k) by lia.
    cbn [SpecFloat.shr_record_of_loc]. rewrite Hmz.
    replace (53 - d) with (0 + Zpos k) by lia. rewrite shr_iter by lia.
    rewrite Z.pow_0_r, Z.mul_1_r. cbn [SpecFloat.shr_m SpecFloat.loc_of_shr_record SpecFloat.round_nearest_even
      SpecFloat.Zdigits2]. rewrite <- Hd, fexp64.
    replace (Z.max (d + (d - 53 + -1074 + Zpos k) - 53) (-1074) - (d - 53 + -1074 + Zpos k)) with 0 by lia.
    replace (d - 53 + -1074 + Zpos k) with (-1074) by lia. reflexivity.
Qed.

(** ** [float()] rounds a representable ratio to itself *)

(** ** [round_parts] on a representable ratio *)

Lemma scale2_den_pos p q e : 0 < q -> 0 < (scale2 p q e).2.
Proof.
  intros Hq. unfold scale2. destruct (e <? 0) eqn:E; simpl; [lia|].
  apply Z.mul_pos_pos; [lia|apply Z.pow_pos_nonneg; [lia|apply Z.ltb_ge in E; lia]].
Qed.

Lemma scale2_succ p q e :
  (scale2 p q (e + 1)).1 * (scale2 p q e).2 * 2 = (scale2 p q e).1 * (scale2 p q (e + 1)).2.
Proof.
  unfold scale2. destruct (Z.ltb_spec (e + 1) 0), (Z.ltb_spec e 0); simpl; try lia.
  - replace (- e) with (Z.succ (- (e + 1))) by lia. rewrite Z.pow_succ_r by lia. ring.
  - replace (e + 1) with 0 by lia. replace (- e) with 1 by lia. simpl. ring.
  - rewrite Z.pow_add_r by lia. ring.
Qed.

Lemma scale2_add p q e k :
  0 < q -> 0 <= k ->
  (scale2 p q (e + k)).1 * (scale2 p q e).2 * 2 ^ k = (scale2 p q e).1 * (scale2 p q (e + k)).2.
Proof.
  intros Hq. revert k. apply natlike_ind.
  { rewrite Z.add_0_r. ring. }
  intros j Hj IH. pose proof (scale2_succ p q (e + j)) as Hs.
  pose proof (scale2_den_pos p q (e + j) Hq). pose proof (scale2_den_pos p q e Hq).
  replace (e + Z.succ j) with (e + j + 1) by lia. rewrite Z.pow_succ_r by lia.
  apply (Z.mul_reg_r _ _ (scale2 p q (e + j)).2); [lia|].
  transitivity ((scale2 p q (e + j + 1)).1 * (scale2 p q (e + j)).2 * 2 * ((scale2 p q e).2 * 2 ^ j)); [ring|].
  rewrite Hs. transitivity ((scale2 p q (e + j)).1 * (scale2 p q e).2 * 2 ^ j * (scale2 p q (e + j + 1)).2); [ring|].
  rewrite IH. ring.
Qed.

(** The first estimate of [round_exponent] puts the ratio in [(2^51, 2^53)]. *)
Lemma round_exponent_first p q :
  0 < p -> 0 < q ->
  let e0 := Z.log2 p - Z.log2 q - 52 in
  2 ^ 51 * (scale2 p q e0).2 < (scale2 p q e0).1 < 2 ^ 53 * (scale2 p q e0).2.
Proof.
  intros Hp Hq e0. pose proof (log2_bounds p Hp) as Ha. pose proof (log2_bounds q Hq) as Hb.
  pose proof (Z.log2_nonneg p). pose proof (Z.log2_nonneg q).
  set (a := Z.log2 p) in *. set (b := Z.log2 q) in *. unfold scale2, e0.
  destruct (Z.ltb_spec (a - b - 52) 0); simpl.
  - assert (2 ^ (b + 52) = 2 ^ a * 2 ^ (- (a - b - 52))) as Hx by (rewrite <- Z.pow_add_r by lia; f_equal; lia).
    rewrite Z.pow_add_r in Hx by lia.
    split; nia.
  - assert (2 ^ a = 2 ^ b * 2 ^ 52 * 2 ^ (a - b - 52)) as Hx by (rewrite <- !Z.pow_add_r by lia; f_equal; lia).
    split; nia.
Qed.

(** Two scalings of one ratio cannot put it below [y] and at or above
    [x] when [x * K >= y] for the scale [K] between them. *)
Lemma ratio_gap (a b c d K x y : Z) :
  0 < b -> 0 < d -> 0 <= K -> a * d * K = c * b -> x * b <= a -> c < y * d -> y <= x * K -> False.
Proof.
  intros Hb Hd HK Heq Ha Hc Hy.
  assert (x * b * (d * K) <= a * (d * K)) by (apply Z.mul_le_mono_nonneg_r; [apply Z.mul_nonneg_nonneg|]; lia).
  assert (y * (b * d) <= x * K * (b * d)) by (apply Z.mul_le_mono_nonneg_r; [apply Z.mul_nonneg_nonneg|]; lia).
  assert (c * b < y * d * b) by (apply Z.mul_lt_mono_pos_r; lia).
  lia.
Qed.

Lemma pow2_ge2 (k : Z) : 1 <= k -> 2 <= 2 ^ k.
Proof. intros. change 2 with (2 ^ 1) at 1. apply Z.pow_le_mono_r; lia. Qed.

Lemma pow2_ge4 (k : Z) : 2 <= k -> 4 <= 2 ^ k.
Proof. intros. change 4 with (2 ^ 2). apply Z.pow_le_mono_r; lia. Qed.

(** [round_exponent] finds [e] for any ratio that [e] puts in the
    significand range. *)
Lemma round_exponent_range p q e :
  0 < p -> 0 < q -> -1074 <= e ->
  (2 ^ 52 * (scale2 p q e).2 <= (scale2 p q e).1 \/ e = -1074) ->
  (scale2 p q e).1 < 2 ^ 53 * (scale2 p q e).2 ->
  round_exponent p q = e.
Proof.
  intros Hp Hq He Hlo Hhi. unfold round_exponent.
  pose proof (round_exponent_first p q Hp Hq) as B0. cbv zeta in B0.
  set (e0 := Z.log2 p - Z.log2 q - 52) in *.
  rewrite (surjective_pairing (scale2 p q e0)). cbv beta iota.
  pose proof (scale2_den_pos p q e Hq) as Hd. pose proof (scale2_den_pos p q e0 Hq) as Hd0.
  destruct (Z.le_gt_cases (2 ^ 52 * (scale2 p q e).2) (scale2 p q e).1) as [HN|Hsub].
  - assert (e0 <= e + 1) as Hup.
    { destruct (Z.le_gt_cases e0 (e + 1)) as [|Hgt]; [done|]. exfalso.
      pose proof (scale2_add p q e (e0 - e) Hq ltac:(lia)) as Ha. replace (e + (e0 - e)) with e0 in Ha by lia.
      pose proof (pow2_ge4 (e0 - e) ltac:(lia)).
      eapply (ratio_gap _ _ _ _ (2 ^ (e0 - e)) (2 ^ 51) (2 ^ 53) Hd0 Hd); [lia|exact Ha|lia|lia|lia]. }
    assert (e <= e0) as Hlo'.
    { destruct (Z.le_gt_cases e e0) as [|Hlt]; [done|]. exfalso.
      pose proof (scale2_add p q e0 (e - e0) Hq ltac:(lia)) as Ha. replace (e0 + (e - e0)) with e in Ha by lia.
      pose proof (pow2_ge2 (e - e0) ltac:(lia)).
      eapply (ratio_gap _ _ _ _ (2 ^ (e - e0)) (2 ^ 52) (2 ^ 53) Hd Hd0); [lia|exact Ha|lia|lia|lia]. }
    destruct (Z.eq_dec e0 e) as [Hee|Hne].
    + rewrite Hee in *. rewrite (proj2 (Z.ltb_ge _ _)) by lia. lia.
    + assert (e0 = e + 1) as Hee by lia. rewrite Hee in *. pose proof (scale2_succ p q e) as Hs.
      destruct (Z.ltb_spec (scale2 p q (e + 1)).1 (2 ^ 52 * (scale2 p q (e + 1)).2)); [lia|exfalso].
      eapply (ratio_gap _ _ _ _ 2 (2 ^ 52) (2 ^ 53) Hd0 Hd); [lia|exact Hs|lia|lia|lia].
  - destruct Hlo as [|He']; [lia|]. rewrite He' in *.
    assert (e0 <= -1074) as Hlo'.
    { destruct (Z.le_gt_cases e0 (-1074)) as [|Hgt]; [done|]. exfalso.
      pose proof (scale2_add p q (-1074) (e0 + 1074) Hq ltac:(lia)) as Ha.
      replace (-1074 + (e0 + 1074)) with e0 in Ha by lia.
      pose proof (pow2_ge2 (e0 + 1074) ltac:(lia)).
      eapply (ratio_gap _ _ _ _ (2 ^ (e0 + 1074)) (2 ^ 51) (2 ^ 52) Hd0 Hd); [lia|exact Ha|lia|lia|lia]. }
    destruct (_ <? _); lia.
Qed.

(** [n / d] is [M] with remainder [n - M * d]. *)
Lemma divmod_at n d M :
  0 < d -> M * d <= n < M * d + d -> n / d = M /\ n mod d = n - M * d.
Proof.
  intros Hd Hn. assert (n = d * M + (n - M * d)) as He by ring.
  split; [symmetry; apply (Z.div_unique n d M (n - M * d))|symmetry; apply (Z.mod_unique n d M)]; lia.
Qed.

(** A ratio within half a unit of a binary64 significand [M] at exponent
    [e] rounds to [(M, e)]; at the bottom of a binade ([M = 2^52]) the
    units below are half as wide, and the ratio must be within a quarter. *)
Lemma round_parts_near p q e M :
  0 < p -> 0 < q -> -1074 <= e -> 0 < M < 2 ^ 53 -> (2 ^ 52 <= M \/ e = -1074) ->
  near_at (scale2 p q e).1 (scale2 p q e).2 M e -> round_parts p q = (M, e).
Proof.
  intros Hp Hq He HM Hc [Hnear Hbot]. pose proof (scale2_den_pos p q e Hq) as Hd.
  destruct (decide (M = 2 ^ 52 /\ -1074 < e /\ (scale2 p q e).1 < M * (scale2 p q e).2)) as [(HM2 & He' & Hlt)|Hnb].
  - specialize (Hbot HM2 He' Hlt). pose proof (scale2_succ p q (e - 1)) as Hs.
    replace (e - 1 + 1) with e in Hs by lia. pose proof (scale2_den_pos p q (e - 1) Hq) as Hd'.
    destruct (scale2 p q e) as [n d] eqn:E. destruct (scale2 p q (e - 1)) as [n' d'] eqn:E'. simpl in *.
    subst M.
    assert (2 ^ 53 * d' - d' < n' < 2 ^ 53 * d' /\ d' <= 2 * (n' - (2 ^ 53 - 1) * d')) as (Hn' & Hr').
    { assert (n' * d < 2 ^ 53 * d' * d) by nia. assert (4 * n' * d >= 4 * 2 ^ 53 * d' * d - 2 * d' * d) by nia.
      assert (n' < 2 ^ 53 * d') by nia. split; [split|]; nia. }
    unfold round_parts. rewrite (round_exponent_range p q (e - 1)) by (rewrite ?E'; simpl; lia).
    rewrite E'. destruct (divmod_at n' d' (2 ^ 53 - 1)) as [-> ->]; [lia|lia|].
    destruct (Z.ltb_spec d' (2 * (n' - (2 ^ 53 - 1) * d'))); simpl.
    + f_equal. lia.
    + replace (2 * (n' - (2 ^ 53 - 1) * d') =? d') with true by lia. simpl.
      f_equal. lia.
  - unfold round_parts. destruct (scale2 p q e) as [n d] eqn:E. simpl in *.
    assert (2 ^ 52 * d <= n \/ e = -1074).
    { destruct (decide (e = -1074)) as [|Hne]; [by right|left].
      destruct (Z.le_gt_cases (M * d) n); [nia|]. assert (2 ^ 52 + 1 <= M) by (destruct Hc; lia). nia. }
    assert (n < 2 ^ 53 * d) by nia.
    rewrite (round_exponent_range p q e) by (rewrite ?E; done). rewrite E.
    destruct (Z.le_gt_cases (M * d) n).
    + destruct (divmod_at n d M) as [-> ->]; [lia|lia|].
      replace (d <? 2 * (n - M * d)) with false by lia.
      replace (2 * (n - M * d) =? d) with false by lia. simpl. rewrite (proj2 (Z.eqb_neq M _)) by lia. done.
    + destruct (divmod_at n d (M - 1)) as [-> ->]; [lia|lia|].
      replace (d <? 2 * (n - (M - 1) * d)) with true by lia. simpl.
      rewrite Z.sub_add, (proj2 (Z.eqb_neq M _)) by lia. done.
Qed.

(** [round_ratio] of a ratio near a binary64 number is that number. *)
Lemma round_ratio_near p q (m : positive) e :
  0 < p -> 0 < q -> -1074 <= e <= 971 -> Zpos m < 2 ^ 53 -> (2 ^ 52 <= Zpos m \/ e = -1074) ->
  near_at (scale2 p q e).1 (scale2 p q e).2 (Zpos m) e -> Prim2SF (round_ratio p q) = S754_finite false m e.
Proof.
  intros Hp Hq He Hm Hc Hn. unfold round_ratio.
  rewrite (round_parts_near p q e (Zpos m)) by (done || lia).
  rewrite (proj2 (Z.ltb_ge 971 e)) by lia. by apply ldexp_exact.
Qed.

(** ** [float()] of a decimal near a binary64 number *)

(** A finite binary64 number is [m * 2^e] with a canonical [m] and [e]. *)
Lemma prim2sf_canonical (x : float) s (m : positive) e :
  Prim2SF x = S754_finite s m e ->
  -1074 <= e <= 971 /\ Zpos m < 2 ^ 53 /\ (2 ^ 52 <= Zpos m \/ e = -1074).
Proof.
  intros Hx. pose proof (Prim2SF_valid x) as Hv. rewrite Hx in Hv.
  cbn [SpecFloat.valid_binary] in Hv. unfold SpecFloat.bounded, SpecFloat.canonical_mantissa in Hv.
  apply andb_prop in Hv as [Hc Hb]. apply Z.eqb_eq in Hc. apply Z.leb_le in Hb.
  change (SpecFloat.fexp prec emax) with (SpecFloat.fexp 53 1024) in Hc. rewrite fexp64 in Hc.
  change (emax - prec) with 971 in Hb.
  pose proof (digits2_bounds m) as Hdb. set (d := Zpos (SpecFloat.digits2_pos m)) in *.
  destruct (Z.le_gt_cases (-1074) (d + e - 53)).
  - assert (d = 53) as Hd by lia. rewrite Hd in Hdb. simpl in Hdb. split; [lia|]. split; [lia|]. left; lia.
  - split; [lia|]. split; [|right; lia].
    assert (d <= 53) by lia. assert (2 ^ d <= 2 ^ 53) by (apply Z.pow_le_mono_r; lia). lia.
Qed.

Lemma prim2sf_inj (x y : float) : Prim2SF x = Prim2SF y -> x = y.
Proof. intros H. rewrite <- (SF2Prim_Prim2SF x), <- (SF2Prim_Prim2SF y), H. reflexivity. Qed.

Lemma dec_float_sign neg m e :
  dec_float neg m e = if neg then PrimFloat.opp (dec_float false m e) else dec_float false m e.
Proof. reflexivity. Qed.

Lemma dec_ratio_pos D q : 0 < D -> 0 < (dec_ratio D q).1 /\ 0 < (dec_ratio D q).2.
Proof.
  intros HD. unfold dec_ratio. destruct (Z.leb_spec 0 q); simpl; split; try lia;
    apply Z.mul_pos_pos || apply Z.pow_pos_nonneg; try lia; apply Z.pow_pos_nonneg; lia.
Qed.

(** A decimal at least [2^-1075] is not caught by [float()]'s underflow shortcut. *)
Lemma no_underflow (D k : Z) :
  0 < D -> 0 < k -> 10 ^ k <= D * 2 ^ 1075 -> k <= 325 + Z.log2 D.
Proof.
  intros HD Hk Hle. set (L := Z.log2 D). pose proof (log2_bounds D HD) as [_ HL]. fold L in HL.
  pose proof (Z.log2_nonneg D). fold L in H.
  destruct (Z.le_gt_cases k (325 + L)) as [|Hgt]; [done|exfalso].
  assert (10 ^ (326 + L) <= 10 ^ k) by (apply Z.pow_le_mono_r; lia).
  assert (2 ^ L <= 10 ^ L) by (apply Z.pow_le_mono_l; lia).
  assert (2 ^ 1076 < 10 ^ 326) by (apply Z.ltb_lt; vm_compute; reflexivity).
  rewrite Z.pow_add_r in * by lia.
  assert (2 ^ 1076 = 2 * 2 ^ 1075) by reflexivity.
  nia.
Qed.

(** Away from the overflow and underflow shortcuts, [float()] rounds the
    ratio of the decimal. *)
Lemma dec_float_ratio D q :
  0 < D -> q < 309 -> - (325 + Z.log2 D) <= q ->
  dec_float false D q = round_ratio (dec_ratio D q).1 (dec_ratio D q).2.
Proof.
  intros HD Hq Hl. unfold dec_float, dec_ratio.
  rewrite (proj2 (Z.leb_gt D 0)), (proj2 (Z.leb_gt 309 q)), (proj2 (Z.ltb_ge q _)) by lia.
  by destruct (0 <=? q).
Qed.

(** [float()] of any decimal within half a unit of a finite binary64
    number gives that number. *)
Lemma dec_float_near (x : float) s (m : positive) e D q :
  Prim2SF x = S754_finite s m e -> 0 < D -> near_value D q m e -> dec_float s D q = x.
Proof.
  intros Hx HD Hnv. pose proof Hnv as [Hn Hb]. destruct (prim2sf_canonical x s m e Hx) as (He & Hm & Hc).
  assert (Prim2SF (dec_float false D q) = S754_finite false m e) as Hf.
  { destruct (dec_ratio_pos D q HD) as [Hp Ht].
    pose proof (scale2_den_pos (dec_ratio D q).1 (dec_ratio D q).2 e Ht) as Hd.
    set (n := (scale2 _ _ e).1) in *. set (d := (scale2 _ _ e).2) in *.
    assert (d < 2 * n /\ n < 2 ^ 53 * d) as [Hlo Hhi] by (pose proof (Pos2Z.is_pos m); nia).
    assert (2 ^ 1024 < 10 ^ 309) by (apply Z.ltb_lt; vm_compute; reflexivity).
    assert (2 ^ e <= 2 ^ 971) by (apply Z.pow_le_mono_r; lia).
    assert (e < 0 -> 0 < 2 ^ (- e) <= 2 ^ 1074) as Hneg.
    { intros. split; [apply Z.pow_pos_nonneg|apply Z.pow_le_mono_r]; lia. }
    assert (q < 309).
    { destruct (Z.lt_ge_cases q 309) as [|Hq]; [done|exfalso].
      assert (10 ^ 309 <= 10 ^ q) by (apply Z.pow_le_mono_r; lia).
      subst n d; unfold dec_ratio, scale2 in *. rewrite (proj2 (Z.leb_le 0 q)) in * by lia. simpl in *.
      destruct (Z.ltb_spec e 0); simpl in *; [specialize (Hneg ltac:(lia)); nia|].
      assert (2 ^ 53 * 2 ^ 971 = 2 ^ 1024) by reflexivity. nia. }
    assert (- (325 + Z.log2 D) <= q).
    { pose proof (Z.log2_nonneg D). destruct (Z.leb_spec 0 q); [lia|].
      assert (10 ^ (- q) <= D * 2 ^ 1075); [|pose proof (no_underflow D (- q)); lia].
      assert (0 < 10 ^ (- q)) by (apply Z.pow_pos_nonneg; lia).
      subst n d; unfold dec_ratio, scale2 in *. rewrite (proj2 (Z.leb_gt 0 q)) in * by lia. simpl in *.
      change (2 ^ 1075) with (2 * 2 ^ 1074).
      destruct (Z.ltb_spec e 0); simpl in *; [specialize (Hneg ltac:(lia)); nia|].
      assert (0 < 2 ^ e) by (apply Z.pow_pos_nonneg; lia). nia. }
    rewrite dec_float_ratio by done. by apply round_ratio_near. }
  apply prim2sf_inj. rewrite Hx, dec_float_sign. destruct s; [|exact Hf].
  rewrite FloatAxioms.opp_spec, Hf. reflexivity.
Qed.

(** [same_value] in terms of the ratio scaled by [2^-e]. *)
Lemma same_value_scale2 D q (m : positive) e :
  same_value D q m e ->
  (scale2 (dec_ratio D q).1 (dec_ratio D q).2 e).1 = Zpos m * (scale2 (dec_ratio D q).1 (dec_ratio D q).2 e).2.
Proof.
  unfold same_value, bin_ratio, scale2. destruct (Z.ltb_spec e 0), (Z.leb_spec 0 e); simpl; lia.
Qed.

(** A decimal equal to [m * 2^e] is near it. *)
Lemma same_value_near D q (m : positive) e : 0 < D -> same_value D q m e -> near_value D q m e.
Proof.
  intros HD Hv%same_value_scale2.
  pose proof (scale2_den_pos (dec_ratio D q).1 _ e (proj2 (dec_ratio_pos D q HD))).
  unfold near_value, near_at. rewrite Hv. lia.
Qed.

(** The ratio of [D * 10^j] at [q - j] is the ratio of [D] at [q], both
    terms multiplied by a positive [c]. *)
Lemma dec_ratio_scale D q j :
  0 <= j -> exists c, 0 < c /\ dec_ratio (D * 10 ^ j) (q - j) = ((dec_ratio D q).1 * c, (dec_ratio D q).2 * c).
Proof.
  intros Hj. unfold dec_ratio.
  destruct (Z.leb_spec 0 (q - j)), (Z.leb_spec 0 q); simpl; try lia.
  - exists 1. split; [lia|]. apply pair_equal_spec. split; [|lia].
    rewrite <- Z.mul_assoc, <- Z.pow_add_r by lia. replace (j + (q - j)) with q by lia. lia.
  - exists (10 ^ (j - q)). split; [apply Z.pow_pos_nonneg; lia|]. apply pair_equal_spec. split; [|rewrite Z.mul_1_l; f_equal; lia].
    rewrite <- Z.mul_assoc, <- Z.pow_add_r by lia. do 2 f_equal. lia.
  - exists (10 ^ j). split; [apply Z.pow_pos_nonneg; lia|]. apply pair_equal_spec. split; [done|].
    rewrite <- Z.pow_add_r by lia. f_equal. lia.
Qed.

Lemma scale2_mul p t c e : scale2 (p * c) (t * c) e = ((scale2 p t e).1 * c, (scale2 p t e).2 * c).
Proof. unfold scale2. destruct (e <? 0); simpl; f_equal; ring. Qed.

Lemma near_at_mul n d M e c : 0 < c -> near_at (n * c) (d * c) M e <-> near_at n d M e.
Proof.
  intros Hc. unfold near_at.
  assert (forall a b, a * c < b * c <-> a < b) as Hl by (intros; split; nia).
  assert (forall a b, a * c <= b * c <-> a <= b) as Hle by (intros; split; nia).
  replace (2 * (n * c - M * (d * c))) with (2 * (n - M * d) * c) by ring.
  replace (- (d * c)) with (- d * c) by ring. replace (M * (d * c)) with (M * d * c) by ring.
  replace (4 * (M * d * c - n * c)) with (4 * (M * d - n) * c) by ring.
  rewrite !Hl, Hle. tauto.
Qed.

(** Moving [j] factors of ten between the digits and the exponent keeps
    the decimal near the same binary64 number. *)
Lemma near_value_scale D q j (m : positive) e :
  0 <= j -> near_value (D * 10 ^ j) (q - j) m e <-> near_value D q m e.
Proof.
  intros Hj. destruct (dec_ratio_scale D q j Hj) as (c & Hc & Hr). unfold near_value.
  rewrite Hr. simpl. rewrite scale2_mul. by apply near_at_mul.
Qed.
