(* ===== verification/FloatRepr.v ===== *)
(** * FloatRepr: [repr()] of a float, as [json.dump] writes it

    [json.dump] (Expense_Calculator.py line 32) writes every float of
    [self.data] with [float.__repr__]: CPython's [float_repr] calls
    [PyOS_double_to_string(x, 'r', 0, Py_DTSF_ADD_DOT_0)], which asks
    David Gay's [_Py_dg_dtoa] in mode 0 for the shortest digit string
    that reads back as [x] and lays it out with [format_float_short]:
    exponent form [d.ddde+XX] when the decimal point falls more than 16
    places right or 4 places left of the first digit, [".0"] appended to
    an integer, ["inf"], ["nan"] and ["-0.0"] spelled out.  Here the
    digit search is written as its specification: for [n = 1 .. 17]
    significant digits the two [n]-digit decimals around [x] are tried,
    the nearer (the even one on a tie) of those that read back is taken;
    the exact decimal expansion of [x] is the last resort, which CPython
    never needs since 17 digits always read back ([ReprDigits]).

    The theorem [float_repr_roundtrip] is Python's promise
    [float(repr(x)) == x] (bit for bit, so [-0.0] and [nan] included):
    the text [json.dump] stores for an amount reads back as that amount. *)

From stdpp Require Import base list strings.
From Stdlib Require Import ZArith Lia Floats Uint63 Ascii String.
From S2P Require Import Prelude Amount PyFloat Format Binary64.

Local Open Scope Z_scope.
#[local] Set Warnings "-inexact-float".

(** The exact decimal [D * 10^q] of [m * 2^e]. *)
Definition exact_decimal (m : positive) (e : Z) : Z * Z :=
  if 0 <=? e then (Zpos m * 2 ^ e, 0) else (Zpos m * 5 ^ (- e), e).

(** The pieces of a numeral: sign, integer digits, fraction digits after
    a point, exponent sign and digits after an [e]. *)
Definition numeral_text (neg : bool) (ip : list ascii) (frac : option (list ascii))
           (ex : option (bool * list ascii)) : list ascii :=
  (if neg then ["-"%char] else []) ++ ip ++
  match frac with Some f => "."%char :: f | None => [] end ++
  match ex with Some (s, ds) => "e"%char :: (if s then "-"%char else "+"%char) :: ds | None => [] end.

Definition zeros (k : Z) : list ascii := repeat "0"%char (Z.to_nat k).

(** [D * 10^q] with the trailing zeros of [D] moved to the exponent. *)
Fixpoint strip_zeros_fuel (fuel : nat) (D q : Z) : Z * Z :=
  match fuel with
  | O => (D, q)
  | S f => if (0 <? D) && (D mod 10 =? 0) then strip_zeros_fuel f (D / 10) (q + 1) else (D, q)
  end.

Definition strip_zeros (D q : Z) : Z * Z := strip_zeros_fuel (S (Z.to_nat (Z.log2 D))) D q.

(** [format_float_short] in mode ['r'] with [Py_DTSF_ADD_DOT_0]: the
    digits [ds] with the decimal point [decpt] places from their start. *)
Definition format_short (ds : list ascii) (decpt : Z) :
  list ascii * option (list ascii) * option (bool * list ascii) :=
  let n := Z.of_nat (List.length ds) in
  if (decpt <=? -4) || (16 <? decpt) then
    let x := decpt - 1 in
    let eds := dec_digits (Z.abs x) in
    (take 1 ds, (if n <=? 1 then None else Some (drop 1 ds)),
     Some (x <? 0, if Z.abs x <? 10 then "0"%char :: eds else eds))
  else if decpt <=? 0 then (["0"%char], Some (zeros (- decpt) ++ ds), None)
  else if n <=? decpt then (ds ++ zeros (decpt - n), Some ["0"%char], None)
  else (take (Z.to_nat decpt) ds, Some (drop (Z.to_nat decpt) ds), None).

(** [repr()] of the decimal [D * 10^q], [D > 0]. *)
Definition repr_decimal (neg : bool) (D q : Z) : string :=
  let '(D', q') := strip_zeros D q in
  let ds := dec_digits D' in
  let '(ip, frac, ex) := format_short ds (Z.of_nat (List.length ds) + q') in
  string_of_list_ascii (numeral_text neg ip frac ex).

(** [float(t)] gives [x] back. *)
Definition reads_back (t : string) (x : float) : bool :=
  match parse_float t with
  | Some l => match num_of_lit l with Some y => PrimFloat.Leibniz.eqb y x | None => false end
  | None => false
  end.

(** The number of decimal digits of [z > 0]. *)
Definition ndigits (z : Z) : Z := Z.of_nat (List.length (dec_digits z)).

(** [num / den] scaled by [10^-q] as a fraction. *)
Definition scale10 (num den q : Z) : Z * Z :=
  if 0 <=? q then (num, den * 10 ^ q) else (num * 10 ^ (- q), den).

(** The decimal exponent [k] of [num / den > 0]: [10^(k-1) <= num / den < 10^k]. *)
Definition dec_exponent (num den : Z) : Z :=
  let k0 := ndigits num - ndigits den in
  let '(a, b) := scale10 num den k0 in
  if b <=? a then k0 + 1 else k0.

(** Gay's mode-0 choice at [n] significant digits: the truncation and
    its successor, kept when they read back as [x]; the nearer one when
    both do, the even one at equal distance. *)
Definition candidate (neg : bool) (x : float) (num den k : Z) (n : Z) : option string :=
  let q := k - n in
  let '(a, b) := scale10 num den q in
  let fl := a / b in
  let r := a mod b in
  let tf := repr_decimal neg fl q in
  let tc := repr_decimal neg (fl + 1) q in
  if r =? 0 then (if reads_back tf x then Some tf else None)
  else match reads_back tf x, reads_back tc x with
       | true, true => if (2 * r <? b) || ((2 * r =? b) && Z.even fl) then Some tf else Some tc
       | true, false => Some tf
       | false, true => Some tc
       | false, false => None
       end.

Fixpoint first_some {X} (l : list (option X)) : option X :=
  match l with [] => None | Some x :: _ => Some x | None :: r => first_some r end.

(** [repr()] of a finite non-zero float [(-1)^neg * m * 2^e]: the shortest
    digits (1 to 17 of them) that read back; 17 always do, and the exact
    expansion after them is never reached by CPython. *)
Definition repr_finite (neg : bool) (m : positive) (e : Z) (x : float) : string :=
  let '(num, den) := bin_ratio m e in
  let k := dec_exponent num den in
  match first_some (map (fun n => candidate neg x num den k (Z.of_nat n)) (seq 1 17)) with
  | Some t => t
  | None => repr_decimal neg (exact_decimal m e).1 (exact_decimal m e).2
  end.

Definition float_repr (x : float) : string :=
  match Prim2SF x with
  | S754_zero s => if s then "-0.0" else "0.0"
  | S754_infinity s => if s then "-inf" else "inf"
  | S754_nan => "nan"
  | S754_finite s m e => repr_finite s m e x
  end.

Definition exp_value (ex : option (bool * list ascii)) : Z :=
  match ex with Some (s, ds) => if s then - digits_value 0 ds else digits_value 0 ds | None => 0 end.

Definition all_digits (l : list ascii) : Prop := Forall (fun c => is_digit c = true) l.

Definition exp_text (ex : option (bool * list ascii)) : list ascii :=
  match ex with Some (s, ds) => "e"%char :: (if s then "-"%char else "+"%char) :: ds | None => [] end.

(** A numeral JSON's number grammar accepts as a float: no leading zero,
    a non-empty fraction, a non-empty exponent, and a fraction or an
    exponent. *)
Definition json_numeral (ip : list ascii) (frac : option (list ascii))
           (ex : option (bool * list ascii)) : Prop :=
  ip <> [] /\ all_digits ip /\ (ip = ["0"%char] \/ head ip <> Some "0"%char) /\
  match frac with Some f => f <> [] /\ all_digits f | None => True end /\
  match ex with Some (_, ds) => ds <> [] /\ all_digits ds | None => frac <> None end.

(** ** Reading a laid-out numeral back *)

Lemma numeral_text_eq neg ip frac ex :
  numeral_text neg ip frac ex
  = (if neg then ["-"%char] else []) ++ ip ++ match frac with Some f => "."%char :: f | None => [] end ++ exp_text ex.
Proof. reflexivity. Qed.

Lemma exp_ends_run ex : ends_run (exp_text ex).
Proof. destruct ex as [[s ds]|]; simpl; done. Qed.

Lemma parse_mantissa_run d ds frac ex :
  all_digits (d :: ds) -> all_digits (default [] frac) ->
  parse_mantissa ((d :: ds) ++ match frac with Some fp => "."%char :: fp | None => [] end ++ exp_text ex)
  = Some (digits_value 0 ((d :: ds) ++ default [] frac), List.length (default [] frac), exp_text ex).
Proof.
  intros Hip Hfp. unfold parse_mantissa.
  rewrite <- app_comm_cons.
  destruct frac as [fp|]; simpl default in *.
  - change (("."%char :: fp) ++ exp_text ex) with ("."%char :: fp ++ exp_text ex).
    rewrite (digitpart_run 0 d ds ("."%char :: fp ++ exp_text ex)) by (done || simpl; done).
    cbn -[digitpart digits_value]. destruct fp as [|f fs].
    + rewrite app_nil_r. destruct ex as [[s eds]|]; reflexivity.
    + apply Forall_cons in Hfp as [Hf Hfs].
      rewrite (digitpart_run _ f fs (exp_text ex)) by (try constructor; done || apply exp_ends_run).
      by rewrite app_comm_cons, digits_value_app.
  - rewrite app_nil_l, (digitpart_run 0 d ds (exp_text ex)) by (done || apply exp_ends_run).
    rewrite app_nil_r. destruct ex as [[s eds]|]; reflexivity.
Qed.

Lemma parse_exponent_text ex :
  match ex with Some (_, ds) => ds <> [] /\ all_digits ds | None => True end ->
  parse_exponent (exp_text ex) = Some (exp_value ex, []).
Proof.
  destruct ex as [[s [|d ds]]|]; [by intros []| |done].
  intros [_ Hds]. pose proof Hds as Hd. apply Forall_cons in Hd as [Hd _].
  assert (digitpart 0 (d :: ds) = Some (digits_value 0 (d :: ds), List.length (d :: ds), [])) as Hp.
  { rewrite <- (app_nil_r ds). rewrite digitpart_run by (rewrite ?app_nil_r; done). by rewrite app_nil_r. }
  destruct s; unfold exp_text, parse_exponent; cbn -[digitpart digits_value]; rewrite Hp; reflexivity.
Qed.

Lemma strip_solid l : l <> [] -> Forall (fun c => is_space c = false) l -> strip l = l.
Proof.
  intros Hne Hl. destruct (solid_ends l Hl) as [Hs Hr].
  pose proof (strip_pad [] l [] (List.Forall_nil _) (List.Forall_nil _) Hne Hs Hr) as H.
  by rewrite app_nil_l, app_nil_r in H.
Qed.

(** [float()] reads a numeral with optional fraction and exponent as its
    digits scaled by the exponent minus the number of fraction digits. *)
Lemma parse_float_text neg ip frac ex :
  ip <> [] -> all_digits ip -> all_digits (default [] frac) ->
  match ex with Some (_, ds) => ds <> [] /\ all_digits ds | None => True end ->
  parse_float (string_of_list_ascii (numeral_text neg ip frac ex))
  = Some (FLFinite neg (digits_value 0 (ip ++ default [] frac))
                   (exp_value ex - Z.of_nat (List.length (default [] frac)))).
Proof.
  intros Hne Hip Hfp Hex. destruct ip as [|d ds]; [done|].
  pose proof Hip as Hd. apply Forall_cons in Hd as [Hd _].
  assert (Forall (fun c => is_space c = false) (numeral_text neg (d :: ds) frac ex)) as Hsolid.
  { rewrite numeral_text_eq. repeat apply Forall_app_2.
    - destruct neg; repeat constructor.
    - eapply Forall_impl; [exact Hip|]. intros c. apply digit_not_space.
    - destruct frac as [fp|]; [|constructor]. constructor; [reflexivity|].
      eapply Forall_impl; [exact Hfp|]. intros c. apply digit_not_space.
    - destruct ex as [[s eds]|]; [|constructor]. destruct Hex as [_ Hex].
      constructor; [reflexivity|]. constructor; [by destruct s|].
      eapply Forall_impl; [exact Hex|]. intros c. apply digit_not_space. }
  destruct (solid_ends _ Hsolid) as [Hs Hr].
  unfold parse_float. rewrite list_ascii_of_string_of_list_ascii.
  rewrite strip_solid by (try done; by destruct neg).
  rewrite numeral_text_eq.
  assert (parse_sign ((if neg then ["-"%char] else []) ++ (d :: ds) ++
                      match frac with Some f => "."%char :: f | None => [] end ++ exp_text ex)
          = (neg, (d :: ds) ++ match frac with Some f => "."%char :: f | None => [] end ++ exp_text ex)) as ->.
  { destruct neg; [reflexivity|]. simpl. by destruct (digit_not_sign d Hd) as [-> ->]. }
  rewrite <- app_comm_cons, !is_word_digit by done. rewrite app_comm_cons.
  rewrite parse_mantissa_run, parse_exponent_text by done. reflexivity.
Qed.

Lemma strip_zeros_fuel_spec f D q :
  0 < D -> let '(D', q') := strip_zeros_fuel f D q in 0 < D' /\ q <= q' /\ D = D' * 10 ^ (q' - q).
Proof.
  revert D q. induction f as [|f IH]; intros D q HD; simpl.
  { rewrite Z.sub_diag. lia. }
  destruct (Z.ltb_spec 0 D); [|lia]. destruct (Z.eqb_spec (D mod 10) 0) as [H0|]; simpl; [|rewrite Z.sub_diag; lia].
  pose proof (Z.div_mod D 10 ltac:(lia)) as Hdm. rewrite H0, Z.add_0_r in Hdm.
  specialize (IH (D / 10) (q + 1) ltac:(lia)). destruct (strip_zeros_fuel f (D / 10) (q + 1)) as [D' q'].
  destruct IH as (HD' & Hq & Heq). split; [done|]. split; [lia|].
  replace (q' - q) with (Z.succ (q' - (q + 1))) by lia. rewrite Z.pow_succ_r by lia.
  rewrite Hdm, Heq. ring.
Qed.

Lemma digits_value_zeros v k : 0 <= k -> digits_value v (zeros k) = v * 10 ^ k.
Proof.
  intros Hk. unfold zeros. rewrite <- (Z2Nat.id k) at 2 by done. generalize (Z.to_nat k) as n. intros n.
  revert v. induction n as [|n IH]; intros v; [simpl; lia|].
  simpl repeat. unfold digits_value. simpl fold_left. fold (digits_value (v * 10 + digit_val "0") (repeat "0"%char n)).
  rewrite IH, Nat2Z.inj_succ, Z.pow_succ_r by lia. change (digit_val "0"%char) with 0. ring.
Qed.

Lemma zeros_digits k : all_digits (zeros k).
Proof. unfold zeros, all_digits. apply List.Forall_forall. intros c Hc%repeat_spec. by subst. Qed.

Lemma digits_value_zero_cons l : digits_value 0 ("0"%char :: l) = digits_value 0 l.
Proof. reflexivity. Qed.

Lemma exp_digits_spec (x : Z) :
  let eds := dec_digits (Z.abs x) in
  let l := if Z.abs x <? 10 then "0"%char :: eds else eds in
  l <> [] /\ all_digits l /\ digits_value 0 l = Z.abs x.
Proof.
  cbv zeta. destruct (dec_digits_ok (Z.abs x) ltac:(lia)) as (Hd & Hne & Hv).
  destruct (Z.abs x <? 10); [|done]. split; [done|]. split; [by constructor|]. done.
Qed.

Lemma exp_value_digits (x : Z) :
  exp_value (Some (x <? 0, if Z.abs x <? 10 then "0"%char :: dec_digits (Z.abs x) else dec_digits (Z.abs x))) = x.
Proof.
  destruct (exp_digits_spec x) as (_ & _ & Hv). unfold exp_value. cbv zeta in Hv. rewrite Hv.
  destruct (Z.ltb_spec x 0); lia.
Qed.

Lemma split_first (ds : list ascii) :
  ds <> [] ->
  let frac := if Z.of_nat (List.length ds) <=? 1 then None else Some (drop 1 ds) in
  take 1 ds ++ default [] frac = ds /\
  Z.of_nat (List.length (default [] frac)) = Z.of_nat (List.length ds) - 1.
Proof.
  intros Hne. destruct ds as [|d [|d' ds']]; [done|split; reflexivity|].
  cbv zeta. replace (Z.of_nat (List.length (d :: d' :: ds')) <=? 1) with false by (symmetry; apply Z.leb_gt; simpl; lia).
  simpl. split; [done|lia].
Qed.

Lemma format_short_spec ds decpt :
  ds <> [] -> all_digits ds ->
  let '(ip, frac, ex) := format_short ds decpt in
  ip <> [] /\ all_digits ip /\ all_digits (default [] frac) /\
  match ex with Some (_, l) => l <> [] /\ all_digits l | None => True end /\
  exists j, 0 <= j /\ digits_value 0 (ip ++ default [] frac) = digits_value 0 ds * 10 ^ j /\
            exp_value ex - Z.of_nat (List.length (default [] frac)) = decpt - Z.of_nat (List.length ds) - j.
Proof.
  intros Hne Hds. unfold format_short. cbv zeta. set (n := Z.of_nat (List.length ds)).
  assert (1 <= n) by (unfold n; destruct ds; [done|simpl; lia]).
  destruct ((decpt <=? -4) || (16 <? decpt)).
  - destruct (exp_digits_spec (decpt - 1)) as (Hl & Hld & _).
    destruct (split_first ds Hne) as [Hsplit Hlen]. cbv zeta in Hsplit, Hlen. fold n in Hsplit, Hlen.
    split; [by destruct ds|]. split; [by apply Forall_take|].
    split; [destruct (n <=? 1); [constructor|by apply Forall_drop]|]. split; [done|].
    exists 0. rewrite Hsplit, exp_value_digits, Hlen. split; [lia|split; [ring|lia]].
  - destruct (Z.leb_spec decpt 0); [|destruct (Z.leb_spec n decpt)].
    + split; [done|]. split; [repeat constructor|]. split; [apply Forall_app_2; [apply zeros_digits|done]|].
      split; [done|]. exists 0. simpl default. rewrite app_assoc, !digits_value_app.
      change (digits_value 0 ["0"%char]) with 0. rewrite digits_value_zeros, Z.mul_0_l by lia.
      rewrite length_app. unfold zeros. rewrite repeat_length.
      simpl exp_value. fold n. split; [lia|split; [ring|lia]].
    + split; [by destruct ds|]. split; [apply Forall_app_2; [done|apply zeros_digits]|].
      split; [repeat constructor|]. split; [done|]. exists (decpt - n + 1). split; [lia|].
      simpl default. rewrite <- app_assoc, !digits_value_app, digits_value_zeros by lia.
      split; [|simpl; lia]. simpl. rewrite Z.pow_add_r by lia. change (digit_val "0"%char) with 0. ring.
    + split; [destruct ds; [done|]; simpl; replace (Z.to_nat decpt) with (S (Z.to_nat (decpt - 1))) by lia; done|].
      split; [by apply Forall_take|]. split; [by apply Forall_drop|]. split; [done|].
      exists 0. simpl default. rewrite take_drop, length_drop. simpl exp_value. fold n.
      split; [lia|split; [ring|lia]].
Qed.

(** ** The round trip *)

Lemma reads_back_iff (t : string) (x : float) :
  reads_back t x = true <-> exists l, parse_float t = Some l /\ num_of_lit l = Some x.
Proof.
  unfold reads_back. split.
  - destruct (parse_float t) as [l|]; [|done]. destruct (num_of_lit l) as [y|] eqn:Hy; [|done].
    intros ->%FloatAxioms.Leibniz.eqb_spec. by exists l.
  - intros (l & -> & ->). by apply FloatAxioms.Leibniz.eqb_spec.
Qed.

(** [repr_decimal] lays out a decimal of the same value: it keeps any
    property [P] of a decimal that moving factors of ten between the
    digits and the exponent keeps. *)
Lemma repr_decimal_parse (P : Z -> Z -> Prop) neg D q :
  (forall D q j, 0 <= j -> P (D * 10 ^ j) (q - j) <-> P D q) -> 0 < D ->
  exists M E, parse_float (repr_decimal neg D q) = Some (FLFinite neg M E) /\ 0 < M /\ (P M E <-> P D q).
Proof.
  intros HP HD. unfold repr_decimal, strip_zeros.
  pose proof (strip_zeros_fuel_spec (S (Z.to_nat (Z.log2 D))) D q HD) as Hs.
  destruct (strip_zeros_fuel _ D q) as [D' q']. destruct Hs as (HD' & Hq & HDeq).
  destruct (dec_digits_ok D' ltac:(lia)) as (Hd & Hne & Hv).
  pose proof (format_short_spec (dec_digits D') (Z.of_nat (List.length (dec_digits D')) + q') Hne Hd) as Hf.
  destruct (format_short _ _) as [[ip frac] ex]. destruct Hf as (Hip & Hipd & Hfd & Hex & j & Hj & HM & HE).
  rewrite parse_float_text by done. eexists _, _. split; [reflexivity|].
  rewrite HM, Hv. split; [apply Z.mul_pos_pos; [done|apply Z.pow_pos_nonneg; lia]|].
  replace (exp_value ex - _) with (q' - j) by lia.
  rewrite HP by done. rewrite HDeq.
  pose proof (HP D' q' (q' - q) ltac:(lia)) as Hsc.
  by replace (q' - (q' - q)) with q in Hsc by lia.
Qed.

Lemma exact_decimal_value (m : positive) e :
  0 < (exact_decimal m e).1 /\ same_value (exact_decimal m e).1 (exact_decimal m e).2 m e.
Proof.
  unfold exact_decimal, same_value, dec_ratio, bin_ratio.
  destruct (Z.leb_spec 0 e); simpl.
  - split; [apply Z.mul_pos_pos; [lia|apply Z.pow_pos_nonneg; lia]|]. lia.
  - split; [apply Z.mul_pos_pos; [lia|apply Z.pow_pos_nonneg; lia]|].
    replace (0 <=? e) with false by (symmetry; apply Z.leb_gt; lia). simpl.
    change 10 with (5 * 2). rewrite Z.pow_mul_l. ring.
Qed.

(** A laid-out decimal near a finite [x] reads back as [x]. *)
Lemma repr_decimal_reads_back (x : float) s (m : positive) e D q :
  Prim2SF x = S754_finite s m e -> 0 < D -> near_value D q m e ->
  reads_back (repr_decimal s D q) x = true.
Proof.
  intros Hx HD Hnv.
  destruct (repr_decimal_parse (fun D q => near_value D q m e) s D q) as (M & E & Hp & HM & Heq);
    [intros; by apply near_value_scale|done|].
  apply reads_back_iff. exists (FLFinite s M E). split; [done|]. simpl. f_equal.
  apply (dec_float_near x s m e); [done|done|]. by apply Heq.
Qed.

Lemma first_some_in {X} (P : X -> Prop) (l : list (option X)) t :
  Forall (fun o => forall y, o = Some y -> P y) l -> first_some l = Some t -> P t.
Proof.
  induction 1 as [|[y|] l Hy _ IH]; simpl; [done| |done]. intros [= <-]. by apply Hy.
Qed.

Lemma candidate_reads_back neg x num den k n t :
  candidate neg x num den k n = Some t -> reads_back t x = true.
Proof.
  unfold candidate. destruct (scale10 num den (k - n)) as [a b]. cbv zeta.
  destruct (a mod b =? 0);
    [destruct (reads_back (repr_decimal neg (a / b) (k - n)) x) eqn:?; [|done]; by intros [= <-]|].
  destruct (reads_back (repr_decimal neg (a / b) (k - n)) x) eqn:?,
           (reads_back (repr_decimal neg (a / b + 1) (k - n)) x) eqn:?; try done;
    try destruct (_ || _); by intros [= <-].
Qed.

Lemma repr_finite_reads_back (x : float) s (m : positive) e :
  Prim2SF x = S754_finite s m e -> reads_back (repr_finite s m e x) x = true.
Proof.
  intros Hx. unfold repr_finite. destruct (bin_ratio m e) as [num den].
  destruct (first_some _) as [t|] eqn:Hf.
  - revert Hf. apply (first_some_in (fun t => reads_back t x = true)), List.Forall_forall.
    intros o (n & <- & _)%List.in_map_iff y.
    apply candidate_reads_back.
  - destruct (exact_decimal_value m e) as [HD Hsv].
    by apply (repr_decimal_reads_back x s m e), same_value_near.
Qed.

(** ** The text [repr] writes is a JSON number *)

Lemma dec_digits_fuel_lead f n acc :
  0 < n < 2 ^ Z.of_nat (S f) -> exists d t, dec_digits_fuel (S f) n acc = d :: t /\ d <> "0"%char.
Proof.
  revert n acc. induction f as [|f IH]; intros n acc Hn; rewrite dec_digits_fuel_S.
  - destruct (Z.ltb_spec n 10).
    + eexists _, _. split; [reflexivity|]. rewrite Z.mod_small by lia.
      intros Hd. apply (f_equal digit_val) in Hd. destruct (digit_char_ok n ltac:(lia)) as [_ ->] in Hd.
      change (digit_val "0"%char) with 0 in Hd. lia.
    + simpl in Hn. lia.
  - destruct (Z.ltb_spec n 10).
    + eexists _, _. split; [reflexivity|]. rewrite Z.mod_small by lia.
      intros Hd. apply (f_equal digit_val) in Hd. destruct (digit_char_ok n ltac:(lia)) as [_ ->] in Hd.
      change (digit_val "0"%char) with 0 in Hd. lia.
    + apply IH. split; [apply Z.div_str_pos; lia|]. apply Z.div_lt_upper_bound; [lia|].
      rewrite (Nat2Z.inj_succ (S f)), Z.pow_succ_r in Hn by lia. lia.
Qed.

Lemma dec_digits_lead n : 0 < n -> exists d t, dec_digits n = d :: t /\ d <> "0"%char.
Proof.
  intros Hn. apply dec_digits_fuel_lead. split; [done|].
  rewrite Nat2Z.inj_succ, Z2Nat.id by apply Z.log2_nonneg. apply Z.log2_spec. lia.
Qed.

Lemma format_short_json ds decpt :
  all_digits ds -> (exists d t, ds = d :: t /\ d <> "0"%char) ->
  let '(ip, frac, ex) := format_short ds decpt in json_numeral ip frac ex.
Proof.
  intros Hds (d & t & -> & Hd). pose proof Hds as Hds'. apply Forall_cons in Hds' as [Hd' Ht].
  unfold format_short, json_numeral. cbv zeta. set (n := Z.of_nat (List.length (d :: t))).
  pose proof (zeros_digits (- decpt)) as Hz0. pose proof (zeros_digits (decpt - n)) as Hz1.
  unfold all_digits in *.
  assert (n = 1 + Z.of_nat (List.length t)) as Hn by (unfold n; simpl; lia).
  destruct ((decpt <=? -4) || (16 <? decpt)).
  - destruct (exp_digits_spec (decpt - 1)) as (Hl & Hld & _). cbv zeta in Hl, Hld.
    split; [done|]. split; [by apply Forall_take|]. split; [right; simpl; congruence|].
    split; [|split; [exact Hl|exact Hld]].
    destruct (Z.leb_spec n 1); [done|]. destruct t; [simpl in Hn; lia|].
    split; [done|by apply Forall_drop].
  - destruct (Z.leb_spec decpt 0); [|destruct (Z.leb_spec n decpt)].
    + split; [done|]. split; [by repeat constructor|]. split; [by left|].
      split; [|done]. split; [by destruct (zeros (- decpt))|by apply Forall_app_2].
    + split; [done|]. split; [by apply Forall_app_2|]. split; [right; simpl; congruence|].
      split; [|done]. split; [done|by repeat constructor].
    + replace (Z.to_nat decpt) with (S (Z.to_nat (decpt - 1))) by lia. simpl.
      split; [done|]. split; [constructor; [done|by apply Forall_take]|]. split; [right; simpl; congruence|].
      split; [|done]. split; [|by apply Forall_drop].
      intros Hnil. apply (f_equal List.length) in Hnil. rewrite length_drop in Hnil. simpl in Hnil. lia.
Qed.

(** [repr_decimal] of a positive decimal is a JSON number. *)
Lemma repr_decimal_json neg D q :
  0 < D -> exists ip frac ex, repr_decimal neg D q = string_of_list_ascii (numeral_text neg ip frac ex) /\
                              json_numeral ip frac ex.
Proof.
  intros HD. unfold repr_decimal, strip_zeros.
  pose proof (strip_zeros_fuel_spec (S (Z.to_nat (Z.log2 D))) D q HD) as Hs.
  destruct (strip_zeros_fuel _ D q) as [D' q']. destruct Hs as (HD' & _ & _).
  destruct (dec_digits_ok D' ltac:(lia)) as (Hd & _ & _).
  pose proof (format_short_json (dec_digits D') (Z.of_nat (List.length (dec_digits D')) + q') Hd
                (dec_digits_lead D' HD')) as Hf.
  destruct (format_short _ _) as [[ip frac] ex]. by exists ip, frac, ex.
Qed.

(** A laid-out zero never reads back as a finite non-zero float. *)
Lemma repr_zero_reads_back (x : float) s (m : positive) e neg q :
  Prim2SF x = S754_finite s m e -> reads_back (repr_decimal neg 0 q) x = false.
Proof.
  intros Hx. destruct (reads_back _ x) eqn:Hr; [|done]. apply reads_back_iff in Hr as (l & Hp & Hl).
  unfold repr_decimal in Hp. change (strip_zeros 0 q) with (0, q) in Hp.
  change (dec_digits 0) with ["0"%char] in Hp. cbv iota beta in Hp.
  pose proof (format_short_spec ["0"%char] (Z.of_nat (List.length ["0"%char]) + q)
                ltac:(done) ltac:(by repeat constructor)) as Hf.
  destruct (format_short _ _) as [[ip frac] ex]. destruct Hf as (Hip & Hipd & Hfd & Hex & j & _ & HM & _).
  rewrite parse_float_text in Hp by done. injection Hp as <-. rewrite HM in Hl.
  change (digits_value 0 ["0"%char]) with 0 in Hl. rewrite Z.mul_0_l in Hl.
  injection Hl as <-. rewrite dec_float_sign in Hx.
  destruct neg; vm_compute in Hx; discriminate.
Qed.

Lemma scale10_pos num den q : 0 <= num -> 0 < den -> 0 <= (scale10 num den q).1 /\ 0 < (scale10 num den q).2.
Proof.
  intros Hn Hd. unfold scale10. destruct (Z.leb_spec 0 q); simpl.
  - split; [lia|]. apply Z.mul_pos_pos; [lia|]. apply Z.pow_pos_nonneg; lia.
  - split; [|lia]. apply Z.mul_nonneg_nonneg; [lia|]. apply Z.pow_nonneg; lia.
Qed.

(** A digit string [candidate] keeps is a positive decimal. *)
Lemma candidate_shape neg (x : float) s (m : positive) e num den k n t :
  Prim2SF x = S754_finite s m e -> 0 <= num -> 0 < den -> candidate neg x num den k n = Some t ->
  exists D, 0 < D /\ (D = (scale10 num den (k - n)).1 / (scale10 num den (k - n)).2 \/
                     D = (scale10 num den (k - n)).1 / (scale10 num den (k - n)).2 + 1) /\
            t = repr_decimal neg D (k - n).
Proof.
  intros Hx Hn Hd. unfold candidate. pose proof (scale10_pos num den (k - n) Hn Hd) as Hab.
  destruct (scale10 num den (k - n)) as [a b]. cbn [fst snd] in Hab |- *. cbv zeta.
  assert (0 <= a / b) by (apply Z.div_pos; lia).
  destruct (Z.eqb_spec (a / b) 0) as [H0|H0].
  - rewrite H0, (repr_zero_reads_back x s m e) by done.
    destruct (a mod b =? 0); [done|]. destruct (reads_back _ x); try done; intros [= <-]; exists 1; repeat split; first [lia|reflexivity].
  - destruct (a mod b =? 0), (reads_back (repr_decimal neg (a / b) (k - n)) x),
      (reads_back (repr_decimal neg (a / b + 1) (k - n)) x); try destruct (_ || _); try discriminate;
      intros [= <-]; eexists; (split; [|split; [|reflexivity]]); lia.
Qed.

(** [repr] of a finite non-zero float is [repr_decimal] of a positive decimal. *)
Lemma repr_finite_shape (x : float) s (m : positive) e :
  Prim2SF x = S754_finite s m e -> exists D q, 0 < D /\ repr_finite s m e x = repr_decimal s D q.
Proof.
  intros Hx. unfold repr_finite.
  assert (0 <= (bin_ratio m e).1 /\ 0 < (bin_ratio m e).2) as Hnd.
  { unfold bin_ratio. destruct (Z.leb_spec 0 e); simpl.
    - split; [|lia]. apply Z.mul_nonneg_nonneg; [lia|apply Z.pow_nonneg; lia].
    - split; [lia|]. apply Z.pow_pos_nonneg; lia. }
  destruct (bin_ratio m e) as [num den]. simpl in Hnd.
  destruct (first_some _) as [t|] eqn:Hf.
  - revert Hf. apply (first_some_in (fun t => exists D q, 0 < D /\ t = repr_decimal s D q)), List.Forall_forall.
    intros o (n' & <- & _)%List.in_map_iff y Hy.
    destruct (candidate_shape s x s m e num den _ _ y Hx (proj1 Hnd) (proj2 Hnd) Hy) as (D & HD & _ & ->).
    by exists D, (dec_exponent num den - Z.of_nat n').
  - exists (exact_decimal m e).1, (exact_decimal m e).2. split; [apply exact_decimal_value|done].
Qed.

(** The text [repr] writes for a finite float is a JSON number. *)
Lemma float_repr_json (x : float) :
  (forall s, Prim2SF x <> S754_infinity s) -> Prim2SF x <> S754_nan ->
  exists neg ip frac ex, float_repr x = string_of_list_ascii (numeral_text neg ip frac ex) /\
                         json_numeral ip frac ex.
Proof.
  intros Hinf Hnan. unfold float_repr. destruct (Prim2SF x) as [[]|s| |s m e] eqn:Hx.
  - exists true, ["0"%char], (Some ["0"%char]), None. split; [reflexivity|].
    repeat split; try done; repeat constructor; by left.
  - exists false, ["0"%char], (Some ["0"%char]), None. split; [reflexivity|].
    repeat split; try done; repeat constructor; by left.
  - by destruct (Hinf s).
  - done.
  - destruct (repr_finite_shape x s m e Hx) as (D & q & HD & ->).
    destruct (repr_decimal_json s D q HD) as (ip & frac & ex & -> & Hj). by exists s, ip, frac, ex.
Qed.

(** The outputs of CPython's [repr] on some well-known floats. *)
Example float_repr_examples :
  [float_repr 0.1; float_repr (0.1 + 0.2); float_repr 100; float_repr 1e16; float_repr 1e15;
   float_repr 1e-5; float_repr 0.0001; float_repr 1e23; float_repr 5e-324;
   float_repr 1.7976931348623157e308; float_repr (-12.5); float_repr (-0);
   float_repr (1 / 0); float_repr (0 / 0)]%float
  = ["0.1"; "0.30000000000000004"; "100.0"; "1e+16"; "1000000000000000.0";
     "1e-05"; "0.0001"; "1e+23"; "5e-324"; "1.7976931348623157e+308"; "-12.5"; "-0.0";
     "inf"; "nan"]%string.
Proof. vm_compute. reflexivity. Qed.

Ltac special_float x v :=
  replace x with v by (apply prim2sf_inj; match goal with H : Prim2SF x = _ |- _ => rewrite H end;
                                 reflexivity);
  vm_compute; reflexivity.

(** [repr] reads back to the float it was printed from. *)
Lemma repr_reads_back (x : float) : reads_back (float_repr x) x = true.
Proof.
  unfold float_repr. destruct (Prim2SF x) as [[]|[]| |s m e] eqn:Hx.
  - special_float x (-0)%float.
  - special_float x 0%float.
  - special_float x (-1 / 0)%float.
  - special_float x (1 / 0)%float.
  - special_float x (0 / 0)%float.
  - by apply repr_finite_reads_back.
Qed.

(** Float() reads the text repr() (and so json.dump) writes for any
    binary64 value back as that value, bit for bit, -0.0, infinities and nan
    included. *)
Theorem float_repr_roundtrip (x : float) :
  exists l, parse_float (float_repr x) = Some l /\ num_of_lit l = Some x.
Proof. apply reads_back_iff, repr_reads_back. Qed.
