(* ===== verification/ReprDigits.v ===== *)
(** * ReprDigits: [repr()] of a float never needs more than 17 digits

    [FloatRepr.repr_finite] tries the decimals of [n = 1 .. 17]
    significant digits around [x] and falls back on the exact decimal
    expansion of [x].  This file proves that the fallback is never
    reached: the two 17-digit decimals around a finite [x] are at most
    [10^(k-17)] apart (with [10^(k-1) <= x < 10^k]), less than a unit
    [2^e] of [x] since [2^53 < 10^16], so the nearer one is within half a
    unit of [x] and [float()] reads it back as [x]
    ([Binary64.dec_float_near]).  So [repr] of a finite float prints
    the leading [n <= 17] digits of [x], rounded down or up, at the
    decimal exponent of [x], as CPython's [float_repr] does. *)

From stdpp Require Import base list strings.
From Stdlib Require Import ZArith Lia Floats Uint63 Ascii String.
From S2P Require Import Prelude Amount PyFloat Format Binary64 FloatRepr.

Local Open Scope Z_scope.

(** ** The number of digits and the decimal exponent *)

Lemma digit_val_range c : is_digit c = true -> 0 <= digit_val c < 10.
Proof.
  unfold is_digit, digit_val. intros [H1 H2]%andb_prop.
  apply Nat.leb_le in H1, H2. lia.
Qed.

Lemma digits_value_range v l :
  all_digits l -> 0 <= v ->
  v * 10 ^ Z.of_nat (List.length l) <= digits_value v l < (v + 1) * 10 ^ Z.of_nat (List.length l).
Proof.
  intros Hl. revert v. induction Hl as [|c l Hc _ IH]; intros v Hv; [simpl; lia|].
  pose proof (digit_val_range c Hc). unfold digits_value; simpl fold_left.
  fold (digits_value (v * 10 + digit_val c) l).
  specialize (IH (v * 10 + digit_val c) ltac:(lia)).
  rewrite length_cons, Nat2Z.inj_succ, Z.pow_succ_r by lia.
  assert (0 < 10 ^ Z.of_nat (List.length l)) by (apply Z.pow_pos_nonneg; lia). nia.
Qed.

(** [ndigits z] is the number of decimal digits of [z > 0]. *)
Lemma ndigits_spec z : 0 < z -> 10 ^ (ndigits z - 1) <= z < 10 ^ ndigits z.
Proof.
  intros Hz. destruct (dec_digits_ok z ltac:(lia)) as (Hd & _ & Hv).
  destruct (dec_digits_lead z Hz) as (c & t & Ht & Hc0). unfold ndigits. rewrite Ht in Hd, Hv |- *.
  apply Forall_cons in Hd as [Hc Hdt]. pose proof (digit_val_range c Hc).
  assert (digit_val c <> 0).
  { intros H0. apply Hc0. unfold digit_val in H0. assert (nat_of_ascii c = 48%nat) as Hn by lia.
    by rewrite <- (ascii_nat_embedding c), Hn. }
  unfold digits_value in Hv; simpl fold_left in Hv. fold (digits_value (0 * 10 + digit_val c) t) in Hv.
  pose proof (digits_value_range (0 * 10 + digit_val c) t Hdt ltac:(lia)) as Hr. rewrite Hv in Hr.
  rewrite length_cons, Nat2Z.inj_succ. replace (Z.succ (Z.of_nat (List.length t)) - 1) with (Z.of_nat (List.length t)) by lia.
  rewrite Z.pow_succ_r by lia. nia.
Qed.

Lemma ndigits_pos z : 0 < z -> 1 <= ndigits z.
Proof.
  intros Hz. pose proof (ndigits_spec z Hz) as [_ H].
  destruct (Z.le_gt_cases 1 (ndigits z)) as [|Hl]; [done|].
  assert (10 ^ ndigits z <= 1); [|lia].
  destruct (Z.eq_dec (ndigits z) 0) as [->|]; [done|]. rewrite Z.pow_neg_r; lia.
Qed.

(** [num / den * 10^-(q - j)] is [10^j] times [num / den * 10^-q]. *)
Lemma scale10_sub num den q j :
  0 <= j ->
  (scale10 num den (q - j)).1 * (scale10 num den q).2 = 10 ^ j * (scale10 num den q).1 * (scale10 num den (q - j)).2.
Proof.
  intros Hj. unfold scale10.
  destruct (Z.leb_spec 0 (q - j)), (Z.leb_spec 0 q); simpl; try lia.
  - assert (10 ^ q = 10 ^ j * 10 ^ (q - j)) as -> by (rewrite <- Z.pow_add_r by lia; f_equal; lia). ring.
  - assert (10 ^ j = 10 ^ (- (q - j)) * 10 ^ q) as -> by (rewrite <- Z.pow_add_r by lia; f_equal; lia). ring.
  - replace (- (q - j)) with (j + - q) by lia. rewrite Z.pow_add_r by lia. ring.
Qed.

(** [dec_exponent] finds [k] with [10^(k-1) <= num / den < 10^k]. *)
Lemma dec_exponent_spec num den :
  0 < num -> 0 < den ->
  (scale10 num den (dec_exponent num den)).2 <= 10 * (scale10 num den (dec_exponent num den)).1 /\
  (scale10 num den (dec_exponent num den)).1 < (scale10 num den (dec_exponent num den)).2.
Proof.
  intros Hn Hd. pose proof (ndigits_spec num Hn) as Hn'. pose proof (ndigits_spec den Hd) as Hd'.
  pose proof (ndigits_pos num Hn). pose proof (ndigits_pos den Hd).
  unfold dec_exponent. set (L1 := ndigits num) in *. set (L2 := ndigits den) in *. set (k0 := L1 - L2).
  assert ((scale10 num den k0).2 < 10 * (scale10 num den k0).1 /\
          (scale10 num den k0).1 < 10 * (scale10 num den k0).2) as B0.
  { assert (10 ^ L1 = 10 * 10 ^ (L1 - 1)) as E1 by (rewrite <- Z.pow_succ_r by lia; f_equal; lia).
    assert (10 ^ L2 = 10 * 10 ^ (L2 - 1)) as E2 by (rewrite <- Z.pow_succ_r by lia; f_equal; lia).
    unfold scale10, k0. destruct (Z.leb_spec 0 (L1 - L2)); simpl.
    - assert (10 ^ L1 = 10 ^ (L1 - L2) * 10 ^ L2) as E by (rewrite <- Z.pow_add_r by lia; f_equal; lia).
      assert (0 < 10 ^ (L1 - L2)) by (apply Z.pow_pos_nonneg; lia). nia.
    - assert (10 ^ L2 = 10 ^ L1 * 10 ^ (- (L1 - L2))) as E by (rewrite <- Z.pow_add_r by lia; f_equal; lia).
      assert (0 < 10 ^ (- (L1 - L2))) by (apply Z.pow_pos_nonneg; lia). nia. }
  pose proof (scale10_pos num den k0 ltac:(lia) Hd) as [Ha0 Hb0].
  destruct (scale10 num den k0) as [a0 b0] eqn:E0. simpl in *.
  destruct (Z.leb_spec b0 a0); [|rewrite E0; simpl; lia].
  pose proof (scale10_sub num den (k0 + 1) 1 ltac:(lia)) as Hs. replace (k0 + 1 - 1) with k0 in Hs by lia.
  rewrite E0 in Hs. simpl in Hs. pose proof (scale10_pos num den (k0 + 1) ltac:(lia) Hd) as [Ha1 Hb1].
  split; nia.
Qed.

(** At [n] digits below the decimal exponent, [num / den] scaled by
    [10^-(k - n)] is in [[10^(n-1), 10^n)]. *)
Lemma scale10_digits num den n :
  0 < num -> 0 < den -> 0 <= n ->
  10 ^ n * (scale10 num den (dec_exponent num den - n)).2 <= 10 * (scale10 num den (dec_exponent num den - n)).1 /\
  (scale10 num den (dec_exponent num den - n)).1 < 10 ^ n * (scale10 num den (dec_exponent num den - n)).2.
Proof.
  intros Hn Hd Hj. pose proof (dec_exponent_spec num den Hn Hd) as [H1 H2].
  pose proof (scale10_sub num den (dec_exponent num den) n Hj) as Hs.
  pose proof (scale10_pos num den (dec_exponent num den) ltac:(lia) Hd) as [_ HB].
  pose proof (scale10_pos num den (dec_exponent num den - n) ltac:(lia) Hd) as [_ Hb].
  assert (0 < 10 ^ n) by (apply Z.pow_pos_nonneg; lia).
  set (A := (scale10 num den (dec_exponent num den)).1) in *. set (B := (scale10 num den (dec_exponent num den)).2) in *.
  set (a := (scale10 num den (dec_exponent num den - n)).1) in *. set (b := (scale10 num den (dec_exponent num den - n)).2) in *.
  split; nia.
Qed.

Lemma bin_ratio_pos (m : positive) e : 0 < (bin_ratio m e).1 /\ 0 < (bin_ratio m e).2.
Proof.
  unfold bin_ratio. destruct (Z.leb_spec 0 e); simpl; split; lia.
Qed.

(** The decimal over [2^e] times [m * 2^e] over [10^q] is [D * m]. *)
Lemma ratio_product D q (m : positive) e :
  (scale2 (dec_ratio D q).1 (dec_ratio D q).2 e).1 * (scale10 (bin_ratio m e).1 (bin_ratio m e).2 q).1
  = D * Zpos m * (scale2 (dec_ratio D q).1 (dec_ratio D q).2 e).2 * (scale10 (bin_ratio m e).1 (bin_ratio m e).2 q).2.
Proof.
  unfold scale2, scale10, dec_ratio, bin_ratio.
  destruct (Z.leb_spec 0 q), (Z.leb_spec 0 e), (Z.ltb_spec e 0); simpl; try lia; ring.
Qed.

(** A decimal [D * 10^q] within half of [10^q] of a finite [x] with at
    least 17 digits above [10^q] is near [x]: [10^q] is less than a
    unit of [x], and less than half a unit at the bottom of a binade. *)
Lemma decimal_near (x : float) s (m : positive) e D q :
  Prim2SF x = S754_finite s m e ->
  10 ^ 16 * (scale10 (bin_ratio m e).1 (bin_ratio m e).2 q).2 <= (scale10 (bin_ratio m e).1 (bin_ratio m e).2 q).1 ->
  0 < D ->
  2 * Z.abs (D * (scale10 (bin_ratio m e).1 (bin_ratio m e).2 q).2 - (scale10 (bin_ratio m e).1 (bin_ratio m e).2 q).1)
    <= (scale10 (bin_ratio m e).1 (bin_ratio m e).2 q).2 ->
  near_value D q m e.
Proof.
  intros Hx Hab HD Hnear. destruct (prim2sf_canonical x s m e Hx) as (_ & Hm & _).
  pose proof (ratio_product D q m e) as Hp.
  pose proof (scale2_den_pos (dec_ratio D q).1 _ e (proj2 (dec_ratio_pos D q HD))) as Hd.
  pose proof (scale10_pos (bin_ratio m e).1 (bin_ratio m e).2 q ltac:(pose proof (bin_ratio_pos m e); lia)
                (proj2 (bin_ratio_pos m e))) as [_ Hb].
  unfold near_value, near_at.
  set (n := (scale2 _ _ e).1) in *. set (d := (scale2 _ _ e).2) in *.
  set (a := (scale10 _ _ q).1) in *. set (b := (scale10 _ _ q).2) in *.
  assert (2 ^ 53 < 10 ^ 16) by reflexivity.
  assert (0 < a) by nia. assert (Zpos m * b < a) by nia.
  assert ((n - Zpos m * d) * a = Zpos m * d * (D * b - a)) as HX by (rewrite Z.mul_sub_distr_r, Hp; ring).
  assert (Z.abs (2 * (n - Zpos m * d) * a) <= Zpos m * d * b) as Habs.
  { rewrite <- Z.mul_assoc, HX, !Z.abs_mul. rewrite (Z.abs_eq (Zpos m)), (Z.abs_eq d), Z.abs_eq by lia. nia. }
  split.
  - assert (Z.abs (2 * (n - Zpos m * d)) * a < d * a) as Hl by (rewrite <- (Z.abs_eq a) at 1 by lia; rewrite <- Z.abs_mul; nia).
    assert (Z.abs (2 * (n - Zpos m * d)) < d) by nia. lia.
  - intros HM _ Hlt. rewrite HM in *.
    assert (4 * (2 ^ 52 * d - n) * a <= 2 ^ 53 * d * b) by nia.
    assert (4 * (2 ^ 52 * d - n) * a < d * a) by nia. nia.
Qed.

Lemma first_some_In {X} (l : list (option X)) t : first_some l = Some t -> List.In (Some t) l.
Proof. induction l as [|[y|] l IH]; simpl; [done|intros [= ->]; by left|intros; right; auto]. Qed.

Lemma first_some_None {X} (l : list (option X)) o : first_some l = None -> List.In o l -> o = None.
Proof. induction l as [|[y|] l IH]; simpl; [done|done|]. intros Hf [<-|Hin]; auto. Qed.

(** The nearer of the two 17-digit decimals around a finite [x] reads
    back as [x], so the search at 17 digits finds a string. *)
Lemma candidate_17 (x : float) s (m : positive) e :
  Prim2SF x = S754_finite s m e ->
  candidate s x (bin_ratio m e).1 (bin_ratio m e).2 (dec_exponent (bin_ratio m e).1 (bin_ratio m e).2) 17 <> None.
Proof.
  intros Hx. destruct (bin_ratio_pos m e) as [Hn Hd].
  pose proof (scale10_digits _ _ 17 Hn Hd ltac:(lia)) as [H1 H2].
  pose proof (fun D => decimal_near x s m e D (dec_exponent (bin_ratio m e).1 (bin_ratio m e).2 - 17) Hx) as Hnear.
  pose proof (scale10_pos (bin_ratio m e).1 (bin_ratio m e).2 (dec_exponent (bin_ratio m e).1 (bin_ratio m e).2 - 17)
                ltac:(lia) Hd) as [Ha Hb].
  unfold candidate. set (q := dec_exponent _ _ - 17) in *.
  destruct (scale10 _ _ q) as [a b]. cbn [fst snd] in *. cbv zeta.
  assert (10 ^ 16 * b <= a) as H16 by (change (10 ^ 17) with (10 * 10 ^ 16) in H1; lia).
  pose proof (Z.div_mod a b ltac:(lia)) as Hdm. pose proof (Z.mod_pos_bound a b ltac:(lia)) as Hr.
  assert (10 ^ 16 <= a / b) by (apply Z.div_le_lower_bound; lia).
  set (fl := a / b) in *. set (r := a mod b) in *.
  assert (2 * r <= b -> reads_back (repr_decimal s fl q) x = true) as Htf.
  { intros. apply (repr_decimal_reads_back x s m e); [done|lia|]. apply Hnear; [done|lia|nia]. }
  assert (b <= 2 * r -> reads_back (repr_decimal s (fl + 1) q) x = true) as Htc.
  { intros. apply (repr_decimal_reads_back x s m e); [done|lia|]. apply Hnear; [done|lia|nia]. }
  destruct (Z.eqb_spec r 0) as [Hr0|Hr0]; [rewrite Htf by lia; discriminate|].
  destruct (Z.le_gt_cases (2 * r) b).
  - rewrite Htf by done. destruct (reads_back (repr_decimal s (fl + 1) q) x); [destruct (_ || _)|]; discriminate.
  - rewrite Htc by lia. destruct (reads_back (repr_decimal s fl q) x); [destruct (_ || _)|]; discriminate.
Qed.

(** ** [repr] prints at most 17 significant digits *)

(** C40: repr() of any finite non-zero float, the text json.dump writes for an
    amount, is a decimal of at most 17 significant digits, the leading digits
    of x rounded down or up at its decimal exponent: the nearer 17-digit
    decimal always reads back, so the exact-expansion fallback is never
    reached. *)
Theorem float_repr_17_digits (x : float) s (m : positive) e :
  Prim2SF x = S754_finite s m e ->
  exists n D, 1 <= n <= 17 /\ 10 ^ (n - 1) <= D <= 10 ^ n /\
    float_repr x = repr_decimal s D (dec_exponent (bin_ratio m e).1 (bin_ratio m e).2 - n).
Proof.
  intros Hx. pose proof (candidate_17 x s m e Hx) as H17. pose proof (bin_ratio_pos m e) as Hnd.
  unfold float_repr, repr_finite. rewrite Hx. revert H17 Hnd.
  destruct (bin_ratio m e) as [num den]. cbn [fst snd]. intros H17 [Hn Hd].
  destruct (first_some _) as [t|] eqn:Hf.
  - apply first_some_In, List.in_map_iff in Hf as (n & Hc & Hin%List.in_seq).
    destruct (candidate_shape s x s m e num den _ _ t Hx ltac:(lia) Hd Hc) as (D & HD & Hdisj & ->).
    pose proof (scale10_digits num den (Z.of_nat n) Hn Hd ltac:(lia)) as [H1 H2].
    pose proof (scale10_pos num den (dec_exponent num den - Z.of_nat n) ltac:(lia) Hd) as [Ha Hb].
    set (a := (scale10 _ _ _).1) in *. set (b := (scale10 _ _ _).2) in *.
    assert (10 ^ Z.of_nat n = 10 * 10 ^ (Z.of_nat n - 1)) as E by (rewrite <- Z.pow_succ_r by lia; f_equal; lia).
    assert (10 ^ (Z.of_nat n - 1) <= a / b) by (apply Z.div_le_lower_bound; lia).
    assert (a / b < 10 ^ Z.of_nat n) by (apply Z.div_lt_upper_bound; lia).
    exists (Z.of_nat n), D. split; [lia|split; [lia|done]].
  - exfalso. apply H17. apply (first_some_None _ _ Hf), List.in_map_iff. exists 17%nat.
    split; [reflexivity|]. apply List.in_seq. lia.
Qed.
