(* ===== verification/TextIO.v ===== *)
(** * TextIO: reading and writing the data file as UTF-8 text

    [load_data] opens [expenses.json] with [open(self.data_file, "r")]
    (Expense_Calculator.py line 23) and [json.load] calls [file.read()];
    [save_data] opens it with ["w"] (line 31) and [json.dump] calls
    [file.write] on each piece of text.  A text file in CPython is a
    [TextIOWrapper] over the bytes: with the locale's encoding, UTF-8 on a
    POSIX system in a UTF-8 locale, and universal newlines.  [read()]
    decodes all the bytes at once ([final=True]) with the strict UTF-8
    decoder of [Objects/stringlib/codecs.h] and [unicode_decode_utf8],
    raising [UnicodeDecodeError] at the first ill-formed sequence, then
    turns ["\r\n"] and ["\r"] into ["\n"]; [write()] leaves ["\n"] alone
    on POSIX and encodes with the UTF-8 encoder.

    Bytes are [ascii] characters (eight bits), a file's content a
    [string]; text is a list of code points ([Z]). *)

From stdpp Require Import base list strings.
From Stdlib Require Import ZArith Lia Ascii String.
From S2P Require Import Prelude Format.

Local Open Scope Z_scope.

Definition byte_val (b : ascii) : Z := Z.of_nat (nat_of_ascii b).
Definition byte_of (z : Z) : ascii := ascii_of_nat (Z.to_nat z).

(** A Python [str] of the model as its code points: the characters of the
    model's strings are the code points [0 .. 255]. *)
Definition text (s : string) : list Z := map byte_val (list_ascii_of_string s).

(** [IS_CONTINUATION_BYTE]. *)
Definition is_cont (b : Z) : bool := (0x80 <=? b) && (b <=? 0xBF).

(** The length of the sequence a leading byte starts, [0] for a byte
    that starts none ([< 0xC2] but not ASCII, or [>= 0xF5]). *)
Definition seq_len (b0 : Z) : nat :=
  if b0 <? 0x80 then 1
  else if b0 <? 0xC2 then 0
  else if b0 <? 0xE0 then 2
  else if b0 <? 0xF0 then 3
  else if b0 <? 0xF5 then 4
  else 0.

(** The second byte of a sequence: a continuation byte, narrowed after
    [E0] (no overlong form), [ED] (no surrogate), [F0] (no overlong form)
    and [F4] (nothing above [U+10FFFF]). *)
Definition second_ok (b0 b1 : Z) : bool :=
  is_cont b1 && negb (if b1 <? 0xA0 then b0 =? 0xE0 else b0 =? 0xED)
             && negb (if b1 <? 0x90 then b0 =? 0xF0 else b0 =? 0xF4).

(** The code point of a complete sequence, as the decoder computes it. *)
Definition utf8_value (bs : list Z) : Z :=
  match bs with
  | [b0; b1] => Z.shiftl b0 6 + b1 - (Z.shiftl 0xC0 6 + 0x80)
  | [b0; b1; b2] => Z.shiftl b0 12 + Z.shiftl b1 6 + b2
                    - (Z.shiftl 0xE0 12 + Z.shiftl 0x80 6 + 0x80)
  | [b0; b1; b2; b3] => Z.shiftl b0 18 + Z.shiftl b1 12 + Z.shiftl b2 6 + b3
                        - (Z.shiftl 0xF0 18 + Z.shiftl 0x80 12 + Z.shiftl 0x80 6 + 0x80)
  | [b0] => b0
  | _ => 0
  end.

(** Why a sequence does not decode. *)
Inductive utf8_err : Type :=
| InvalidStart                   (** "invalid start byte" *)
| InvalidContinuation (k : nat)  (** "invalid continuation byte", the [k]-th after the first *)
| EndOfData.                     (** "unexpected end of data" *)

(** The following bytes of a sequence of [n] bytes led by [b0]: checked in
    order, the first bad one is the error; running out of input first is
    the end of data. *)
Fixpoint check_tail (b0 : Z) (k n : nat) (bs : list Z) : utf8_err + (list Z * list Z) :=
  match n with
  | O => inr ([], bs)
  | S n' =>
      match bs with
      | [] => inl EndOfData
      | b :: r =>
          if (if (k =? 1)%nat then second_ok b0 b else is_cont b) then
            match check_tail b0 (S k) n' r with
            | inr (xs, rest) => inr (b :: xs, rest)
            | inl e => inl e
            end
          else inl (InvalidContinuation k)
      end
  end.

(** One code point from the front of [bs]. *)
Definition decode_one (b0 : Z) (bs : list Z) : utf8_err + (Z * list Z) :=
  match seq_len b0 with
  | O => inl InvalidStart
  | S n => match check_tail b0 1 n bs with
           | inr (xs, rest) => inr (utf8_value (b0 :: xs), rest)
           | inl e => inl e
           end
  end.

(** The [UnicodeDecodeError]: where it starts and ends in the bytes. *)
Record decode_error := mkDecodeError { de_start : Z; de_end : Z; de_reason : utf8_err }.

(** The decoder over the whole content, [pos] the offset of [bs]. *)
Fixpoint decode_from (fuel : nat) (pos size : Z) (bs : list Z) : decode_error + list Z :=
  match fuel, bs with
  | _, [] => inr []
  | O, _ :: _ => inr []
  | S f, b0 :: r =>
      match decode_one b0 r with
      | inr (c, rest) =>
          match decode_from f (size - Z.of_nat (List.length rest)) size rest with
          | inr cs => inr (c :: cs)
          | inl e => inl e
          end
      | inl EndOfData => inl (mkDecodeError pos size EndOfData)
      | inl InvalidStart => inl (mkDecodeError pos (pos + 1) InvalidStart)
      | inl (InvalidContinuation k) => inl (mkDecodeError pos (pos + Z.of_nat k) (InvalidContinuation k))
      end
  end.

(** [UnicodeDecodeError.__str__]: one byte, or a range of positions. *)
Definition reason_text (e : utf8_err) : string :=
  match e with
  | InvalidStart => "invalid start byte"
  | InvalidContinuation _ => "invalid continuation byte"
  | EndOfData => "unexpected end of data"
  end.

Definition hex2 (b : Z) : string :=
  string_of_list_ascii [hex_digit (Z.to_nat (b / 16)); hex_digit (Z.to_nat (b mod 16))].

Definition dec_text (n : Z) : string := string_of_list_ascii (dec_digits n).

Definition decode_message (bs : list Z) (e : decode_error) : string :=
  let size := Z.of_nat (List.length bs) in
  if (de_start e <? size) && (de_end e =? de_start e + 1) then
    "'utf-8' codec can't decode byte 0x" ++ hex2 (nth (Z.to_nat (de_start e)) bs 0)
      ++ " in position " ++ dec_text (de_start e) ++ ": " ++ reason_text (de_reason e)
  else
    "'utf-8' codec can't decode bytes in position " ++ dec_text (de_start e) ++ "-"
      ++ dec_text (de_end e - 1) ++ ": " ++ reason_text (de_reason e).

(** Universal newlines: ["\r\n"] and a lone ["\r"] read as ["\n"]. *)
Fixpoint translate_newlines (cs : list Z) : list Z :=
  match cs with
  | [] => []
  | c :: r =>
      if c =? 13 then
        10 :: match r with
              | c' :: r' => if c' =? 10 then translate_newlines r' else translate_newlines r
              | [] => []
              end
      else c :: translate_newlines r
  end.

(** [file.read()] on a file opened with ["r"]: the text, or the message of
    the [UnicodeDecodeError]. *)
Definition read_text (content : string) : string + list Z :=
  let bs := map byte_val (list_ascii_of_string content) in
  match decode_from (List.length bs) 0 (Z.of_nat (List.length bs)) bs with
  | inr cs => inr (translate_newlines cs)
  | inl e => inl (decode_message bs e)
  end.

(** The UTF-8 encoder; a surrogate does not encode. *)
Definition utf8_encode_char (c : Z) : option (list Z) :=
  if c <? 0x80 then Some [c]
  else if c <? 0x800 then Some [Z.lor 0xC0 (Z.shiftr c 6); Z.lor 0x80 (Z.land c 0x3F)]
  else if (0xD800 <=? c) && (c <=? 0xDFFF) then None
  else if c <? 0x10000 then
    Some [Z.lor 0xE0 (Z.shiftr c 12); Z.lor 0x80 (Z.land (Z.shiftr c 6) 0x3F);
          Z.lor 0x80 (Z.land c 0x3F)]
  else
    Some [Z.lor 0xF0 (Z.shiftr c 18); Z.lor 0x80 (Z.land (Z.shiftr c 12) 0x3F);
          Z.lor 0x80 (Z.land (Z.shiftr c 6) 0x3F); Z.lor 0x80 (Z.land c 0x3F)].

Fixpoint utf8_encode (cs : list Z) : option (list Z) :=
  match cs with
  | [] => Some []
  | c :: r => match utf8_encode_char c, utf8_encode r with
              | Some b, Some bs => Some (b ++ bs)
              | _, _ => None
              end
  end.

(** [file.write(text)] on a file opened with ["w"]: the bytes, [None] for a
    [UnicodeEncodeError]. *)
Definition write_text (cs : list Z) : option string :=
  match utf8_encode cs with
  | Some bs => Some (string_of_list_ascii (map byte_of bs))
  | None => None
  end.

(** A Unicode scalar value: a code point that is not a surrogate. *)
Definition scalar (c : Z) : Prop := 0 <= c <= 0x10FFFF /\ ~ (0xD800 <= c <= 0xDFFF).
(** ** Encoded code points decode back *)

Lemma byte_val_of (b : Z) : 0 <= b < 256 -> byte_val (byte_of b) = b.
Proof.
  intros Hb. unfold byte_val, byte_of. rewrite nat_ascii_embedding by lia. lia.
Qed.

Lemma decode_one_1 (c : Z) rest : 0 <= c < 0x80 -> decode_one c rest = inr (c, rest).
Proof. intros Hc. unfold decode_one, seq_len. zif. reflexivity. Qed.

Ltac decode_tac :=
  unfold decode_one, seq_len; zif; cbn [check_tail app Nat.eqb]; unfold second_ok, is_cont; zif;
  cbn [utf8_value]; rewrite !Z.shiftl_mul_pow2 by lia; f_equal; f_equal; lia.

Lemma decode_one_2 (x y : Z) rest :
  2 <= x < 32 -> 0 <= y < 64 ->
  decode_one (0xC0 + x) ((0x80 + y) :: rest) = inr (64 * x + y, rest).
Proof. intros Hx Hy. decode_tac. Qed.

Lemma decode_one_3 (x y z : Z) rest :
  0 <= x < 16 -> 0 <= y < 64 -> 0 <= z < 64 -> scalar (4096 * x + 64 * y + z) ->
  0x800 <= 4096 * x + 64 * y + z ->
  decode_one (0xE0 + x) ((0x80 + y) :: (0x80 + z) :: rest) = inr (4096 * x + 64 * y + z, rest).
Proof. intros Hx Hy Hz [Hs1 Hs2] Hlo. decode_tac. Qed.

Lemma decode_one_4 (w x y z : Z) rest :
  0 <= w < 8 -> 0 <= x < 64 -> 0 <= y < 64 -> 0 <= z < 64 ->
  scalar (262144 * w + 4096 * x + 64 * y + z) -> 0x10000 <= 262144 * w + 4096 * x + 64 * y + z ->
  decode_one (0xF0 + w) ((0x80 + x) :: (0x80 + y) :: (0x80 + z) :: rest)
  = inr (262144 * w + 4096 * x + 64 * y + z, rest).
Proof. intros Hw Hx Hy Hz [Hs1 Hs2] Hlo. decode_tac. Qed.

(** The bytes the encoder writes for a scalar value, and that they decode
    back to it. *)
Lemma encode_decode_char (c : Z) rest :
  scalar c ->
  exists b0 bs, utf8_encode_char c = Some (b0 :: bs) /\
                Forall (fun b => 0 <= b < 256) (b0 :: bs) /\
                decode_one b0 (bs ++ rest) = inr (c, rest).
Proof.
  intros Hc. pose proof Hc as [Hc1 Hc2].
  assert (c = 262144 * (c / 262144) + 4096 * ((c / 4096) mod 64) + 64 * ((c / 64) mod 64) + c mod 64 /\
          c = 4096 * (c / 4096) + 64 * ((c / 64) mod 64) + c mod 64 /\ c = 64 * (c / 64) + c mod 64)
    as (E4 & E3 & E2).
  { pose proof (Z.div_div c 64 64 ltac:(lia) ltac:(lia)) as H1.
    pose proof (Z.div_div c 4096 64 ltac:(lia) ltac:(lia)) as H2. simpl in H1, H2.
    Z.div_mod_to_equations. lia. }
  assert (0 <= (c / 4096) mod 64 < 64 /\ 0 <= (c / 64) mod 64 < 64 /\ 0 <= c mod 64 < 64 /\
          0 <= c / 64 /\ 0 <= c / 4096 /\ 0 <= c / 262144) as (B1 & B2 & B3 & B4 & B5 & B6)
    by (Z.div_mod_to_equations; lia).
  unfold utf8_encode_char. rewrite !Z.shiftr_div_pow2 by lia.
  change 0x3F with (Z.ones 6). rewrite !Z.land_ones by lia.
  change (2 ^ 6) with 64. change (2 ^ 12) with 4096. change (2 ^ 18) with 262144.
  zif; first
    [ eexists _, []; split; [reflexivity|]; split; [repeat constructor; lia|]; apply decode_one_1; lia
    | rewrite (lor_lead 0xC0 _ 5), (lor_lead 0x80 _ 6) by (reflexivity || (cbn; lia));
      eexists _, [_]; split; [reflexivity|]; split; [repeat constructor; lia|];
      rewrite E2 at 3; apply decode_one_2; lia
    | rewrite (lor_lead 0xE0 _ 4), !(lor_lead 0x80 _ 6) by (reflexivity || (cbn; lia));
      eexists _, [_; _]; split; [reflexivity|]; split; [repeat constructor; lia|];
      rewrite E3 at 4; apply decode_one_3; unfold scalar; lia
    | rewrite (lor_lead 0xF0 _ 3), !(lor_lead 0x80 _ 6) by (reflexivity || (cbn; lia));
      eexists _, [_; _; _]; split; [reflexivity|]; split; [repeat constructor; lia|];
      rewrite E4 at 5; apply decode_one_4; unfold scalar; lia ].
Qed.

Lemma decode_encode (cs bs : list Z) f pos size :
  Forall scalar cs -> utf8_encode cs = Some bs -> (List.length bs <= f)%nat ->
  Forall (fun b => 0 <= b < 256) bs /\ decode_from f pos size bs = inr cs.
Proof.
  revert bs f pos. induction cs as [|c cs IH]; intros bs f pos Hs He Hf.
  { injection He as <-. split; [constructor|]. by destruct f. }
  apply Forall_cons in Hs as [Hc Hs]. cbn [utf8_encode] in He.
  destruct (encode_decode_char c (match utf8_encode cs with Some r => r | None => [] end) Hc)
    as (b0 & bc & Henc & Hb & Hdec).
  rewrite Henc in He. destruct (utf8_encode cs) as [br|] eqn:Hr; [|done]. injection He as <-.
  destruct f as [|f]; [simpl in Hf; lia|]. cbn [List.length] in Hf. rewrite length_app in Hf.
  destruct (IH br f (size - Z.of_nat (List.length br)) Hs eq_refl ltac:(simpl in Hf; lia)) as [Hbr Hd].
  split; [rewrite app_comm_cons; by apply Forall_app_2|].
  cbn [app decode_from]. rewrite Hdec, Hd. reflexivity.
Qed.

Lemma bytes_roundtrip (bs : list Z) :
  Forall (fun b => 0 <= b < 256) bs ->
  map byte_val (list_ascii_of_string (string_of_list_ascii (map byte_of bs))) = bs.
Proof.
  intros Hb. rewrite list_ascii_of_string_of_list_ascii, map_map.
  induction Hb as [|b bs Hb _ IH]; [done|]. simpl. by rewrite byte_val_of, IH.
Qed.

(** Text written to a file with [write] reads back with [read] as the
    same code points, line ends translated. *)
Lemma write_read_text (cs : list Z) :
  Forall scalar cs -> exists t, write_text cs = Some t /\ read_text t = inr (translate_newlines cs).
Proof.
  intros Hs. unfold write_text.
  destruct (utf8_encode cs) as [bs|] eqn:He.
  - destruct (decode_encode cs bs (List.length bs) 0 (Z.of_nat (List.length bs)) Hs He (le_n _)) as [Hb Hd].
    eexists. split; [reflexivity|]. unfold read_text. rewrite bytes_roundtrip by done. by rewrite Hd.
  - exfalso. revert He. induction Hs as [|c cs Hc _ IH]; [done|]. cbn [utf8_encode]. intros He.
    destruct (encode_decode_char c [] Hc) as (? & ? & Hce & _). rewrite Hce in He.
    destruct (utf8_encode cs); [done|auto].
Qed.

Lemma translate_no_cr (cs : list Z) : Forall (fun c => c <> 13) cs -> translate_newlines cs = cs.
Proof.
  induction 1 as [|c cs Hc _ IH]; [done|]. cbn [translate_newlines].
  destruct (Z.eqb_spec c 13); [done|]. by rewrite IH.
Qed.

(** ** Where the decoder stops *)

Lemma encode_length (cs bs : list Z) :
  Forall scalar cs -> utf8_encode cs = Some bs -> (List.length cs <= List.length bs)%nat.
Proof.
  revert bs. induction cs as [|c cs IH]; intros bs Hs He; [simpl; lia|].
  apply Forall_cons in Hs as [Hc Hs]. cbn [utf8_encode] in He.
  destruct (encode_decode_char c [] Hc) as (b0 & bc & Henc & _). rewrite Henc in He.
  destruct (utf8_encode cs) as [br|]; [|done]. injection He as <-.
  specialize (IH br Hs eq_refl). cbn [List.length]. rewrite length_app. lia.
Qed.

(** The decoder reads well-formed text one code point per step and goes
    on with the bytes that follow, at their offset. *)
Lemma decode_prefix (cs pre r : list Z) f size :
  Forall scalar cs -> utf8_encode cs = Some pre ->
  decode_from (List.length cs + f) (size - Z.of_nat (List.length (pre ++ r))) size (pre ++ r)
  = match decode_from f (size - Z.of_nat (List.length r)) size r with
    | inr ds => inr (cs ++ ds)
    | inl e => inl e
    end.
Proof.
  revert pre. induction cs as [|c cs IH]; intros pre Hs He.
  - injection He as <-. cbn. by destruct (decode_from f _ size r).
  - apply Forall_cons in Hs as [Hc Hs]. cbn [utf8_encode] in He.
    destruct (utf8_encode cs) as [pr|] eqn:Hr.
    2: by destruct (utf8_encode_char c).
    destruct (encode_decode_char c (pr ++ r) Hc) as (b0 & bc & Henc & _ & Hdec).
    rewrite Henc in He. injection He as <-. cbn [List.length Nat.add app].
    rewrite <- app_assoc. cbn [decode_from]. rewrite Hdec, (IH pr Hs eq_refl).
    by destruct (decode_from f _ size r).
Qed.

(** C38: file.read() on bytes that are well-formed UTF-8 up to a byte that
    starts no sequence raises UnicodeDecodeError with CPython's message naming
    that byte and its offset. *)
Theorem read_text_invalid_start (cs pre rest : list Z) (b : Z) :
  Forall scalar cs -> utf8_encode cs = Some pre -> (0x80 <= b < 0xC2 \/ 0xF5 <= b < 256) ->
  Forall (fun x => 0 <= x < 256) rest ->
  read_text (string_of_list_ascii (map byte_of (pre ++ b :: rest)))
  = inl ("'utf-8' codec can't decode byte 0x" ++ hex2 b ++ " in position "
         ++ dec_text (Z.of_nat (List.length pre)) ++ ": invalid start byte")%string.
Proof.
  intros Hs He Hb Hr. pose proof (encode_length cs pre Hs He) as Hlen.
  destruct (decode_encode cs pre (List.length pre) 0 0 Hs He (le_n _)) as [Hpre _].
  unfold read_text. rewrite bytes_roundtrip by (apply Forall_app_2; [done|constructor; [lia|done]]).
  set (size := Z.of_nat (List.length (pre ++ b :: rest))).
  replace (List.length (pre ++ b :: rest)) with (List.length cs + S (List.length (pre ++ rest) - List.length cs))%nat
    by (rewrite !length_app; cbn; lia).
  replace 0 with (size - Z.of_nat (List.length (pre ++ b :: rest))) by (unfold size; lia).
  rewrite (decode_prefix cs pre (b :: rest) _ size Hs He). cbn [decode_from].
  replace (decode_one b rest) with (@inl utf8_err (Z * list Z) InvalidStart)
    by (unfold decode_one, seq_len; zif; reflexivity).
  unfold decode_message. cbn [de_start de_end de_reason reason_text].
  assert (size - Z.of_nat (List.length (b :: rest)) = Z.of_nat (List.length pre)) as ->
    by (unfold size; rewrite length_app; lia).
  replace (Z.of_nat (List.length (pre ++ b :: rest))) with size by reflexivity.
  assert (Z.of_nat (List.length pre) < size) as Hlt by (unfold size; rewrite length_app; cbn; lia).
  zif. rewrite Nat2Z.id, nth_middle. reflexivity.
Qed.

(** The bytes of ["{é"] followed by [0xFF] and ["}"]. *)
Lemma read_text_invalid_start_witness :
  Forall scalar [123; 233] /\ utf8_encode [123; 233] = Some [123; 195; 169] /\
  (0x80 <= 255 < 0xC2 \/ 0xF5 <= 255 < 256) /\ Forall (fun x => 0 <= x < 256) [125] /\
  read_text (string_of_list_ascii (map byte_of ([123; 195; 169] ++ 255 :: [125])))
  = inl "'utf-8' codec can't decode byte 0xff in position 3: invalid start byte"%string.
Proof.
  assert (Forall scalar [123; 233]) as Hs by (repeat constructor; unfold scalar; lia).
  assert (Forall (fun x => 0 <= x < 256) [125]) as Hr by (repeat constructor; lia).
  split; [exact Hs|split; [reflexivity|split; [lia|split; [exact Hr|]]]].
  rewrite (read_text_invalid_start [123; 233] [123; 195; 169] [125] 255 Hs eq_refl ltac:(lia) Hr).
  vm_compute. reflexivity.
Defined.
