(* ===== verification/PyVal.v ===== *)
(** * PyVal: the Python values and operations the tracker relies on

    [self.data] is whatever [json.load] returned: a [dict] in the normal
    case, but any JSON value when the file holds one.  [pyval] is that
    universe (JSON numbers are all read as amounts of type [A]; a dict is
    an association list in insertion order, as a Python [dict] keeps it).
    Each operation below is the Python operation the source applies,
    with the exception CPython raises when the operand has another type:
    [d[k]] ([getitem]), [d[k] = v] ([setitem]), [x += a] and [x -= a] on a
    float operand ([iadd_num], [isub_num]), [l.append(v)] ([append]),
    [for x in v] ([py_iter]), [float(v)] ([py_float]), [f"{v: .2f}"]
    ([fmt_money]) and [acc + v] in [sum] ([add_num]). *)

From stdpp Require Import base list strings.
From Stdlib Require Import ZArith QArith Ascii String.
From S2P Require Import Prelude Amount PyFloat.

#[local] Set Warnings "-register-all".

Section PyVal.
Context {A : Type} `{PyNum A}.

Inductive pyval : Type :=
| PNone
| PBool (b : bool)
| PNum (x : A)
| PStr (s : string)
| PList (l : list pyval)
| PDict (kvs : list (string * pyval)).

(** The text of the [ValueError]s the program raises or meets. *)
Inductive verr : Type :=
| VEConvert (s : string)               (** float(): could not convert string to float *)
| VENegativeIncome                     (** "Income cannot be negative." *)
| VENonPositiveExpense                 (** "Expense must be positive." *)
| VEInvalidCategory (cats : list string) (** "Invalid category. Choose from: ..." *)
| VEFormat                             (** Unknown format code 'f' for a str *)
| VEDecode (msg : string).             (** UnicodeDecodeError of file.read() *)

Inductive exn : Type :=
| ValueError (e : verr)
| TypeError
| KeyError (k : pyval)
| AttributeError
| EOFError.

Definition is_value_error (e : exn) : bool :=
  match e with ValueError _ => true | _ => false end.

(** [True] and [False] in arithmetic are the ints 1 and 0. *)
Definition num_of_bool (b : bool) : A := if b then num_one else num_zero.

(** Python's [x > 0] on a float. *)
Definition num_pos (x : A) : bool := num_ltb num_zero x.

(** [d[k]] with a string key. *)
Definition getitem (d : pyval) (k : string) : exn + pyval :=
  match d with
  | PDict kvs => match assoc k kvs with
                 | Some v => inr v
                 | None => inl (KeyError (PStr k))
                 end
  | _ => inl TypeError
  end.

(** [d[k] = v] with a string key: the new value of [d]. *)
Definition setitem (d : pyval) (k : string) (v : pyval) : exn + pyval :=
  match d with
  | PDict kvs => inr (PDict (assoc_set k v kvs))
  | _ => inl TypeError
  end.

(** [x + a] and [x - a] for a float [a]: defined on numbers and bools. *)
Definition num_operand (x : pyval) : exn + A :=
  match x with
  | PNum y => inr y
  | PBool b => inr (num_of_bool b)
  | _ => inl TypeError
  end.

Definition iadd_num (x : pyval) (a : A) : exn + pyval :=
  match num_operand x with
  | inr y => inr (PNum (num_add y a))
  | inl e => inl e
  end.

Definition isub_num (x : pyval) (a : A) : exn + pyval :=
  match num_operand x with
  | inr y => inr (PNum (num_sub y a))
  | inl e => inl e
  end.

(** [acc + v] in [sum(...)], the accumulator being a number. *)
Definition add_num (acc : A) (v : pyval) : exn + A :=
  match num_operand v with
  | inr y => inr (num_add acc y)
  | inl e => inl e
  end.

(** [l.append(v)]: only a list has [append]. *)
Definition append (l : pyval) (v : pyval) : exn + pyval :=
  match l with
  | PList xs => inr (PList (xs ++ [v]))
  | _ => inl AttributeError
  end.

(** [for x in v]: a list yields its items, a dict its keys, a string its
    characters; other values are not iterable. *)
Definition py_iter (v : pyval) : exn + list pyval :=
  match v with
  | PList xs => inr xs
  | PDict kvs => inr (map (fun kv => PStr kv.1) kvs)
  | PStr s => inr (map (fun c => PStr (String c EmptyString)) (list_ascii_of_string s))
  | _ => inl TypeError
  end.

(** [float(v)]. *)
Definition py_float (v : pyval) : exn + A :=
  match v with
  | PNum x => inr x
  | PBool b => inr (num_of_bool b)
  | PStr s => match parse_float s with
              | Some l => match num_of_lit l with
                          | Some x => inr x
                          | None => inl (ValueError (VEConvert s))
                          end
              | None => inl (ValueError (VEConvert s))
              end
  | _ => inl TypeError
  end.

(** [f"{v: .2f}"]: numbers format; a str has no ['f'] format code
    (ValueError); other types reject a format spec (TypeError). *)
Definition fmt_money (v : pyval) : exn + A :=
  match v with
  | PNum x => inr x
  | PBool b => inr (num_of_bool b)
  | PStr _ => inl (ValueError VEFormat)
  | _ => inl TypeError
  end.

(** [v == s] for a string [s]. *)
Definition py_eq_str (v : pyval) (s : string) : bool :=
  match v with
  | PStr s' => String.eqb s' s
  | _ => false
  end.

(** ** [sum()]

    [builtin_sum_impl] (Python/bltinmodule.c, CPython 3.12) started from
    the int [0]: a fast path keeps an int total while the items are ints
    or bools; the first float item turns the total into a float
    ([0 + x]) and moves to a float path, which adds further floats with
    Neumaier's compensated summation (a running compensation [c]),
    further ints and bools without compensation, and at the end adds [c]
    when it is non-zero and finite.  Any other item is added with the
    generic [+], which raises [TypeError] for the values of [pyval]. *)
Inductive sum_state : Type :=
| SumInt (i : A)
| SumFloat (f c : A).

(** [fabs(x)] as far as comparisons go: on binary64 it orders every value
    as [fabs] does (a NaN compares false either way). *)
Definition num_abs (x : A) : A := if num_ltb x num_zero then num_sub num_zero x else x.

(** [c && isfinite(c)]: [c - c] is [0] exactly when [c] is finite. *)
Definition num_nonzero_finite (c : A) : bool :=
  negb (num_leb c num_zero && num_leb num_zero c) &&
  (num_leb (num_sub c c) num_zero && num_leb num_zero (num_sub c c)).

(** One float item: [t = f + x; c += |f| >= |x| ? (f - t) + x : (x - t) + f; f = t]. *)
Definition neumaier_step (fc : A * A) (x : A) : A * A :=
  let '(f, c) := fc in
  let t := num_add f x in
  (t, num_add c (if num_leb (num_abs x) (num_abs f) then num_add (num_sub f t) x
                 else num_add (num_sub x t) f)).

Definition sum_step (st : sum_state) (v : pyval) : exn + sum_state :=
  match st, v with
  | SumInt i, PBool b => inr (SumInt (num_add i (num_of_bool b)))
  | SumInt i, PNum x => inr (SumFloat (num_add i x) num_zero)
  | SumFloat f c, PNum x => let '(f', c') := neumaier_step (f, c) x in inr (SumFloat f' c')
  | SumFloat f c, PBool b => inr (SumFloat (num_add f (num_of_bool b)) c)
  | _, _ => inl TypeError
  end.

Definition sum_result (st : sum_state) : A :=
  match st with
  | SumInt i => i
  | SumFloat f c => if num_nonzero_finite c then num_add f c else f
  end.

(** [sum(gen)]: the generator yields for each item a value, nothing (an
    item its [if] clause skips) or the exception evaluating it raises;
    items are taken one at a time, so the first exception of the
    generator or of an addition is the one raised. *)
Definition py_sum {X} (gen : X -> exn + option pyval) (items : list X) : exn + A :=
  (let? st := foldE (fun st it => let? o := gen it in
                                  match o with Some v => sum_step st v | None => inr st end)
                    (SumInt num_zero) items in
   inr (sum_result st))%py.

(** [sum()] of a list of floats, as the code above computes it. *)
Definition fsum (xs : list A) : A :=
  match xs with
  | [] => num_zero
  | x :: r => sum_result (let '(f, c) := foldl neumaier_step (num_add num_zero x, num_zero) r in
                          SumFloat f c)
  end.
End PyVal.

Arguments pyval A : clear implicits.
Arguments exn A : clear implicits.

(** Induction on values, through the items of lists and dicts. *)
Lemma pyval_nested_ind {A : Type} (P : pyval A -> Prop) :
  P PNone -> (forall b, P (PBool b)) -> (forall x, P (PNum x)) -> (forall s, P (PStr s)) ->
  (forall l, Forall P l -> P (PList l)) ->
  (forall kvs, Forall (fun kv => P kv.2) kvs -> P (PDict kvs)) ->
  forall v, P v.
Proof.
  intros HN HB HX HS HL HD. fix IH 1. intros [|b|x|s|l|kvs].
  - exact HN.
  - apply HB.
  - apply HX.
  - apply HS.
  - apply HL. exact ((fix go (l : list (pyval A)) : Forall P l :=
                        match l with
                        | [] => List.Forall_nil _
                        | y :: r => List.Forall_cons _ _ _ (IH y) (go r)
                        end) l).
  - apply HD. exact ((fix go (l : list (string * pyval A)) : Forall (fun kv => P kv.2) l :=
                        match l with
                        | [] => List.Forall_nil _
                        | (k, y) :: r => List.Forall_cons _ (k, y) _ (IH y) (go r)
                        end) kvs).
Qed.

Arguments sum_state A : clear implicits.

Section SumFacts.
Context {A : Type} `{PyNum A}.

(** The generator [gen] over the items [map h xs] yields the float [g x]
    for the [x] that pass [p] and skips the others. *)
Definition yields {X Y} (gen : Y -> exn A + option (pyval A)) (h : X -> Y) (p : X -> bool) (g : X -> A)
    (xs : list X) : Prop :=
  Forall (fun x => gen (h x) = inr (if p x then Some (PNum (g x)) else None)) xs.

Lemma foldE_sum_float {X Y} gen (h : X -> Y) p g f c xs :
  yields gen h p g xs ->
  foldE (fun st it => (let? o := gen it in
                       match o with Some v => sum_step st v | None => inr st end)%py)
        (SumFloat f c) (map h xs)
  = inr (let '(f', c') := foldl neumaier_step (f, c) (map g (List.filter p xs)) in SumFloat f' c').
Proof.
  revert f c. induction xs as [|x xs IH]; intros f c Hy; [reflexivity|].
  apply Forall_cons in Hy as [Hx Hy]. cbn [foldE map]. rewrite Hx.
  cbn [List.filter]. destruct (p x); cbn [map foldl]; [|by apply IH].
  unfold sum_step at 1. destruct (neumaier_step (f, c) (g x)) as [f' c'] eqn:Hs. cbv beta iota. by apply IH.
Qed.

(** [sum()] of a generator yielding floats is [fsum] of them. *)
Lemma py_sum_yields {X Y} gen (h : X -> Y) p g xs :
  yields gen h p g xs -> py_sum gen (map h xs) = inr (fsum (map g (List.filter p xs))).
Proof.
  intros Hy. unfold py_sum. induction xs as [|x xs IH]; [reflexivity|].
  apply Forall_cons in Hy as [Hx Hy]. cbn [foldE map List.filter]. rewrite Hx.
  destruct (p x); [|by apply IH].
  cbn [map fsum]. unfold sum_step at 1. rewrite (foldE_sum_float _ _ _ _ _ _ _ Hy).
  by destruct (foldl neumaier_step _ _).
Qed.
End SumFacts.

(** With exact amounts the compensation stays zero, so [sum()] is the
    plain left-to-right total. *)
Section ExactSum.
Context {A : Type} `{ExactNum A}.

Lemma neumaier_exact (f c : A) (xs : list A) :
  (to_Q c == 0)%Q ->
  exists c', foldl neumaier_step (f, c) xs = (foldl num_add f xs, c') /\ (to_Q c' == 0)%Q.
Proof.
  revert f c. induction xs as [|x xs IH]; intros f c Hc; [by exists c|].
  cbn [foldl]. unfold neumaier_step at 1. apply IH.
  destruct (num_leb _ _); rewrite !to_Q_add, !to_Q_sub, !to_Q_add, Hc; ring.
Qed.

Lemma nonzero_finite_exact (c : A) : (to_Q c == 0)%Q -> num_nonzero_finite c = false.
Proof.
  intros Hc. unfold num_nonzero_finite.
  assert (num_leb c num_zero && num_leb num_zero c = true) as ->; [|reflexivity].
  apply andb_true_intro. rewrite !num_leb_Q, to_Q_zero, Hc. split; apply Qle_refl.
Qed.

Lemma fsum_exact (xs : list A) : fsum xs = foldl num_add num_zero xs.
Proof.
  destruct xs as [|x r]; [reflexivity|]. cbn [fsum foldl].
  destruct (neumaier_exact (num_add num_zero x) num_zero r) as (c' & -> & Hc'); [apply to_Q_zero|].
  cbn [sum_result]. by rewrite nonzero_finite_exact.
Qed.
End ExactSum.
