(* ===== verification/Storage.v ===== *)
(** * Storage: the [json] library and the file system, as the tracker uses them

    [save_data] (lines 29-32) opens the data file for writing and
    [json.dump]s [self.data] into it; [load_data] (lines 19-27) tests
    [os.path.exists], then [json.load]s the file, a [JSONDecodeError]
    meaning a corrupted file.  [json.load(file)] first reads the file as
    text, which raises [UnicodeDecodeError] (a [ValueError], not a
    [JSONDecodeError]) on bytes that do not decode.  The [json] module is
    a library the source only calls: [JsonCodec] is its interface
    ([dumps] the content written for a value, [read_error] the message of
    the [UnicodeDecodeError] reading a content raises, [loads] the value
    read back, [None] for a [JSONDecodeError]) and
    [JsonCodecLaws] the contract the tracker relies on, that reading back
    what was written gives the value again (for values whose dicts have
    distinct keys: [json.load] keeps the last of duplicate keys).  The file
    system maps paths to file contents ([gmap]).  [stored] below is the
    document store the exact-amount runs use; [Codec.Json_codec] is the
    instance on the bytes of real files, with the same laws proved. *)

From stdpp Require Import base list strings gmap.
From S2P Require Import Prelude Amount PyVal.

Class JsonCodec (A T : Type) := {
  dumps : pyval A -> T;
  read_error : T -> option string;
  loads : T -> option (pyval A)
}.

Section Docs.
Context {A : Type}.

(** A JSON document: every dict has distinct keys. *)
Fixpoint wf_doc (v : pyval A) : Prop :=
  match v with
  | PList xs => (fix go (l : list (pyval A)) : Prop :=
                   match l with [] => True | x :: r => wf_doc x /\ go r end) xs
  | PDict kvs => NoDup kvs.*1 /\
      (fix go (l : list (string * pyval A)) : Prop :=
         match l with [] => True | (_, x) :: r => wf_doc x /\ go r end) kvs
  | _ => True
  end.
End Docs.

Class JsonCodecLaws (A T : Type) `{JsonCodec A T} := {
  read_error_dumps (v : pyval A) : read_error (dumps v) = None;
  loads_dumps (v : pyval A) : wf_doc v -> loads (dumps v) = Some v
}.

(** The file system: path to content. *)
Abbreviation fs T := (gmap string T).

(** ** The document store

    A file's content up to what [json.load] makes of it: text that is a
    JSON document denoting [v], text that is not JSON, or bytes that do
    not decode as text (with the message of the [UnicodeDecodeError]).
    [json.dump] writes a document denoting the value. *)
Inductive stored (A : Type) : Type :=
| SDoc (v : pyval A)
| SNotJson
| SNotText (msg : string).
Arguments SDoc {A} v.
Arguments SNotJson {A}.
Arguments SNotText {A} msg.

#[export] Instance Stored_JsonCodec {A} : JsonCodec A (stored A) := {|
  dumps v := SDoc v;
  read_error t := match t with SNotText m => Some m | _ => None end;
  loads t := match t with SDoc v => Some v | _ => None end
|}.

#[export] Instance Stored_JsonCodecLaws {A} : JsonCodecLaws A (stored A).
Proof. constructor; reflexivity. Qed.
