(* ===== verification/JsonText.v ===== *)
(** * JsonText: the text [json.dump(self.data, file, indent=4)] writes

    [save_data] (Expense_Calculator.py line 32) calls [json.dump] with
    [indent=4].  [json.dump] builds a [JSONEncoder] with [indent=4], so
    [item_separator] is [","] and [key_separator] [": "], and writes the
    pieces of [_make_iterencode] (Lib/json/encoder.py) one by one with
    [file.write]: [_iterencode], [_iterencode_list] and
    [_iterencode_dict] below, with the same pieces ([buf] joined to a
    scalar, [yield buf] before a nested container).  Strings go through
    [encode_basestring_ascii] ([c_encode_basestring_ascii] of
    Modules/_json.c: printable ASCII as is, the six short escapes, any
    other code point as [\uXXXX] in lowercase hex, a UTF-16 surrogate pair
    above [U+FFFF]); floats through [floatstr] ([NaN], [Infinity],
    [-Infinity], otherwise [float.__repr__], see [FloatRepr]).  The text
    is a list of code points ([Z]); every piece is ASCII.  The model's
    documents hold floats only, so [_intstr] is not reached. *)

From stdpp Require Import base list strings.
From Stdlib Require Import ZArith Lia Ascii String Floats.
From S2P Require Import Prelude Amount PyVal FloatRepr TextIO.

Local Open Scope Z_scope.

(** [Py_hexdigits]. *)
Definition hexdigit (d : Z) : Z := if d <? 10 then 48 + d else 87 + d.

Definition hex4 (c : Z) : list Z :=
  [hexdigit (Z.land (Z.shiftr c 12) 0xf); hexdigit (Z.land (Z.shiftr c 8) 0xf);
   hexdigit (Z.land (Z.shiftr c 4) 0xf); hexdigit (Z.land c 0xf)].

(** [ascii_escape_unichar] after the test [S_CHAR]. *)
Definition escape_char (c : Z) : list Z :=
  if (32 <=? c) && (c <=? 126) && negb (c =? 92) && negb (c =? 34) then [c]
  else 92 ::
    if c =? 92 then [92]
    else if c =? 34 then [34]
    else if c =? 8 then [98]
    else if c =? 12 then [102]
    else if c =? 10 then [110]
    else if c =? 13 then [114]
    else if c =? 9 then [116]
    else if 0x10000 <=? c then
      let v := 0xD800 + Z.shiftr (c - 0x10000) 10 in
      let lo := 0xDC00 + Z.land (c - 0x10000) 0x3FF in
      117 :: hex4 v ++ 92 :: 117 :: hex4 lo
    else 117 :: hex4 c.

(** [encode_basestring_ascii]. *)
Definition encode_basestring_ascii (s : string) : list Z :=
  34 :: flat_map escape_char (text s) ++ [34].

(** [floatstr] with [allow_nan=True]. *)
Definition floatstr (x : float) : list Z :=
  if negb (PrimFloat.eqb x x) then text "NaN"
  else if PrimFloat.eqb x PrimFloat.infinity then text "Infinity"
  else if PrimFloat.eqb x PrimFloat.neg_infinity then text "-Infinity"
  else text (float_repr x).

(** The text of a value that is not a container, as the chains of
    [isinstance] tests of the three functions write it. *)
Definition scalar_text (v : pyval float) : option (list Z) :=
  match v with
  | PStr s => Some (encode_basestring_ascii s)
  | PNone => Some (text "null")
  | PBool true => Some (text "true")
  | PBool false => Some (text "false")
  | PNum x => Some (floatstr x)
  | PList _ | PDict _ => None
  end.

(** ['\n' + _indent * _current_indent_level]. *)
Definition newline_indent (level : nat) : list Z := 10 :: repeat 32 (4 * level).

(** The pieces [_iterencode(o, level)] yields. *)
Fixpoint iterencode (v : pyval float) (level : nat) {struct v} : list (list Z) :=
  match v with
  | PList [] => [text "[]"]
  | PList l =>
      let nl := newline_indent (S level) in
      (fix items (first : bool) (xs : list (pyval float)) : list (list Z) :=
         match xs with
         | [] => []
         | x :: r =>
             let buf := if first then 91 :: nl else 44 :: nl in
             match scalar_text x with
             | Some t => (buf ++ t) :: items false r
             | None => buf :: iterencode x (S level) ++ items false r
             end
         end) true l ++ [newline_indent level; [93]]
  | PDict [] => [text "{}"]
  | PDict kvs =>
      let nl := newline_indent (S level) in
      [123] :: nl ::
      (fix items (first : bool) (xs : list (string * pyval float)) : list (list Z) :=
         match xs with
         | [] => []
         | (k, x) :: r =>
             (if first then [] else [44 :: nl]) ++
             [encode_basestring_ascii k; text ": "] ++
             match scalar_text x with
             | Some t => [t]
             | None => iterencode x (S level)
             end ++ items false r
         end) true kvs ++ [newline_indent level; [125]]
  | _ => match scalar_text v with Some t => [t] | None => [] end
  end.

(** Everything [json.dump] writes, in order. *)
Definition dump_text (v : pyval float) : list Z := List.concat (iterencode v 0).

(** The loops of [_iterencode_list] and [_iterencode_dict] at [level],
    [first] saying whether the next item is the first. *)
Fixpoint list_items (level : nat) (first : bool) (xs : list (pyval float)) : list (list Z) :=
  match xs with
  | [] => []
  | x :: r =>
      let nl := newline_indent (S level) in
      let buf := if first then 91 :: nl else 44 :: nl in
      match scalar_text x with
      | Some t => (buf ++ t) :: list_items level false r
      | None => buf :: iterencode x (S level) ++ list_items level false r
      end
  end.

Fixpoint dict_items (level : nat) (first : bool) (xs : list (string * pyval float)) : list (list Z) :=
  match xs with
  | [] => []
  | (k, x) :: r =>
      (if first then [] else [44 :: newline_indent (S level)]) ++
      [encode_basestring_ascii k; text ": "] ++
      match scalar_text x with
      | Some t => [t]
      | None => iterencode x (S level)
      end ++ dict_items level false r
  end.

(** ** The loops and their text *)

(** [fix_loop] replaces the anonymous loop left by unfolding
    [iterencode] once with the named one. *)
Ltac fix_loop named r :=
  let F := fresh "F" in
  set (F := named false r);
  match goal with
  | |- context [?G false r] =>
      let H := fresh "Hfix" in
      assert (H : forall first xs, G first xs = named first xs);
      [intros first xs; induction xs as [|y ys IH] in first |- *; [done|];
       cbn; rewrite ?IH; reflexivity|];
      rewrite H; subst F
  end.

Lemma iterencode_list x r level :
  iterencode (PList (x :: r)) level = list_items level true (x :: r) ++ [newline_indent level; [93]].
Proof. cbn [iterencode list_items]. fix_loop (list_items level) r. reflexivity. Qed.

Lemma iterencode_dict k x r level :
  iterencode (PDict ((k, x) :: r)) level
  = [123] :: newline_indent (S level) :: dict_items level true ((k, x) :: r) ++ [newline_indent level; [125]].
Proof. cbn [iterencode dict_items]. fix_loop (dict_items level) r. reflexivity. Qed.

Lemma iterencode_scalar v t level : scalar_text v = Some t -> iterencode v level = [t].
Proof. destruct v as [|b|x|s|l|kvs]; try destruct b; simpl; congruence. Qed.

Lemma list_items_text level first x r :
  List.concat (list_items level first (x :: r))
  = ((if first then 91 else 44) :: newline_indent (S level)) ++ List.concat (iterencode x (S level))
    ++ List.concat (list_items level false r).
Proof.
  cbn [list_items]. destruct (scalar_text x) eqn:Hs.
  - rewrite (iterencode_scalar x l _ Hs). cbn [List.concat]. rewrite !app_nil_r, app_assoc.
    by destruct first.
  - cbn [List.concat]. rewrite concat_app. by destruct first.
Qed.

Lemma dict_items_text level first k x r :
  List.concat (dict_items level first ((k, x) :: r))
  = (if first then [] else 44 :: newline_indent (S level)) ++ encode_basestring_ascii k ++ text ": "
    ++ List.concat (iterencode x (S level)) ++ List.concat (dict_items level false r).
Proof.
  cbn [dict_items]. rewrite !concat_app. cbn [List.concat]. rewrite !app_nil_r.
  destruct (scalar_text x) eqn:Hs.
  - rewrite (iterencode_scalar x l _ Hs). cbn [List.concat]. rewrite !app_nil_r.
    destruct first; cbn [List.concat]; rewrite ?app_nil_r; by rewrite <- !app_assoc.
  - destruct first; cbn [List.concat]; rewrite ?app_nil_r; by rewrite <- !app_assoc.
Qed.
