(* ===== verification/JsonScan.v ===== *)
(** * JsonScan: the text [json.load(file)] reads

    [load_data] (Expense_Calculator.py line 24) calls [json.load(file)],
    which is [json.loads(file.read())]: [loads] refuses a text that starts
    with a byte order mark ([JSONDecodeError("Unexpected UTF-8 BOM")]),
    then [JSONDecoder.decode] skips whitespace, runs the scanner, skips
    whitespace again and refuses anything left ("Extra data").  The
    scanner is the C one of Modules/_json.c, [strict=True]:
    [scan_once_unicode] dispatches on the first character,
    [scanstring_unicode] reads a string (a control character, a bad
    escape or a missing quote is an error), [_parse_object_unicode] and
    [_parse_array_unicode] read containers, [_match_number_unicode] reads
    the longest number of the JSON grammar (an optional minus, [0] or a
    digit [1-9] and more digits, an optional fraction [.] and digits, an
    optional exponent [e] or [E], a sign and digits), backing off a
    fraction or exponent that has no digit.  Every
    error ([StopIteration] turned into "Expecting value", or a
    [JSONDecodeError] raised inside) is [None].

    The scanner works on the code points of the text and returns a [jval]:
    the parsed value with its strings as code points, its numbers as the
    text the scanner matched (what [float()] or [int()] is then applied
    to), and its objects as the list of key-value pairs in text order
    (the C scanner puts them into a dict one by one, which [Codec] does).
    The three mutually recursive functions take fuel, one unit per call;
    the length of the text plus one is always enough ([Codec]). *)

From stdpp Require Import base list strings.
From Stdlib Require Import ZArith Lia.
From S2P Require Import Prelude TextIO.

Local Open Scope Z_scope.
#[local] Set Warnings "-register-all".

Inductive jconst : Type := JNaN | JInfinity | JNegInfinity.

Inductive jval : Type :=
| JNull
| JBool (b : bool)
| JInt (numstr : list Z)
| JFloat (numstr : list Z)
| JConst (c : jconst)
| JStr (s : list Z)
| JArr (l : list jval)
| JObj (kvs : list (list Z * jval)).

(** [IS_WHITESPACE]: space, tab, line feed, carriage return. *)
Definition is_ws (c : Z) : bool := (c =? 32) || (c =? 9) || (c =? 10) || (c =? 13).

Fixpoint skip_ws (s : list Z) : list Z :=
  match s with
  | c :: r => if is_ws c then skip_ws r else s
  | [] => []
  end.

Definition is_digit_cp (c : Z) : bool := (48 <=? c) && (c <=? 57).

Fixpoint span_digits (s : list Z) : list Z * list Z :=
  match s with
  | c :: r => if is_digit_cp c then let '(ds, r') := span_digits r in (c :: ds, r') else ([], s)
  | [] => ([], [])
  end.

(** A hex digit of a [\uXXXX] escape. *)
Definition hexval (c : Z) : option Z :=
  if is_digit_cp c then Some (c - 48)
  else if (97 <=? c) && (c <=? 102) then Some (c - 87)
  else if (65 <=? c) && (c <=? 70) then Some (c - 55)
  else None.

(** [c <<= 4; c |= digit] over the four digits. *)
Definition hex4_val (a b c d : Z) : option Z :=
  match hexval a, hexval b, hexval c, hexval d with
  | Some x1, Some x2, Some x3, Some x4 =>
      Some (fold_left (fun acc x => Z.lor (Z.shiftl acc 4) x) [x1; x2; x3; x4] 0)
  | _, _, _, _ => None
  end.

(** The character a two-character escape stands for, [None] for an
    invalid escape. *)
Definition short_escape (e : Z) : option Z :=
  if e =? 34 then Some 34 else if e =? 92 then Some 92 else if e =? 47 then Some 47
  else if e =? 98 then Some 8 else if e =? 102 then Some 12 else if e =? 110 then Some 10
  else if e =? 114 then Some 13 else if e =? 116 then Some 9 else None.

Definition is_high_surrogate (u : Z) : bool := (0xD800 <=? u) && (u <=? 0xDBFF).
Definition is_low_surrogate (u : Z) : bool := (0xDC00 <=? u) && (u <=? 0xDFFF).

(** [Py_UNICODE_JOIN_SURROGATES]. *)
Definition join_surrogates (hi lo : Z) : Z :=
  Z.lor (Z.shiftl (Z.land hi 0x3FF) 10) (Z.land lo 0x3FF) + 0x10000.

(** [scanstring_unicode] from just after the opening quote: the code
    points of the string and the text after its closing quote. *)
Fixpoint scanstring (s : list Z) : option (list Z * list Z) :=
  match s with
  | [] => None
  | c :: r =>
      if c =? 34 then Some ([], r)
      else if c =? 92 then
        match r with
        | [] => None
        | e :: r1 =>
            if negb (e =? 117) then
              match short_escape e with
              | Some x => match scanstring r1 with Some (xs, rest) => Some (x :: xs, rest) | None => None end
              | None => None
              end
            else
              match r1 with
              | a :: b :: c1 :: d :: r2 =>
                  match r2, hex4_val a b c1 d with
                  | [], _ | _, None => None
                  | _ :: _, Some u =>
                      let single := match scanstring r2 with
                                    | Some (xs, rest) => Some (u :: xs, rest)
                                    | None => None
                                    end in
                      if is_high_surrogate u then
                        match r2 with
                        | b1 :: b2 :: a' :: b' :: c' :: d' :: r3 =>
                            if (b1 =? 92) && (b2 =? 117) && negb (bool_decide (r3 = [])) then
                              match hex4_val a' b' c' d' with
                              | None => None
                              | Some u2 =>
                                  if is_low_surrogate u2 then
                                    match scanstring r3 with
                                    | Some (xs, rest) => Some (join_surrogates u u2 :: xs, rest)
                                    | None => None
                                    end
                                  else single
                              end
                            else single
                        | _ => single
                        end
                      else single
                  end
              | _ => None
              end
        end
      else if c <=? 0x1f then None
      else match scanstring r with Some (xs, rest) => Some (c :: xs, rest) | None => None end
  end.

(** [_match_number_unicode] in its four steps: an optional minus; the
    integer part, [0] alone or a digit [1-9] and all the digits after it;
    a fraction, when a point is followed by a digit; an exponent, when
    [e] or [E] and an optional sign are followed by a digit (otherwise
    the scanner backs off to the [e]). *)
Definition match_sign (s : list Z) : list Z * list Z :=
  match s with
  | c :: r => if c =? 45 then ([45], r) else ([], s)
  | [] => ([], s)
  end.

Definition match_int (s : list Z) : option (list Z * list Z) :=
  match s with
  | [] => None
  | c :: r =>
      if (49 <=? c) && (c <=? 57) then let '(ds, r') := span_digits r in Some (c :: ds, r')
      else if c =? 48 then Some ([c], r)
      else None
  end.

Definition match_frac (s : list Z) : list Z * list Z :=
  match s with
  | p :: d :: r =>
      if (p =? 46) && is_digit_cp d then let '(fs, r') := span_digits r in (46 :: d :: fs, r')
      else ([], s)
  | _ => ([], s)
  end.

Definition match_exp (s : list Z) : list Z * list Z :=
  match s with
  | e :: r =>
      if (e =? 101) || (e =? 69) then
        let '(sg, r1) := match r with
                         | s0 :: q => if (s0 =? 45) || (s0 =? 43) then ([s0], q) else ([], r)
                         | [] => ([], r)
                         end in
        match span_digits r1 with
        | ([], _) => ([], s)
        | (es, r2) => (e :: sg ++ es, r2)
        end
      else ([], s)
  | [] => ([], s)
  end.

(** The matched text is given to [float()] when it has a fraction or an
    exponent, to [int()] otherwise. *)
Definition match_number (s : list Z) : option (jval * list Z) :=
  let '(sign, s1) := match_sign s in
  match match_int s1 with
  | None => None
  | Some (ip, r2) =>
      let '(frac, r3) := match_frac r2 in
      let '(ex, r4) := match_exp r3 in
      let numstr := sign ++ ip ++ frac ++ ex in
      match frac, ex with
      | [], [] => Some (JInt numstr, r4)
      | _, _ => Some (JFloat numstr, r4)
      end
  end.

(** The named constants, matched by their text. *)
Definition starts_with (w s : list Z) : bool := bool_decide (take (List.length w) s = w).

Definition named_constants : list (list Z * jval) :=
  [(text "null", JNull); (text "true", JBool true); (text "false", JBool false);
   (text "NaN", JConst JNaN); (text "Infinity", JConst JInfinity);
   (text "-Infinity", JConst JNegInfinity)].

Definition match_constant (s : list Z) : option (jval * list Z) :=
  match List.find (fun wv => starts_with wv.1 s) named_constants with
  | Some (w, v) => Some (v, drop (List.length w) s)
  | None => None
  end.

(** [scan_once_unicode], [_parse_object_unicode] (from a key) and
    [_parse_array_unicode] (from an element). *)
Fixpoint scan_once (fuel : nat) (s : list Z) {struct fuel} : option (jval * list Z) :=
  match fuel with
  | O => None
  | S f =>
      match s with
      | [] => None
      | c :: r =>
          if c =? 34 then
            match scanstring r with Some (str, r') => Some (JStr str, r') | None => None end
          else if c =? 123 then
            match skip_ws r with
            | c1 :: r1 => if c1 =? 125 then Some (JObj [], r1) else parse_object f [] (c1 :: r1)
            | [] => None
            end
          else if c =? 91 then
            match skip_ws r with
            | c1 :: r1 => if c1 =? 93 then Some (JArr [], r1) else parse_array f [] (c1 :: r1)
            | [] => None
            end
          else match match_constant s with
               | Some res => Some res
               | None => match_number s
               end
      end
  end
with parse_object (fuel : nat) (acc : list (list Z * jval)) (s : list Z) {struct fuel}
  : option (jval * list Z) :=
  match fuel with
  | O => None
  | S f =>
      match s with
      | c :: r =>
          if c =? 34 then
            match scanstring r with
            | None => None
            | Some (k, r1) =>
                match skip_ws r1 with
                | c1 :: r2 =>
                    if c1 =? 58 then
                      match scan_once f (skip_ws r2) with
                      | None => None
                      | Some (v, r3) =>
                          match skip_ws r3 with
                          | c3 :: r4 =>
                              if c3 =? 125 then Some (JObj (acc ++ [(k, v)]), r4)
                              else if c3 =? 44 then parse_object f (acc ++ [(k, v)]) (skip_ws r4)
                              else None
                          | [] => None
                          end
                      end
                    else None
                | [] => None
                end
            end
          else None
      | [] => None
      end
  end
with parse_array (fuel : nat) (acc : list jval) (s : list Z) {struct fuel} : option (jval * list Z) :=
  match fuel with
  | O => None
  | S f =>
      match scan_once f s with
      | None => None
      | Some (v, r3) =>
          match skip_ws r3 with
          | c3 :: r4 =>
              if c3 =? 93 then Some (JArr (acc ++ [v]), r4)
              else if c3 =? 44 then parse_array f (acc ++ [v]) (skip_ws r4)
              else None
          | [] => None
          end
      end
  end.

(** [JSONDecoder.decode]: whitespace, a value, whitespace, the end. *)
Definition decode_doc (s : list Z) : option jval :=
  match scan_once (S (List.length s)) (skip_ws s) with
  | Some (v, r) => match skip_ws r with [] => Some v | _ :: _ => None end
  | None => None
  end.

(** [json.loads] on the text [file.read()] returned. *)
Definition json_loads (s : list Z) : option jval :=
  match s with
  | c :: _ => if c =? 0xFEFF then None else decode_doc s
  | [] => decode_doc s
  end.

(** ** More fuel gives the same result *)

Lemma scan_fuel_mono (f : nat) :
  (forall s r, scan_once f s = Some r -> scan_once (S f) s = Some r) /\
  (forall acc s r, parse_object f acc s = Some r -> parse_object (S f) acc s = Some r) /\
  (forall acc s r, parse_array f acc s = Some r -> parse_array (S f) acc s = Some r).
Proof.
  induction f as [|f (IHs & IHo & IHa)]; [repeat split; discriminate|].
  split; [|split].
  - intros [|c s] r; [discriminate|]. cbn [scan_once].
    destruct (c =? 34); [done|]. destruct (c =? 123).
    + destruct (skip_ws s) as [|c1 r1]; [done|]. destruct (c1 =? 125); [done|]. apply IHo.
    + destruct (c =? 91); [|done]. destruct (skip_ws s) as [|c1 r1]; [done|].
      destruct (c1 =? 93); [done|]. apply IHa.
  - intros acc [|c s] r; [discriminate|]. cbn [parse_object].
    destruct (c =? 34); [|done]. destruct (scanstring s) as [[k r1]|]; [|done].
    destruct (skip_ws r1) as [|c1 r2]; [done|]. destruct (c1 =? 58); [|done].
    destruct (scan_once f (skip_ws r2)) as [[v r3]|] eqn:Hs; [|done]. rewrite (IHs _ _ Hs).
    destruct (skip_ws r3) as [|c3 r4]; [done|]. destruct (c3 =? 125); [done|].
    destruct (c3 =? 44); [apply IHo|done].
  - intros acc s r. cbn [parse_array].
    destruct (scan_once f s) as [[v r3]|] eqn:Hs; [|done]. rewrite (IHs _ _ Hs).
    destruct (skip_ws r3) as [|c3 r4]; [done|]. destruct (c3 =? 93); [done|].
    destruct (c3 =? 44); [apply IHa|done].
Qed.

Lemma scan_once_mono f f' s r : (f <= f')%nat -> scan_once f s = Some r -> scan_once f' s = Some r.
Proof. intros Hle Hs. induction Hle; [done|]. by apply scan_fuel_mono. Qed.

Lemma parse_array_nil f acc : parse_array f acc [] = None.
Proof. destruct f as [|[|f]]; reflexivity. Qed.

(** ** What a number or a named constant leaves is a suffix of the text *)

Lemma span_digits_suffix s : (span_digits s).2 `suffix_of` s.
Proof.
  induction s as [|c s IH]; [done|]. cbn [span_digits].
  destruct (is_digit_cp c); [|done]. destruct (span_digits s) as [ds r]. simpl in *.
  by apply suffix_cons_r.
Qed.

Lemma match_sign_suffix s : (match_sign s).2 `suffix_of` s.
Proof. destruct s as [|c s]; [done|]. simpl. destruct (c =? 45); [by apply suffix_cons_r|done]. Qed.

Lemma match_int_suffix s ip r : match_int s = Some (ip, r) -> r `suffix_of` s.
Proof.
  destruct s as [|c s]; [done|]. cbn [match_int].
  destruct ((49 <=? c) && (c <=? 57)).
  - pose proof (span_digits_suffix s) as Hsp. destruct (span_digits s) as [ds r']. intros [= _ <-].
    simpl in Hsp. by apply suffix_cons_r.
  - destruct (c =? 48); [|done]. intros [= _ <-]. by apply suffix_cons_r.
Qed.

Lemma match_frac_suffix s : (match_frac s).2 `suffix_of` s.
Proof.
  destruct s as [|p [|d s]]; try done. cbn [match_frac].
  destruct ((p =? 46) && is_digit_cp d); [|done].
  pose proof (span_digits_suffix s) as Hsp. destruct (span_digits s) as [fs r]. simpl in *.
  by do 2 apply suffix_cons_r.
Qed.

Lemma match_exp_suffix s : (match_exp s).2 `suffix_of` s.
Proof.
  destruct s as [|e s]; [done|]. cbn [match_exp]. destruct ((e =? 101) || (e =? 69)); [|done].
  assert (forall r1, r1 `suffix_of` s ->
            (match span_digits r1 with ([], _) => ([], e :: s) | (es, r2) => (e :: [] ++ es, r2) end).2
              `suffix_of` e :: s) as Hsp.
  { intros r1 Hr1. pose proof (span_digits_suffix r1) as Hs. destruct (span_digits r1) as [[|x es] r2]; [done|].
    simpl in *. apply suffix_cons_r. by transitivity r1. }
  destruct s as [|s0 q]; [by apply Hsp|].
  destruct ((s0 =? 45) || (s0 =? 43)); [|by apply Hsp].
  pose proof (span_digits_suffix q) as Hs. destruct (span_digits q) as [[|x es] r2]; [done|].
  simpl in *. by do 2 apply suffix_cons_r.
Qed.

Lemma match_number_suffix s j r : match_number s = Some (j, r) -> r `suffix_of` s.
Proof.
  unfold match_number. pose proof (match_sign_suffix s) as H1. destruct (match_sign s) as [sign s1].
  destruct (match_int s1) as [[ip r2]|] eqn:Hi; [|done]. apply match_int_suffix in Hi.
  pose proof (match_frac_suffix r2) as H3. destruct (match_frac r2) as [frac r3].
  pose proof (match_exp_suffix r3) as H4. destruct (match_exp r3) as [ex r4]. simpl in *.
  assert (r4 `suffix_of` s) as Hr4 by (transitivity r3; [done|]; transitivity r2; [done|]; by transitivity s1).
  by destruct frac, ex; intros [= _ <-].
Qed.

Lemma match_constant_suffix s j r : match_constant s = Some (j, r) -> r `suffix_of` s.
Proof.
  unfold match_constant. destruct (List.find _ _) as [[w v]|]; [|done]. intros [= _ <-]. apply suffix_drop.
Qed.
