(* ===== verification/JsonRound.v ===== *)
(** * JsonRound: the scanner reads back what the encoder writes

    [JsonScan.decode_doc] applied to [JsonText.dump_text v] gives
    [jv_of v], the [jval] whose strings are the code points of [v]'s
    strings, whose numbers are the texts [floatstr] wrote and whose
    objects list [v]'s pairs in order; and a strict prefix of the text of
    a list or dict, which is what a crash in the middle of [json.dump]
    leaves in the file, does not decode at all.  Both go through the
    pieces: [scanstring] undoes [encode_basestring_ascii],
    [match_number] reads back the whole of [repr]'s text, and
    [parse_array] / [parse_object] walk the loops [list_items] and
    [dict_items]. *)

From stdpp Require Import base list strings.
From Stdlib Require Import ZArith Lia Ascii String Floats.
From S2P Require Import Prelude Amount PyFloat Format FloatRepr TextIO PyVal JsonText JsonScan.

Local Open Scope Z_scope.

(** The [jval] the scanner builds from the text of a number. *)
Definition num_jval (x : float) : jval :=
  if negb (PrimFloat.eqb x x) then JConst JNaN
  else if PrimFloat.eqb x PrimFloat.infinity then JConst JInfinity
  else if PrimFloat.eqb x PrimFloat.neg_infinity then JConst JNegInfinity
  else JFloat (text (float_repr x)).

Fixpoint jv_of (v : pyval float) : jval :=
  match v with
  | PNone => JNull
  | PBool b => JBool b
  | PNum x => num_jval x
  | PStr s => JStr (text s)
  | PList l => JArr (map jv_of l)
  | PDict kvs => JObj (map (fun kv => (text kv.1, jv_of kv.2)) kvs)
  end.

(** What may follow a value inside a document: the end, whitespace, a
    comma or a closing bracket. *)
Definition rest_ok (rest : list Z) : Prop :=
  match rest with
  | [] => True
  | c :: _ => is_ws c = true \/ c = 44 \/ c = 93 \/ c = 125
  end.

(** The characters [json.dump] writes: printable ASCII and the newline. *)
Definition json_char (c : Z) : Prop := c = 10 \/ 32 <= c <= 126.
Definition json_charb (c : Z) : bool := (c =? 10) || ((32 <=? c) && (c <=? 126)).

Definition cons_res (c : Z) (o : option (list Z * list Z)) : option (list Z * list Z) :=
  match o with Some (xs, rest) => Some (c :: xs, rest) | None => None end.

Definition no_digit_start (s : list Z) : Prop :=
  match s with c :: _ => is_digit_cp c = false | [] => True end.

(** What the scanner gives back for the text of [v] at any level. *)
Definition scans (v : pyval float) : Prop :=
  forall level f rest, rest_ok rest -> (List.length (List.concat (iterencode v level)) < f)%nat ->
                       scan_once f (List.concat (iterencode v level) ++ rest) = Some (jv_of v, rest).

(** What may be left after a value scanned from a cut-off text: nothing
    that separates or closes a value. *)
Definition no_term (r : list Z) : Prop :=
  Forall (fun c => is_ws c = false /\ c <> 44 /\ c <> 93 /\ c <> 125) r.

Definition is_atom (v : pyval float) : Prop :=
  match v with PNone | PBool _ | PNum _ => True | _ => False end.

(** The scanner on a strict prefix of the text of [v]: nothing, or, for a
    number or a named constant, a value followed by no separator. *)
Definition cut_fails (v : pyval float) : Prop :=
  forall level p f, p `prefix_of` List.concat (iterencode v level) -> p <> List.concat (iterencode v level) ->
    match scan_once f p with None => True | Some (_, r) => is_atom v /\ no_term r end.

(** The characters of a JSON numeral. *)
Definition numeral_charb (c : Z) : bool :=
  is_digit_cp c || (c =? 45) || (c =? 46) || (c =? 101) || (c =? 43).

(** ** Strings *)

Lemma hexval_hexdigit d : 0 <= d < 16 -> hexval (hexdigit d) = Some d.
Proof. intros Hd. unfold hexval, hexdigit, is_digit_cp. zif; f_equal; lia. Qed.

Lemma lor_shift4 acc x : 0 <= x < 16 -> Z.lor (Z.shiftl acc 4) x = 16 * acc + x.
Proof.
  intros Hx. rewrite Z.shiftl_mul_pow2 by lia. rewrite lor_high by (cbn; lia). cbn. lia.
Qed.

Lemma hex4_spec c :
  0 <= c < 0x10000 ->
  hex4 c = [hexdigit (c / 4096); hexdigit ((c / 256) mod 16); hexdigit ((c / 16) mod 16); hexdigit (c mod 16)] /\
  hex4_val (hexdigit (c / 4096)) (hexdigit ((c / 256) mod 16)) (hexdigit ((c / 16) mod 16))
           (hexdigit (c mod 16)) = Some c.
Proof.
  intros Hc. assert (c / 4096 < 16) by (apply Z.div_lt_upper_bound; lia).
  assert (0 <= c / 4096) by (apply Z.div_pos; lia).
  split.
  - unfold hex4. change 0xf with (Z.ones 4). rewrite !Z.land_ones, !Z.shiftr_div_pow2 by lia.
    cbn [Z.pow Z.pow_pos Pos.iter]. rewrite (Z.mod_small (c / 4096)) by lia. reflexivity.
  - unfold hex4_val. rewrite !hexval_hexdigit by (first [apply Z.mod_pos_bound; lia | lia]).
    cbn [fold_left]. rewrite !lor_shift4 by (first [apply Z.mod_pos_bound; lia | lia]). f_equal.
    pose proof (Z.div_div c 16 16 ltac:(lia) ltac:(lia)) as H1.
    pose proof (Z.div_div c 256 16 ltac:(lia) ltac:(lia)) as H2. cbn in H1, H2.
    Z.div_mod_to_equations. lia.
Qed.

Lemma scanstring_plain c r :
  c <> 34 -> c <> 92 -> 0x1f < c -> scanstring (c :: r) = cons_res c (scanstring r).
Proof.
  intros H1 H2 H3. cbn [scanstring]. rewrite (proj2 (Z.eqb_neq c 34) H1), (proj2 (Z.eqb_neq c 92) H2).
  replace (c <=? 0x1f) with false by lia. reflexivity.
Qed.

Lemma scanstring_short e x r :
  e <> 117 -> short_escape e = Some x -> scanstring (92 :: e :: r) = cons_res x (scanstring r).
Proof. intros He Hx. cbn [scanstring]. rewrite (proj2 (Z.eqb_neq e 117) He), Hx. reflexivity. Qed.

Lemma scanstring_u c t r :
  0 <= c < 0xD800 -> scanstring ((92 :: 117 :: hex4 c) ++ t :: r) = cons_res c (scanstring (t :: r)).
Proof.
  intros Hc. destruct (hex4_spec c ltac:(lia)) as [-> Hv].
  cbn [app scanstring Z.eqb Pos.eqb negb]. rewrite Hv.
  unfold is_high_surrogate. replace (0xD800 <=? c) with false by lia. reflexivity.
Qed.

(** One escaped code point below the surrogates reads back. *)
Lemma scanstring_escape_char c t r :
  0 <= c < 0xD800 -> scanstring (escape_char c ++ t :: r) = cons_res c (scanstring (t :: r)).
Proof.
  intros Hc. unfold escape_char.
  destruct ((32 <=? c) && (c <=? 126) && negb (c =? 92) && negb (c =? 34)) eqn:Hp.
  - apply andb_prop in Hp as [Hp H4]. apply andb_prop in Hp as [Hp H3]. apply andb_prop in Hp as [H1 H2].
    apply negb_true_iff, Z.eqb_neq in H3, H4. apply Z.leb_le in H1, H2.
    apply scanstring_plain; lia.
  - cbn [app]. destruct (Z.eqb_spec c 92) as [->|]; [by apply scanstring_short|].
    destruct (Z.eqb_spec c 34) as [->|]; [by apply scanstring_short|].
    destruct (Z.eqb_spec c 8) as [->|]; [by apply scanstring_short|].
    destruct (Z.eqb_spec c 12) as [->|]; [by apply scanstring_short|].
    destruct (Z.eqb_spec c 10) as [->|]; [by apply scanstring_short|].
    destruct (Z.eqb_spec c 13) as [->|]; [by apply scanstring_short|].
    destruct (Z.eqb_spec c 9) as [->|]; [by apply scanstring_short|].
    replace (0x10000 <=? c) with false by lia. by apply scanstring_u.
Qed.

(** [scanstring] undoes [encode_basestring_ascii] on code points below the
    surrogates. *)
Lemma scanstring_escaped (cs : list Z) rest :
  Forall (fun c => 0 <= c < 0xD800) cs ->
  scanstring (flat_map escape_char cs ++ 34 :: rest) = Some (cs, rest).
Proof.
  induction 1 as [|c cs Hc _ IH]; [reflexivity|].
  cbn [flat_map]. rewrite <- app_assoc.
  destruct (flat_map escape_char cs ++ 34 :: rest) as [|t T] eqn:HT;
    [by symmetry in HT; apply app_cons_not_nil in HT|].
  rewrite scanstring_escape_char, IH by done. reflexivity.
Qed.

(** ** Numbers *)

Lemma span_digits_app (ds rest : list Z) :
  Forall (fun c => is_digit_cp c = true) ds -> no_digit_start rest -> span_digits (ds ++ rest) = (ds, rest).
Proof.
  intros Hds Hr. induction Hds as [|d ds Hd _ IH].
  - destruct rest as [|c r]; [done|]. simpl in *. by rewrite Hr.
  - cbn [app span_digits]. by rewrite Hd, IH.
Qed.

Lemma byte_val_digit (a : ascii) : is_digit a = true -> is_digit_cp (byte_val a) = true.
Proof.
  unfold is_digit, is_digit_cp, byte_val. intros H. apply andb_prop in H as [H1 H2].
  apply Nat.leb_le in H1, H2. apply andb_true_intro. split; apply Z.leb_le; lia.
Qed.

Lemma digits_cp (l : list ascii) : all_digits l -> Forall (fun c => is_digit_cp c = true) (map byte_val l).
Proof. intros Hl. apply Forall_map. eapply Forall_impl; [exact Hl|]. apply byte_val_digit. Qed.

Lemma byte_val_inj (a b : ascii) : byte_val a = byte_val b -> a = b.
Proof.
  unfold byte_val. intros H. rewrite <- (ascii_nat_embedding a), <- (ascii_nat_embedding b). f_equal. lia.
Qed.

Lemma match_int_numeral (ip : list ascii) (ns : list Z) :
  ip <> [] -> all_digits ip -> (ip = ["0"%char] \/ head ip <> Some "0"%char) -> no_digit_start ns ->
  match_int (map byte_val ip ++ ns) = Some (map byte_val ip, ns).
Proof.
  intros Hne Hd Hz Hns. destruct Hz as [->|Hz]; [reflexivity|].
  destruct ip as [|d t]; [done|]. apply Forall_cons in Hd as [Hd Ht].
  pose proof (byte_val_digit d Hd) as Hdc. unfold is_digit_cp in Hdc.
  assert (byte_val d <> 48) by (intros H; apply Hz; simpl; f_equal; by apply byte_val_inj).
  cbn [map app match_int]. zif. rewrite span_digits_app by (done || by apply digits_cp). reflexivity.
Qed.

Lemma match_frac_numeral (frac : option (list ascii)) (r : list Z) :
  match frac with Some f => f <> [] /\ all_digits f | None => True end ->
  no_digit_start r -> (frac = None -> match r with c :: _ => c <> 46 | [] => True end) ->
  match_frac (match frac with Some f => 46 :: map byte_val f | None => [] end ++ r)
  = (match frac with Some f => 46 :: map byte_val f | None => [] end, r).
Proof.
  intros Hf Hr Hn. destruct frac as [[|d f]|]; [by destruct Hf| |].
  - destruct Hf as [_ Hf]. apply Forall_cons in Hf as [Hd Hf].
    cbn [map app match_frac]. rewrite byte_val_digit by done. cbn [Z.eqb Pos.eqb andb].
    rewrite span_digits_app by (done || by apply digits_cp). reflexivity.
  - specialize (Hn eq_refl). destruct r as [|p [|d r]]; [done|done|]. cbn [app match_frac].
    by rewrite (proj2 (Z.eqb_neq p 46) Hn).
Qed.

Lemma match_exp_numeral (ex : option (bool * list ascii)) (rest : list Z) :
  match ex with Some (_, ds) => ds <> [] /\ all_digits ds | None => True end ->
  no_digit_start rest -> match rest with c :: _ => c <> 101 /\ c <> 69 | [] => True end ->
  match_exp (map byte_val (exp_text ex) ++ rest) = (map byte_val (exp_text ex), rest).
Proof.
  intros He Hr Hn. destruct ex as [[s [|d ds]]|]; [by destruct He| |].
  - destruct He as [_ He]. apply Forall_cons in He as [Hd Hds].
    destruct s; simpl; rewrite (byte_val_digit d Hd), span_digits_app by (done || by apply digits_cp);
      reflexivity.
  - destruct rest as [|c r]; [done|]. destruct Hn as [H1 H2]. cbn [exp_text map app match_exp].
    by rewrite (proj2 (Z.eqb_neq c 101) H1), (proj2 (Z.eqb_neq c 69) H2).
Qed.

Lemma is_ws_cases c : is_ws c = true -> c = 32 \/ c = 9 \/ c = 10 \/ c = 13.
Proof. unfold is_ws. intros H. repeat (apply orb_prop in H as [H|H]); apply Z.eqb_eq in H; lia. Qed.

Lemma rest_ok_cases (rest : list Z) :
  rest_ok rest ->
  no_digit_start rest /\ match rest with c :: _ => c <> 46 /\ c <> 101 /\ c <> 69 | [] => True end.
Proof.
  destruct rest as [|c r]; [done|]. intros Hc. unfold no_digit_start, is_digit_cp.
  assert (c = 32 \/ c = 9 \/ c = 10 \/ c = 13 \/ c = 44 \/ c = 93 \/ c = 125) as Hc'
    by (destruct Hc as [Hc|Hc]; [apply is_ws_cases in Hc|]; lia).
  split; [|lia]. zif; reflexivity.
Qed.

Lemma numeral_start neg ip frac ex :
  ip <> [] -> all_digits ip ->
  exists c t, map byte_val (numeral_text neg ip frac ex) = c :: t /\
              (c = 45 \/ is_digit_cp c = true) /\ (c = 45 -> neg = true) /\
              (neg = true -> exists d t', t = d :: t' /\ is_digit_cp d = true).
Proof.
  intros Hne Hd. destruct ip as [|d ip]; [done|]. apply Forall_cons in Hd as [Hd _].
  pose proof (byte_val_digit d Hd) as Hdc.
  destruct neg; cbn [numeral_text app map].
  - eexists _, _. split; [reflexivity|]. split; [by left|]. split; [done|]. intros _. by eexists _, _.
  - eexists _, _. split; [reflexivity|]. split; [by right|]. split; [|done].
    intros H. rewrite H in Hdc. discriminate.
Qed.

(** [match_number] reads the whole text of a JSON numeral as a float. *)
Lemma match_number_numeral neg ip frac ex rest :
  json_numeral ip frac ex -> rest_ok rest ->
  match_number (map byte_val (numeral_text neg ip frac ex) ++ rest)
  = Some (JFloat (map byte_val (numeral_text neg ip frac ex)), rest).
Proof.
  intros (Hne & Hd & Hz & Hf & He) Hr. destruct (rest_ok_cases rest Hr) as [Hr1 Hr2].
  set (F := match frac with Some f => 46 :: map byte_val f | None => [] end).
  set (E := map byte_val (exp_text ex)).
  assert (map byte_val (numeral_text neg ip frac ex)
          = map byte_val (if neg then ["-"%char] else []) ++ map byte_val ip ++ F ++ E) as Hsplit.
  { rewrite numeral_text_eq, !map_app. subst F E. by destruct frac. }
  assert (no_digit_start (E ++ rest) /\ match E ++ rest with c :: _ => c <> 46 | [] => True end)
    as [HE1 HE2].
  { subst E. destruct ex as [[s ds]|]; [split; [reflexivity|]; cbn; change (byte_val "e"%char) with 101; lia|].
    simpl. split; [done|]. destruct rest; [done|]. lia. }
  assert (no_digit_start (F ++ E ++ rest)) as HF by (subst F; by destruct frac).
  assert (match_sign (map byte_val (numeral_text neg ip frac ex) ++ rest)
          = (map byte_val (if neg then ["-"%char] else []), map byte_val ip ++ F ++ E ++ rest)) as Hs.
  { rewrite Hsplit, <- !app_assoc. destruct neg; [reflexivity|].
    destruct ip as [|d ip]; [done|]. apply Forall_cons in Hd as [Hd _].
    pose proof (byte_val_digit d Hd) as Hdc. unfold is_digit_cp in Hdc. cbn [map app match_sign]. zif. done. }
  unfold match_number. rewrite Hs, match_int_numeral by done. cbv zeta. subst F.
  rewrite (match_frac_numeral frac (E ++ rest)) by (done || (intros ->; exact HE2)).
  subst E. rewrite (match_exp_numeral ex rest);
    [|by destruct ex as [[? ?]|]|done|destruct rest; [done|]; simpl in Hr2; lia].
  rewrite Hsplit.
  destruct frac as [f|], ex as [[s ds]|]; simpl in He; try done; reflexivity.
Qed.

(** ** Scalars *)

Lemma text_string_of (l : list ascii) : text (string_of_list_ascii l) = map byte_val l.
Proof. unfold text. by rewrite list_ascii_of_string_of_list_ascii. Qed.

Lemma finite_eqb_self (x : float) s (m : positive) e : Prim2SF x = S754_finite s m e -> PrimFloat.eqb x x = true.
Proof.
  intros Hx. rewrite FloatAxioms.eqb_spec, Hx. unfold SFeqb, SFcompare.
  destruct s; by rewrite ?Z.compare_refl, ?Pos.compare_cont_refl.
Qed.

(** [floatstr] writes a named constant for [nan] and the infinities and a
    JSON numeral otherwise, and [num_jval] is what the scanner makes of it. *)
Lemma floatstr_cases (x : float) :
  (floatstr x = text "NaN" /\ num_jval x = JConst JNaN) \/
  (floatstr x = text "Infinity" /\ num_jval x = JConst JInfinity) \/
  (floatstr x = text "-Infinity" /\ num_jval x = JConst JNegInfinity) \/
  exists neg ip frac ex, json_numeral ip frac ex /\
    floatstr x = map byte_val (numeral_text neg ip frac ex) /\
    num_jval x = JFloat (map byte_val (numeral_text neg ip frac ex)).
Proof.
  unfold floatstr, num_jval.
  destruct (Prim2SF x) as [s|s| |s m e] eqn:Hx.
  - assert (PrimFloat.eqb x x = true /\ PrimFloat.eqb x PrimFloat.infinity = false /\
            PrimFloat.eqb x PrimFloat.neg_infinity = false) as (-> & -> & ->)
      by (rewrite !FloatAxioms.eqb_spec, Hx; destruct s; repeat split; reflexivity).
    right; right; right. destruct (float_repr_json x) as (neg & ip & frac & ex & Hr & Hj);
      [intros ?; congruence|congruence|].
    exists neg, ip, frac, ex. rewrite Hr, text_string_of. done.
  - rewrite !FloatAxioms.eqb_spec, Hx. destruct s; [right; right; left|right; left]; split; reflexivity.
  - rewrite !FloatAxioms.eqb_spec, Hx. left. split; reflexivity.
  - rewrite (finite_eqb_self x s m e Hx).
    assert (PrimFloat.eqb x PrimFloat.infinity = false /\ PrimFloat.eqb x PrimFloat.neg_infinity = false)
      as [-> ->] by (rewrite !FloatAxioms.eqb_spec, Hx; destruct s; split; reflexivity).
    right; right; right. destruct (float_repr_json x) as (neg & ip & frac & ex & Hr & Hj);
      [intros ?; congruence|congruence|].
    exists neg, ip, frac, ex. rewrite Hr, text_string_of. done.
Qed.

Lemma starts_with_cons w0 w c s : starts_with (w0 :: w) (c :: s) = (w0 =? c) && starts_with w s.
Proof.
  unfold starts_with. cbn [List.length take]. destruct (Z.eqb_spec w0 c) as [->|Hne]; simpl.
  - apply bool_decide_ext. split; [by intros [=]|congruence].
  - apply bool_decide_eq_false. congruence.
Qed.

Lemma starts_with_app w s : starts_with w (w ++ s) = true.
Proof. unfold starts_with. apply bool_decide_eq_true. by rewrite take_app_length. Qed.

Lemma named_constants_eq :
  named_constants =
  [([110; 117; 108; 108], JNull); ([116; 114; 117; 101], JBool true);
   ([102; 97; 108; 115; 101], JBool false); ([78; 97; 78], JConst JNaN);
   ([73; 110; 102; 105; 110; 105; 116; 121], JConst JInfinity);
   ([45; 73; 110; 102; 105; 110; 105; 116; 121], JConst JNegInfinity)].
Proof. reflexivity. Qed.

(** A numeral starts with a digit, or a minus and a digit: no named
    constant matches it. *)
Lemma match_constant_numeral neg ip frac ex rest :
  ip <> [] -> all_digits ip -> match_constant (map byte_val (numeral_text neg ip frac ex) ++ rest) = None.
Proof.
  intros Hne Hd. destruct (numeral_start neg ip frac ex Hne Hd) as (c & t & -> & Hc & Hneg & Hdig).
  unfold match_constant. rewrite named_constants_eq. cbn [List.find fst app].
  rewrite !starts_with_cons. unfold is_digit_cp in Hc.
  destruct (Z.eqb_spec c 45) as [->|Hc45].
  - destruct (Hdig (Hneg eq_refl)) as (d & t' & -> & Hd'). unfold is_digit_cp in Hd'.
    cbn [app]. rewrite !starts_with_cons. zif. reflexivity.
  - destruct Hc as [Hc|Hc]; [done|]. zif. reflexivity.
Qed.

Lemma starts_with_nil s : starts_with [] s = true.
Proof. reflexivity. Qed.

Lemma text_bound (s : string) : Forall (fun c => 0 <= c < 0xD800) (text s).
Proof.
  unfold text. apply Forall_map, Forall_forall. intros a _. unfold byte_val.
  pose proof (nat_ascii_bounded a). lia.
Qed.

(** A named constant followed by what may follow a value. *)
Ltac scan_constant :=
  cbn [app scan_once Z.eqb Pos.eqb]; unfold match_constant; rewrite named_constants_eq;
  cbn [List.find fst snd app]; rewrite ?starts_with_cons; cbn [Z.eqb Pos.eqb andb];
  rewrite ?starts_with_nil; reflexivity.

(** The scanner reads back the text of a value that is not a container. *)
Lemma scan_scalar (v : pyval float) t f rest :
  scalar_text v = Some t -> rest_ok rest -> scan_once (S f) (t ++ rest) = Some (jv_of v, rest).
Proof.
  intros Hv Hr. destruct v as [|[]|x|s|l|kvs]; cbn [scalar_text] in Hv; injection Hv as <- || discriminate.
  - change (text "null") with [110; 117; 108; 108]. scan_constant.
  - change (text "true") with [116; 114; 117; 101]. scan_constant.
  - change (text "false") with [102; 97; 108; 115; 101]. scan_constant.
  - cbn [jv_of]. destruct (floatstr_cases x) as [[-> ->]|[[-> ->]|[[-> ->]|(neg & ip & frac & ex & Hj & -> & ->)]]].
    + change (text "NaN") with [78; 97; 78]. scan_constant.
    + change (text "Infinity") with [73; 110; 102; 105; 110; 105; 116; 121]. scan_constant.
    + change (text "-Infinity") with [45; 73; 110; 102; 105; 110; 105; 116; 121]. scan_constant.
    + destruct (numeral_start neg ip frac ex) as (c & t & Hct & Hc & _ & _); [apply Hj|apply Hj|].
      pose proof (match_constant_numeral neg ip frac ex rest ltac:(apply Hj) ltac:(apply Hj)) as Hmc.
      pose proof (match_number_numeral neg ip frac ex rest Hj Hr) as Hmn.
      rewrite Hct in Hmc, Hmn |- *. cbn [app] in Hmc, Hmn |- *. cbn [scan_once]. rewrite Hmc, Hmn.
      unfold is_digit_cp in Hc. zif; reflexivity.
  - unfold encode_basestring_ascii. cbn [app scan_once Z.eqb Pos.eqb]. rewrite <- app_assoc.
    cbn [app]. rewrite scanstring_escaped by apply text_bound. reflexivity.
Qed.

(** ** Containers *)

Lemma skip_ws_ws (w s : list Z) : Forall (fun c => is_ws c = true) w -> skip_ws (w ++ s) = skip_ws s.
Proof. induction 1 as [|c w Hc _ IH]; [done|]. cbn [app skip_ws]. by rewrite Hc. Qed.

Lemma skip_ws_stop c s : is_ws c = false -> skip_ws (c :: s) = c :: s.
Proof. intros Hc. cbn [skip_ws]. by rewrite Hc. Qed.

Lemma newline_indent_ws level : Forall (fun c => is_ws c = true) (newline_indent level).
Proof. constructor; [reflexivity|]. apply List.Forall_forall. intros c Hc%repeat_spec. by subst. Qed.

Lemma skip_newline_indent level s : skip_ws (newline_indent level ++ s) = skip_ws s.
Proof. apply skip_ws_ws, newline_indent_ws. Qed.

(** The text of a value starts with a character that is not whitespace
    and closes nothing. *)
Lemma enc_head (v : pyval float) level :
  exists c t, List.concat (iterencode v level) = c :: t /\ is_ws c = false /\ c <> 93 /\ c <> 125.
Proof.
  destruct v as [|[]|x|s|[|x r]|[|[k x] r]].
  1-3: eexists _, _; split; [reflexivity|]; split; [reflexivity|split; intros H; vm_compute in H; discriminate].
  - cbn [iterencode scalar_text]. cbn [List.concat]. rewrite app_nil_r.
    destruct (floatstr_cases x) as [[-> _]|[[-> _]|[[-> _]|(neg & ip & frac & ex & Hj & -> & _)]]].
    1-3: eexists _, _; split; [reflexivity|]; split; [reflexivity|split; intros H; vm_compute in H; discriminate].
    destruct (numeral_start neg ip frac ex) as (c & t & -> & Hc & _ & _); [apply Hj|apply Hj|].
    exists c, t. unfold is_digit_cp, is_ws in *. split; [done|]. zif; split; reflexivity || lia.
  - eexists _, _. split; [reflexivity|]. split; [reflexivity|split; intros H; vm_compute in H; discriminate].
  - eexists _, _. split; [reflexivity|]. split; [reflexivity|split; intros H; vm_compute in H; discriminate].
  - rewrite iterencode_list. cbn [list_items].
    destruct (scalar_text x); eexists _, _; (split; [reflexivity|]);
      (split; [reflexivity|split; intros H; vm_compute in H; discriminate]).
  - eexists _, _. split; [reflexivity|]. split; [reflexivity|split; intros H; vm_compute in H; discriminate].
  - rewrite iterencode_dict. eexists _, _. split; [reflexivity|]. split; [reflexivity|split; intros H; vm_compute in H; discriminate].
Qed.

Lemma skip_ws_enc (v : pyval float) level s :
  skip_ws (List.concat (iterencode v level) ++ s) = List.concat (iterencode v level) ++ s.
Proof. destruct (enc_head v level) as (c & t & -> & Hc & _). by apply skip_ws_stop. Qed.

Lemma rest_ok_ws (w s : list Z) : w <> [] -> Forall (fun c => is_ws c = true) w -> rest_ok (w ++ s).
Proof. destruct w as [|c w]; [done|]. intros _ Hw%Forall_cons. simpl. left. apply Hw. Qed.

Lemma parse_array_items level x r acc f rest :
  Forall scans (x :: r) ->
  (List.length (List.concat (iterencode x (S level)) ++ List.concat (list_items level false r)
                ++ newline_indent level ++ [93%Z]) < f)%nat ->
  parse_array f acc (List.concat (iterencode x (S level)) ++ List.concat (list_items level false r)
                     ++ newline_indent level ++ 93 :: rest)
  = Some (JArr (acc ++ map jv_of (x :: r)), rest).
Proof.
  revert x acc f. induction r as [|y r IH]; intros x acc f Hs Hf; apply Forall_cons in Hs as [Hx Hs];
    destruct f as [|f]; try (simpl in Hf; lia); rewrite !length_app in Hf.
  - cbn [list_items List.concat app parse_array].
    rewrite Hx; [|apply rest_ok_ws; [done|apply newline_indent_ws]|simpl in Hf; lia].
    rewrite skip_newline_indent. reflexivity.
  - rewrite list_items_text in Hf |- *. rewrite !length_app in Hf. cbn [parse_array].
    rewrite <- !app_assoc. cbn [app].
    rewrite Hx; [|simpl; lia|cbn [List.length] in Hf; lia].
    cbn [skip_ws is_ws Z.eqb Pos.eqb orb]. rewrite skip_newline_indent, skip_ws_enc.
    rewrite (IH y (acc ++ [jv_of x])); [|done|rewrite !length_app; cbn [List.length] in Hf |- *; lia].
    by rewrite <- app_assoc.
Qed.

Lemma parse_object_items level k x r acc f rest :
  Forall (fun kv => scans kv.2) ((k, x) :: r) ->
  (List.length (encode_basestring_ascii k ++ text ": " ++ List.concat (iterencode x (S level))
                ++ List.concat (dict_items level false r) ++ newline_indent level ++ [125%Z]) < f)%nat ->
  parse_object f acc (encode_basestring_ascii k ++ text ": " ++ List.concat (iterencode x (S level))
                      ++ List.concat (dict_items level false r) ++ newline_indent level ++ 125 :: rest)
  = Some (JObj (acc ++ map (fun kv => (text kv.1, jv_of kv.2)) ((k, x) :: r)), rest).
Proof.
  revert k x acc f. induction r as [|[k' y] r IH]; intros k x acc f Hs Hf;
    apply Forall_cons in Hs as [Hx Hs]; cbn [snd] in Hx;
    destruct f as [|f]; try (simpl in Hf; lia); rewrite !length_app in Hf;
    unfold encode_basestring_ascii in *; change (text ": ") with [58; 32] in *;
    rewrite <- ?app_assoc; cbn [app parse_object Z.eqb Pos.eqb]; rewrite <- ?app_assoc; cbn [app];
    rewrite scanstring_escaped by apply text_bound;
    cbn [skip_ws is_ws Z.eqb Pos.eqb orb]; rewrite skip_ws_enc.
  - cbn [dict_items List.concat app].
    rewrite Hx; [|apply rest_ok_ws; [done|apply newline_indent_ws]|cbn [List.length] in Hf; lia].
    rewrite skip_newline_indent. reflexivity.
  - rewrite dict_items_text in Hf |- *. rewrite !length_app in Hf. unfold encode_basestring_ascii in *.
    rewrite <- ?app_assoc. cbn [app].
    rewrite Hx; [|simpl; lia|cbn [List.length] in Hf; lia].
    cbn [skip_ws is_ws Z.eqb Pos.eqb orb]. rewrite skip_newline_indent.
    rewrite <- ?app_assoc in IH. cbn [app] in IH.
    rewrite (IH k' y (acc ++ [(text k, jv_of x)]));
      [|done|change (text ": ") with [58; 32] in Hf; len_simpl Hf; lia].
    by rewrite <- app_assoc.
Qed.

Lemma scans_scalar (v : pyval float) t : scalar_text v = Some t -> scans v.
Proof.
  intros Hv level f rest Hr Hf. rewrite (iterencode_scalar v t level Hv) in Hf |- *.
  cbn [List.concat] in Hf |- *. rewrite app_nil_r in Hf |- *.
  destruct f as [|f]; [lia|]. by apply scan_scalar.
Qed.

(** The scanner reads back the text [json.dump] writes for any value, at
    any indentation level, followed by what may follow a value. *)
Lemma scans_all (v : pyval float) : scans v.
Proof.
  induction v as [| b | x | s | l Hl | kvs Hkvs] using pyval_nested_ind.
  1-4: try destruct b; eapply scans_scalar; reflexivity.
  - intros level f rest Hr Hf. destruct f as [|f]; [lia|]. destruct l as [|x r]; [reflexivity|].
    rewrite iterencode_list in Hf |- *. rewrite concat_app, list_items_text in Hf |- *.
    cbn [List.concat] in Hf |- *. rewrite !app_nil_r in Hf |- *. rewrite <- !app_assoc. cbn [app scan_once Z.eqb Pos.eqb].
    rewrite skip_newline_indent. destruct (enc_head x (S level)) as (c & t & Hct & Hc & Hc93 & _).
    rewrite <- !app_assoc in Hf. rewrite Hct. cbn [app skip_ws]. rewrite Hc.
    rewrite (proj2 (Z.eqb_neq c 93) Hc93). rewrite app_comm_cons, <- Hct.
    pose proof (parse_array_items level x r [] f rest Hl) as Hp.
    apply Hp. rewrite Hct in Hf |- *. len_simpl Hf. lia.
  - intros level f rest Hr Hf. destruct f as [|f]; [lia|]. destruct kvs as [|[k x] r]; [reflexivity|].
    rewrite iterencode_dict in Hf |- *. cbn [List.concat] in Hf |- *.
    rewrite concat_app, dict_items_text in Hf |- *. cbn [List.concat] in Hf |- *.
    rewrite !app_nil_r in Hf |- *. rewrite <- !app_assoc. cbn [app scan_once Z.eqb Pos.eqb].
    rewrite skip_newline_indent. unfold encode_basestring_ascii. cbn [app skip_ws is_ws Z.eqb Pos.eqb orb].
    pose proof (parse_object_items level k x r [] f rest Hkvs) as Hp.
    unfold encode_basestring_ascii in Hp. cbn [app] in Hp. rewrite <- ?app_assoc in Hp.
    rewrite <- ?app_assoc. apply Hp. unfold encode_basestring_ascii in Hf. len_simpl Hf. lia.
Qed.

(** ** The whole document *)

(** [json.dump]'s text reads back with [json.loads]. *)
Lemma decode_dump (v : pyval float) : decode_doc (dump_text v) = Some (jv_of v).
Proof.
  unfold decode_doc, dump_text. rewrite <- (app_nil_r (List.concat (iterencode v 0%nat))), skip_ws_enc.
  rewrite (scans_all v 0%nat _ []); [reflexivity|done|]. rewrite app_nil_r. lia.
Qed.

(** ** Every character [json.dump] writes is printable ASCII or a newline *)

Lemma hexdigit_char d : 0 <= d < 16 -> json_char (hexdigit d).
Proof. intros Hd. unfold json_char, hexdigit. zif; lia. Qed.

Lemma hex4_chars y : 0 <= y -> Forall json_char (hex4 y).
Proof.
  intros Hy. unfold hex4. change 0xf with (Z.ones 4).
  rewrite !Z.land_ones, !Z.shiftr_div_pow2 by lia.
  repeat (apply List.Forall_cons; [apply hexdigit_char; apply Z.mod_pos_bound; lia|]). apply List.Forall_nil.
Qed.

Lemma escape_char_chars c : 0 <= c -> Forall json_char (escape_char c).
Proof.
  intros Hc. unfold escape_char. cbv zeta. zif;
    repeat (apply List.Forall_cons; [unfold json_char; lia|]); try apply List.Forall_nil;
    try (apply Forall_app_2; [|repeat (apply List.Forall_cons; [unfold json_char; lia|])]);
    apply hex4_chars; rewrite ?Z.shiftr_div_pow2 by lia;
    try (apply Z.add_nonneg_nonneg; [lia|]); try apply Z.div_pos; try apply Z.land_nonneg; lia.
Qed.

Lemma json_charb_char c : json_charb c = true -> json_char c.
Proof.
  unfold json_charb, json_char. intros H. apply orb_prop in H as [H|H]; [left; lia|].
  apply andb_prop in H as [H1 H2]. right. lia.
Qed.

Lemma json_charb_forall (l : list Z) : forallb json_charb l = true -> Forall json_char l.
Proof.
  intros H. apply List.Forall_forall. intros c Hc. apply json_charb_char.
  eapply forallb_forall in H; [exact H|exact Hc].
Qed.

Ltac char_lit := apply json_charb_char; vm_compute; reflexivity.
Ltac chars_lit := apply json_charb_forall; vm_compute; reflexivity.

Lemma digits_chars (l : list ascii) : all_digits l -> Forall json_char (map byte_val l).
Proof.
  intros Hl. apply Forall_map. eapply Forall_impl; [exact Hl|]. intros a Ha%byte_val_digit.
  unfold is_digit_cp in Ha. apply andb_prop in Ha as [H1 H2]. apply Z.leb_le in H1, H2. unfold json_char. lia.
Qed.

Lemma numeral_text_chars neg ip frac ex :
  json_numeral ip frac ex -> Forall (fun c => numeral_charb c = true) (map byte_val (numeral_text neg ip frac ex)).
Proof.
  intros (_ & Hip & _ & Hf & He). rewrite numeral_text_eq, !map_app.
  assert (forall l, all_digits l -> Forall (fun c => numeral_charb c = true) (map byte_val l)) as Hd.
  { intros l Hl. eapply Forall_impl; [by apply digits_cp|]. intros c Hc. unfold numeral_charb. by rewrite Hc. }
  repeat apply Forall_app_2.
  - destruct neg; repeat constructor.
  - by apply Hd.
  - destruct frac as [f|]; [|constructor]. constructor; [reflexivity|]. apply Hd, Hf.
  - destruct ex as [[s ds]|]; [|constructor]. cbn [exp_text map].
    constructor; [reflexivity|]. constructor; [by destruct s|]. apply Hd, He.
Qed.

Lemma numeral_chars neg ip frac ex :
  json_numeral ip frac ex -> Forall json_char (map byte_val (numeral_text neg ip frac ex)).
Proof.
  intros Hj. eapply Forall_impl; [by apply numeral_text_chars|]. intros c Hc. apply json_charb_char.
  unfold numeral_charb, is_digit_cp, json_charb in *. zif; reflexivity || discriminate.
Qed.

Lemma numeral_no_term neg ip frac ex :
  json_numeral ip frac ex -> no_term (map byte_val (numeral_text neg ip frac ex)).
Proof.
  intros Hj. eapply Forall_impl; [by apply numeral_text_chars|]. intros c Hc.
  unfold numeral_charb, is_digit_cp, is_ws in *. zif; try discriminate; split; [reflexivity|lia].
Qed.


Lemma newline_indent_chars level : Forall json_char (newline_indent level).
Proof.
  apply List.Forall_cons; [by left|]. apply List.Forall_forall. intros c Hc%repeat_spec. subst. unfold json_char. lia.
Qed.

Lemma text_nonneg (s : string) : Forall (fun c => 0 <= c) (text s).
Proof. unfold text. apply Forall_map, Forall_forall. intros a _. unfold byte_val. lia. Qed.

Lemma encode_string_chars (s : string) : Forall json_char (encode_basestring_ascii s).
Proof.
  unfold encode_basestring_ascii. apply List.Forall_cons; [char_lit|]. apply Forall_app_2; [|chars_lit].
  apply Forall_flat_map. eapply Forall_impl; [apply text_nonneg|]. apply escape_char_chars.
Qed.

(** Every character of the text of a value is printable ASCII or a newline. *)
Lemma dump_chars (v : pyval float) level : Forall json_char (List.concat (iterencode v level)).
Proof.
  revert level. induction v as [| b | x | s | l Hl | kvs Hkvs] using pyval_nested_ind; intros level.
  - chars_lit.
  - destruct b; chars_lit.
  - cbn [iterencode scalar_text List.concat]. rewrite app_nil_r.
    destruct (floatstr_cases x) as [[-> _]|[[-> _]|[[-> _]|(neg & ip & frac & ex & Hj & -> & _)]]];
      [chars_lit|chars_lit|chars_lit|by apply numeral_chars].
  - cbn [iterencode scalar_text List.concat]. rewrite app_nil_r. apply encode_string_chars.
  - destruct l as [|x r]; [chars_lit|]. rewrite iterencode_list, concat_app.
    apply Forall_app_2; [|cbn [List.concat]; rewrite app_nil_r; apply Forall_app_2; [apply newline_indent_chars|chars_lit]].
    generalize true as first. revert x Hl. induction r as [|y r IH]; intros x Hl first;
      apply Forall_cons in Hl as [Hx Hl]; rewrite list_items_text.
    all: apply Forall_app_2; [apply List.Forall_cons; [destruct first; char_lit|apply newline_indent_chars]|].
    all: apply Forall_app_2; [apply Hx|].
    + constructor.
    + by apply IH.
  - destruct kvs as [|[k x] r]; [chars_lit|]. rewrite iterencode_dict. cbn [List.concat].
    apply List.Forall_cons; [char_lit|]. apply Forall_app_2; [apply newline_indent_chars|].
    rewrite concat_app.
    apply Forall_app_2; [|cbn [List.concat]; rewrite app_nil_r; apply Forall_app_2; [apply newline_indent_chars|chars_lit]].
    generalize true as first. revert k x Hkvs. induction r as [|[k' y] r IH]; intros k x Hkvs first;
      apply Forall_cons in Hkvs as [Hx Hkvs]; rewrite dict_items_text.
    all: apply Forall_app_2; [destruct first; [constructor|apply List.Forall_cons; [char_lit|apply newline_indent_chars]]|].
    all: apply Forall_app_2; [apply encode_string_chars|].
    all: apply Forall_app_2; [chars_lit|].
    all: apply Forall_app_2; [apply Hx|].
    + constructor.
    + by apply IH.
Qed.

(** ** A cut-off text does not decode *)

Lemma prefix_app_cases {X} (l1 l2 p : list X) :
  p `prefix_of` l1 ++ l2 -> (p `prefix_of` l1 /\ p <> l1) \/ exists p', p = l1 ++ p' /\ p' `prefix_of` l2.
Proof.
  revert p. induction l1 as [|x l1 IH]; intros p [k Hk].
  - right. exists p. split; [done|]. by exists k.
  - destruct p as [|y p]; [left; split; [apply prefix_nil|done]|].
    injection Hk as -> Hk. destruct (IH p) as [[Hp Hne]|(p' & -> & Hp')]; [by exists k| |].
    + left. split; [by apply prefix_cons|congruence].
    + right. by exists p'.
Qed.

Lemma prefix_cons_cases {X} (x : X) l p : p `prefix_of` x :: l -> p = [] \/ exists p', p = x :: p' /\ p' `prefix_of` l.
Proof.
  intros Hp. apply (prefix_app_cases [x] l p) in Hp as [[Hp Hne]|(p' & -> & Hp')].
  - left. destruct p as [|y p]; [done|]. destruct Hp as [k Hk]. injection Hk as -> Hk.
    destruct p; [done|discriminate].
  - right. by exists p'.
Qed.

Lemma skip_ws_prefix_ws (w p : list Z) : Forall (fun c => is_ws c = true) w -> p `prefix_of` w -> skip_ws p = [].
Proof.
  intros Hw [k Hk]. subst w. apply Forall_app in Hw as [Hp _].
  induction Hp as [|c p Hc _ IH]; [done|]. cbn [skip_ws]. by rewrite Hc.
Qed.

Lemma no_term_sub (t p r : list Z) : no_term t -> p `prefix_of` t -> r `suffix_of` p -> no_term r.
Proof.
  intros Ht [k ->] [k' ->]. unfold no_term in *. apply Forall_app in Ht as [Ht _].
  by apply Forall_app in Ht as [_ Ht].
Qed.

(** After a value cut off inside, the loops of [parse_array] and
    [parse_object] find no separator. *)
Lemma after_cut_array f acc j r3 :
  no_term r3 ->
  match skip_ws r3 with
  | c3 :: r4 => if c3 =? 93 then Some (JArr (acc ++ [j]), r4)
                else if c3 =? 44 then parse_array f (acc ++ [j]) (skip_ws r4) else None
  | [] => None
  end = None.
Proof.
  intros Hr. destruct r3 as [|c r]; [done|]. apply Forall_cons in Hr as [(Hws & H44 & H93 & _) _].
  rewrite skip_ws_stop by done. by rewrite (proj2 (Z.eqb_neq c 93) H93), (proj2 (Z.eqb_neq c 44) H44).
Qed.

Lemma after_cut_object f acc k j r3 :
  no_term r3 ->
  match skip_ws r3 with
  | c3 :: r4 => if c3 =? 125 then Some (JObj (acc ++ [(k, j)]), r4)
                else if c3 =? 44 then parse_object f (acc ++ [(k, j)]) (skip_ws r4) else None
  | [] => None
  end = None.
Proof.
  intros Hr. destruct r3 as [|c r]; [done|]. apply Forall_cons in Hr as [(Hws & H44 & _ & H125) _].
  rewrite skip_ws_stop by done. by rewrite (proj2 (Z.eqb_neq c 125) H125), (proj2 (Z.eqb_neq c 44) H44).
Qed.

(** With any fuel, the text of a value followed by what may follow a
    value scans to that value or to nothing. *)
Lemma scan_any_fuel (v : pyval float) level f rest :
  rest_ok rest ->
  scan_once f (List.concat (iterencode v level) ++ rest) = None \/
  scan_once f (List.concat (iterencode v level) ++ rest) = Some (jv_of v, rest).
Proof.
  intros Hr. destruct (scan_once f _) as [res|] eqn:Hs; [right|by left].
  set (g := Nat.max f (S (List.length (List.concat (iterencode v level))))).
  rewrite <- (scan_once_mono f g _ _ ltac:(lia) Hs). apply scans_all; [done|lia].
Qed.

(** A non-empty prefix of the text of a value starts like it, with a
    character that is not whitespace. *)
Lemma skip_ws_prefix_enc (v : pyval float) level s p :
  p `prefix_of` List.concat (iterencode v level) ++ s -> skip_ws p = p.
Proof.
  intros Hp. destruct (enc_head v level) as (c & t & Hct & Hc & _). rewrite Hct in Hp.
  destruct (prefix_cons_cases c _ p Hp) as [->|(p' & -> & _)]; [done|]. by apply skip_ws_stop.
Qed.

Lemma scanstring_escape_cut c p : 0 <= c < 0xD800 -> p `prefix_of` escape_char c -> scanstring p = None.
Proof.
  intros Hc Hp. unfold escape_char in Hp.
  destruct ((32 <=? c) && (c <=? 126) && negb (c =? 92) && negb (c =? 34)) eqn:Hpr.
  - apply andb_prop in Hpr as [Hpr H4]. apply andb_prop in Hpr as [Hpr H3]. apply andb_prop in Hpr as [H1 H2].
    apply negb_true_iff, Z.eqb_neq in H3, H4. apply Z.leb_le in H1, H2.
    destruct (prefix_cons_cases _ _ _ Hp) as [->|(p' & -> & Hp')]; [done|].
    apply prefix_nil_inv in Hp' as ->. by rewrite scanstring_plain by lia.
  - destruct (prefix_cons_cases _ _ _ Hp) as [->|(p' & -> & Hp')]; [done|].
    pose proof (prefix_length _ _ Hp') as Hlen.
    rewrite (proj2 (Z.leb_gt 0x10000 c) ltac:(lia)) in Hp'. unfold hex4 in *.
    repeat match goal with _ : p' `prefix_of` (if ?b then _ else _) |- _ => destruct b end;
      destruct p' as [|a [|b [|c1 [|d [|z p']]]]]; try reflexivity; cbn [List.length] in Hlen; try lia;
      destruct Hp' as [k Hk]; cbn [app] in Hk; injection Hk; intros; subst; try reflexivity;
      match goal with H : [] = ?l ++ _ |- _ => destruct l; [reflexivity|discriminate] end.
Qed.

(** [scanstring] fails on any prefix of an escaped string without its
    closing quote. *)
Lemma scanstring_cut (cs : list Z) p :
  Forall (fun c => 0 <= c < 0xD800) cs -> p `prefix_of` flat_map escape_char cs -> scanstring p = None.
Proof.
  intros Hcs. revert p. induction Hcs as [|c cs Hc _ IH]; intros p Hp.
  - apply prefix_nil_inv in Hp as ->. reflexivity.
  - cbn [flat_map] in Hp. apply prefix_app_cases in Hp as [[Hp _]|(p' & -> & Hp')].
    + by apply (scanstring_escape_cut c).
    + destruct p' as [|t r]; [rewrite app_nil_r; by apply (scanstring_escape_cut c)|].
      rewrite scanstring_escape_char by done. by rewrite (IH (t :: r) Hp').
Qed.

Lemma encode_string_cut (s : string) p f :
  p `prefix_of` encode_basestring_ascii s -> p <> encode_basestring_ascii s -> scan_once f p = None.
Proof.
  intros Hp Hne. destruct f as [|f]; [done|]. unfold encode_basestring_ascii in *.
  destruct (prefix_cons_cases _ _ _ Hp) as [->|(p' & -> & Hp')]; [done|].
  cbn [scan_once Z.eqb Pos.eqb]. apply prefix_app_cases in Hp' as [[Hp' _]|(q & -> & Hq)].
  - by rewrite (scanstring_cut (text s) p' (text_bound s) Hp').
  - destruct (prefix_cons_cases _ _ _ Hq) as [->|(q' & -> & Hq')].
    + rewrite app_nil_r. by rewrite (scanstring_cut (text s) _ (text_bound s) ltac:(reflexivity)).
    + apply prefix_nil_inv in Hq' as ->. by destruct Hne.
Qed.

Lemma scan_atom_suffix c t p f j r :
  c <> 34 -> c <> 123 -> c <> 91 -> p `prefix_of` c :: t -> scan_once f p = Some (j, r) -> r `suffix_of` p.
Proof.
  intros H34 H123 H91 Hp Hs. destruct f as [|f]; [done|].
  destruct (prefix_cons_cases _ _ _ Hp) as [->|(p' & -> & _)]; [done|].
  cbn [scan_once] in Hs.
  rewrite (proj2 (Z.eqb_neq c 34) H34), (proj2 (Z.eqb_neq c 123) H123), (proj2 (Z.eqb_neq c 91) H91) in Hs.
  destruct (match_constant (c :: p')) as [[j' r']|] eqn:Hc.
  - injection Hs as -> ->. by apply match_constant_suffix in Hc.
  - by apply match_number_suffix in Hs.
Qed.

Ltac lit_atom :=
  split; [repeat (apply List.Forall_cons; [split; [reflexivity|lia]|]); apply List.Forall_nil|];
  eexists _, _; split; [reflexivity|lia].

(** The text of a number or a named constant: no separator in it, and a
    first character that starts no string or container. *)
Lemma atom_text (v : pyval float) t :
  is_atom v -> scalar_text v = Some t ->
  no_term t /\ exists c t', t = c :: t' /\ c <> 34 /\ c <> 123 /\ c <> 91.
Proof.
  intros Ha Hv. destruct v as [|[]|x| | |]; try done; injection Hv as <-.
  - change (text "null") with [110; 117; 108; 108]. lit_atom.
  - change (text "true") with [116; 114; 117; 101]. lit_atom.
  - change (text "false") with [102; 97; 108; 115; 101]. lit_atom.
  - destruct (floatstr_cases x) as [[-> _]|[[-> _]|[[-> _]|(neg & ip & frac & ex & Hj & -> & _)]]].
    + change (text "NaN") with [78; 97; 78]. lit_atom.
    + change (text "Infinity") with [73; 110; 102; 105; 110; 105; 116; 121]. lit_atom.
    + change (text "-Infinity") with [45; 73; 110; 102; 105; 110; 105; 116; 121]. lit_atom.
    + split; [by apply numeral_no_term|].
      destruct (numeral_start neg ip frac ex) as (c & t & -> & Hc & _ & _); [apply Hj|apply Hj|].
      exists c, t. unfold is_digit_cp in Hc. split; [done|]. zif; lia.
Qed.

Lemma atom_cut (v : pyval float) : is_atom v -> cut_fails v.
Proof.
  intros Ha level p f Hp Hne. destruct (scan_once f p) as [[j r]|] eqn:Hs; [|done]. split; [done|].
  assert (exists t, scalar_text v = Some t) as [t Ht] by (destruct v as [|[]| | | |]; try done; eexists; reflexivity).
  rewrite (iterencode_scalar v t level Ht) in Hp. cbn [List.concat] in Hp. rewrite app_nil_r in Hp.
  destruct (atom_text v t Ha Ht) as (Hnt & c & t' & -> & H34 & H123 & H91).
  apply (no_term_sub (c :: t') p); [done..|]. by apply (scan_atom_suffix c t' p f j r).
Qed.

Lemma rest_ok_prefix (c : Z) l p : rest_ok [c] -> p `prefix_of` c :: l -> rest_ok p.
Proof. intros Hc Hp. by destruct (prefix_cons_cases _ _ _ Hp) as [->|(p' & -> & _)]. Qed.

Lemma prefix_closing (w : list Z) c p :
  Forall (fun c => is_ws c = true) w -> p `prefix_of` w ++ [c] -> p <> w ++ [c] -> skip_ws p = [].
Proof.
  intros Hw Hp Hne. apply prefix_app_cases in Hp as [[Hp _]|(q & -> & Hq)]; [by apply (skip_ws_prefix_ws w)|].
  destruct (prefix_cons_cases _ _ _ Hq) as [->|(q' & -> & Hq')].
  - rewrite app_nil_r. by apply (skip_ws_prefix_ws w).
  - apply prefix_nil_inv in Hq' as ->. by destruct Hne.
Qed.

Lemma parse_array_cut level x r acc f p :
  Forall cut_fails (x :: r) ->
  p `prefix_of` List.concat (iterencode x (S level)) ++ List.concat (list_items level false r)
                 ++ newline_indent level ++ [93] ->
  p <> List.concat (iterencode x (S level)) ++ List.concat (list_items level false r)
       ++ newline_indent level ++ [93] ->
  parse_array f acc p = None.
Proof.
  revert x acc f p. induction r as [|y r IH]; intros x acc f p Hc Hp Hne;
    apply Forall_cons in Hc as [Hx Hc]; destruct f as [|f]; try done; cbn [parse_array];
    apply prefix_app_cases in Hp as [[Hp Hne']|(p' & -> & Hp')];
    try (pose proof (Hx (S level) p f Hp Hne') as Hcut; destruct (scan_once f p) as [[j r3]|]; [|done];
         destruct Hcut as [_ Hnt]; by apply after_cut_array).
  - cbn [list_items List.concat app] in Hp', Hne.
    destruct (scan_any_fuel x (S level) f p') as [->| ->];
      [by apply (rest_ok_prefix 10 _ _ ltac:(by left) Hp')|done|].
    rewrite (prefix_closing (newline_indent level) 93 p'); [done|apply newline_indent_ws|done|congruence].
  - rewrite list_items_text in Hp', Hne. rewrite <- !app_assoc in Hp', Hne. cbn [app] in Hp', Hne.
    destruct (scan_any_fuel x (S level) f p') as [->| ->];
      [by apply (rest_ok_prefix 44 _ _ ltac:(by right; left) Hp')|done|].
    destruct (prefix_cons_cases _ _ _ Hp') as [->|(p'' & -> & Hp'')]; [done|].
    rewrite skip_ws_stop by reflexivity. cbn [Z.eqb Pos.eqb].
    apply prefix_app_cases in Hp'' as [[Hp'' _]|(p3 & -> & Hp3)].
    + rewrite (skip_ws_prefix_ws (newline_indent (S level)) p'') by (done || apply newline_indent_ws).
      apply parse_array_nil.
    + rewrite skip_newline_indent, (skip_ws_prefix_enc y (S level) _ p3 Hp3).
      apply (IH y); [done|done|]. intros ->. by destruct Hne.
Qed.

Lemma skip_ws_prefix_cons c l p : is_ws c = false -> p `prefix_of` c :: l -> skip_ws p = p.
Proof. intros Hc Hp. destruct (prefix_cons_cases _ _ _ Hp) as [->|(p' & -> & _)]; [done|]. by apply skip_ws_stop. Qed.

Lemma parse_object_nil f acc : parse_object f acc [] = None.
Proof. by destruct f. Qed.

Lemma scan_once_nil f : scan_once f [] = None.
Proof. by destruct f. Qed.

(** A cut inside one member of an object: in its key, its colon, its
    value, or in the text after it, whose own cuts fail by [Htail]. *)
Lemma object_member_cut level k x T acc f p :
  cut_fails x -> (forall p', p' `prefix_of` T -> rest_ok p') ->
  (forall p', p' `prefix_of` T -> p' <> T ->
     match skip_ws p' with
     | c3 :: r4 => if c3 =? 125 then Some (JObj (acc ++ [(text k, jv_of x)]), r4)
                   else if c3 =? 44 then parse_object f (acc ++ [(text k, jv_of x)]) (skip_ws r4) else None
     | [] => None
     end = None) ->
  p `prefix_of` encode_basestring_ascii k ++ [58; 32] ++ List.concat (iterencode x (S level)) ++ T ->
  p <> encode_basestring_ascii k ++ [58; 32] ++ List.concat (iterencode x (S level)) ++ T ->
  parse_object (S f) acc p = None.
Proof.
  intros Hx HT Htail Hp Hne. unfold encode_basestring_ascii in Hp, Hne. cbn [app] in Hp, Hne.
  rewrite <- ?app_assoc in Hp, Hne. cbn [app] in Hp, Hne.
  destruct (prefix_cons_cases _ _ _ Hp) as [->|(p1 & -> & Hp1)]; [done|].
  cbn [parse_object Z.eqb Pos.eqb].
  apply prefix_app_cases in Hp1 as [[Hp1 _]|(q & -> & Hq)].
  { by rewrite (scanstring_cut (text k) p1 (text_bound k) Hp1). }
  destruct (prefix_cons_cases _ _ _ Hq) as [->|(q1 & -> & Hq1)].
  { rewrite app_nil_r. by rewrite (scanstring_cut (text k) _ (text_bound k) ltac:(reflexivity)). }
  rewrite scanstring_escaped by apply text_bound.
  destruct (prefix_cons_cases _ _ _ Hq1) as [->|(q2 & -> & Hq2)]; [done|].
  rewrite skip_ws_stop by reflexivity. cbn [Z.eqb Pos.eqb].
  destruct (prefix_cons_cases _ _ _ Hq2) as [->|(q3 & -> & Hq3)]; [by cbn [skip_ws]; rewrite scan_once_nil|].
  cbn [skip_ws is_ws Z.eqb Pos.eqb orb]. rewrite (skip_ws_prefix_enc x (S level) _ q3 Hq3).
  apply prefix_app_cases in Hq3 as [[Hq3 Hne3]|(p4 & -> & Hp4)].
  - pose proof (Hx (S level) q3 f Hq3 Hne3) as Hcut. destruct (scan_once f q3) as [[j r3]|]; [|done].
    destruct Hcut as [_ Hnt]. by apply after_cut_object.
  - destruct (scan_any_fuel x (S level) f p4 (HT p4 Hp4)) as [->| ->]; [done|].
    apply Htail; [done|]. intros ->. by destruct Hne.
Qed.

Lemma parse_object_cut level k x r acc f p :
  Forall (fun kv => cut_fails kv.2) ((k, x) :: r) ->
  p `prefix_of` encode_basestring_ascii k ++ [58; 32] ++ List.concat (iterencode x (S level))
                 ++ List.concat (dict_items level false r) ++ newline_indent level ++ [125] ->
  p <> encode_basestring_ascii k ++ [58; 32] ++ List.concat (iterencode x (S level))
       ++ List.concat (dict_items level false r) ++ newline_indent level ++ [125] ->
  parse_object f acc p = None.
Proof.
  revert k x acc f p. induction r as [|[k' y] r IH]; intros k x acc f p Hc Hp Hne;
    apply Forall_cons in Hc as [Hx Hc]; cbn [snd] in Hx; destruct f as [|f]; try done;
    refine (object_member_cut level k x _ acc f p Hx _ _ Hp Hne).
  - intros p' Hp'. by apply (rest_ok_prefix 10 _ _ ltac:(by left) Hp').
  - intros p' Hp' Hne'. by rewrite (prefix_closing (newline_indent level) 125 p'); [|apply newline_indent_ws|..].
  - rewrite dict_items_text. intros p' Hp'. by apply (rest_ok_prefix 44 _ _ ltac:(by right; left) Hp').
  - rewrite dict_items_text. intros p' Hp' Hne'. rewrite <- !app_assoc in Hp', Hne'. cbn [app] in Hp', Hne'.
    destruct (prefix_cons_cases _ _ _ Hp') as [->|(p5 & -> & Hp5)]; [done|].
    rewrite skip_ws_stop by reflexivity. cbn [Z.eqb Pos.eqb].
    apply prefix_app_cases in Hp5 as [[Hp5 _]|(p6 & -> & Hp6)].
    + rewrite (skip_ws_prefix_ws (newline_indent (S level)) p5) by (done || apply newline_indent_ws).
      apply parse_object_nil.
    + rewrite skip_newline_indent. change (text ": ") with [58; 32] in Hp6, Hne'.
      rewrite (skip_ws_prefix_cons 34 _ p6 eq_refl Hp6).
      apply (IH k' y); [done|exact Hp6|]. intros ->. by destruct Hne'.
Qed.


(** The scanner on a strict prefix of the text of any value. *)
Lemma cut_all (v : pyval float) : cut_fails v.
Proof.
  induction v as [| b | x | s | l Hl | kvs Hkvs] using pyval_nested_ind.
  1-3: by apply atom_cut.
  - intros level p f Hp Hne. cbn [iterencode scalar_text List.concat] in Hp, Hne. rewrite app_nil_r in Hp, Hne.
    by rewrite (encode_string_cut s p f Hp Hne).
  - intros level p f Hp Hne. destruct f as [|f]; [done|]. destruct l as [|x r].
    + change (List.concat (iterencode (PList []) level)) with [91; 93] in Hp, Hne.
      destruct (prefix_cons_cases _ _ _ Hp) as [->|(p1 & -> & Hp1)]; [done|].
      destruct (prefix_cons_cases _ _ _ Hp1) as [->|(p2 & -> & Hp2)]; [done|].
      apply prefix_nil_inv in Hp2 as ->. done.
    + rewrite iterencode_list, concat_app, list_items_text in Hp, Hne. cbn [List.concat] in Hp, Hne.
      rewrite app_nil_r, <- !app_assoc in Hp, Hne. cbn [app] in Hp, Hne.
      destruct (prefix_cons_cases _ _ _ Hp) as [->|(p1 & -> & Hp1)]; [done|].
      cbn [scan_once Z.eqb Pos.eqb].
      apply prefix_app_cases in Hp1 as [[Hp1 _]|(p2 & -> & Hp2)].
      * by rewrite (skip_ws_prefix_ws (newline_indent (S level)) p1) by (done || apply newline_indent_ws).
      * rewrite skip_newline_indent, (skip_ws_prefix_enc x (S level) _ p2 Hp2).
        destruct (enc_head x (S level)) as (c & t & Hct & _ & Hc93 & _).
        rewrite Hct in Hp2. destruct (prefix_cons_cases _ _ _ Hp2) as [->|(p3 & -> & Hp3)]; [done|].
        rewrite (proj2 (Z.eqb_neq c 93) Hc93).
        rewrite (parse_array_cut level x r [] f (c :: p3)); [done|done| |].
        -- rewrite Hct. cbn [app]. by apply prefix_cons.
        -- intros Heq. apply Hne. rewrite Hct in Heq. by rewrite Heq, <- Hct.
  - intros level p f Hp Hne. destruct f as [|f]; [done|]. destruct kvs as [|[k x] r].
    + change (List.concat (iterencode (PDict []) level)) with [123; 125] in Hp, Hne.
      destruct (prefix_cons_cases _ _ _ Hp) as [->|(p1 & -> & Hp1)]; [done|].
      destruct (prefix_cons_cases _ _ _ Hp1) as [->|(p2 & -> & Hp2)]; [done|].
      apply prefix_nil_inv in Hp2 as ->. done.
    + rewrite iterencode_dict in Hp, Hne. cbn [List.concat] in Hp, Hne.
      rewrite concat_app, dict_items_text in Hp, Hne. cbn [List.concat] in Hp, Hne.
      change (text ": ") with [58; 32] in Hp, Hne.
      rewrite app_nil_r, <- !app_assoc in Hp, Hne. cbn [app] in Hp, Hne.
      destruct (prefix_cons_cases _ _ _ Hp) as [->|(p1 & -> & Hp1)]; [done|].
      cbn [scan_once Z.eqb Pos.eqb].
      apply prefix_app_cases in Hp1 as [[Hp1 _]|(p2 & -> & Hp2)].
      * by rewrite (skip_ws_prefix_ws (newline_indent (S level)) p1) by (done || apply newline_indent_ws).
      * rewrite skip_newline_indent. unfold encode_basestring_ascii in Hp2.
        rewrite (skip_ws_prefix_cons 34 _ p2 eq_refl Hp2).
        destruct (prefix_cons_cases _ _ _ Hp2) as [->|(p3 & -> & Hp3)]; [done|].
        cbn [Z.eqb Pos.eqb].
        rewrite (parse_object_cut level k x r [] f (34 :: p3)); [done|done| |].
        -- unfold encode_basestring_ascii. rewrite <- ?app_assoc. cbn [app]. by apply prefix_cons.
        -- unfold encode_basestring_ascii. rewrite <- ?app_assoc. cbn [app]. intros Heq. apply Hne.
           rewrite Heq. unfold encode_basestring_ascii. rewrite <- ?app_assoc. cbn [app]. by rewrite <- app_assoc.
Qed.

(** ** The round trip and the cut *)

(** A strict prefix of what [json.dump] writes for a list or a dict (all
    a crash can leave in the file) is refused by [json.loads]. *)
Lemma loads_cut (v : pyval float) p :
  ~ is_atom v -> p `prefix_of` dump_text v -> p <> dump_text v -> json_loads p = None.
Proof.
  intros Ha Hp Hne. assert (decode_doc p = None) as Hd.
  { unfold decode_doc. rewrite (skip_ws_prefix_enc v 0%nat [] p) by (by rewrite app_nil_r).
    pose proof (cut_all v 0%nat p (S (List.length p)) Hp Hne) as Hc.
    destruct (scan_once _ p) as [[j r]|]; [|done]. by destruct Hc as [Hat _]. }
  unfold json_loads. destruct p as [|c p]; [done|]. by destruct (c =? 0xFEFF).
Qed.

Lemma loads_dump (v : pyval float) : json_loads (dump_text v) = Some (jv_of v).
Proof.
  unfold json_loads. destruct (enc_head v 0%nat) as (c & t & Hct & _).
  assert (json_char c) as Hc.
  { pose proof (dump_chars v 0%nat) as Hd. rewrite Hct in Hd. by apply Forall_cons in Hd as [Hd _]. }
  unfold dump_text in *. rewrite Hct. unfold json_char in Hc.
  replace (c =? 0xFEFF) with false by lia. rewrite <- Hct. apply decode_dump.
Qed.
