(* ===== verification/Codec.v ===== *)
(** * Codec: the [json] library on real files, an instance of [JsonCodec]

    The contents of a file are its bytes ([string]).  [dumps] is what
    [save_data] leaves in the file: the text of [json.dump] ([dump_text])
    encoded by [file.write] ([write_text]); [read_error] is the message of
    the [UnicodeDecodeError] of [file.read()] ([read_text]); [loads] is
    [json.loads] on the text read ([json_loads]) followed by the objects
    the scanner builds ([to_pyval]: [float] of a numeral, [parse_constant]
    for [NaN] and the infinities, a [dict] filled pair by pair with
    [PyDict_SetItem], so that a repeated key keeps its first position and
    its last value).  The laws of [JsonCodecLaws] are theorems here: the
    components proved against the interface hold of the real library.
    A numeral without fraction or exponent is an [int] in Python; the
    model reads it as the float of the same literal.  A string holding a
    code point at or above 256 has no [pyval] ([to_pyval] gives [None]). *)

From stdpp Require Import base list strings.
From Stdlib Require Import ZArith Lia Ascii String Floats.
From S2P Require Import Prelude Amount PyFloat Binary64 FloatRepr TextIO PyVal Storage JsonText JsonScan JsonRound.

Local Open Scope Z_scope.
#[local] Set Warnings "-inexact-float".

(** A Python [str] read from JSON, when each code point fits a [pyval]
    string. *)
Definition cps_string (cs : list Z) : option string :=
  if forallb (fun c => (0 <=? c) && (c <? 256)) cs then Some (string_of_list_ascii (map byte_of cs))
  else None.

(** [float(numstr)]. *)
Definition num_of_text (ns : list Z) : option float :=
  match cps_string ns with
  | Some s => match parse_float s with Some l => num_of_lit l | None => None end
  | None => None
  end.

(** [parse_constant]: [float('NaN')], [float('Infinity')], [float('-Infinity')]. *)
Definition const_lit (c : jconst) : flit :=
  match c with JNaN => FLNan | JInfinity => FLInf false | JNegInfinity => FLInf true end.

Fixpoint opt_map {X Y} (f : X -> option Y) (l : list X) : option (list Y) :=
  match l with
  | [] => Some []
  | x :: r => match f x, opt_map f r with Some y, Some ys => Some (y :: ys) | _, _ => None end
  end.

(** The loop of [_parse_object_unicode]: [PyDict_SetItem(rval, key, val)]
    for each pair in order. *)
Fixpoint dict_fill (f : jval -> option (pyval float)) (acc : list (string * pyval float))
    (kvs : list (list Z * jval)) : option (list (string * pyval float)) :=
  match kvs with
  | [] => Some acc
  | (k, x) :: r =>
      match cps_string k, f x with
      | Some k', Some v => dict_fill f (assoc_set k' v acc) r
      | _, _ => None
      end
  end.

Fixpoint to_pyval (j : jval) : option (pyval float) :=
  match j with
  | JNull => Some PNone
  | JBool b => Some (PBool b)
  | JInt ns | JFloat ns => match num_of_text ns with Some x => Some (PNum x) | None => None end
  | JConst c => match num_of_lit (const_lit c) with Some x => Some (PNum x) | None => None end
  | JStr cs => match cps_string cs with Some s => Some (PStr s) | None => None end
  | JArr l => match opt_map to_pyval l with Some vs => Some (PList vs) | None => None end
  | JObj kvs => match dict_fill to_pyval [] kvs with Some d => Some (PDict d) | None => None end
  end.

#[export] Instance Json_codec : JsonCodec float string := {|
  dumps v := match write_text (dump_text v) with Some t => t | None => EmptyString end;
  read_error t := match read_text t with inl m => Some m | inr _ => None end;
  loads t := match read_text t with
             | inr cs => match json_loads cs with Some j => to_pyval j | None => None end
             | inl _ => None
             end
|}.

(** ** Reading back what [json.dump] wrote *)

Lemma byte_of_val (a : ascii) : byte_of (byte_val a) = a.
Proof. unfold byte_of, byte_val. by rewrite Nat2Z.id, ascii_nat_embedding. Qed.

Lemma cps_string_text (s : string) : cps_string (text s) = Some s.
Proof.
  unfold cps_string. replace (forallb _ (text s)) with true.
  - unfold text. by rewrite map_map, (map_ext _ id byte_of_val), map_id, string_of_list_ascii_of_string.
  - symmetry. apply forallb_forall. intros c Hc. unfold text in Hc. apply in_map_iff in Hc as (a & <- & _).
    unfold byte_val. pose proof (nat_ascii_bounded a). zif; lia.
Qed.

Lemma to_pyval_num (x : float) : to_pyval (num_jval x) = Some (PNum x).
Proof.
  unfold num_jval. destruct (Prim2SF x) as [[]|[]| |s m e] eqn:Hx.
  - special_float x (-0)%float.
  - special_float x 0%float.
  - special_float x (-1 / 0)%float.
  - special_float x (1 / 0)%float.
  - special_float x (0 / 0)%float.
  - rewrite (finite_eqb_self x s m e Hx).
    assert (PrimFloat.eqb x PrimFloat.infinity = false /\ PrimFloat.eqb x PrimFloat.neg_infinity = false)
      as [-> ->] by (rewrite !FloatAxioms.eqb_spec, Hx; destruct s; split; reflexivity).
    cbn [negb to_pyval]. unfold num_of_text. rewrite cps_string_text.
    destruct (proj1 (reads_back_iff _ _) (repr_reads_back x)) as (l & -> & ->). done.
Qed.

Lemma wf_doc_list (l : list (pyval float)) : wf_doc (PList l) -> Forall wf_doc l.
Proof. induction l as [|x r IH]; cbn; [done|]. intros [Hx Hr]. constructor; [done|]. by apply IH. Qed.

Lemma wf_doc_dict (kvs : list (string * pyval float)) :
  wf_doc (PDict kvs) -> NoDup kvs.*1 /\ Forall (fun kv => wf_doc kv.2) kvs.
Proof.
  cbn. intros [Hnd Hw]. split; [done|]. clear Hnd.
  induction kvs as [|[k x] r IH]; [done|]. destruct Hw as [Hx Hr]. constructor; [done|]. by apply IH.
Qed.

Lemma assoc_set_notin {V} (k : string) (v : V) (acc : list (string * V)) :
  k ∉ acc.*1 -> assoc_set k v acc = acc ++ [(k, v)].
Proof.
  induction acc as [|[k' v'] r IH]; [done|]. cbn. intros Hn.
  destruct (String.eqb_spec k k') as [->|Hne]; [by destruct Hn; left|].
  rewrite IH; [done|]. intros Hin. apply Hn. by right.
Qed.

Lemma dict_fill_text acc (kvs : list (string * pyval float)) :
  NoDup (acc.*1 ++ kvs.*1) -> Forall (fun kv => to_pyval (jv_of kv.2) = Some kv.2) kvs ->
  dict_fill to_pyval acc (map (fun kv => (text kv.1, jv_of kv.2)) kvs) = Some (acc ++ kvs).
Proof.
  induction kvs as [|[k x] r IH] in acc |- *; cbn [map dict_fill fst snd]; intros Hnd Hx.
  - by rewrite app_nil_r.
  - apply Forall_cons in Hx as [Hx Hr]. cbn in Hx. rewrite cps_string_text, Hx.
    apply NoDup_app in Hnd as (Hacc & Hdis & Hkr). apply NoDup_cons in Hkr as [Hk Hr'].
    rewrite assoc_set_notin by (intros Hin; by apply (Hdis k Hin); left).
    rewrite IH, <- app_assoc; [done| |done].
    rewrite fmap_app, <- app_assoc. apply NoDup_app. split; [done|]. split; [|by constructor].
    intros y Hy Hy'. apply elem_of_app in Hy' as [Hy'|Hy'].
    + apply list_elem_of_singleton in Hy' as ->. apply (Hdis k Hy). by left.
    + apply (Hdis y Hy). by right.
Qed.

(** The scanner's objects are the values that were dumped. *)
Lemma to_pyval_jv_of (v : pyval float) : wf_doc v -> to_pyval (jv_of v) = Some v.
Proof.
  induction v as [| b | x | s | l Hl | kvs Hkvs] using pyval_nested_ind; intros Hwf.
  1-2: done.
  - apply to_pyval_num.
  - cbn [jv_of to_pyval]. by rewrite cps_string_text.
  - cbn [jv_of to_pyval]. apply wf_doc_list in Hwf.
    enough (opt_map to_pyval (map jv_of l) = Some l) as -> by done.
    induction l as [|x r IH]; [done|]. apply Forall_cons in Hl as [Hx Hr], Hwf as [Hwx Hwr].
    cbn. rewrite Hx, IH; done.
  - cbn [jv_of to_pyval]. apply wf_doc_dict in Hwf as [Hnd Hw].
    rewrite (dict_fill_text [] kvs); [done|done|].
    apply Forall_forall. intros kv Hin. eapply Forall_forall in Hkvs; [|exact Hin].
    apply Hkvs. by eapply Forall_forall in Hw.
Qed.

(** ** The bytes of the file *)

(** [json.dump] writes ASCII without carriage returns. *)
Lemma dump_ascii (v : pyval float) : Forall (fun c => 0 <= c < 128 /\ c <> 13) (dump_text v).
Proof. eapply Forall_impl; [apply dump_chars|]. unfold json_char. intros c Hc. lia. Qed.

Lemma utf8_encode_ascii (cs : list Z) : Forall (fun c => 0 <= c < 128) cs -> utf8_encode cs = Some cs.
Proof.
  induction 1 as [|c cs Hc _ IH]; [done|]. cbn [utf8_encode]. rewrite IH.
  unfold utf8_encode_char. zif. done.
Qed.

(** ASCII text without carriage returns is its own bytes and reads back as
    itself. *)
Lemma write_read_ascii (cs : list Z) :
  Forall (fun c => 0 <= c < 128 /\ c <> 13) cs ->
  write_text cs = Some (string_of_list_ascii (map byte_of cs)) /\
  read_text (string_of_list_ascii (map byte_of cs)) = inr cs.
Proof.
  intros Hc. assert (write_text cs = Some (string_of_list_ascii (map byte_of cs))) as Hw.
  { unfold write_text. rewrite utf8_encode_ascii; [done|]. eapply Forall_impl; [exact Hc|]. intros c Hc0; cbn beta in Hc0; lia. }
  split; [done|]. destruct (write_read_text cs) as (t & Ht & Hr).
  - eapply Forall_impl; [exact Hc|]. unfold scalar. intros c Hc0; cbn beta in Hc0; lia.
  - rewrite Hw in Ht. injection Ht as <-. rewrite Hr, translate_no_cr; [done|].
    eapply Forall_impl; [exact Hc|]. intros c Hc0; cbn beta in Hc0; lia.
Qed.

Lemma dumps_bytes (v : pyval float) : dumps v = string_of_list_ascii (map byte_of (dump_text v)).
Proof.
  change (dumps v) with (match write_text (dump_text v) with Some t => t | None => EmptyString end).
  by rewrite (proj1 (write_read_ascii _ (dump_ascii v))).
Qed.

Lemma read_dumps (v : pyval float) : read_text (dumps v) = inr (dump_text v).
Proof. rewrite dumps_bytes. apply write_read_ascii, dump_ascii. Qed.

#[export] Instance Json_codec_laws : JsonCodecLaws float string.
Proof.
  constructor.
  - intros v. cbn [read_error Json_codec]. by rewrite read_dumps.
  - intros v Hwf. cbn [loads Json_codec]. by rewrite read_dumps, loads_dump, to_pyval_jv_of.
Qed.

(** The first [n] bytes of what [save_data] writes, all a crash during
    [json.dump] may leave in the file. *)
Definition cut_bytes (n : nat) (t : string) : string :=
  string_of_list_ascii (take n (list_ascii_of_string t)).

Lemma cut_dumps (v : pyval float) n : cut_bytes n (dumps v) = string_of_list_ascii (map byte_of (take n (dump_text v))).
Proof. unfold cut_bytes. by rewrite dumps_bytes, list_ascii_of_string_of_list_ascii, firstn_map. Qed.

(** ** Properties *)

(** C18: save_data writes any value whose dicts have distinct keys as ASCII
    JSON that file.read() decodes back to the same text and json.load rebuilds
    as exactly that value, floats bit for bit. *)
Theorem json_dump_load (v : pyval float) :
  wf_doc v -> read_text (dumps v) = inr (dump_text v) /\ loads (dumps v) = Some v.
Proof.
  intros Hwf. split; [apply read_dumps|]. cbn [loads Json_codec].
  by rewrite read_dumps, loads_dump, to_pyval_jv_of.
Qed.

(** A data file holding only the first [n] bytes of what [save_data]
    writes for a dict or list, [n] short of the whole, decodes as text but
    is not a JSON document: [json.load] raises [JSONDecodeError]. *)
Theorem loads_cut_file (v : pyval float) n :
  ~ is_atom v -> (n < List.length (dump_text v))%nat ->
  read_error (cut_bytes n (dumps v)) = None /\ loads (cut_bytes n (dumps v)) = None.
Proof.
  intros Ha Hn. rewrite cut_dumps. cbn [read_error loads Json_codec].
  rewrite (proj2 (write_read_ascii _ (Forall_take _ _ _ (dump_ascii v)))). split; [done|].
  rewrite (loads_cut v); [done|done|apply prefix_take|].
  intros Heq. apply (f_equal List.length) in Heq. rewrite length_take in Heq. lia.
Qed.

(** A ledger-shaped document with a float that is not a short decimal, a
    string with a quote and a Latin-1 letter, and a nested list. *)
Definition sample_doc : pyval float :=
  PDict [("income", PNum 0.30000000000000004%float);
         ("note", PStr (String (ascii_of_nat 34) (String (ascii_of_nat 233) "x")));
         ("expenses", PList [PNum 1e23%float; PNone; PBool true])].

Lemma json_dump_load_witness :
  wf_doc sample_doc /\ read_text (dumps sample_doc) = inr (dump_text sample_doc) /\
  loads (dumps sample_doc) = Some sample_doc.
Proof.
  assert (wf_doc sample_doc) as Hw.
  { cbn. split; [apply (bool_decide_unpack _); vm_compute; exact I|tauto]. }
  split; [exact Hw|]. apply (json_dump_load sample_doc Hw).
Defined.
