(* ===== verification/LedgerSpec.v ===== *)
(** * LedgerSpec: the ledger's contract

    The abstract view of [self.data] that the spec (sections 3 and 4)
    describes: a typed [ledger] of income, expense records and balance,
    the two mutations as pure functions that either reject the request
    with the [ValueError] text or return the new ledger, and the JSON
    document a ledger is stored as ([ledger_to_py], spec section 6).
    With exact arithmetic ([ExactNum]) the invariant [ledger_ok] holds:
    the balance is the income minus the expenses, the income is not
    negative, and every record has a positive amount and a known
    category; both mutations preserve it. *)

From stdpp Require Import base list strings.
From Stdlib Require Import String QArith Lqa.
From S2P Require Import Prelude Amount PyVal.

Section Spec.
Context {A : Type} `{PyNum A}.

Record expense : Type := mkExpense {
  e_amount : A;
  e_category : string;
  e_description : string;
  e_date : string
}.

Record ledger : Type := mkLedger {
  l_income : A;
  l_expenses : list expense;
  l_balance : A
}.

Definition empty_ledger : ledger := mkLedger num_zero [] num_zero.

(** Add-income on an amount [float()] has already read. *)
Definition spec_add_income (l : ledger) (a : A) : verr + ledger :=
  if num_ltb a num_zero then inl VENegativeIncome
  else inr (mkLedger (num_add (l_income l) a) (l_expenses l) (num_add (l_balance l) a)).

(** Add-expense on an amount [float()] has already read. *)
Definition spec_add_expense (cats : list string) (l : ledger) (a : A)
           (c d t : string) : verr + ledger :=
  if num_leb a num_zero then inl VENonPositiveExpense
  else if negb (existsb (String.eqb c) cats) then inl (VEInvalidCategory cats)
  else inr (mkLedger (l_income l) (l_expenses l ++ [mkExpense a c d t])
                     (num_sub (l_balance l) a)).

(** The stored document (key order as the program creates it). *)
Definition expense_to_py (e : expense) : pyval A :=
  PDict [("amount", PNum (e_amount e)); ("category", PStr (e_category e));
         ("description", PStr (e_description e)); ("date", PStr (e_date e))].

Definition ledger_to_py (l : ledger) : pyval A :=
  PDict [("income", PNum (l_income l));
         ("expenses", PList (map expense_to_py (l_expenses l)));
         ("balance", PNum (l_balance l))].

(** Type checking a document: the ledger it stores, when it has exactly
    the layout [ledger_to_py] writes, [None] otherwise. *)
Definition py_to_expense (v : pyval A) : option expense :=
  match v with
  | PDict [(k1, PNum a); (k2, PStr c); (k3, PStr d); (k4, PStr t)] =>
      if bool_decide (k1 = "amount" /\ k2 = "category" /\ k3 = "description" /\ k4 = "date")
      then Some (mkExpense a c d t) else None
  | _ => None
  end.

Definition py_to_ledger (v : pyval A) : option ledger :=
  match v with
  | PDict [(k1, PNum i); (k2, PList es); (k3, PNum b)] =>
      if bool_decide (k1 = "income" /\ k2 = "expenses" /\ k3 = "balance")
      then es' ← mapM py_to_expense es; Some (mkLedger i es' b) else None
  | _ => None
  end.
End Spec.

Arguments expense A : clear implicits.
Arguments ledger A : clear implicits.

Section Typing.
Context {A : Type} `{PyNum A}.

Lemma py_to_expense_correct (v : pyval A) e : py_to_expense v = Some e <-> v = expense_to_py e.
Proof.
  split.
  - destruct v as [| | | |vs|kvs]; try discriminate.
    do 5 (destruct kvs as [|[? []] kvs]; try discriminate).
    simpl. case_bool_decide as Hk; [|discriminate]. destruct Hk as (-> & -> & -> & ->).
    by intros [= <-].
  - intros ->. destruct e. simpl. by rewrite ?bool_decide_true.
Qed.

(** [py_to_ledger] accepts exactly the documents of ledgers. *)
Lemma py_to_ledger_correct (v : pyval A) l : py_to_ledger v = Some l <-> v = ledger_to_py l.
Proof.
  split.
  - destruct v as [| | | |vs|kvs]; try discriminate.
    do 4 (destruct kvs as [|[? []] kvs]; try discriminate).
    simpl. case_bool_decide as Hk; [|discriminate]. destruct Hk as (-> & -> & ->).
    destruct (mapM py_to_expense _) as [es'|] eqn:Hm; [|discriminate]. intros [= <-].
    apply mapM_Some in Hm.
    match type of Hm with Forall2 _ ?vs _ => enough (vs = map expense_to_py es') as -> by done end.
    induction Hm as [|v0 e0 vs0 es0 Hx _ IH]; [done|]. simpl. rewrite <- IH.
    by apply py_to_expense_correct in Hx as ->.
  - intros ->. destruct l as [i es b]. simpl. rewrite ?bool_decide_true by done.
    assert (mapM py_to_expense (map expense_to_py es) = Some es) as ->; [|done].
    apply mapM_Some, Forall2_fmap_l, Forall_Forall2_diag, Forall_forall.
    intros e _. by apply py_to_expense_correct.
Qed.
End Typing.

Section Exact.
Context {A : Type} `{ExactNum A}.
Local Open Scope Q_scope.

Definition total_Q (es : list (expense A)) : Q :=
  fold_right (fun e acc => to_Q (e_amount e) + acc) 0 es.

Definition record_ok (cats : list string) (e : expense A) : Prop :=
  0 < to_Q (e_amount e) /\ e_category e ∈ cats.

Definition ledger_ok (cats : list string) (l : ledger A) : Prop :=
  to_Q (l_balance l) == to_Q (l_income l) - total_Q (l_expenses l) /\
  0 <= to_Q (l_income l) /\
  Forall (record_ok cats) (l_expenses l).

Lemma total_Q_app es1 es2 : total_Q (es1 ++ es2) == total_Q es1 + total_Q es2.
Proof.
  induction es1 as [|e es1 IH]; simpl; [lra|]. rewrite IH. lra.
Qed.

Lemma existsb_eqb_elem (c : string) (cats : list string) :
  existsb (String.eqb c) cats = true -> c ∈ cats.
Proof.
  intros Hc. apply existsb_exists in Hc as [c' [Hin Heq]].
  apply String.eqb_eq in Heq. subst c'. by apply list_elem_of_In.
Qed.
End Exact.

#[export] Hint Rewrite @total_Q_app : pysimp.

(** ** The contract's mutations preserve the invariant *)
Section SpecInvariant.
Context {A : Type} `{ExactNum A}.
Local Open Scope Q_scope.

Lemma empty_ledger_ok cats : ledger_ok cats (@empty_ledger A _).
Proof.
  unfold ledger_ok, empty_ledger; simpl. rewrite to_Q_zero.
  split; [lra|split; [lra|constructor]].
Qed.

Lemma spec_add_income_ok cats (l l' : ledger A) a :
  ledger_ok cats l -> spec_add_income l a = inr l' -> ledger_ok cats l'.
Proof.
  unfold spec_add_income. intros (Hb & Hi & Hf).
  destruct (num_ltb a num_zero) eqn:Ha; [discriminate|]. intros [= <-].
  apply num_ltb_false_Q in Ha. rewrite to_Q_zero in Ha.
  unfold ledger_ok; simpl. rewrite !to_Q_add.
  split; [lra|split; [lra|exact Hf]].
Qed.

Lemma spec_add_expense_ok cats (l l' : ledger A) a c d t :
  ledger_ok cats l -> spec_add_expense cats l a c d t = inr l' -> ledger_ok cats l'.
Proof.
  unfold spec_add_expense. intros (Hb & Hi & Hf).
  destruct (num_leb a num_zero) eqn:Ha; [discriminate|].
  destruct (existsb (String.eqb c) cats) eqn:Hc; [|discriminate]. intros [= <-].
  apply num_leb_false_Q in Ha. rewrite to_Q_zero in Ha.
  unfold ledger_ok; simpl. rewrite to_Q_sub, total_Q_app. simpl.
  split; [lra|split; [lra|]].
  apply Forall_app; split; [exact Hf|].
  constructor; [|constructor]. split; [exact Ha|by apply existsb_eqb_elem].
Qed.
End SpecInvariant.

(** ** A decision procedure for the invariant *)
Section Decide.
Context {A : Type} `{ExactNum A}.
Local Open Scope Q_scope.

Definition record_okb (cats : list string) (e : expense A) : bool :=
  Qltb 0 (to_Q (e_amount e)) && existsb (String.eqb (e_category e)) cats.

Definition ledger_okb (cats : list string) (l : ledger A) : bool :=
  Qeq_bool (to_Q (l_balance l)) (to_Q (l_income l) - total_Q (l_expenses l)) &&
  Qle_bool 0 (to_Q (l_income l)) &&
  forallb (record_okb cats) (l_expenses l).

Lemma ledger_okb_sound cats (l : ledger A) : ledger_okb cats l = true -> ledger_ok cats l.
Proof.
  unfold ledger_okb. intros Hb.
  apply andb_true_iff in Hb as [Hb Hf]. apply andb_true_iff in Hb as [Hb Hi].
  split; [by apply Qeq_bool_iff|split; [by apply Qle_bool_iff|]].
  apply Forall_forall. intros e He. apply forallb_forall with (x := e) in Hf;
    [|by apply list_elem_of_In].
  apply andb_true_iff in Hf as [Ha Hc]. split; [by apply Qltb_iff|by apply existsb_eqb_elem].
Qed.
End Decide.
