(* ===== verification/Tracker.v ===== *)
(** * Tracker: the [ExpenseTracker] class (Expense_Calculator.py lines 12-67)

    The process state is one [world]: the attributes of the
    [ExpenseTracker] object ([data_file], [categories], [data]) and the
    part of the operating system the methods touch (the files, what was
    printed, the lines still to be read, the clock, the chart image).
    Each method is a computation of [pym (exn A) world]: it changes the
    world statement by statement and may raise a Python exception, the
    changes made before it staying.  [try ... except ValueError] is
    [ptry _ catch_value_error]; the other exceptions propagate. *)

From stdpp Require Import base list strings gmap.
From Stdlib Require Import String.
From S2P Require Import Prelude Amount PyFloat PyVal Storage.

Local Open Scope py_scope.

Section Tracker.
Context {A T : Type} `{PyNum A} `{JsonCodec A T}.

(** What the program prints, line by line (colour codes left out). *)
Inductive msg : Type :=
| MCorrupted                                    (** line 26 *)
| MAddedIncome (amount balance : A)             (** line 43 *)
| MError (e : verr)                             (** lines 45, 67 *)
| MAddedExpense (amount : A) (category : string) (balance : A)  (** line 65 *)
| MSummaryHeader                                (** line 71 *)
| MTotalIncome (x : A)                          (** line 72 *)
| MTotalExpenses (x : A)                        (** line 74 *)
| MBalance (x : A)                              (** line 75 *)
| MByCategory                                   (** line 76 *)
| MCategoryTotal (category : string) (x : A)    (** line 80 *)
| MNoExpenses                                   (** line 91 *)
| MChartSaved                                   (** line 98 *)
| MMenu                                         (** lines 103-108 *)
| MPrompt (p : string)                          (** the prompt of input() *)
| MCategories (cats : list string)              (** line 115 *)
| MGoodbye                                      (** line 125 *)
| MInvalidChoice.                               (** line 128 *)

Record world : Type := mkWorld {
  data_file : string;                    (** self.data_file *)
  categories : list string;              (** self.categories *)
  data : pyval A;                        (** self.data *)
  files : fs T;                          (** the file system *)
  stdout : list msg;                     (** printed so far *)
  stdin : list string;                   (** lines input() has not read *)
  now : string;                          (** datetime.now().strftime(...) *)
  chart : option (list string * list A)  (** expenses_pie_chart.png *)
}.

Definition tm (X : Type) : Type := pym (exn A) world X.

(** ** Field updates *)
Definition set_self (f : string) (cs : list string) (w : world) : world :=
  mkWorld f cs (data w) (files w) (stdout w) (stdin w) (now w) (chart w).
Definition set_data (d : pyval A) (w : world) : world :=
  mkWorld (data_file w) (categories w) d (files w) (stdout w) (stdin w) (now w) (chart w).
Definition set_files (fs' : fs T) (w : world) : world :=
  mkWorld (data_file w) (categories w) (data w) fs' (stdout w) (stdin w) (now w) (chart w).
Definition set_stdout (o : list msg) (w : world) : world :=
  mkWorld (data_file w) (categories w) (data w) (files w) o (stdin w) (now w) (chart w).
Definition set_stdin (i : list string) (w : world) : world :=
  mkWorld (data_file w) (categories w) (data w) (files w) (stdout w) i (now w) (chart w).
Definition set_chart (c : option (list string * list A)) (w : world) : world :=
  mkWorld (data_file w) (categories w) (data w) (files w) (stdout w) (stdin w) (now w) c.

(** The world after printing [m]. *)
Definition printed (w : world) (m : msg) : world := set_stdout (stdout w ++ [m]) w.

Definition py_print (m : msg) : tm unit := pmodify (fun w => printed w m).

(** ** Construction and persistence *)

Definition default_data : pyval A :=
  PDict [("income", PNum num_zero); ("expenses", PList []); ("balance", PNum num_zero)].

Definition default_categories : list string :=
  ["Food"; "Transport"; "Entertainment"; "Utilities"; "Other"]%string.

(** [load_data]: the file's document, or the default dict when the file
    is missing or is not JSON (after printing the corruption notice); the
    [UnicodeDecodeError] of a file that does not decode as text escapes. *)
Definition load_data : tm (pyval A) :=
  let! w := pget in
  match files w !! data_file w with
  | Some t => match read_error t with
              | Some m => praise (ValueError (VEDecode m))
              | None => match loads t with
                        | Some v => pret v
                        | None => py_print MCorrupted ;;! pret default_data
                        end
              end
  | None => pret default_data
  end.

(** [save_data]: overwrite the data file with [json.dump(self.data)]. *)
Definition save_data : tm unit :=
  pmodify (fun w => set_files (<[data_file w := dumps (data w)]> (files w)) w).

(** [__init__(self, data_file)]. *)
Definition tracker_init (file : string) : tm unit :=
  pmodify (set_self file default_categories) ;;!
  let! d := load_data in
  pmodify (set_data d).

(** ** Reading and updating [self.data] *)

(** [self.data[k]]. *)
Definition get_item (k : string) : tm (pyval A) :=
  let! w := pget in plift (getitem (data w) k).

(** [self.data[k] = v]. *)
Definition set_item (k : string) (v : pyval A) : tm unit :=
  let! w := pget in
  let! d := plift (setitem (data w) k v) in
  pmodify (set_data d).

(** [self.data[k] += a] and [self.data[k] -= a]. *)
Definition iadd_item (k : string) (a : A) : tm unit :=
  let! x := get_item k in
  let! x' := plift (iadd_num x a) in
  set_item k x'.

Definition isub_item (k : string) (a : A) : tm unit :=
  let! x := get_item k in
  let! x' := plift (isub_num x a) in
  set_item k x'.

(** [f"{self.data[k]: .2f}"]. *)
Definition fmt_item (k : string) : tm A :=
  let! x := get_item k in plift (fmt_money x).

(** [except ValueError as e: print(f"Error: {e}")]. *)
Definition catch_value_error (e : exn A) : option (tm unit) :=
  match e with
  | ValueError v => Some (py_print (MError v))
  | _ => None
  end.

(** ** The mutating methods *)

(** [add_income(self, amount)], lines 34-45. *)
Definition add_income (amount : pyval A) : tm unit :=
  ptry (let! a := plift (py_float amount) in
        if num_ltb a num_zero then praise (ValueError VENegativeIncome) else
        iadd_item "income" a ;;!
        iadd_item "balance" a ;;!
        save_data ;;!
        let! b := fmt_item "balance" in
        py_print (MAddedIncome a b))
       catch_value_error.

(** The dict [add_expense] builds, lines 55-60. *)
Definition expense_record (a : A) (category description date : string) : pyval A :=
  PDict [("amount", PNum a); ("category", PStr category);
         ("description", PStr description); ("date", PStr date)].

(** [add_expense(self, amount, category, description)], lines 47-67. *)
Definition add_expense (amount : pyval A) (category description : string) : tm unit :=
  ptry (let! a := plift (py_float amount) in
        if num_leb a num_zero then praise (ValueError VENonPositiveExpense) else
        let! w := pget in
        if negb (existsb (String.eqb category) (categories w))
        then praise (ValueError (VEInvalidCategory (categories w))) else
        let! l := get_item "expenses" in
        let! l' := plift (append l (expense_record a category description (now w))) in
        set_item "expenses" l' ;;!
        isub_item "balance" a ;;!
        save_data ;;!
        let! b := fmt_item "balance" in
        py_print (MAddedExpense a category b))
       catch_value_error.
End Tracker.

Arguments msg A : clear implicits.
Arguments world A T : clear implicits.
Arguments tm A T X : clear implicits.
