(* ===== verification/Refinement.v ===== *)
(** * Refinement: the tracker's methods implement the ledger contract

    On a world whose [self.data] is the stored document of a ledger [l],
    [add_income] and [add_expense] behave as [spec_add_income] and
    [spec_add_expense]: on acceptance [self.data] becomes the document of
    the new ledger, the data file is overwritten with it and the
    confirmation is printed; on rejection only the error line is printed.
    A [ValueError] of [float()] is caught the same way; any other
    exception of [float()] escapes with the world unchanged.  The
    rejections hold on every world, whatever [self.data] holds.  With
    exact amounts, the world invariant [tracker_ok] (the data is the
    document of a ledger satisfying [ledger_ok]) is preserved by both
    methods on every input. *)

From stdpp Require Import base list strings gmap.
From Stdlib Require Import String QArith Lqa.
From S2P Require Import Prelude Amount PyFloat PyVal Storage LedgerSpec Tracker.

Local Open Scope py_scope.

Section Refinement.
Context {A T : Type} `{PyNum A} `{JsonCodec A T}.

(** The world after an accepted mutation that left ledger [l']. *)
Definition committed (w : world A T) (l' : ledger A) (m : msg A) : world A T :=
  printed (set_files (<[data_file w := dumps (ledger_to_py l')]> (files w))
                     (set_data (ledger_to_py l') w)) m.

(** What a method does when the contract answers [r]. *)
Definition contract_outcome (w : world A T) (r : verr + ledger A)
           (ok : ledger A -> msg A) : outcome (exn A) unit * world A T :=
  match r with
  | inr l' => (Ret tt, committed w l' (ok l'))
  | inl v => (Ret tt, printed w (MError v))
  end.

(** What a method does when [float(amount)] raises [e]. *)
Definition float_failure (w : world A T) (e : exn A) : outcome (exn A) unit * world A T :=
  match e with
  | ValueError v => (Ret tt, printed w (MError v))
  | _ => (Exc e, w)
  end.

(** Open a method body after [float(amount)] returned [a]. *)
Ltac open_method Hf :=
  unfold ptry, pbind at 1, plift at 1; rewrite Hf; cbv beta iota delta [pret].

Lemma add_income_float_error (w : world A T) amount e :
  py_float amount = inl e -> add_income amount w = float_failure w e.
Proof. intros Hf. unfold add_income, ptry, pbind, plift. rewrite Hf. by destruct e. Qed.

Lemma add_expense_float_error (w : world A T) amount c d e :
  py_float amount = inl e -> add_expense amount c d w = float_failure w e.
Proof. intros Hf. unfold add_expense, ptry, pbind, plift. rewrite Hf. by destruct e. Qed.

(** The run of the method on a ledger world, against the contract. *)
Lemma add_income_contract (w : world A T) (l : ledger A) (amount : pyval A) (a : A) :
  data w = ledger_to_py l -> py_float amount = inr a ->
  add_income amount w
  = contract_outcome w (spec_add_income l a) (fun l' => MAddedIncome a (l_balance l')).
Proof.
  destruct w as [df cs d fs o i n c]; simpl. intros -> Hf.
  unfold add_income, spec_add_income. open_method Hf.
  destruct (num_ltb a num_zero); reflexivity.
Qed.

(** C1: On a world whose data is the document of a ledger, add_income with a
    parsed amount does what the ledger contract says: on acceptance it stores
    and saves the new ledger and prints the confirmation, on rejection it only
    prints the error. *)
Theorem add_income_refines (w : world A T) (l : ledger A) (amount : pyval A) (a : A) :
  data w = ledger_to_py l -> py_float amount = inr a ->
  add_income amount w
  = contract_outcome w (spec_add_income l a) (fun l' => MAddedIncome a (l_balance l')).
Proof. apply add_income_contract. Qed.

(** The run of the method on a ledger world, against the contract. *)
Lemma add_expense_contract (w : world A T) (l : ledger A) (amount : pyval A) (a : A) c d :
  data w = ledger_to_py l -> py_float amount = inr a ->
  add_expense amount c d w
  = contract_outcome w (spec_add_expense (categories w) l a c d (now w))
                     (fun l' => MAddedExpense a c (l_balance l')).
Proof.
  destruct w as [df cs dd fs o i n ch]; simpl. intros -> Hf.
  unfold add_expense, spec_add_expense. open_method Hf.
  destruct (num_leb a num_zero); [reflexivity|].
  cbv beta iota delta [pbind pget]. simpl.
  destruct (existsb (String.eqb c) cs); simpl; [|reflexivity].
  unfold committed, ledger_to_py. simpl. rewrite map_app. reflexivity.
Qed.

(** C2: On a world whose data is the document of a ledger, add_expense with a
    parsed amount appends the record, lowers the balance, saves and prints as
    the ledger contract says, or only prints the rejection. *)
Theorem add_expense_refines (w : world A T) (l : ledger A) (amount : pyval A) (a : A) c d :
  data w = ledger_to_py l -> py_float amount = inr a ->
  add_expense amount c d w
  = contract_outcome w (spec_add_expense (categories w) l a c d (now w))
                     (fun l' => MAddedExpense a c (l_balance l')).
Proof. apply add_expense_contract. Qed.

(** ** Rejections, on any world *)

(** C5: On any world, add_income with a negative amount prints 'Income cannot
    be negative.' and changes nothing else. *)
Theorem add_income_rejects_negative (w : world A T) amount a :
  py_float amount = inr a -> num_ltb a num_zero = true ->
  add_income amount w = (Ret tt, printed w (MError VENegativeIncome)).
Proof. intros Hf Ha. unfold add_income. open_method Hf. by rewrite Ha. Qed.

(** C6: On any world, add_expense with an amount <= 0 prints 'Expense must be
    positive.' and changes nothing else. *)
Theorem add_expense_rejects_nonpositive (w : world A T) amount a c d :
  py_float amount = inr a -> num_leb a num_zero = true ->
  add_expense amount c d w = (Ret tt, printed w (MError VENonPositiveExpense)).
Proof. intros Hf Ha. unfold add_expense. open_method Hf. by rewrite Ha. Qed.

(** C7: On any world, add_expense with a positive amount and a category
    outside self.categories prints the invalid-category error listing the
    categories and changes nothing else. *)
Theorem add_expense_rejects_category (w : world A T) amount a c d :
  py_float amount = inr a -> num_leb a num_zero = false ->
  existsb (String.eqb c) (categories w) = false ->
  add_expense amount c d w
  = (Ret tt, printed w (MError (VEInvalidCategory (categories w)))).
Proof.
  intros Hf Ha Hc. unfold add_expense. open_method Hf. rewrite Ha.
  cbv beta iota delta [pbind pget]. by rewrite Hc.
Qed.
End Refinement.

(** ** The world invariant, with exact amounts *)
Section WorldInvariant.
Context {A T : Type} `{ExactNum A} `{JsonCodec A T}.

Definition tracker_ok (w : world A T) : Prop :=
  exists l, data w = ledger_to_py l /\ ledger_ok (categories w) l.

Lemma printed_ok (w : world A T) m : tracker_ok w -> tracker_ok (printed w m).
Proof. destruct w; exact id. Qed.

Lemma contract_outcome_ok (w : world A T) r ok :
  (forall l', r = inr l' -> ledger_ok (categories w) l') ->
  tracker_ok w -> tracker_ok (contract_outcome w r ok).2.
Proof.
  intros Hr Hw. destruct r as [v|l']; simpl; [by apply printed_ok|].
  destruct w; exists l'; split; [reflexivity|by apply Hr].
Qed.

Lemma float_failure_ok (w : world A T) e : tracker_ok w -> tracker_ok (float_failure w e).2.
Proof. intros Hw. destruct e; simpl; auto using printed_ok. Qed.

Lemma add_income_keeps_ok (w : world A T) amount :
  tracker_ok w -> tracker_ok (add_income amount w).2.
Proof.
  intros Hw. destruct (py_float amount) as [e|a] eqn:Hf.
  - rewrite (add_income_float_error _ _ _ Hf). by apply float_failure_ok.
  - pose proof Hw as (l & Hd & Hl). rewrite (add_income_contract w l amount a Hd Hf).
    apply contract_outcome_ok; [|done].
    intros l' Hr. by apply (spec_add_income_ok _ l l' a).
Qed.

(** C4: With exact amounts, add_income on any input preserves the ledger
    invariant (balance equals income minus expenses, income non-negative). *)
Theorem add_income_preserves_ok (w : world A T) amount :
  tracker_ok w -> tracker_ok (add_income amount w).2.
Proof. apply add_income_keeps_ok. Qed.

Lemma add_expense_keeps_ok (w : world A T) amount c d :
  tracker_ok w -> tracker_ok (add_expense amount c d w).2.
Proof.
  intros Hw. destruct (py_float amount) as [e|a] eqn:Hf.
  - rewrite (add_expense_float_error _ _ _ _ _ Hf). by apply float_failure_ok.
  - pose proof Hw as (l & Hd & Hl). rewrite (add_expense_contract w l amount a c d Hd Hf).
    apply contract_outcome_ok; [|done].
    intros l' Hr. by apply (spec_add_expense_ok _ l l' a c d (now w)).
Qed.

(** C3: With exact amounts, add_expense on any input preserves the invariant
    that the data is a ledger whose balance is income minus the expenses, with
    non-negative income and positive, categorised records. *)
Theorem add_expense_preserves_ok (w : world A T) amount c d :
  tracker_ok w -> tracker_ok (add_expense amount c d w).2.
Proof. apply add_expense_keeps_ok. Qed.
End WorldInvariant.
