(* ===== verification/Persistence.v ===== *)
(** * Persistence: what [save_data] writes is what [load_data] reads

    Against the [json] contract ([JsonCodecLaws]): saving then loading
    gives back [self.data]; a tracker constructed on the data file after
    an accepted mutation starts from the ledger that mutation produced;
    a missing file gives the empty ledger, a file whose text is not JSON
    gives the empty ledger after the corruption notice, with no exception,
    and a file that does not decode as text makes construction raise the
    [UnicodeDecodeError]; construction establishes the world invariant
    [tracker_ok] whenever the file is missing, or reads as text that is
    not JSON or is the document of a ledger that satisfies [ledger_ok]. *)

From stdpp Require Import base list strings gmap.
From S2P Require Import Prelude Amount PyVal Storage LedgerSpec Tracker Refinement.

Local Open Scope py_scope.

(** Run the plumbing of [tracker_init]/[load_data], leaving the file
    lookup for rewriting. *)
Ltac open_load := unfold tracker_init, load_data, pbind, pmodify, pget, pret; cbn -[insert lookup].

Section Persistence.
Context {A T : Type} `{PyNum A} `{JsonCodecLaws A T}.

Lemma ledger_wf_doc (l : ledger A) : wf_doc (ledger_to_py l).
Proof.
  destruct l as [i es b]; simpl. split; [by apply (bool_decide_unpack _)|].
  split; [done|]. split; [|done].
  induction es as [|e es IH]; simpl; [done|]. split; [|exact IH].
  split; [by apply (bool_decide_unpack _)|done].
Qed.

Lemma default_data_empty : default_data = ledger_to_py (@empty_ledger A _).
Proof. reflexivity. Qed.

(** save_data followed by load_data returns self.data for any JSON
    document with distinct dict keys. *)
Theorem save_load_roundtrip (w : world A T) :
  wf_doc (data w) ->
  (save_data ;;! load_data) w
  = (Ret (data w), set_files (<[data_file w := dumps (data w)]> (files w)) w).
Proof.
  intros Hwf. destruct w; unfold save_data; open_load.
  rewrite lookup_insert_eq, read_error_dumps, loads_dumps; done.
Qed.

(** [ExpenseTracker(f)] where the file [f] holds a document. *)
Lemma tracker_init_doc (w : world A T) file t v :
  files w !! file = Some t -> read_error t = None -> loads t = Some v ->
  tracker_init file w = (Ret tt, set_data v (set_self file default_categories w)).
Proof. intros Hf Hr Hl. destruct w; open_load; simpl in *. by rewrite Hf, Hr, Hl. Qed.

(** [ExpenseTracker(f)] where the file [f] does not decode as text. *)
Lemma tracker_init_undecodable (w : world A T) file t m :
  files w !! file = Some t -> read_error t = Some m ->
  tracker_init file w = (Exc (ValueError (VEDecode m)), set_self file default_categories w).
Proof. intros Hf Hr. destruct w; open_load; simpl in *. by rewrite Hf, Hr. Qed.

(** C17: After an accepted mutation, constructing a tracker on the same data
    file reads back exactly the ledger document the mutation saved. *)
Theorem reopen_after_commit (w : world A T) (l' : ledger A) m :
  tracker_init (data_file w) (committed w l' m)
  = (Ret tt, set_data (ledger_to_py l')
               (set_self (data_file w) default_categories (committed w l' m))).
Proof.
  apply tracker_init_doc with (t := dumps (ledger_to_py l')).
  - destruct w; simpl. apply lookup_insert_eq.
  - apply read_error_dumps.
  - apply loads_dumps, ledger_wf_doc.
Qed.

Lemma tracker_init_missing (w : world A T) file :
  files w !! file = None ->
  tracker_init file w = (Ret tt, set_data default_data (set_self file default_categories w)).
Proof. intros Hf. destruct w; open_load; simpl in *. by rewrite Hf. Qed.

Lemma tracker_init_corrupted (w : world A T) file t :
  files w !! file = Some t -> read_error t = None -> loads t = None ->
  tracker_init file w
  = (Ret tt, set_data default_data (printed (set_self file default_categories w) MCorrupted)).
Proof. intros Hf Hr Hl. destruct w; open_load; simpl in *. by rewrite Hf, Hr, Hl. Qed.

End Persistence.

Section InitInvariant.
Context {A T : Type} `{ExactNum A} `{JsonCodecLaws A T}.

(** The data file is missing, or it reads as text that is not JSON or
    is a sound ledger. *)
Definition stored_ok (o : option T) : Prop :=
  match o with
  | None => True
  | Some t => read_error t = None /\
              match loads t with
              | None => True
              | Some v => exists l, v = ledger_to_py l /\ ledger_ok default_categories l
              end
  end.

Lemma tracker_init_keeps_ok (w : world A T) file :
  stored_ok (files w !! file) -> tracker_ok (tracker_init file w).2.
Proof.
  unfold stored_ok. destruct (files w !! file) as [t|] eqn:Hf.
  - intros [Hr Hd]. destruct (loads t) as [v|] eqn:Hl.
    + destruct Hd as (l & -> & Hl'). rewrite (tracker_init_doc w file t _ Hf Hr Hl). destruct w. by exists l.
    + rewrite (tracker_init_corrupted w file t Hf Hr Hl). destruct w.
      exists empty_ledger. split; [reflexivity|apply empty_ledger_ok].
  - intros _. rewrite (tracker_init_missing w file Hf). destruct w.
    exists empty_ledger. split; [reflexivity|apply empty_ledger_ok].
Qed.

End InitInvariant.
