(* ===== verification/Sequences.v ===== *)
(** * Sequences: many calls in a row, as the spec's properties state them

    Spec section 7: over a sequence of add-income calls the final income
    is the sum of the accepted amounts and the balance grows by the same
    total; over a sequence of add-expense calls the balance ends as the
    income minus the accepted expenses.  The calls run one after the
    other with [pfor]; inputs that [float()] or the guards reject add
    nothing.  With exact amounts ([ExactNum]), for any world whose
    [self.data] is a ledger and any inputs whose conversion errors are
    [ValueError]s (any other exception escapes, as [add_income_none_escapes]
    shows, and ends the sequence). *)

From stdpp Require Import base list strings gmap.
From Stdlib Require Import String QArith Lqa.
From S2P Require Import Prelude Amount PyFloat PyVal Storage LedgerSpec Tracker Refinement.

Local Open Scope py_scope.
Local Open Scope Q_scope.

Section Sequences.
Context {A T : Type} `{ExactNum A} `{JsonCodec A T}.

(** [float(v)] raises nothing but [ValueError]. *)
Definition converts (v : pyval A) : Prop :=
  forall e, py_float v = inl e -> is_value_error e = true.

(** What an accepted [add_income(v)] adds, [0] for a rejected one. *)
Definition income_added (v : pyval A) : Q :=
  match py_float v with
  | inr a => if num_ltb a num_zero then 0 else to_Q a
  | inl _ => 0
  end.

(** What an accepted [add_expense(v, c, d)] subtracts from the balance. *)
Definition expense_taken (cats : list string) (x : pyval A * string * string) : Q :=
  let '(v, c, _) := x in
  match py_float v with
  | inr a => if num_leb a num_zero then 0
             else if existsb (String.eqb c) cats then to_Q a else 0
  | inl _ => 0
  end.

Definition sum_Q {X} (f : X -> Q) (xs : list X) : Q := fold_right (fun x acc => f x + acc) 0 xs.

Lemma pfor_cons_ret {X} (x : X) xs (body : X -> tm A T unit) (w w1 : world A T) :
  body x w = (Ret tt, w1) -> pfor (x :: xs) body w = pfor xs body w1.
Proof. intros Hb. simpl. unfold pbind. by rewrite Hb. Qed.

(** A [ValueError] of [float()] only prints. *)
Lemma float_value_error (w : world A T) e :
  is_value_error e = true -> exists w1, float_failure w e = (Ret tt, w1) /\ data w1 = data w /\
                                        categories w1 = categories w.
Proof. destruct e; try discriminate. intros _. simpl. by eexists. Qed.

Lemma add_incomes_run (vs : list (pyval A)) (w : world A T) (l : ledger A) :
  data w = ledger_to_py l -> Forall converts vs ->
  exists w' l', pfor vs add_income w = (Ret tt, w') /\ data w' = ledger_to_py l' /\
    l_expenses l' = l_expenses l /\
    to_Q (l_income l') == to_Q (l_income l) + sum_Q income_added vs /\
    to_Q (l_balance l') == to_Q (l_balance l) + sum_Q income_added vs.
Proof.
  revert w l. induction vs as [|v vs IH]; intros w l Hd Hc.
  { exists w, l. simpl. split; [done|split; [done|split; [done|split; lra]]]. }
  apply Forall_cons in Hc as [Hv Hc]. simpl sum_Q.
  destruct (py_float v) as [e|a] eqn:Hf.
  - assert (income_added v = 0) as -> by (unfold income_added; by rewrite Hf).
    destruct (float_value_error w e (Hv e Hf)) as (w1 & Hw1 & Hd1 & _).
    rewrite (pfor_cons_ret _ _ _ _ w1) by (by rewrite (add_income_float_error _ _ _ Hf)).
    destruct (IH w1 l) as (w' & l' & ? & ? & ? & ? & ?); [by rewrite Hd1|done|].
    exists w', l'. repeat split; try done; lra.
  - assert (income_added v = if num_ltb a num_zero then 0 else to_Q a) as ->
      by (unfold income_added; by rewrite Hf).
    rewrite (pfor_cons_ret _ _ _ _ (snd (add_income v w)))
      by (rewrite (add_income_contract w l v a Hd Hf); unfold contract_outcome, spec_add_income;
          by destruct (num_ltb a num_zero)).
    rewrite (add_income_contract w l v a Hd Hf). unfold contract_outcome, spec_add_income.
    destruct (num_ltb a num_zero); simpl.
    + destruct (IH (printed w (MError VENegativeIncome)) l) as (w' & l' & ? & ? & ? & ? & ?);
        [by destruct w|done|].
      exists w', l'. repeat split; try done; lra.
    + set (l1 := mkLedger (num_add (l_income l) a) (l_expenses l) (num_add (l_balance l) a)).
      destruct (IH (committed w l1 (MAddedIncome a (l_balance l1))) l1)
        as (w' & l' & ? & ? & ? & Hi & Hb); [by destruct w|done|].
      exists w', l'. unfold l1 in *. cbn [l_income l_balance l_expenses] in *.
      pose proof (to_Q_add (l_income l) a). pose proof (to_Q_add (l_balance l) a).
      repeat split; try done; lra.
Qed.

Definition add_expense_call (x : pyval A * string * string) : tm A T unit :=
  let '(v, c, d) := x in add_expense v c d.

Lemma add_expenses_run (xs : list (pyval A * string * string)) (w : world A T) (l : ledger A) :
  data w = ledger_to_py l -> Forall (fun x => converts x.1.1) xs ->
  exists w' l', pfor xs add_expense_call w = (Ret tt, w') /\ data w' = ledger_to_py l' /\
    categories w' = categories w /\ l_income l' = l_income l /\
    total_Q (l_expenses l') == total_Q (l_expenses l) + sum_Q (expense_taken (categories w)) xs /\
    to_Q (l_balance l') == to_Q (l_balance l) - sum_Q (expense_taken (categories w)) xs.
Proof.
  revert w l. induction xs as [|[[v c] d] xs IH]; intros w l Hd Hc.
  { exists w, l. simpl. repeat split; try done; lra. }
  apply Forall_cons in Hc as [Hv Hc]. simpl in Hv.
  change (sum_Q ?f ((v, c, d) :: xs)) with (f (v, c, d) + sum_Q f xs).
  destruct (py_float v) as [e|a] eqn:Hf.
  - assert (expense_taken (categories w) (v, c, d) = 0) as -> by (simpl; by rewrite Hf).
    destruct (float_value_error w e (Hv e Hf)) as (w1 & Hw1 & Hd1 & Hc1).
    rewrite (pfor_cons_ret _ _ _ _ w1) by (by simpl; rewrite (add_expense_float_error _ _ _ _ _ Hf)).
    destruct (IH w1 l) as (w' & l' & ? & ? & Hcat & ? & ? & ?); [by rewrite Hd1|done|].
    exists w', l'. rewrite Hcat, Hc1 in *. repeat split; try done; lra.
  - assert (expense_taken (categories w) (v, c, d)
            = if num_leb a num_zero then 0 else if existsb (String.eqb c) (categories w) then to_Q a else 0)
      as -> by (simpl; by rewrite Hf).
    rewrite (pfor_cons_ret _ _ _ _ (snd (add_expense v c d w)))
      by (simpl; rewrite (add_expense_contract w l v a c d Hd Hf); unfold contract_outcome, spec_add_expense;
          by destruct (num_leb a num_zero), (existsb (String.eqb c) (categories w))).
    rewrite (add_expense_contract w l v a c d Hd Hf). unfold contract_outcome, spec_add_expense.
    destruct (num_leb a num_zero); [|destruct (existsb (String.eqb c) (categories w)) eqn:Hcat]; simpl.
    + destruct (IH (printed w (MError VENonPositiveExpense)) l)
        as (w' & l' & ? & ? & Hc' & ? & ? & ?); [by destruct w|done|].
      assert (categories (printed w (MError VENonPositiveExpense)) = categories w) as Hp by (by destruct w).
      exists w', l'. rewrite Hp in *. repeat split; try done; lra.
    + set (l1 := mkLedger (l_income l) (l_expenses l ++ [mkExpense a c d (now w)]) (num_sub (l_balance l) a)).
      destruct (IH (committed w l1 (MAddedExpense a c (l_balance l1))) l1)
        as (w' & l' & ? & ? & Hc' & Hi & Ht & Hb); [by destruct w|done|].
      assert (categories (committed w l1 (MAddedExpense a c (l_balance l1))) = categories w) as Hp
        by (by destruct w).
      exists w', l'. rewrite Hp in *. unfold l1 in *. cbn [l_income l_balance l_expenses] in *.
      pose proof (total_Q_app (l_expenses l) [mkExpense a c d (now w)]).
      pose proof (to_Q_sub (l_balance l) a).
      assert (total_Q [mkExpense a c d (now w)] == to_Q a) by (unfold total_Q; cbn [fold_right e_amount]; lra).
      repeat split; try done; lra.
    + destruct (IH (printed w (MError (VEInvalidCategory (categories w)))) l)
        as (w' & l' & ? & ? & Hc' & ? & ? & ?); [by destruct w|done|].
      assert (categories (printed w (MError (VEInvalidCategory (categories w)))) = categories w) as Hp
        by (by destruct w).
      exists w', l'. rewrite Hp in *. repeat split; try done; lra.
Qed.

(** Every line typed at the menu is a [str], whose conversion raises
    [ValueError] or nothing. *)
Lemma converts_str (s : string) : converts (PStr s).
Proof.
  intros e. simpl. destruct (parse_float s) as [f|]; [destruct (num_of_lit f)|]; by intros [= <-].
Qed.

(** C12: With exact amounts, after any sequence of add_income calls on a
    ledger world, the income is the initial income plus the sum of the
    accepted amounts and the balance grew by the same total (spec section 7). *)
Theorem add_income_sequence (vs : list (pyval A)) (w : world A T) (l : ledger A) :
  data w = ledger_to_py l -> Forall converts vs ->
  exists w' l', pfor vs add_income w = (Ret tt, w') /\ data w' = ledger_to_py l' /\
    l_expenses l' = l_expenses l /\
    to_Q (l_income l') == to_Q (l_income l) + sum_Q income_added vs /\
    to_Q (l_balance l') == to_Q (l_balance l) + sum_Q income_added vs.
Proof. apply add_incomes_run. Qed.

(** C13: With exact amounts, after any sequence of add_expense calls on a
    ledger world whose balance is income minus expenses, the recorded expenses
    grew by the sum of the accepted amounts and the balance is still income
    minus expenses (spec section 7). *)
Theorem add_expense_sequence (xs : list (pyval A * string * string)) (w : world A T) (l : ledger A) :
  data w = ledger_to_py l -> Forall (fun x => converts x.1.1) xs ->
  to_Q (l_balance l) == to_Q (l_income l) - total_Q (l_expenses l) ->
  exists w' l', pfor xs add_expense_call w = (Ret tt, w') /\ data w' = ledger_to_py l' /\
    total_Q (l_expenses l') == total_Q (l_expenses l) + sum_Q (expense_taken (categories w)) xs /\
    to_Q (l_balance l') == to_Q (l_income l') - total_Q (l_expenses l').
Proof.
  intros Hd Hc Hb. destruct (add_expenses_run xs w l Hd Hc) as (w' & l' & Hrun & Hd' & _ & Hi & Ht & Hb').
  exists w', l'. rewrite Hi. repeat split; try done; lra.
Qed.
End Sequences.
