(* ===== verification/Report.v ===== *)
(** * Report: [show_summary] and [plot_expenses] (lines 69-98)

    Two read-only queries of [self.data].  [show_summary] prints the
    income, [sum(e["amount"] for e in expenses)], the balance, and for
    each category with a positive subtotal that subtotal (a generator
    with an [if] clause: a record's category is compared first, its
    amount read only when it matches).  [plot_expenses] builds the dict
    [category_totals] (every category at 0.0, then [+=] per record, a
    record with an unknown category raising [KeyError]) and saves a pie
    chart of the positive totals, or prints that there is nothing to
    plot.  The chart image is modelled by the labels and sizes it shows;
    matplotlib's drawing is not modelled.

    Both [sum()]s go through [PyVal.py_sum], CPython 3.12's
    [builtin_sum_impl]: on binary64 it adds floats with Neumaier's
    compensation, so the summary's subtotal of a category and the
    chart's [+=] total of it can differ in the last bits.  The ledger-side
    reports therefore use [fsum] for what the summary prints
    ([ledger_total], [ledger_cat_total]) and the [+=] fold for what the
    chart shows ([chart_cat_total], [breakdown]); [show_summary_ledger]
    and [plot_expenses_ledger] hold for every amount type, while the
    agreement of the two views ([summary_matches_chart]) and the
    partition of the total ([breakdown_partitions_total]) are proved
    with exact amounts, where the compensation stays zero
    ([sum_amounts_exact]). *)

From stdpp Require Import base list strings gmap.
From Stdlib Require Import String QArith Lqa.
From S2P Require Import Prelude Amount PyVal Storage LedgerSpec Tracker.

Local Open Scope py_scope.

Section Report.
Context {A T : Type} `{PyNum A} `{JsonCodec A T}.

(** [sum(expense["amount"] for expense in items)]: CPython's [sum()]
    over the generator. *)
Definition sum_amounts (items : list (pyval A)) : exn A + A :=
  py_sum (fun it => let? v := getitem it "amount" in inr (Some v)) items.

(** [sum(expense["amount"] for expense in items
         if expense["category"] == c)]: the category is read and compared
    first, the amount only for a matching record. *)
Definition sum_category (c : string) (items : list (pyval A)) : exn A + A :=
  py_sum (fun it => let? cat := getitem it "category" in
                    if py_eq_str cat c then let? v := getitem it "amount" in inr (Some v)
                    else inr None) items.

(** One category line of the summary (lines 77-80). *)
Definition summary_category (c : string) : tm A T unit :=
  let! es := get_item "expenses" in
  let! items := plift (py_iter es) in
  let! t := plift (sum_category c items) in
  if num_pos t then py_print (MCategoryTotal c t) else pret tt.

(** [show_summary(self)], lines 69-80. *)
Definition show_summary : tm A T unit :=
  py_print MSummaryHeader ;;!
  let! inc := fmt_item "income" in
  py_print (MTotalIncome inc) ;;!
  let! es := get_item "expenses" in
  let! items := plift (py_iter es) in
  let! total := plift (sum_amounts items) in
  py_print (MTotalExpenses total) ;;!
  let! bal := fmt_item "balance" in
  py_print (MBalance bal) ;;!
  py_print MByCategory ;;!
  let! w := pget in
  pfor (categories w) summary_category.

(** [category_totals[expense["category"]] += expense["amount"]]: the
    key is read first, then the current total (KeyError for a category
    the dict lacks, TypeError for an unhashable key), then the amount. *)
Definition plot_step (totals : list (string * A)) (it : pyval A)
  : exn A + list (string * A) :=
  let? cat := getitem it "category" in
  match cat with
  | PList _ | PDict _ => inl TypeError
  | PStr s =>
      match assoc s totals with
      | Some cur => let? v := getitem it "amount" in
                    let? x := add_num cur v in
                    inr (assoc_set s x totals)
      | None => inl (KeyError cat)
      end
  | _ => inl (KeyError cat)
  end.

(** [{category: 0.0 for category in self.categories}]. *)
Definition zero_totals (cats : list string) : list (string * A) :=
  foldl (fun d c => assoc_set c num_zero d) [] cats.

(** The pie's labels and sizes: the categories with a positive total. *)
Definition chart_labels (totals : list (string * A)) : list string :=
  map fst (filter (fun ct => num_pos ct.2 = true) totals).
Definition chart_sizes (totals : list (string * A)) : list A :=
  filter (fun t => num_pos t = true) (map snd totals).

(** [plot_expenses(self)], lines 82-98. *)
Definition plot_expenses : tm A T unit :=
  let! w := pget in
  let! es := get_item "expenses" in
  let! items := plift (py_iter es) in
  let! totals := plift (foldE plot_step (zero_totals (categories w)) items) in
  match chart_sizes totals with
  | [] => py_print MNoExpenses
  | _ => pmodify (set_chart (Some (chart_labels totals, chart_sizes totals))) ;;!
         py_print MChartSaved
  end.
End Report.

(** ** The reports of a ledger *)
Section LedgerReport.
Context {A : Type} `{PyNum A}.

(** Total spent, as [sum()] adds the amounts ([fsum]: compensated on
    binary64). *)
Definition ledger_total (l : ledger A) : A := fsum (map e_amount (l_expenses l)).

(** The records of category [c]. *)
Definition in_cat (c : string) (e : expense A) : bool := String.eqb (e_category e) c.

(** The subtotal of category [c] the summary prints: [sum()] over the
    records of [c]. *)
Definition ledger_cat_total (c : string) (l : ledger A) : A :=
  fsum (map e_amount (List.filter (in_cat c) (l_expenses l))).

(** One record's contribution to the total [plot_expenses] keeps for [c]. *)
Definition cat_step (c : string) (acc : A) (e : expense A) : A :=
  if String.eqb (e_category e) c then num_add acc (e_amount e) else acc.

(** The total of category [c] the chart shows: [+=] record by record. *)
Definition chart_cat_total (c : string) (l : ledger A) : A :=
  foldl (cat_step c) num_zero (l_expenses l).

(** The spec's categoryBreakdown as the chart computes it: every category
    with its total. *)
Definition breakdown (cats : list string) (l : ledger A) : list (string * A) :=
  table (fun c => chart_cat_total c l) cats.

Definition category_lines (cats : list string) (l : ledger A) : list (msg A) :=
  flat_map (fun c => if num_pos (ledger_cat_total c l)
                     then [MCategoryTotal c (ledger_cat_total c l)] else []) cats.

(** The spec's summarize(): the lines [show_summary] prints. *)
Definition summary_lines (cats : list string) (l : ledger A) : list (msg A) :=
  [MSummaryHeader; MTotalIncome (l_income l); MTotalExpenses (ledger_total l);
   MBalance (l_balance l); MByCategory] ++ category_lines cats l.
End LedgerReport.

(** ** [show_summary] implements summarize() *)
Section SummaryRefinement.
Context {A T : Type} `{PyNum A} `{JsonCodec A T}.

(** The world after printing the lines [ms]. *)
Definition emitted (w : world A T) (ms : list (msg A)) : world A T :=
  set_stdout (stdout w ++ ms) w.

Lemma emitted_nil (w : world A T) : emitted w [] = w.
Proof. destruct w; unfold emitted; simpl; by rewrite app_nil_r. Qed.

Lemma emitted_emitted (w : world A T) ms1 ms2 :
  emitted (emitted w ms1) ms2 = emitted w (ms1 ++ ms2).
Proof. destruct w; unfold emitted; simpl; by rewrite app_assoc. Qed.

Lemma filter_all {X} (xs : list X) : List.filter (fun _ => true) xs = xs.
Proof. induction xs as [|x xs IH]; [done|]. cbn. by rewrite IH. Qed.

Lemma sum_amounts_ledger (es : list (expense A)) :
  sum_amounts (map expense_to_py es) = inr (fsum (map e_amount es)).
Proof.
  unfold sum_amounts. rewrite (py_sum_yields _ _ (fun _ => true) e_amount), filter_all; [done|].
  apply Forall_forall. intros e _. reflexivity.
Qed.

Lemma sum_category_ledger c (es : list (expense A)) :
  sum_category c (map expense_to_py es) = inr (fsum (map e_amount (List.filter (in_cat c) es))).
Proof.
  unfold sum_category. rewrite (py_sum_yields _ _ (in_cat c) e_amount); [done|].
  apply Forall_forall. intros e _. cbn. unfold in_cat. by destruct (String.eqb _ c).
Qed.

Lemma summary_categories_ledger (w : world A T) l cs :
  data w = ledger_to_py l ->
  pfor cs summary_category w = (Ret tt, emitted w (category_lines cs l)).
Proof.
  revert w. induction cs as [|c cs IH]; intros w Hd.
  - simpl. by rewrite emitted_nil.
  - assert (summary_category c w
            = (Ret tt, emitted w (if num_pos (ledger_cat_total c l)
                                  then [MCategoryTotal c (ledger_cat_total c l)] else []))) as Hc.
    { unfold summary_category, get_item, pbind, pget, plift, pret. rewrite Hd. simpl.
      rewrite sum_category_ledger. simpl. unfold ledger_cat_total.
      destruct (num_pos _); [reflexivity|by rewrite emitted_nil]. }
    cbn [pfor]. unfold pbind at 1. rewrite Hc.
    rewrite IH; [by rewrite emitted_emitted|]. by destruct w.
Qed.

Lemma show_summary_run (w : world A T) l :
  data w = ledger_to_py l ->
  show_summary w = (Ret tt, emitted w (summary_lines (categories w) l)).
Proof.
  destruct w as [df cs d fs o i n ch]; simpl. intros ->.
  unfold show_summary, fmt_item, get_item, py_print, pbind, pget, plift, pret, pmodify. simpl.
  rewrite sum_amounts_ledger. simpl.
  rewrite (summary_categories_ledger _ l); [|reflexivity].
  unfold emitted, printed, summary_lines, ledger_total; simpl. by rewrite <- !app_assoc.
Qed.

(** C20: On a ledger world, for every amount type, show_summary prints exactly
    the summary header, the income, the total of the expenses as CPython
    3.12's sum() computes it (compensated on floats), the balance, and the
    positive per-category subtotals (sum() over the records of the category)
    in category order, and changes nothing else. *)
Theorem show_summary_ledger (w : world A T) l :
  data w = ledger_to_py l ->
  show_summary w = (Ret tt, emitted w (summary_lines (categories w) l)).
Proof. apply show_summary_run. Qed.
End SummaryRefinement.

(** ** [plot_expenses] implements the chart export of categoryBreakdown() *)
Section PlotRefinement.
Context {A T : Type} `{PyNum A} `{JsonCodec A T}.

(** What [plot_expenses] does with the totals it computed. *)
Definition chart_outcome (w : world A T) (totals : list (string * A)) : world A T :=
  match chart_sizes totals with
  | [] => printed w MNoExpenses
  | _ => printed (set_chart (Some (chart_labels totals, chart_sizes totals)) w) MChartSaved
  end.

Lemma zero_totals_table cats :
  NoDup cats -> zero_totals cats = table (fun _ => @num_zero A _) cats.
Proof. intros Hnd. apply (foldl_assoc_set_const _ []). exact Hnd. Qed.

(** The loop of lines 85-86 over records whose categories are known. *)
Lemma plot_fold_ledger (f : string -> A) cats (es : list (expense A)) :
  NoDup cats -> Forall (fun e => e_category e ∈ cats) es ->
  foldE plot_step (table f cats) (map expense_to_py es)
  = inr (table (fun c => foldl (cat_step c) (f c) es) cats).
Proof.
  intros Hnd. revert f. induction es as [|e es IH]; intros f Hes; [reflexivity|].
  apply Forall_cons in Hes as [He Hes]. simpl.
  unfold plot_step; simpl. rewrite (assoc_table _ _ _ He); simpl.
  rewrite (assoc_set_table _ _ _ _ Hnd He), IH by done. f_equal.
  apply table_ext. intros c _. f_equal. unfold cat_step.
  rewrite String.eqb_sym. destruct (String.eqb (e_category e) c) eqn:E; [|reflexivity].
  apply String.eqb_eq in E. by rewrite E.
Qed.

Lemma plot_expenses_run (w : world A T) l :
  data w = ledger_to_py l -> NoDup (categories w) ->
  Forall (fun e => e_category e ∈ categories w) (l_expenses l) ->
  plot_expenses w = (Ret tt, chart_outcome w (breakdown (categories w) l)).
Proof.
  destruct w as [df cs d fs o i n ch]; simpl. intros -> Hnd Hes.
  unfold plot_expenses, get_item, pbind, pget, plift, pret. simpl.
  rewrite zero_totals_table, plot_fold_ledger by done. simpl.
  unfold chart_outcome, breakdown, chart_cat_total.
  destruct (chart_sizes _); reflexivity.
Qed.

(** C22: On a ledger world whose records all have known categories,
    plot_expenses computes the category breakdown and saves a chart of the
    positive totals, or prints that there is nothing to plot. *)
Theorem plot_expenses_ledger (w : world A T) l :
  data w = ledger_to_py l -> NoDup (categories w) ->
  Forall (fun e => e_category e ∈ categories w) (l_expenses l) ->
  plot_expenses w = (Ret tt, chart_outcome w (breakdown (categories w) l)).
Proof. apply plot_expenses_run. Qed.
End PlotRefinement.

(** ** A record with an unknown category makes [plot_expenses] raise *)
Section PlotUnknown.
Context {A T : Type} `{PyNum A} `{JsonCodec A T}.

Lemma plot_fold_unknown (f : string -> A) cats (es : list (expense A)) :
  NoDup cats -> Exists (fun e => e_category e ∉ cats) es ->
  exists c, (c ∉ cats) /\ foldE plot_step (table f cats) (map expense_to_py es) = inl (KeyError (PStr c)).
Proof.
  intros Hnd. revert f. induction es as [|e es IH]; intros f Hex; [by apply Exists_nil in Hex|].
  simpl. unfold plot_step at 1; simpl.
  destruct (decide (e_category e ∈ cats)) as [Hin|Hout].
  - rewrite (assoc_table _ _ _ Hin); simpl. rewrite (assoc_set_table _ _ _ _ Hnd Hin).
    apply IH. apply Exists_cons in Hex as [?|?]; [contradiction|done].
  - rewrite (assoc_table_notin _ _ _ Hout). by exists (e_category e).
Qed.

(** C34: On a ledger world with a record whose category is not in
    self.categories, plot_expenses raises KeyError for such a category before
    printing or saving anything. *)
Theorem plot_expenses_unknown_category (w : world A T) l :
  data w = ledger_to_py l -> NoDup (categories w) ->
  Exists (fun e => e_category e ∉ categories w) (l_expenses l) ->
  exists c, (c ∉ categories w) /\ plot_expenses w = (Exc (KeyError (PStr c)), w).
Proof.
  destruct w as [df cs d fs o i n ch]; simpl. intros -> Hnd Hex.
  destruct (plot_fold_unknown (fun _ => num_zero) cs _ Hnd Hex) as (c & Hc & Hf).
  exists c. split; [done|].
  unfold plot_expenses, get_item, pbind, pget, plift, pret. simpl.
  rewrite zero_totals_table by done. by rewrite Hf.
Qed.
End PlotUnknown.

(** ** With exact amounts: the reports add up *)
Section ExactReport.
Context {A : Type} `{ExactNum A}.
Local Open Scope Q_scope.

(** [sum over c in keys of f c]. *)
Definition sum_over (f : string -> Q) (keys : list string) : Q :=
  fold_right (fun c acc => f c + acc) 0 keys.

Lemma sum_over_plus f g keys :
  sum_over (fun c => f c + g c) keys == sum_over f keys + sum_over g keys.
Proof. induction keys as [|c keys IH]; simpl; [lra|]. rewrite IH. lra. Qed.

Lemma sum_over_ext f g keys :
  (forall c, c ∈ keys -> f c == g c) -> sum_over f keys == sum_over g keys.
Proof.
  intros Hfg. induction keys as [|c keys IH]; simpl; [lra|].
  rewrite IH, (Hfg c); [lra|left|]. intros c' Hc'. apply Hfg. by right.
Qed.

Lemma sum_over_zero keys : sum_over (fun _ => 0) keys == 0.
Proof. induction keys as [|c keys IH]; simpl; [lra|]. rewrite IH. lra. Qed.

(** Summing the indicator of the one key [k] among distinct keys. *)
Lemma sum_over_single x k keys :
  NoDup keys -> k ∈ keys -> sum_over (fun c => if String.eqb k c then x else 0) keys == x.
Proof.
  induction keys as [|c keys IH]; simpl; intros Hnd Hk; [by apply not_elem_of_nil in Hk|].
  apply NoDup_cons in Hnd as [Hc Hnd].
  destruct (String.eqb_spec k c) as [->|Hne].
  - rewrite (sum_over_ext _ (fun _ => 0)); [rewrite sum_over_zero; lra|].
    intros c' Hc'. destruct (String.eqb_spec c c'); [subst; contradiction|reflexivity].
  - apply elem_of_cons in Hk as [?|Hk]; [congruence|]. rewrite IH by done. lra.
Qed.

Lemma to_Q_foldl_total (z : A) (es : list (expense A)) :
  to_Q (foldl (fun acc e => num_add acc (e_amount e)) z es) == to_Q z + total_Q es.
Proof.
  revert z. induction es as [|e es IH]; intros z; simpl; [lra|].
  rewrite IH, to_Q_add. lra.
Qed.

(** A subtotal is the sum of the amounts of the category's records. *)
Definition cat_total_Q (c : string) (es : list (expense A)) : Q :=
  total_Q (List.filter (fun e => String.eqb (e_category e) c) es).

Lemma to_Q_foldl_cat c (z : A) (es : list (expense A)) :
  to_Q (foldl (cat_step c) z es) == to_Q z + cat_total_Q c es.
Proof.
  unfold cat_total_Q. revert z. induction es as [|e es IH]; intros z; simpl; [lra|].
  rewrite IH. unfold cat_step. destruct (String.eqb (e_category e) c); simpl; [rewrite to_Q_add|]; lra.
Qed.

Lemma sum_cat_totals keys (es : list (expense A)) :
  NoDup keys -> Forall (fun e => e_category e ∈ keys) es ->
  sum_over (fun c => cat_total_Q c es) keys == total_Q es.
Proof.
  intros Hnd. induction es as [|e es IH]; intros Hes.
  - apply sum_over_zero.
  - apply Forall_cons in Hes as [He Hes]. simpl.
    rewrite (sum_over_ext _ (fun c => (if String.eqb (e_category e) c then to_Q (e_amount e) else 0)
                                      + cat_total_Q c es)).
    + rewrite sum_over_plus, sum_over_single, IH by done. lra.
    + intros c _. unfold cat_total_Q. simpl. destruct (String.eqb (e_category e) c); simpl; lra.
Qed.
End ExactReport.

(** ** With exact amounts: [sum()] and [+=] agree *)
Section ExactSums.
Context {A : Type} `{ExactNum A}.

Lemma foldl_add_amounts (z : A) (es : list (expense A)) :
  foldl num_add z (map e_amount es) = foldl (fun acc e => num_add acc (e_amount e)) z es.
Proof. revert z. induction es as [|e es IH]; intros z; [done|]. apply IH. Qed.

Lemma foldl_add_cat c (z : A) (es : list (expense A)) :
  foldl num_add z (map e_amount (List.filter (in_cat c) es)) = foldl (cat_step c) z es.
Proof.
  revert z. induction es as [|e es IH]; intros z; [done|]. cbn [List.filter foldl].
  unfold cat_step, in_cat. destruct (String.eqb (e_category e) c); cbn [map foldl]; apply IH.
Qed.

(** The subtotal the summary prints is the chart's total. *)
Lemma ledger_cat_total_chart c (l : ledger A) : ledger_cat_total c l = chart_cat_total c l.
Proof. unfold ledger_cat_total, chart_cat_total. by rewrite fsum_exact, foldl_add_cat. Qed.

Lemma category_lines_chart cats (l : ledger A) :
  category_lines cats l
  = zip_with MCategoryTotal (chart_labels (breakdown cats l)) (chart_sizes (breakdown cats l)).
Proof.
  induction cats as [|c cats IH]; [reflexivity|].
  unfold category_lines, breakdown, table, chart_labels, chart_sizes in *. simpl.
  rewrite ledger_cat_total_chart.
  destruct (num_pos (chart_cat_total c l)) eqn:Hp; simpl;
    [rewrite !filter_cons_True by done|rewrite !filter_cons_False by (intros Hc; cbn in Hc; congruence)];
    simpl; by rewrite IH.
Qed.


Lemma to_Q_ledger_total (l : ledger A) : (to_Q (ledger_total l) == total_Q (l_expenses l))%Q.
Proof. unfold ledger_total. rewrite fsum_exact, foldl_add_amounts, to_Q_foldl_total, to_Q_zero. ring. Qed.
End ExactSums.

(** The summary and the chart show the same subtotals. *)
Section SummaryChart.
Context {A T : Type} `{ExactNum A} `{JsonCodec A T}.

(** C24: With exact amounts, on a ledger world with known, distinct
    categories, the per-category lines show_summary prints (sum() over a
    filtered generator) are exactly the labels and sizes plot_expenses charts
    (a dict accumulated with += record by record), value for value. *)
Theorem summary_matches_chart (w : world A T) l :
  data w = ledger_to_py l -> NoDup (categories w) ->
  Forall (fun e => e_category e ∈ categories w) (l_expenses l) ->
  exists totals,
    plot_expenses w = (Ret tt, chart_outcome w totals) /\
    show_summary w
    = (Ret tt, emitted w ([MSummaryHeader; MTotalIncome (l_income l); MTotalExpenses (ledger_total l);
                           MBalance (l_balance l); MByCategory] ++
                          zip_with MCategoryTotal (chart_labels totals) (chart_sizes totals))).
Proof.
  intros Hd Hnd Hes. exists (breakdown (categories w) l).
  split; [by apply plot_expenses_run|].
  rewrite (show_summary_run w l Hd). unfold summary_lines. by rewrite category_lines_chart.
Qed.
End SummaryChart.

Section ExactReportClaims.
Context {A : Type} `{ExactNum A}.
Local Open Scope Q_scope.

Lemma table_sum (f : string -> A) keys :
  fold_right (fun ct acc => to_Q ct.2 + acc) 0 (table f keys) == sum_over (fun c => to_Q (f c)) keys.
Proof. induction keys as [|c keys IH]; simpl; [reflexivity|]. rewrite IH. reflexivity. Qed.

(** C35: With exact amounts and known, distinct categories, the totals
    plot_expenses accumulates with += from the zero dict (lines 84-86) add up
    to the total show_summary's sum() computes over the same records (line
    73). *)
Theorem breakdown_partitions_total cats (es : list (expense A)) :
  NoDup cats -> Forall (fun e => e_category e ∈ cats) es ->
  match foldE plot_step (zero_totals cats) (map expense_to_py es),
        sum_amounts (map expense_to_py es) with
  | inr totals, inr t => fold_right (fun ct acc => to_Q ct.2 + acc) 0 totals == to_Q t
  | _, _ => False
  end.
Proof.
  intros Hnd Hes. rewrite zero_totals_table, plot_fold_ledger, sum_amounts_ledger by done.
  rewrite table_sum, fsum_exact, foldl_add_amounts, to_Q_foldl_total, to_Q_zero.
  rewrite (sum_over_ext _ (fun c => cat_total_Q c es)).
  - rewrite sum_cat_totals by done. lra.
  - intros c _. rewrite to_Q_foldl_cat, to_Q_zero. lra.
Qed.

(** With exact amounts, on a sound ledger world the balance show_summary
    prints equals the printed income minus the printed total of expenses. *)
Theorem summary_adds_up {T} `{JsonCodec A T} (w : world A T) (l : ledger A) :
  data w = ledger_to_py l -> ledger_ok (categories w) l ->
  exists rest,
    show_summary w
    = (Ret tt, emitted w ([MSummaryHeader; MTotalIncome (l_income l);
                           MTotalExpenses (ledger_total l); MBalance (l_balance l);
                           MByCategory] ++ rest)) /\
    to_Q (l_balance l) == to_Q (l_income l) - to_Q (ledger_total l).
Proof.
  intros Hd (Hb & _ & _). exists (category_lines (categories w) l). split.
  - by apply show_summary_run.
  - rewrite to_Q_ledger_total, Hb. lra.
Qed.
End ExactReportClaims.
