(* ===== verification/Console.v ===== *)
(** * Console: the text the program writes to standard output

    [Tracker] records each [print()] and each [input()] prompt as an
    event of type [msg]; [render_msg] is the text that event shows, from
    the f-strings of Expense_Calculator.py: amounts go through
    [format(v, " .2f")] ([Format.fmt_2f]), a [ValueError] prints as
    [str(e)] ([verr_text]), [print] ends each line with a newline and
    [input] writes its prompt without one.  [writes] is what the
    statement really hands to [sys.stdout]: the line wrapped in its
    [Fore.*]/[Style.*] codes and [Style.RESET_ALL], then the newline, as
    two writes; [stdout_text] is what reaches standard output through the
    colorama wrapper ([Colorama.wrapper_write]), on a terminal or a pipe.
    On a pipe it is exactly the plain [transcript]. *)

From stdpp Require Import base list strings.
From Stdlib Require Import String Ascii ZArith QArith Floats.
From S2P Require Import Prelude Amount PyFloat Format Colorama PyVal Tracker.

Local Open Scope string_scope.

Definition nl : string := String (ascii_of_nat 10) EmptyString.

(** [str(e)] of the [ValueError]s the methods catch. *)
Definition verr_text (v : verr) : string :=
  match v with
  | VEConvert s => "could not convert string to float: " ++ repr_str s
  | VENegativeIncome => "Income cannot be negative."
  | VENonPositiveExpense => "Expense must be positive."
  | VEInvalidCategory cats => "Invalid category. Choose from: " ++ String.concat ", " cats
  | VEFormat => "Unknown format code 'f' for object of type 'str'"
  | VEDecode msg => msg
  end.

Section Console.
Context {A : Type} `{PyFormat A}.

(** The text of one event. *)
Definition render_msg (m : msg A) : string :=
  match m with
  | MCorrupted => "Error: Corrupted data file. Starting fresh." ++ nl
  | MAddedIncome a b =>
      "Added $" ++ fmt_2f a ++ " to income. New balance: $" ++ fmt_2f b ++ nl
  | MError v => "Error: " ++ verr_text v ++ nl
  | MAddedExpense a c b =>
      "Added expense: $" ++ fmt_2f a ++ " in " ++ c ++ ". New balance: $" ++ fmt_2f b ++ nl
  | MSummaryHeader => nl ++ "=== Financial Summary ===" ++ nl
  | MTotalIncome x => "Total Income: $" ++ fmt_2f x ++ nl
  | MTotalExpenses x => "Total Expenses: $" ++ fmt_2f x ++ nl
  | MBalance x => "Current Balance: $" ++ fmt_2f x ++ nl
  | MByCategory => nl ++ "Expenses by Category:" ++ nl
  | MCategoryTotal c x => c ++ ": $" ++ fmt_2f x ++ nl
  | MNoExpenses => "No expenses to plot." ++ nl
  | MChartSaved => "Pie chart saved as 'expenses_pie_chart.png'." ++ nl
  | MMenu =>
      nl ++ "=== Personal Expense Tracker ===" ++ nl ++ "1. Add Income" ++ nl ++
      "2. Add Expense" ++ nl ++ "3. Show Summary" ++ nl ++ "4. Plot Expenses" ++ nl ++
      "5. Exit" ++ nl
  | MPrompt p => strip_ansi p
  | MCategories cats => "Categories: " ++ String.concat ", " cats ++ nl
  | MGoodbye => "Thank you for using the expense Tracker!" ++ nl
  | MInvalidChoice => "Invalid choice. Please try again." ++ nl
  end.

(** Everything written to standard output, in order, when it is not a
    terminal. *)
Definition transcript (out : list (msg A)) : string :=
  String.concat EmptyString (map render_msg out).

(** ** Through colorama's wrapper

    The arguments the source passes to [print()] and [input()] for each
    event, colour codes included; [print(s)] writes [s] and then its end
    ["
"], two writes to the wrapper, and [input(prompt)] writes the
    prompt through it unless standard input and output are both
    terminals (then the prompt goes to standard error). *)

(** [code + s + Style.RESET_ALL]. *)
Definition colored (code s : string) : string := code ++ s ++ Style_RESET_ALL.

Definition line (s : string) : list string := [s; nl].

Definition writes (m : msg A) : list string :=
  match m with
  | MCorrupted => line (colored Fore_RED "Error: Corrupted data file. Starting fresh.")
  | MAddedIncome a b =>
      line (colored Fore_GREEN ("Added $" ++ fmt_2f a ++ " to income. New balance: $" ++ fmt_2f b))
  | MError v => line (colored Fore_RED ("Error: " ++ verr_text v))
  | MAddedExpense a c b =>
      line (colored Fore_GREEN
              ("Added expense: $" ++ fmt_2f a ++ " in " ++ c ++ ". New balance: $" ++ fmt_2f b))
  | MSummaryHeader => line (colored Style_BRIGHT (nl ++ "=== Financial Summary ==="))
  | MTotalIncome x => line (colored Fore_CYAN ("Total Income: $" ++ fmt_2f x))
  | MTotalExpenses x => line (colored Fore_CYAN ("Total Expenses: $" ++ fmt_2f x))
  | MBalance x => line (colored Fore_CYAN ("Current Balance: $" ++ fmt_2f x))
  | MByCategory => line (nl ++ "Expenses by Category:")
  | MCategoryTotal c x => line (colored Fore_YELLOW (c ++ ": $" ++ fmt_2f x))
  | MNoExpenses => line (colored Fore_RED "No expenses to plot.")
  | MChartSaved => line (colored Fore_GREEN "Pie chart saved as 'expenses_pie_chart.png'.")
  | MMenu =>
      line (colored Style_BRIGHT (nl ++ "=== Personal Expense Tracker ===")) ++
      line "1. Add Income" ++ line "2. Add Expense" ++ line "3. Show Summary" ++
      line "4. Plot Expenses" ++ line "5. Exit"
  | MPrompt p => [p]
  | MCategories cats => line ("Categories: " ++ String.concat ", " cats)
  | MGoodbye => line (colored Fore_GREEN "Thank you for using the expense Tracker!")
  | MInvalidChoice => line (colored Fore_RED "Invalid choice. Please try again.")
  end%list.

(** Whether standard output and standard input are terminals. *)
Record console : Type := mkConsole { stdout_tty : bool; stdin_tty : bool }.

(** Writes one after the other; [None] once one raises. *)
Fixpoint ocat (xs : list (option string)) : option string :=
  match xs with
  | [] => Some EmptyString
  | x :: r => match x, ocat r with Some a, Some b => Some (a ++ b) | _, _ => None end
  end.

(** What one event writes to standard output. *)
Definition event_output (c : console) (m : msg A) : option string :=
  let w := init_stdout (stdout_tty c) in
  match m with
  | MPrompt p => if stdout_tty c && stdin_tty c then Some EmptyString else wrapper_write w p
  | _ => ocat (map (wrapper_write w) (writes m))
  end.

(** The whole standard output of a run, the [atexit] reset last. *)
Definition stdout_text (c : console) (out : list (msg A)) : option string :=
  match ocat (map (event_output c) out) with
  | Some t => Some (t ++ atexit_reset (stdout_tty c))
  | None => None
  end.

(** The strings in an event that come from data: no escape sequence can
    start, end or absorb in them; a prompt holds only CSI sequences. *)
Definition msg_plain (m : msg A) : bool :=
  match m with
  | MError (VEInvalidCategory cats) | MCategories cats => forallb plain_text cats
  | MError (VEDecode s) => plain_text s
  | MAddedExpense _ c _ | MCategoryTotal c _ => plain_text c
  | MPrompt p => csi_only (list_ascii_of_string p)
  | _ => true
  end.
End Console.

(** ** The piped standard output is the transcript *)

Lemma str_app_assoc (s t u : string) : (s ++ t) ++ u = s ++ t ++ u.
Proof. induction s as [|c s IH]; [done|]. exact (f_equal (String c) IH). Qed.

Lemma str_app_nil_r (s : string) : s ++ EmptyString = s.
Proof. induction s as [|c s IH]; [done|]. exact (f_equal (String c) IH). Qed.

Lemma concat_empty_cons (x : string) xs :
  String.concat EmptyString (x :: xs) = x ++ String.concat EmptyString xs.
Proof. destruct xs; simpl; [by rewrite str_app_nil_r|done]. Qed.

Lemma concat_plain (sep : string) cats :
  plain_text sep = true -> forallb plain_text cats = true -> plain_text (String.concat sep cats) = true.
Proof.
  intros Hs. induction cats as [|c [|c' cats] IH]; simpl; [done|by rewrite andb_true_r|].
  intros [Hc Hr]%andb_prop. autorewrite with colorama. rewrite Hc, Hs. by apply IH.
Qed.

Lemma forallb_flat_map {X} (p : ascii -> bool) (f : X -> list ascii) (xs : list X) :
  (forall x, forallb p (f x) = true) -> forallb p (flat_map f xs) = true.
Proof. intros Hf. induction xs as [|x xs IH]; simpl; [done|]. by rewrite forallb_app, Hf, IH. Qed.

(** [repr()] escapes every control character. *)
Lemma repr_char_plain q c :
  q = char_of 34 \/ q = char_of 39 -> forallb plain_char (repr_char q c) = true.
Proof. intros Hq. destruct c as [[] [] [] [] [] [] [] []]; destruct Hq as [-> | ->]; vm_compute; reflexivity. Qed.

Lemma repr_plain (s : string) : plain_text (repr_str s) = true.
Proof.
  unfold repr_str, plain_text. rewrite list_ascii_of_string_of_list_ascii.
  match goal with |- context [if ?b then _ else _] => destruct b end; simpl;
    rewrite forallb_app, forallb_flat_map by (intros; apply repr_char_plain; auto); reflexivity.
Qed.

Lemma verr_plain (v : verr) :
  match v with
  | VEInvalidCategory cats => forallb plain_text cats
  | VEDecode s => plain_text s
  | _ => true
  end = true -> plain_text (verr_text v) = true.
Proof.
  destruct v; simpl; intros Hv; autorewrite with colorama;
    rewrite ?repr_plain, ?Hv; try reflexivity.
  rewrite concat_plain by done. reflexivity.
Qed.

Lemma wrapper_piped (s : string) : wrapper_write (init_stdout false) s = write_and_convert s.
Proof.
  unfold wrapper_write, init_stdout, reset_all. simpl.
  destruct (write_and_convert s); [by rewrite str_app_nil_r|done].
Qed.

Lemma line_piped (s t : string) :
  wrapper_write (init_stdout false) s = Some t ->
  ocat (map (wrapper_write (init_stdout false)) (line s)) = Some (t ++ nl).
Proof.
  intros Hs. unfold line. cbn [map ocat]. rewrite Hs, wrapper_piped, write_plain by reflexivity.
  by rewrite str_app_nil_r.
Qed.

Lemma colored_piped (k : Z) (s : string) :
  (0 <= k)%Z -> plain_text s = true ->
  wrapper_write (init_stdout false) (colored (code_to_chars k) s) = Some s.
Proof. intros Hk Hs. rewrite wrapper_piped. by apply write_colored. Qed.

Section Piped.
Context {A : Type} `{PyFormat A}.
Hypothesis fmt_plain : forall a : A, plain_text (fmt_2f a) = true.

Ltac line_tac k :=
  erewrite line_piped; [|apply (colored_piped k); [lia|]];
  [f_equal; by rewrite !str_app_assoc
  |autorewrite with colorama; rewrite ?fmt_plain;
   repeat match goal with H : _ = true |- _ => rewrite H end; reflexivity].

Lemma event_output_piped itty (m : msg A) :
  msg_plain m = true -> event_output (mkConsole false itty) m = Some (render_msg m).
Proof.
  destruct m; intros Hm; try reflexivity; cbn [msg_plain] in Hm; cbn [event_output writes stdout_tty andb].
  - line_tac 32%Z.
  - unfold colored at 1. change Fore_RED with (code_to_chars 31).
    erewrite line_piped; [|apply (colored_piped 31); [lia|]]; [f_equal; by rewrite !str_app_assoc|].
    autorewrite with colorama. rewrite verr_plain; [done|]. by destruct e.
  - line_tac 32%Z.
  - line_tac 36%Z.
  - line_tac 36%Z.
  - line_tac 36%Z.
  - line_tac 33%Z.
  - unfold wrapper_write, init_stdout, reset_all. cbn.
    unfold write_and_convert. rewrite convert_osc_csi_only by done. cbn.
    by rewrite str_app_nil_r.
  - erewrite line_piped; [by rewrite str_app_assoc|]. rewrite wrapper_piped, write_plain; [done|].
    autorewrite with colorama. rewrite concat_plain; done.
Qed.

(** C21: When standard output is not a terminal, colorama strips every colour
    code, so the program's standard output is exactly the plain transcript of
    its prints. *)
Theorem stdout_piped_transcript itty (out : list (msg A)) :
  forallb msg_plain out = true ->
  stdout_text (mkConsole false itty) out = Some (transcript out).
Proof.
  intros Hout. unfold stdout_text, transcript.
  assert (ocat (map (event_output (mkConsole false itty)) out)
          = Some (String.concat EmptyString (map render_msg out))) as ->.
  { induction out as [|m out IH]; [done|]. apply andb_prop in Hout as [Hm Hout].
    simpl map. rewrite concat_empty_cons. cbn [ocat]. by rewrite event_output_piped, IH. }
  by rewrite str_app_nil_r.
Qed.
End Piped.

(** The two amount types print plain text. *)
Lemma fixed2_plain p d : forallb plain_char (fixed2 p d) = true.
Proof.
  unfold fixed2. rewrite forallb_app, dec_digits_plain. simpl.
  set (r := (round_half_even (100 * p) d mod 100)%Z).
  assert (0 <= r < 100)%Z by (apply Z.mod_pos_bound; lia).
  rewrite !digit_plain; [done|..]; apply digit_char_ok;
    first [apply Z.mod_pos_bound; lia | split; [apply Z.div_pos|apply Z.div_lt_upper_bound]; lia].
Qed.

Lemma fmt_2f_Q_plain (q : Q) : plain_text (fmt_2f_Q q) = true.
Proof.
  unfold fmt_2f_Q, plain_text. rewrite list_ascii_of_string_of_list_ascii. simpl.
  rewrite fixed2_plain. by destruct (Qltb q 0).
Qed.

Lemma fmt_2f_float_plain (x : float) : plain_text (fmt_2f_float x) = true.
Proof.
  unfold fmt_2f_float, plain_text.
  destruct (Prim2SF x) as [s|s| |s m e]; try destruct (0 <=? e)%Z;
    rewrite ?list_ascii_of_string_of_list_ascii; simpl; rewrite ?fixed2_plain;
    repeat match goal with b : bool |- _ => destruct b end; reflexivity.
Qed.
