(* ===== verification/Cli.v ===== *)
(** * Cli: the interactive menu, [main()] (lines 100-128)

    [main] constructs the tracker on [expenses.json] and loops: print the
    menu, read a choice with [input()], run the chosen method (the
    expense category is read first and passed through [str.capitalize()],
    then the amount and the description), until the choice "5" prints
    the farewell and breaks.  [input()] prints its prompt and takes the
    next line of standard input; at the end of the input it raises
    [EOFError], which nothing catches.  The [while True] loop is a
    [Fixpoint] on fuel: every iteration reads at least one line, so one
    more iteration than there are input lines is enough ([main] uses that
    fuel, and [main_loop_enough_fuel] shows more fuel changes nothing). *)

From stdpp Require Import base list strings gmap.
From Stdlib Require Import String Ascii.
From S2P Require Import Prelude Amount PyFloat Colorama PyVal Storage LedgerSpec Tracker Refinement Persistence Report.

Local Open Scope py_scope.
Local Open Scope string_scope.

Section Cli.
Context {A T : Type} `{PyNum A} `{JsonCodec A T}.

(** [input(prompt)]. *)
Definition py_input (prompt : string) : tm A T string :=
  let! w := pget in
  match stdin w with
  | [] => py_print (MPrompt prompt) ;;! praise EOFError
  | line :: rest => pmodify (fun w => set_stdin rest (printed w (MPrompt prompt))) ;;! pret line
  end.

(** ASCII upper case, as [str.upper] acts on ASCII letters. *)
Definition upper (c : ascii) : ascii :=
  let n := nat_of_ascii c in
  if (97 <=? n)%nat && (n <=? 122)%nat then ascii_of_nat (n - 32) else c.

(** [str.capitalize()] on ASCII text: the first character upper case,
    the others lower case. *)
Definition capitalize (s : string) : string :=
  match s with
  | EmptyString => EmptyString
  | String c r => String (upper c) (string_of_list_ascii (map lower (list_ascii_of_string r)))
  end.

(** The body of the loop after the choice is read (lines 111-128):
    [false] after "5" (break). *)
Definition menu_dispatch (choice : string) : tm A T bool :=
  if String.eqb choice "1" then
    let! amount := py_input "Enter income amount: " in
    add_income (PStr amount) ;;! pret true
  else if String.eqb choice "2" then
    let! w := pget in
    py_print (MCategories (categories w)) ;;!
    let! category := py_input "Enter expense category: " in
    let! amount := py_input "Enter expense amount: " in
    let! description := py_input "Enter expense description (optional): " in
    add_expense (PStr amount) (capitalize category) description ;;! pret true
  else if String.eqb choice "3" then show_summary ;;! pret true
  else if String.eqb choice "4" then plot_expenses ;;! pret true
  else if String.eqb choice "5" then py_print MGoodbye ;;! pret false
  else py_print MInvalidChoice ;;! pret true.

(** The prompt of line 109: [Fore.CYAN + "Seflect an option: " + Style.RESET_ALL]. *)
Definition menu_prompt : string := Fore_CYAN ++ "Seflect an option: " ++ Style_RESET_ALL.

(** One iteration of the [while True] loop (lines 102-128). *)
Definition menu_step : tm A T bool :=
  py_print MMenu ;;!
  let! choice := py_input menu_prompt in
  menu_dispatch choice.

(** The loop with [fuel] iterations: [true] when it left by "5", [false]
    when the fuel ran out first. *)
Fixpoint main_loop (fuel : nat) : tm A T bool :=
  match fuel with
  | O => pret false
  | S n => let! cont := menu_step in if cont then main_loop n else pret true
  end.

(** [main()]: construct the tracker, then loop with one more iteration
    than there are lines to read. *)
Definition main : tm A T bool :=
  tracker_init "expenses.json" ;;!
  let! w := pget in
  main_loop (S (List.length (stdin w))).

(** Lines 130-131: run as a script ([__name__ == "__main__"]) the module
    calls [main()]; imported, it defines the class and runs nothing. *)
Definition run_module (as_main : bool) : tm A T unit :=
  if as_main then main ;;! pret tt else pret tt.
End Cli.

(** ** What the methods never change *)
Section MethodFrames.
Context {A T : Type} `{PyNum A} `{JsonCodec A T}.

Ltac method_frame :=
  repeat (frames_step ||
          (progress unfold add_income, add_expense, show_summary, summary_category,
            plot_expenses, iadd_item, isub_item, get_item, set_item, fmt_item, save_data,
            py_print)).

Lemma add_income_stdin amount : frames (@stdin A T) (add_income amount).
Proof. method_frame. Qed.

Lemma add_expense_stdin amount c d : frames (@stdin A T) (add_expense amount c d).
Proof. method_frame. Qed.

(** The fields the queries leave alone: everything but stdout and the chart. *)
Definition query_fields (w : world A T) :=
  (data_file w, categories w, data w, files w, stdin w).

Lemma show_summary_fields : frames query_fields show_summary.
Proof. method_frame. Qed.

Lemma plot_expenses_fields : frames query_fields plot_expenses.
Proof. method_frame. Qed.

Lemma py_print_fields m : frames query_fields (py_print m).
Proof. method_frame. Qed.
End MethodFrames.

(** ** [input()] consumes the input; the loop ends *)
Section Termination.
Context {A T : Type} `{PyNum A} `{JsonCodec A T}.

(** At most [n] lines left to read. *)
Definition lines_at_most (n : nat) (w : world A T) : Prop := List.length (stdin w) <= n.

Lemma frames_stdin_lines {X} n (m : tm A T X) : frames (@stdin A T) m -> preserves (lines_at_most n) m.
Proof. apply frames_preserves. intros s s' Heq. unfold lines_at_most. by rewrite Heq. Qed.

Lemma py_input_run p (w : world A T) :
  py_input p w = match stdin w with
                 | [] => (Exc EOFError, printed w (MPrompt p))
                 | line :: rest => (Ret line, set_stdin rest (printed w (MPrompt p)))
                 end.
Proof. destruct w as [df cs d fs o [|l i] n c]; reflexivity. Qed.

Lemma py_input_lines n p : preserves (lines_at_most n) (py_input p).
Proof.
  intros w Hw. rewrite py_input_run. unfold lines_at_most in *.
  destruct w as [df cs d fs o [|l i] nw c]; simpl in *; lia.
Qed.

Lemma py_print_lines n m : preserves (lines_at_most n) (py_print m).
Proof. apply frames_stdin_lines. unfold py_print. repeat frames_step. Qed.

Lemma add_income_lines n amount : preserves (lines_at_most n) (add_income amount).
Proof. apply frames_stdin_lines, add_income_stdin. Qed.

Lemma add_expense_lines n amount c d : preserves (lines_at_most n) (add_expense amount c d).
Proof. apply frames_stdin_lines, add_expense_stdin. Qed.

Lemma query_lines n (m : tm A T unit) : frames query_fields m -> preserves (lines_at_most n) m.
Proof.
  intros Hm. apply (frames_preserves _ query_fields); [|exact Hm].
  intros s s' Heq. unfold lines_at_most. injection Heq as _ _ _ _ ->. done.
Qed.

#[local] Hint Resolve py_input_lines py_print_lines add_income_lines add_expense_lines : pypres.
#[local] Hint Resolve query_lines show_summary_fields plot_expenses_fields : pypres.

Lemma menu_dispatch_lines n c : preserves (lines_at_most n) (menu_dispatch c).
Proof. unfold menu_dispatch. repeat preserves_step. Qed.

(** An iteration that does not raise has read at least one line. *)
Lemma menu_step_shrinks (w w' : world A T) b :
  menu_step w = (Ret b, w') -> List.length (stdin w') < List.length (stdin w).
Proof.
  change (menu_step w) with (pbind (py_input menu_prompt) menu_dispatch (printed w MMenu)).
  unfold pbind. rewrite py_input_run.
  destruct w as [df cs d fs o [|l i] nw c]; simpl; [discriminate|].
  intros Hm. pose proof (menu_dispatch_lines (List.length i) l) as Hd.
  match type of Hm with menu_dispatch l ?w1 = _ =>
    specialize (Hd w1 ltac:(unfold lines_at_most; simpl; lia)) end.
  rewrite Hm in Hd. unfold lines_at_most in Hd. simpl in *. lia.
Qed.

(** C16: Once the loop has more fuel than input lines are left, more fuel does
    not change its outcome or final state, so the fuelled loop is the while
    True loop. *)
Theorem main_loop_enough_fuel (n : nat) (w : world A T) :
  List.length (stdin w) < n -> main_loop n w = main_loop (S n) w.
Proof.
  revert w. induction n as [|n IH]; intros w Hn; [lia|].
  change (main_loop (S n) w) with
    (pbind menu_step (fun cont => if cont then main_loop n else pret true) w).
  change (main_loop (S (S n)) w) with
    (pbind menu_step (fun cont => if cont then main_loop (S n) else pret true) w).
  unfold pbind. destruct (menu_step w) as [[[|]|e] w'] eqn:Hm; [|reflexivity|reflexivity].
  apply IH. apply menu_step_shrinks in Hm. lia.
Qed.

Lemma main_loop_ends_run (n : nat) (w : world A T) :
  List.length (stdin w) < n -> (main_loop n w).1 <> Ret false.
Proof.
  revert w. induction n as [|n IH]; intros w Hn; [lia|].
  change (main_loop (S n) w) with
    (pbind menu_step (fun cont => if cont then main_loop n else pret true) w).
  unfold pbind. destruct (menu_step w) as [[[|]|e] w'] eqn:Hm; simpl; [|discriminate|discriminate].
  apply IH. apply menu_step_shrinks in Hm. lia.
Qed.
End Termination.

(** ** One pass of the loop on a choice that calls no method *)
Section MenuStep.
Context {A T : Type} `{PyNum A} `{JsonCodec A T}.

Lemma menu_dispatch_other (w : world A T) ch :
  ch ∉ ["1"; "2"; "3"; "4"] ->
  menu_dispatch ch w
  = (Ret (negb (String.eqb ch "5")), printed w (if String.eqb ch "5" then MGoodbye else MInvalidChoice)).
Proof.
  intros Hch. unfold menu_dispatch.
  assert (forall k, k ∈ ["1"; "2"; "3"; "4"] -> String.eqb ch k = false) as Hne.
  { intros k Hk. apply String.eqb_neq. intros ->. contradiction. }
  rewrite !Hne by set_solver.
  destruct (String.eqb ch "5"); reflexivity.
Qed.

(** C23: On any world whose next input line is not 1-4, one pass of the menu
    loop prints the menu and the cyan prompt 'Seflect an option: ', consumes
    the line, and then on '5' prints the goodbye line and leaves the loop,
    otherwise prints the invalid-choice line and continues; nothing else
    changes. *)
Theorem menu_step_exit_or_invalid (w : world A T) ch rest :
  stdin w = ch :: rest -> ch ∉ ["1"; "2"; "3"; "4"] ->
  menu_step w
  = (Ret (negb (String.eqb ch "5")),
     printed (set_stdin rest (printed (printed w MMenu)
                                (MPrompt (Fore_CYAN ++ "Seflect an option: " ++ Style_RESET_ALL))))
             (if String.eqb ch "5" then MGoodbye else MInvalidChoice)).
Proof.
  intros Hin Hch. unfold menu_step, pbind at 1, py_print at 1, pmodify at 1.
  cbv beta iota. unfold pbind at 1. rewrite py_input_run.
  destruct w as [df cs d fs o i n c]; cbn in Hin |- *. subst i. cbv beta iota.
  apply menu_dispatch_other, Hch.
Qed.
End MenuStep.

(** ** The program ends *)
Section MainEnds.
Context {A T : Type} `{PyNum A} `{JsonCodec A T}.

Lemma tracker_init_stdin file : frames (@stdin A T) (tracker_init file).
Proof. unfold tracker_init, load_data, py_print. repeat frames_step. Qed.

(** C15: main() never runs out of loop fuel: with one more iteration than
    input lines it always ends by choice 5 or by an exception. *)
Theorem main_terminates (w : world A T) : (main w).1 <> Ret false.
Proof.
  unfold main, pbind at 1. pose proof (tracker_init_stdin "expenses.json" w) as Hs.
  destruct (tracker_init "expenses.json" w) as [[u|e] w1]; cbn [fst snd] in *; [|discriminate].
  apply (main_loop_ends_run (S (List.length (stdin w1))) w1). lia.
Qed.
End MainEnds.

(** ** [str.capitalize()] and the category prompt *)

Lemma upper_lower (c : ascii) : upper (lower c) = upper c.
Proof. destruct c as [[] [] [] [] [] [] [] []]; reflexivity. Qed.

Lemma lower_lower (c : ascii) : lower (lower c) = lower c.
Proof. destruct c as [[] [] [] [] [] [] [] []]; reflexivity. Qed.

(** [capitalize] depends only on the lower-case form of its argument. *)
Lemma capitalize_lower (s : string) :
  capitalize s = capitalize (string_of_list_ascii (map lower (list_ascii_of_string s))).
Proof.
  destruct s as [|c r]; [reflexivity|]. simpl. rewrite upper_lower.
  rewrite list_ascii_of_string_of_list_ascii, map_map.
  by rewrite (map_ext (fun x => lower (lower x)) lower lower_lower).
Qed.

(** Any letter-case variant of a default category typed at the prompt is
    turned by str.capitalize() into that category. *)
Theorem capitalize_category (s c : string) :
  c ∈ default_categories ->
  map lower (list_ascii_of_string s) = map lower (list_ascii_of_string c) ->
  capitalize s = c.
Proof.
  intros Hc Hs. rewrite capitalize_lower, Hs.
  repeat (apply elem_of_cons in Hc as [->|Hc]; [reflexivity|]).
  by apply not_elem_of_nil in Hc.
Qed.

(** ** The queries change nothing but the output *)

(** C36: show_summary and plot_expenses change neither self.data, the
    categories, the data file, the files nor the input: only the console and
    the chart. *)
Theorem queries_change_only_output {A T} `{PyNum A} `{JsonCodec A T} (w : world A T) :
  query_fields (show_summary w).2 = query_fields w /\
  query_fields (plot_expenses w).2 = query_fields w.
Proof. split; [apply show_summary_fields|apply plot_expenses_fields]. Qed.

(** ** A whole session keeps the ledger sound *)
Section Session.
Context {A T : Type} `{ExactNum A} `{JsonCodecLaws A T}.

(** [tracker_ok] reads only the categories and [self.data]. *)
Definition ledger_fields (w : world A T) := (categories w, data w).

Lemma ledger_fields_ok {X} (m : tm A T X) : frames ledger_fields m -> preserves (tracker_ok (A:=A) (T:=T)) m.
Proof.
  apply frames_preserves. intros s s' Heq. unfold tracker_ok, ledger_fields in *.
  by injection Heq as -> ->.
Qed.

Lemma query_fields_ok {X} (m : tm A T X) : frames query_fields m -> preserves (tracker_ok (A:=A) (T:=T)) m.
Proof.
  intros Hm. apply ledger_fields_ok. intros s. specialize (Hm s).
  unfold query_fields, ledger_fields in *. by injection Hm as _ -> -> _ _.
Qed.

Lemma py_input_ok p : preserves (tracker_ok (A:=A) (T:=T)) (py_input p).
Proof. apply ledger_fields_ok. intros w. rewrite py_input_run. by destruct w as [? ? ? ? ? [|? ?] ? ?]. Qed.

Lemma py_print_ok m : preserves (tracker_ok (A:=A) (T:=T)) (py_print m).
Proof. apply query_fields_ok, py_print_fields. Qed.

Lemma add_income_ok amount : preserves (tracker_ok (A:=A) (T:=T)) (add_income amount).
Proof. intros w. apply add_income_keeps_ok. Qed.

Lemma add_expense_ok amount c d : preserves (tracker_ok (A:=A) (T:=T)) (add_expense amount c d).
Proof. intros w. apply add_expense_keeps_ok. Qed.

#[local] Hint Resolve py_input_ok py_print_ok add_income_ok add_expense_ok : pypres.
#[local] Hint Resolve query_fields_ok show_summary_fields plot_expenses_fields : pypres.

Lemma menu_step_ok : preserves (tracker_ok (A:=A) (T:=T)) menu_step.
Proof. unfold menu_step, menu_dispatch. repeat preserves_step. Qed.

Lemma main_loop_ok n : preserves (tracker_ok (A:=A) (T:=T)) (main_loop n).
Proof.
  induction n as [|n IH]; simpl; [apply preserves_ret|].
  apply preserves_bind; [apply menu_step_ok|intros []; [exact IH|apply preserves_ret]].
Qed.

(** C14: With exact amounts, whatever the input and however main() ends
    (choice 5, end of input, or an uncaught exception), self.data is a sound
    ledger when the data file was missing, not JSON, or sound. *)
Theorem session_keeps_ledger_sound (w : world A T) :
  stored_ok (files w !! "expenses.json") -> tracker_ok (main w).2.
Proof.
  intros Hs. pose proof (tracker_init_keeps_ok w "expenses.json" Hs) as Hw.
  unfold main, pbind at 1.
  destruct (tracker_init "expenses.json" w) as [[u|e] w1]; cbn [fst snd] in *; [|exact Hw].
  apply (main_loop_ok _ w1 Hw).
Qed.
End Session.
