(* ===== verification/Lifecycle.v ===== *)
(** * Lifecycle: processes that start, call methods, crash or exit, and restart

    The spec's state machine (section 5: uninitialized, then [load()],
    then a ready state with self-loops on the mutations and queries, then
    process exit) seen over many processes that share the file system.
    A process is [Down w] (no tracker; only [files w] matters to the next
    one) or [Up w] (a constructed tracker).  [lstep] is one transition:
    [ExpenseTracker()] as [main] calls it, a public method that returns,
    a public method whose exception escapes and ends the process, or an
    exit.  One rule induction ([lifecycle_invariant], in a Section over a
    ledger predicate [P] closed under the contract's operations) gives
    both that the data file and [self.data] stay sound ledgers across
    restarts ([lifecycle_sound]), that every ledger the program holds
    or saves comes from the empty ledger or the initial file by the
    contract's operations ([lifecycle_refines_spec]), and that every later
    start constructs the tracker without an exception
    ([lifecycle_restart]); with the trivial property it gives, for every
    amount type, that the data keeps the ledger type ([lifecycle_typed]). *)

From stdpp Require Import base list strings gmap relations.
From S2P Require Import Prelude Amount PyVal Storage LedgerSpec Tracker Refinement Persistence Report Cli.

Local Open Scope py_scope.

Section Lifecycle.
Context {A T : Type} `{PyNum A} `{JsonCodec A T}.

(** The public methods [main] calls, with their arguments. *)
Inductive call : Type :=
| CallIncome (amount : pyval A)
| CallExpense (amount : pyval A) (category description : string)
| CallSummary
| CallPlot.

Definition run_call (c : call) : tm A T unit :=
  match c with
  | CallIncome amount => add_income amount
  | CallExpense amount category description => add_expense amount category description
  | CallSummary => show_summary
  | CallPlot => plot_expenses
  end.

Inductive pstate : Type :=
| Down (w : world A T)
| Up (w : world A T).

Inductive lstep : pstate -> pstate -> Prop :=
| step_start w :
    (tracker_init "expenses.json" w).1 = Ret tt ->
    lstep (Down w) (Up (tracker_init "expenses.json" w).2)
| step_call w c :
    (run_call c w).1 = Ret tt -> lstep (Up w) (Up (run_call c w).2)
| step_crash w c e :
    (run_call c w).1 = Exc e -> lstep (Up w) (Down (run_call c w).2)
| step_exit w : lstep (Up w) (Down w).

(** The contract's operations that succeed: the spec's ready-state loops. *)
Inductive spec_op (cats : list string) : ledger A -> ledger A -> Prop :=
| op_income l a l' : spec_add_income l a = inr l' -> spec_op cats l l'
| op_expense l a c d t l' : spec_add_expense cats l a c d t = inr l' -> spec_op cats l l'.
End Lifecycle.

Arguments call A : clear implicits.
Arguments pstate A T : clear implicits.

(** ** One rule induction for every ledger property the contract keeps *)
Section LifecycleInvariant.
Context {A T : Type} `{PyNum A} `{JsonCodecLaws A T}.

(** A property of ledgers that holds of the empty ledger and that the
    contract's operations keep. *)
Variable P : ledger A -> Prop.
Hypothesis P_empty : P empty_ledger.
Hypothesis P_op : forall l l', spec_op default_categories l l' -> P l -> P l'.

(** The data file is missing, or it reads as text that is not JSON or
    is a ledger with [P]. *)
Definition stored_P (o : option T) : Prop :=
  match o with
  | None => True
  | Some t => read_error t = None /\
              match loads t with
              | None => True
              | Some v => exists l, v = ledger_to_py l /\ P l
              end
  end.

Definition disk_P (w : world A T) : Prop := stored_P (files w !! "expenses.json").

(** A constructed tracker: [self.data] is a ledger with [P], the
    attributes are those [main] constructs, and the file is as above. *)
Definition up_P (w : world A T) : Prop :=
  (exists l, data w = ledger_to_py l /\ P l) /\
  categories w = default_categories /\ data_file w = "expenses.json" /\ disk_P w.

Definition pstate_P (s : pstate A T) : Prop :=
  match s with
  | Down w => disk_P w
  | Up w => up_P w
  end.

Lemma tracker_init_fields (w : world A T) file :
  data_file (tracker_init file w).2 = file /\
  categories (tracker_init file w).2 = default_categories /\
  files (tracker_init file w).2 = files w.
Proof.
  destruct (files w !! file) as [t|] eqn:Hf;
    [destruct (read_error t) as [m|] eqn:Hr; [|destruct (loads t) as [v|] eqn:Hl]|].
  - rewrite (tracker_init_undecodable w file t m Hf Hr). by destruct w.
  - rewrite (tracker_init_doc w file t v Hf Hr Hl). by destruct w.
  - rewrite (tracker_init_corrupted w file t Hf Hr Hl). by destruct w.
  - rewrite (tracker_init_missing w file Hf). by destruct w.
Qed.

Lemma tracker_init_P (w : world A T) :
  disk_P w -> up_P (tracker_init "expenses.json" w).2.
Proof.
  intros Hd. destruct (tracker_init_fields w "expenses.json") as (Hdf & Hc & Hfs).
  split; [|split; [exact Hc|split; [exact Hdf|unfold disk_P; by rewrite Hfs]]].
  unfold disk_P, stored_P in Hd.
  destruct (files w !! "expenses.json") as [t|] eqn:Hf; [destruct Hd as [Hr Hd]; destruct (loads t) as [v|] eqn:Hl|].
  - destruct Hd as (l & -> & Hl'). rewrite (tracker_init_doc w _ t _ Hf Hr Hl). destruct w. by exists l.
  - rewrite (tracker_init_corrupted w _ t Hf Hr Hl). destruct w. by exists empty_ledger.
  - rewrite (tracker_init_missing w _ Hf). destruct w. by exists empty_ledger.
Qed.

(** A committed ledger with [P] makes the saved file satisfy [P]. *)
Lemma committed_P (w : world A T) l' m :
  up_P w -> P l' -> up_P (committed w l' m).
Proof.
  intros (_ & Hc & Hdf & _) Hl'. destruct w as [df cs d fs o i n ch]; simpl in *; subst.
  split; [by exists l'|split; [done|split; [done|]]].
  unfold disk_P, stored_P; simpl. rewrite lookup_insert_eq, read_error_dumps, loads_dumps by apply ledger_wf_doc.
  split; [done|by exists l'].
Qed.

Lemma printed_P (w : world A T) m : up_P w -> up_P (printed w m).
Proof. by destruct w. Qed.

Lemma contract_outcome_P (w : world A T) l r ok :
  data w = ledger_to_py l -> P l ->
  (forall l', r = inr l' -> spec_op default_categories l l') ->
  up_P w -> up_P (contract_outcome w r ok).2.
Proof.
  intros Hd Hl Hr Hw. destruct r as [v|l']; simpl; [by apply printed_P|].
  apply committed_P; [exact Hw|]. apply (P_op l); [by apply Hr|exact Hl].
Qed.

Lemma float_failure_P (w : world A T) e : up_P w -> up_P (float_failure w e).2.
Proof. destruct e; simpl; auto using printed_P. Qed.

Lemma add_income_P (w : world A T) amount : up_P w -> up_P (add_income amount w).2.
Proof.
  intros Hw. destruct (py_float amount) as [e|a] eqn:Hf.
  - rewrite (add_income_float_error _ _ _ Hf). by apply float_failure_P.
  - pose proof Hw as ((l & Hd & Hl) & _). rewrite (add_income_contract w l amount a Hd Hf).
    apply (contract_outcome_P w l); [exact Hd|exact Hl| |exact Hw].
    intros l' Hr. by apply (op_income _ l a).
Qed.

Lemma add_expense_P (w : world A T) amount c d : up_P w -> up_P (add_expense amount c d w).2.
Proof.
  intros Hw. destruct (py_float amount) as [e|a] eqn:Hf.
  - rewrite (add_expense_float_error _ _ _ _ _ Hf). by apply float_failure_P.
  - pose proof Hw as ((l & Hd & Hl) & Hc & _). rewrite (add_expense_contract w l amount a c d Hd Hf).
    apply (contract_outcome_P w l); [exact Hd|exact Hl| |exact Hw].
    intros l' Hr. apply (op_expense _ l a c d (now w)). by rewrite <- Hc.
Qed.

Lemma query_P (m : tm A T unit) (w : world A T) : frames query_fields m -> up_P w -> up_P (m w).2.
Proof.
  intros Hm. specialize (Hm w). destruct w as [df cs d fs o i n ch], (m _).2 as [df' cs' d' fs' o' i' n' ch'].
  unfold query_fields, up_P, disk_P in *; simpl in *. by injection Hm as -> -> -> -> ->.
Qed.

Lemma run_call_P (w : world A T) c : up_P w -> up_P (run_call c w).2.
Proof.
  destruct c; simpl.
  - apply add_income_P.
  - apply add_expense_P.
  - apply query_P, show_summary_fields.
  - apply query_P, plot_expenses_fields.
Qed.

Lemma lstep_P (s s' : pstate A T) : lstep s s' -> pstate_P s -> pstate_P s'.
Proof.
  intros Hs. destruct Hs as [w _|w c _|w c e _|w]; simpl.
  - apply tracker_init_P.
  - apply run_call_P.
  - intros Hw. apply (run_call_P w c Hw).
  - intros Hw. apply Hw.
Qed.

(** Rule induction over any number of transitions. *)
Lemma lifecycle_invariant (s s' : pstate A T) : rtc lstep s s' -> pstate_P s -> pstate_P s'.
Proof. induction 1; eauto using lstep_P. Qed.
End LifecycleInvariant.

(** ** The two instances *)
Section Instances.
Context {A T : Type} `{ExactNum A} `{JsonCodecLaws A T}.

Lemma spec_op_ok (l l' : ledger A) :
  spec_op default_categories l l' -> ledger_ok default_categories l -> ledger_ok default_categories l'.
Proof.
  intros [l0 a l1 Hr|l0 a c d t l1 Hr] Hl; eauto using spec_add_income_ok, spec_add_expense_ok.
Qed.

(** C9: With exact amounts, across any sequence of process starts, method
    calls, crashes and exits, the data file stays missing, unreadable or a
    sound ledger and every constructed tracker holds a sound ledger, when the
    file was so at the start. *)
Theorem lifecycle_sound (w0 : world A T) (s : pstate A T) :
  stored_ok (files w0 !! "expenses.json") -> rtc lstep (Down w0) s ->
  pstate_P (ledger_ok default_categories) s.
Proof.
  intros Hw0 Hs. apply (lifecycle_invariant _ (empty_ledger_ok _) spec_op_ok (Down w0) s Hs).
  exact Hw0.
Qed.
(** Construction returns whenever the data file is missing or reads as text. *)
Lemma tracker_init_returns (w : world A T) file :
  (forall t, files w !! file = Some t -> read_error t = None) -> (tracker_init file w).1 = Ret tt.
Proof.
  intros Ht. destruct (files w !! file) as [t|] eqn:Hf; [|by rewrite (tracker_init_missing w file Hf)].
  specialize (Ht t eq_refl). destruct (loads t) as [v|] eqn:Hl.
  - by rewrite (tracker_init_doc w file t v Hf Ht Hl).
  - by rewrite (tracker_init_corrupted w file t Hf Ht Hl).
Qed.

(** C10: When the data file was missing or sound at the first start, every
    later start, after any sequence of method calls, crashes and exits,
    constructs the tracker without an exception. *)
Theorem lifecycle_restart (w0 w : world A T) :
  stored_ok (files w0 !! "expenses.json") -> rtc lstep (Down w0) (Down w) ->
  (tracker_init "expenses.json" w).1 = Ret tt.
Proof.
  intros Hw0 Hs. pose proof (lifecycle_invariant _ (empty_ledger_ok _) spec_op_ok _ _ Hs Hw0) as Hd.
  apply tracker_init_returns. intros t Hf. simpl in Hd. unfold disk_P, stored_P in Hd.
  rewrite Hf in Hd. by destruct Hd.
Qed.
End Instances.

(** The ledgers the contract's operations reach from the empty ledger or
    from [l0]. *)
Definition spec_reach {A} `{PyNum A} (l0 l : ledger A) : Prop :=
  rtc (spec_op default_categories) empty_ledger l \/ rtc (spec_op default_categories) l0 l.

Section SpecTrace.
Context {A T : Type} `{PyNum A} `{JsonCodecLaws A T}.

Lemma spec_reach_op (l0 l l' : ledger A) :
  spec_op default_categories l l' -> spec_reach l0 l -> spec_reach l0 l'.
Proof. intros Hop [Hl|Hl]; [left|right]; eapply rtc_r; eauto. Qed.

(** C8: Starting from no data file or a file json.dump wrote for a ledger l0,
    every ledger the program holds or saves, across any sequence of starts,
    method calls, crashes and exits, is reached from the empty ledger or l0 by
    the contract's add-income and add-expense operations. *)
Theorem lifecycle_refines_spec (w0 : world A T) (l0 : ledger A) (s : pstate A T) :
  files w0 !! "expenses.json" = None \/
  files w0 !! "expenses.json" = Some (dumps (ledger_to_py l0)) ->
  rtc lstep (Down w0) s -> pstate_P (spec_reach l0) s.
Proof.
  intros Hw0 Hs. apply (lifecycle_invariant _ (or_introl (rtc_refl _ _)) (spec_reach_op l0) _ s Hs).
  simpl. unfold disk_P, stored_P. destruct Hw0 as [->| ->]; [done|].
  rewrite read_error_dumps, loads_dumps by apply ledger_wf_doc.
  split; [done|]. exists l0. split; [done|right; apply rtc_refl].
Qed.
End SpecTrace.

(** ** The shape of the data, for every amount type *)
Section Typing.
Context {A T : Type} `{PyNum A} `{JsonCodecLaws A T}.

(** The data file is missing, or reads as text that is not JSON or is a
    document [py_to_ledger] accepts. *)
Definition stored_typed (o : option T) : Prop :=
  match o with
  | None => True
  | Some t => read_error t = None /\
              match loads t with None => True | Some v => is_Some (py_to_ledger v) end
  end.

Lemma typed_ledger (v : pyval A) : is_Some (py_to_ledger v) <-> exists l, v = ledger_to_py l /\ True.
Proof.
  split; [intros [l Hl]; exists l; by apply py_to_ledger_correct in Hl|].
  intros (l & Hv & _). exists l. by apply py_to_ledger_correct.
Qed.

Lemma stored_typed_P (o : option T) : stored_typed o <-> stored_P (fun _ => True) o.
Proof.
  destruct o as [t|]; simpl; [|done].
  destruct (loads t); [by rewrite typed_ledger|done].
Qed.

(** C11: For every amount type, binary64 included, when the data file is
    missing or typed at the first start, every state reached by starts, method
    calls, crashes and exits has a typed data file and every constructed
    tracker holds a document py_to_ledger accepts. *)
Theorem lifecycle_typed (w0 : world A T) (s : pstate A T) :
  stored_typed (files w0 !! "expenses.json") -> rtc lstep (Down w0) s ->
  match s with
  | Down w => stored_typed (files w !! "expenses.json")
  | Up w => is_Some (py_to_ledger (data w)) /\ stored_typed (files w !! "expenses.json")
  end.
Proof.
  intros Hw0 Hs. apply stored_typed_P in Hw0.
  pose proof (lifecycle_invariant (fun _ => True) I (fun _ _ _ _ => I) _ _ Hs Hw0) as Hinv.
  destruct s as [w|w]; simpl in Hinv; unfold disk_P in Hinv.
  - by apply stored_typed_P.
  - destruct Hinv as (Hl & _ & _ & Hd). split; [by apply typed_ledger|by apply stored_typed_P].
Qed.
End Typing.
