(* ===== verification/Scenarios.v ===== *)
(** * Scenarios: the spec's scenarios run on the model, and witnesses

    Concrete runs on exact amounts ([Q]) with the document store as the
    [json] codec: the scenario of spec section 8 (income 1000, expenses
    50.25 Food and 20 Transport, then the summary and the chart), and for
    every theorem with hypotheses a witness that applies it to a concrete
    world where the hypotheses hold. *)

From stdpp Require Import base list strings gmap relations.
From Stdlib Require Import String Ascii QArith Qabs Floats.
From S2P Require Import Prelude Amount PyFloat Format Colorama Binary64 FloatRepr ReprDigits PyVal Storage LedgerSpec Tracker Refinement Persistence Sequences Report Console Cli Lifecycle.

Local Open Scope py_scope.
Local Open Scope string_scope.

(** The document store over exact amounts. *)
Abbreviation Doc := (stored Q).

Definition clock : string := "2024-05-01 12:00:00".

(** A process that has not constructed its tracker yet. *)
Definition w_start : world Q Doc := mkWorld "" [] PNone ∅ [] [] clock None.

(** The tracker right after [ExpenseTracker()] with no data file. *)
Definition w_fresh : world Q Doc :=
  mkWorld "expenses.json" default_categories default_data ∅ [] [] clock None.

Definition lunch : expense Q := mkExpense (5025 # 100) "Food" "lunch" clock.
Definition bus : expense Q := mkExpense 20 "Transport" "" clock.

(** The ledger after income 1000 and the lunch. *)
Definition l_lunch : ledger Q := mkLedger 1000 [lunch] (94975 # 100).
Definition w_lunch : world Q Doc := set_data (ledger_to_py l_lunch) w_fresh.

(** The spec's scenario, from process start. *)
Definition scenario : tm Q Doc unit :=
  tracker_init "expenses.json" ;;!
  add_income (PStr "1000") ;;!
  add_expense (PStr "50.25") "Food" "lunch" ;;!
  add_expense (PStr "20") "Transport" "" ;;!
  show_summary ;;!
  plot_expenses.

(** ** The scenario of spec section 8 *)

(** Spec scenario: from an empty start, income 1000, expenses 50.25 Food
    and 20 Transport give a summary of income 1000, expenses 70.25, balance
    929.75, Food 50.25 and Transport 20, and a two-slice chart. *)
Example scenario_summary :
  scenario w_start
  = (Ret tt,
     mkWorld "expenses.json" default_categories
       (ledger_to_py (mkLedger 1000 [lunch; bus] 929.75))
       (<["expenses.json" := SDoc (ledger_to_py (mkLedger 1000 [lunch; bus] 929.75))]> ∅)
       [MAddedIncome 1000 1000; MAddedExpense 50.25 "Food" 949.75;
        MAddedExpense 20 "Transport" 929.75;
        MSummaryHeader; MTotalIncome 1000; MTotalExpenses 70.25; MBalance 929.75;
        MByCategory; MCategoryTotal "Food" 50.25; MCategoryTotal "Transport" 20;
        MChartSaved]
       [] clock (Some (["Food"; "Transport"], [50.25; 20]))).
Proof. vm_compute. reflexivity. Qed.

(** The same session typed at the menu, the categories in any case. *)
Definition session_input : list string :=
  ["1"; "1000"; "2"; "food"; "50.25"; "lunch"; "2"; "TRANSPORT"; "20"; ""; "3"; "9"; "5"].

Definition w_cli : world Q Doc := mkWorld "" [] PNone ∅ [] session_input clock None.

Definition l_session : ledger Q := mkLedger 1000 [lunch; bus] 929.75.

(** The spec scenario typed at the menu: categories 'food' and
    'TRANSPORT' are capitalized and accepted, choice 9 is reported invalid,
    choice 5 ends main() normally, with the ledger saved and every prompt and
    message printed in order. *)
Example cli_session :
  main w_cli
  = (Ret true,
     mkWorld "expenses.json" default_categories (ledger_to_py l_session)
       (<["expenses.json" := SDoc (ledger_to_py l_session)]> ∅)
       [MMenu; MPrompt menu_prompt; MPrompt "Enter income amount: ";
        MAddedIncome 1000 1000;
        MMenu; MPrompt menu_prompt; MCategories default_categories;
        MPrompt "Enter expense category: "; MPrompt "Enter expense amount: ";
        MPrompt "Enter expense description (optional): "; MAddedExpense 50.25 "Food" 949.75;
        MMenu; MPrompt menu_prompt; MCategories default_categories;
        MPrompt "Enter expense category: "; MPrompt "Enter expense amount: ";
        MPrompt "Enter expense description (optional): "; MAddedExpense 20 "Transport" 929.75;
        MMenu; MPrompt menu_prompt;
        MSummaryHeader; MTotalIncome 1000; MTotalExpenses 70.25; MBalance 929.75;
        MByCategory; MCategoryTotal "Food" 50.25; MCategoryTotal "Transport" 20;
        MMenu; MPrompt menu_prompt; MInvalidChoice;
        MMenu; MPrompt menu_prompt; MGoodbye]
       [] clock None).
Proof. vm_compute. reflexivity. Qed.

(** The text the spec scenario writes to standard output: every amount
    formatted with ' .2f' (a space after the dollar sign) and the summary
    listing Food and Transport only. *)
Example scenario_transcript :
  transcript (stdout (scenario w_start).2)
  = "Added $ 1000.00 to income. New balance: $ 1000.00" ++ nl ++
    "Added expense: $ 50.25 in Food. New balance: $ 949.75" ++ nl ++
    "Added expense: $ 20.00 in Transport. New balance: $ 929.75" ++ nl ++
    nl ++ "=== Financial Summary ===" ++ nl ++
    "Total Income: $ 1000.00" ++ nl ++
    "Total Expenses: $ 70.25" ++ nl ++
    "Current Balance: $ 929.75" ++ nl ++
    nl ++ "Expenses by Category:" ++ nl ++
    "Food: $ 50.25" ++ nl ++
    "Transport: $ 20.00" ++ nl ++
    "Pie chart saved as 'expenses_pie_chart.png'." ++ nl.
Proof. vm_compute. reflexivity. Qed.

(** ** Witnesses *)

Lemma stdout_piped_transcript_witness :
  forallb msg_plain (stdout (main w_cli).2) = true /\
  stdout_text (mkConsole false false) (stdout (main w_cli).2) = Some (transcript (stdout (main w_cli).2)).
Proof.
  split; [vm_compute; reflexivity|].
  apply (stdout_piped_transcript (A := Q) fmt_2f_Q_plain). vm_compute. reflexivity.
Defined.

Lemma add_income_refines_witness :
  data w_fresh = ledger_to_py empty_ledger /\ py_float (PStr "1000") = inr 1000 /\
  add_income (PStr "1000") w_fresh
  = contract_outcome w_fresh (spec_add_income empty_ledger 1000)
                     (fun l' => MAddedIncome 1000 (l_balance l')).
Proof.
  split; [reflexivity|split; [reflexivity|]].
  apply add_income_refines; reflexivity.
Defined.

Lemma add_expense_refines_witness :
  data w_lunch = ledger_to_py l_lunch /\ py_float (PStr "20") = inr 20 /\
  add_expense (PStr "20") "Transport" "" w_lunch
  = contract_outcome w_lunch (spec_add_expense (categories w_lunch) l_lunch 20 "Transport" "" (now w_lunch))
                     (fun l' => MAddedExpense 20 "Transport" (l_balance l')).
Proof.
  split; [reflexivity|split; [reflexivity|]].
  apply add_expense_refines; reflexivity.
Defined.

Lemma add_income_rejects_negative_witness :
  py_float (PStr "-5") = inr (-5) /\ num_ltb (-5) num_zero = true /\
  add_income (PStr "-5") w_lunch = (Ret tt, printed w_lunch (MError VENegativeIncome)).
Proof.
  split; [reflexivity|split; [reflexivity|]].
  apply (add_income_rejects_negative _ _ (-5)); reflexivity.
Defined.

Lemma add_expense_rejects_nonpositive_witness :
  py_float (PStr "0") = inr 0 /\ num_leb 0 num_zero = true /\
  add_expense (PStr "0") "Food" "" w_lunch
  = (Ret tt, printed w_lunch (MError VENonPositiveExpense)).
Proof.
  split; [reflexivity|split; [reflexivity|]].
  apply (add_expense_rejects_nonpositive _ _ 0); reflexivity.
Defined.

Lemma add_expense_rejects_category_witness :
  py_float (PStr "10") = inr 10 /\ num_leb 10 num_zero = false /\
  existsb (String.eqb "Rent") (categories w_lunch) = false /\
  add_expense (PStr "10") "Rent" "" w_lunch
  = (Ret tt, printed w_lunch (MError (VEInvalidCategory (categories w_lunch)))).
Proof.
  split; [reflexivity|split; [reflexivity|split; [reflexivity|]]].
  apply (add_expense_rejects_category _ _ 10); reflexivity.
Defined.

Lemma tracker_ok_lunch : tracker_ok w_lunch.
Proof. exists l_lunch. split; [reflexivity|]. apply ledger_okb_sound. vm_compute. reflexivity. Qed.

Lemma add_income_preserves_ok_witness :
  tracker_ok w_lunch /\ tracker_ok (add_income (PStr "250") w_lunch).2.
Proof. split; [exact tracker_ok_lunch|apply add_income_preserves_ok, tracker_ok_lunch]. Defined.

Lemma add_expense_preserves_ok_witness :
  tracker_ok w_lunch /\ tracker_ok (add_expense (PStr "20") "Transport" "" w_lunch).2.
Proof. split; [exact tracker_ok_lunch|apply add_expense_preserves_ok, tracker_ok_lunch]. Defined.

Lemma save_load_roundtrip_witness :
  wf_doc (data w_lunch) /\
  (save_data ;;! load_data) w_lunch
  = (Ret (data w_lunch), set_files (<[data_file w_lunch := dumps (data w_lunch)]> (files w_lunch)) w_lunch).
Proof.
  split; [apply ledger_wf_doc|]. apply save_load_roundtrip, ledger_wf_doc.
Defined.

Lemma show_summary_ledger_witness :
  data w_lunch = ledger_to_py l_lunch /\
  show_summary w_lunch = (Ret tt, emitted w_lunch (summary_lines (categories w_lunch) l_lunch)).
Proof. split; [reflexivity|]. apply show_summary_ledger. reflexivity. Defined.

Lemma lunch_nodup : NoDup (categories w_lunch).
Proof. apply (bool_decide_unpack _). vm_compute. exact I. Qed.

Lemma lunch_known : Forall (fun e => e_category e ∈ categories w_lunch) (l_expenses l_lunch).
Proof. apply (bool_decide_unpack _). vm_compute. exact I. Qed.

Lemma plot_expenses_ledger_witness :
  data w_lunch = ledger_to_py l_lunch /\ NoDup (categories w_lunch) /\
  Forall (fun e => e_category e ∈ categories w_lunch) (l_expenses l_lunch) /\
  plot_expenses w_lunch = (Ret tt, chart_outcome w_lunch (breakdown (categories w_lunch) l_lunch)).
Proof.
  pose proof lunch_nodup as Hnd. pose proof lunch_known as Hes.
  split; [reflexivity|split; [exact Hnd|split; [exact Hes|]]].
  apply plot_expenses_ledger; [reflexivity|exact Hnd|exact Hes].
Defined.

Lemma reopen_after_commit_witness :
  tracker_init (data_file w_lunch) (committed w_lunch l_lunch (MAddedIncome 1000 1000))
  = (Ret tt, set_data (ledger_to_py l_lunch)
               (set_self (data_file w_lunch) default_categories
                  (committed w_lunch l_lunch (MAddedIncome 1000 1000)))).
Proof. apply reopen_after_commit. Defined.

(** A ledger whose file was edited to hold a "Rent" record. *)
Definition rent : expense Q := mkExpense 700 "Rent" "" clock.
Definition l_rent : ledger Q := mkLedger 1000 [lunch; rent] (24975 # 100).
Definition w_rent : world Q Doc := set_data (ledger_to_py l_rent) w_fresh.

Lemma plot_expenses_unknown_category_witness :
  data w_rent = ledger_to_py l_rent /\ NoDup (categories w_rent) /\
  Exists (fun e => e_category e ∉ categories w_rent) (l_expenses l_rent) /\
  exists c, (c ∉ categories w_rent) /\ plot_expenses w_rent = (Exc (KeyError (PStr c)), w_rent).
Proof.
  assert (NoDup (categories w_rent)) as Hnd by (apply (bool_decide_unpack _); vm_compute; exact I).
  assert (Exists (fun e => e_category e ∉ categories w_rent) (l_expenses l_rent)) as Hex
    by (apply (bool_decide_unpack _); vm_compute; exact I).
  split; [reflexivity|split; [exact Hnd|split; [exact Hex|]]].
  apply (plot_expenses_unknown_category w_rent l_rent); [reflexivity|exact Hnd|exact Hex].
Defined.

Lemma breakdown_partitions_total_witness :
  NoDup default_categories /\
  Forall (fun e => e_category e ∈ default_categories) (l_expenses l_lunch) /\
  match foldE plot_step (zero_totals default_categories) (map expense_to_py (l_expenses l_lunch)),
        sum_amounts (map expense_to_py (l_expenses l_lunch)) with
  | inr totals, inr t => (fold_right (fun ct acc => to_Q ct.2 + acc) 0 totals == to_Q t)%Q
  | _, _ => False
  end.
Proof.
  assert (NoDup default_categories) as Hnd by (apply (bool_decide_unpack _); vm_compute; exact I).
  assert (Forall (fun e => e_category e ∈ default_categories) (l_expenses l_lunch)) as Hes
    by (apply (bool_decide_unpack _); vm_compute; exact I).
  split; [exact Hnd|split; [exact Hes|]].
  exact (breakdown_partitions_total default_categories (l_expenses l_lunch) Hnd Hes).
Defined.

Lemma summary_adds_up_witness :
  data w_lunch = ledger_to_py l_lunch /\ ledger_ok (categories w_lunch) l_lunch /\
  exists rest,
    show_summary w_lunch
    = (Ret tt, emitted w_lunch ([MSummaryHeader; MTotalIncome (l_income l_lunch);
                                 MTotalExpenses (ledger_total l_lunch); MBalance (l_balance l_lunch);
                                 MByCategory] ++ rest)) /\
    (to_Q (l_balance l_lunch) == to_Q (l_income l_lunch) - to_Q (ledger_total l_lunch))%Q.
Proof.
  assert (ledger_ok (categories w_lunch) l_lunch) as Hok
    by (apply ledger_okb_sound; vm_compute; reflexivity).
  split; [reflexivity|split; [exact Hok|]]. apply summary_adds_up; [reflexivity|exact Hok].
Defined.

Lemma main_loop_enough_fuel_witness :
  (List.length (stdin w_cli) < 14)%nat /\ main_loop 14 w_cli = main_loop 15 w_cli.
Proof. split; [vm_compute; lia|]. apply main_loop_enough_fuel. vm_compute. lia. Defined.

Lemma capitalize_category_witness :
  "Transport" ∈ default_categories /\
  map lower (list_ascii_of_string "tRANSPORT") = map lower (list_ascii_of_string "Transport") /\
  capitalize "tRANSPORT" = "Transport".
Proof.
  assert ("Transport" ∈ default_categories) as Hc by (apply (bool_decide_unpack _); vm_compute; exact I).
  split; [exact Hc|split; [reflexivity|]]. apply capitalize_category; [exact Hc|reflexivity].
Defined.

(** A session that starts from a file holding [l_lunch] and stops at the end of the input. *)
Definition w_resume : world Q Doc :=
  mkWorld "" [] PNone {["expenses.json" := SDoc (ledger_to_py l_lunch)]} [] ["2"; "rent"; "10"] clock None.

Lemma w_resume_stored_ok : stored_ok (files w_resume !! "expenses.json").
Proof.
  assert (files w_resume !! "expenses.json" = Some (SDoc (ledger_to_py l_lunch))) as -> by reflexivity.
  unfold stored_ok. split; [reflexivity|]. exists l_lunch. split; [reflexivity|].
  apply ledger_okb_sound. vm_compute. reflexivity.
Qed.

Lemma session_keeps_ledger_sound_witness :
  stored_ok (files w_resume !! "expenses.json") /\ tracker_ok (main w_resume).2.
Proof.
  pose proof w_resume_stored_ok as Hs.
  split; [exact Hs|]. apply session_keeps_ledger_sound. exact Hs.
Defined.

(** Start, add income 1000, exit, start again. *)
Definition life_w1 : world Q Doc := (tracker_init "expenses.json" w_start).2.
Definition life_w2 : world Q Doc := (run_call (CallIncome (PStr "1000")) life_w1).2.
Definition life_w3 : world Q Doc := (tracker_init "expenses.json" life_w2).2.

Lemma life_run : rtc lstep (Down w_start) (Up life_w3).
Proof.
  eapply rtc_l; [apply step_start; reflexivity|].
  eapply rtc_l; [apply (step_call _ (CallIncome (PStr "1000"))); vm_compute; reflexivity|].
  eapply rtc_l; [apply step_exit|].
  eapply rtc_l; [apply step_start; vm_compute; reflexivity|]. apply rtc_refl.
Qed.

Lemma lifecycle_sound_witness :
  stored_ok (files w_start !! "expenses.json") /\ rtc lstep (Down w_start) (Up life_w3) /\
  pstate_P (ledger_ok default_categories) (Up life_w3).
Proof. split; [exact I|split; [exact life_run|]]. apply (lifecycle_sound w_start); [exact I|exact life_run]. Defined.

(** Resume from the saved lunch ledger, then a Food expense of 10 and a
    call whose float() raises TypeError, which ends the process. *)
Definition res_w1 : world Q Doc := (tracker_init "expenses.json" w_resume).2.
Definition res_w2 : world Q Doc := (run_call (CallExpense (PStr "10") "Food" "") res_w1).2.
Definition res_w3 : world Q Doc := (run_call (CallIncome PNone) res_w2).2.

Lemma resume_run : rtc lstep (Down w_resume) (Down res_w3).
Proof.
  eapply rtc_l; [apply step_start; reflexivity|].
  eapply rtc_l; [apply (step_call _ (CallExpense (PStr "10") "Food" "")); vm_compute; reflexivity|].
  eapply rtc_l; [apply (step_crash _ (CallIncome PNone) TypeError); vm_compute; reflexivity|].
  apply rtc_refl.
Qed.

Lemma lifecycle_refines_spec_witness :
  (files w_resume !! "expenses.json" = None \/
   files w_resume !! "expenses.json" = Some (dumps (ledger_to_py l_lunch))) /\
  rtc lstep (Down w_resume) (Down res_w3) /\ pstate_P (spec_reach l_lunch) (Down res_w3).
Proof.
  assert (files w_resume !! "expenses.json" = Some (dumps (ledger_to_py l_lunch))) as Hf by reflexivity.
  split; [right; exact Hf|split; [exact resume_run|]].
  apply (lifecycle_refines_spec w_resume l_lunch); [right; exact Hf|exact resume_run].
Defined.

Lemma parse_float_numeral_witness :
  Forall (fun c => is_digit c = true) ["1"; "2"]%char /\
  parse_float (string_of_list_ascii ([" "; " "]%char ++ numeral false ["1"; "2"]%char (Some ["5"; "0"]%char) ++ ["009"%char]))
  = Some (FLFinite false 1250 (-2)).
Proof.
  assert (Forall (fun c => is_digit c = true) ["1"; "2"]%char) as Hip by repeat constructor.
  split; [exact Hip|].
  rewrite (parse_float_numeral false ["1"; "2"]%char (Some ["5"; "0"]%char) [" "; " "]%char ["009"%char]);
    [reflexivity|discriminate|exact Hip|repeat constructor..].
Defined.

Lemma fmt_2f_Q_roundtrip_witness :
  parse_float (fmt_2f_Q (2675 # 1000)) = Some (FLFinite false 268 (-2)) /\
  (Qabs (dec_Q false 268 (-2) - (2675 # 1000)) <= 1 # 200)%Q.
Proof. apply (fmt_2f_Q_roundtrip (2675 # 1000)). Defined.

(** Incomes typed in a row: one negative and one not a number are rejected. *)
Definition income_inputs : list (pyval Q) := [PStr "100"; PStr "-5"; PStr "abc"; PStr " 2.5 "].

Lemma add_income_sequence_witness :
  data w_fresh = ledger_to_py empty_ledger /\ Forall converts income_inputs /\
  exists w' l', pfor income_inputs add_income w_fresh = (Ret tt, w') /\ data w' = ledger_to_py l' /\
    l_expenses l' = l_expenses empty_ledger /\
    (to_Q (l_income l') == to_Q (l_income empty_ledger) + sum_Q income_added income_inputs)%Q /\
    (to_Q (l_balance l') == to_Q (l_balance empty_ledger) + sum_Q income_added income_inputs)%Q.
Proof.
  assert (Forall converts income_inputs) as Hc by (repeat constructor; apply converts_str).
  split; [reflexivity|split; [exact Hc|]]. apply add_income_sequence; [reflexivity|exact Hc].
Defined.

(** Expenses typed in a row: a zero amount and an unknown category are rejected. *)
Definition expense_inputs : list (pyval Q * string * string) :=
  [(PStr "12", "Food", ""); (PStr "0", "Food", ""); (PStr "7.5", "Rent", ""); (PStr "3", "Other", "")].

Lemma add_expense_sequence_witness :
  data w_lunch = ledger_to_py l_lunch /\ Forall (fun x => converts x.1.1) expense_inputs /\
  (to_Q (l_balance l_lunch) == to_Q (l_income l_lunch) - total_Q (l_expenses l_lunch))%Q /\
  exists w' l', pfor expense_inputs add_expense_call w_lunch = (Ret tt, w') /\ data w' = ledger_to_py l' /\
    (total_Q (l_expenses l') == total_Q (l_expenses l_lunch) + sum_Q (expense_taken (categories w_lunch)) expense_inputs)%Q /\
    (to_Q (l_balance l') == to_Q (l_income l') - total_Q (l_expenses l'))%Q.
Proof.
  assert (Forall (fun x => converts x.1.1) expense_inputs) as Hc by (repeat constructor; apply converts_str).
  assert (to_Q (l_balance l_lunch) == to_Q (l_income l_lunch) - total_Q (l_expenses l_lunch))%Q as Hb
    by (vm_compute; reflexivity).
  split; [reflexivity|split; [exact Hc|split; [exact Hb|]]].
  apply add_expense_sequence; [reflexivity|exact Hc|exact Hb].
Defined.

Lemma lifecycle_restart_witness :
  stored_ok (files w_resume !! "expenses.json") /\ rtc lstep (Down w_resume) (Down res_w3) /\
  (tracker_init "expenses.json" res_w3).1 = Ret tt.
Proof.
  pose proof w_resume_stored_ok as Hs.
  split; [exact Hs|split; [exact resume_run|]]. apply (lifecycle_restart w_resume); [exact Hs|exact resume_run].
Defined.

Lemma lifecycle_typed_witness :
  stored_typed (files w_start !! "expenses.json") /\ rtc lstep (Down w_start) (Up life_w3) /\
  (is_Some (py_to_ledger (data life_w3)) /\ stored_typed (files life_w3 !! "expenses.json")).
Proof.
  split; [exact I|split; [exact life_run|]].
  apply (lifecycle_typed w_start (Up life_w3)); [exact I|exact life_run].
Defined.

Lemma summary_matches_chart_witness :
  data w_lunch = ledger_to_py l_lunch /\ NoDup (categories w_lunch) /\
  Forall (fun e => e_category e ∈ categories w_lunch) (l_expenses l_lunch) /\
  exists totals,
    plot_expenses w_lunch = (Ret tt, chart_outcome w_lunch totals) /\
    show_summary w_lunch
    = (Ret tt, emitted w_lunch ([MSummaryHeader; MTotalIncome (l_income l_lunch);
                                 MTotalExpenses (ledger_total l_lunch); MBalance (l_balance l_lunch);
                                 MByCategory] ++
                                zip_with MCategoryTotal (chart_labels totals) (chart_sizes totals))).
Proof.
  split; [reflexivity|split; [exact lunch_nodup|split; [exact lunch_known|]]].
  apply summary_matches_chart; [reflexivity|exact lunch_nodup|exact lunch_known].
Defined.

(** float('2.675') is the dyadic 3011782250804019 / 2^50, just below
    2.675, so it prints as 2.67. *)
Definition f2675 : float := dec_float false 2675 (-3).

Lemma fmt_2f_float_roundtrip_witness :
  (match Prim2SF f2675 with S754_finite _ _ _ | S754_zero _ => True | _ => False end) /\
  fmt_2f_float f2675 = " 2.67" /\
  exists neg n, parse_float (fmt_2f_float f2675) = Some (FLFinite neg n (-2)) /\
                (Qabs (dec_Q neg n (-2) - sf_value (Prim2SF f2675)) <= 1 # 200)%Q.
Proof.
  assert (match Prim2SF f2675 with S754_finite _ _ _ | S754_zero _ => True | _ => False end) as Hx
    by (vm_compute; exact I).
  split; [exact Hx|split; [vm_compute; reflexivity|]].
  exact (fmt_2f_float_roundtrip f2675 Hx).
Defined.

(** A world whose next input line is "9", then "5". *)
Definition w_menu : world Q Doc := set_stdin ["9"; "5"] w_fresh.

Lemma menu_step_exit_or_invalid_witness :
  stdin w_menu = ["9"; "5"] /\ ("9" ∉ ["1"; "2"; "3"; "4"]) /\
  menu_step w_menu
  = (Ret (negb (String.eqb "9" "5")),
     printed (set_stdin ["5"] (printed (printed w_menu MMenu)
                                 (MPrompt (Fore_CYAN ++ "Seflect an option: " ++ Style_RESET_ALL))))
             (if String.eqb "9" "5" then MGoodbye else MInvalidChoice)).
Proof.
  assert ("9" ∉ ["1"; "2"; "3"; "4"]) as Hn by (apply (bool_decide_unpack _); vm_compute; exact I).
  split; [reflexivity|split; [exact Hn|]].
  exact (menu_step_exit_or_invalid w_menu "9" ["5"] eq_refl Hn).
Defined.

(** [0.1 + 0.2] is [5404319552844596 * 2^-54]; its [repr] needs all 17
    digits. *)
Definition tenth_sum : float := PrimFloat.add (dec_float false 1 (-1)) (dec_float false 2 (-1)).

Lemma float_repr_17_digits_witness :
  Prim2SF tenth_sum = S754_finite false 5404319552844596 (-54) /\
  float_repr tenth_sum = "0.30000000000000004" /\
  exists n D, (1 <= n <= 17 /\ 10 ^ (n - 1) <= D <= 10 ^ n /\
    float_repr tenth_sum = repr_decimal false D
      (dec_exponent (bin_ratio 5404319552844596 (-54)).1 (bin_ratio 5404319552844596 (-54)).2 - n))%Z.
Proof.
  assert (Prim2SF tenth_sum = S754_finite false 5404319552844596 (-54)) as Hx by (vm_compute; reflexivity).
  split; [exact Hx|split; [vm_compute; reflexivity|]].
  exact (float_repr_17_digits tenth_sum false 5404319552844596 (-54) Hx).
Defined.
