(* ===== verification/Findings.v ===== *)
(** * Findings: where the program departs from what its spec says

    Run on the arithmetic Python really uses (binary64, [Float_PyNum]),
    or on data files the spec does not foresee:
    - [float()] reads "nan" (and "inf"), and [nan < 0] and [nan <= 0] are
      both false, so both guards accept a NaN amount: the income or the
      balance becomes NaN and is saved;
    - the balance is kept by [+=] and [-=] while the summary re-adds the
      expenses, and binary64 addition is not associative: after income
      0.3 and expenses 0.1 and 0.2 the stored balance is not the income
      minus the summed expenses (the spec's invariant is exact; an
      example run, not a claim);
    - the summary's [sum()] compensates (CPython 3.12) while the chart's
      [+=] does not: ten records of 0.1 give a subtotal of 1.0 in the
      summary and 0.9999999999999999 in the chart (an example run);
    - [float(None)] raises [TypeError], which [except ValueError] does not
      catch: the call escapes instead of reporting a validation error;
    - [load_data] accepts any JSON document: a file holding any JSON list
      gives a tracker whose mutations raise [TypeError], and a dict with
      an "income" but no "balance" makes [add_income] raise [KeyError]
      after it has already changed "income" in memory;
    - a data file whose bytes are not UTF-8 makes [json.load] raise
      [UnicodeDecodeError], which [except json.JSONDecodeError] does not
      catch: the program stops in the constructor, where the spec says an
      unparseable document is replaced by a fresh ledger;
    - at the end of the input [input()] raises [EOFError], which [main]
      does not catch: the program stops with a traceback, not by the
      normal termination the spec's CLI surface describes;
    - a process killed while [save_data] writes leaves a strict prefix of
      the JSON text, which the next start treats as corrupted: the whole
      saved ledger is replaced by an empty one. *)

From stdpp Require Import base list strings gmap.
From Stdlib Require Import Ascii String ZArith Floats.
From S2P Require Import Prelude Amount PyFloat TextIO PyVal Storage JsonText Codec LedgerSpec Tracker Refinement Persistence Report Cli.

Local Open Scope py_scope.
Local Open Scope string_scope.

(** The document store over binary64 amounts. *)
Abbreviation FDoc := (stored float).

Definition fclock : string := "2024-05-01 12:00:00".

(** A tracker just constructed with no data file, binary64 amounts. *)
Definition fw_fresh : world float FDoc :=
  mkWorld "expenses.json" default_categories default_data ∅ [] [] fclock None.

(** The decimal literal [m * 10^e] as [float()] reads it. *)
Definition flt (m e : Z) : float := dec_float false m e.

(** Income 0.3, then 0.1 and 0.2 spent on Food. *)
Definition drift_run : tm float FDoc unit :=
  add_income (PStr "0.3") ;;!
  add_expense (PStr "0.1") "Food" "" ;;!
  add_expense (PStr "0.2") "Food" "".

Definition drift_ledger : ledger float :=
  mkLedger (flt 3 (-1))
    [mkExpense (flt 1 (-1)) "Food" "" fclock; mkExpense (flt 2 (-1)) "Food" "" fclock]
    (flt 3 (-1) - flt 1 (-1) - flt 2 (-1))%float.

(** A data file that is JSON but not a ledger: [[]]. *)
Definition fw_list_file : world float FDoc :=
  mkWorld "" [] PNone {["expenses.json" := SDoc (PList [])]} [] [] fclock None.

(** A data file holding the single byte [0xFF], which is not UTF-8, read
    through the real codec. *)
Definition utf8_error : string := "'utf-8' codec can't decode byte 0xff in position 0: invalid start byte".

Definition fw_binary_file : world float string :=
  mkWorld "" [] PNone {["expenses.json" := String (ascii_of_nat 255) EmptyString]} [] ["3"] fclock None.

(** A dict with an income and no balance. *)
Definition fw_no_balance : world float FDoc :=
  mkWorld "expenses.json" default_categories
    (PDict [("income", PNum 0%float); ("expenses", PList [])]) ∅ [] [] fclock None.

(** ** NaN passes the guards *)

Lemma Prim2SF_nan : Prim2SF PrimFloat.nan = S754_nan.
Proof. vm_compute. reflexivity. Qed.

Lemma float_add_nan_r (x : float) : (x + PrimFloat.nan)%float = PrimFloat.nan.
Proof.
  apply Prim2SF_inj. rewrite add_spec, Prim2SF_nan.
  by destruct (Prim2SF x) as [[]|[]| |? ? ?].
Qed.

Lemma float_sub_nan_r (x : float) : (x - PrimFloat.nan)%float = PrimFloat.nan.
Proof.
  apply Prim2SF_inj. rewrite sub_spec, Prim2SF_nan.
  by destruct (Prim2SF x) as [[]|[]| |? ? ?].
Qed.

(** C29: With binary64 amounts, add_income('nan') passes the negative-amount
    guard and stores a NaN income and balance. *)
Theorem add_income_accepts_nan {T} `{JsonCodec float T} (w : world float T) (l : ledger float) :
  data w = ledger_to_py l ->
  add_income (PStr "nan") w
  = (Ret tt, committed w (mkLedger PrimFloat.nan (l_expenses l) PrimFloat.nan)
                         (MAddedIncome PrimFloat.nan PrimFloat.nan)).
Proof.
  intros Hd. rewrite (add_income_contract w l _ PrimFloat.nan Hd) by reflexivity.
  unfold contract_outcome, spec_add_income; cbn [num_ltb num_add Float_PyNum].
  replace (PrimFloat.nan <? 0)%float with false by (vm_compute; reflexivity).
  by rewrite !float_add_nan_r.
Qed.

(** C30: With binary64 amounts, add_expense('nan', 'Food') passes the
    positive-amount guard, stores a NaN record and makes the balance NaN. *)
Theorem add_expense_accepts_nan {T} `{JsonCodec float T} (w : world float T) (l : ledger float) d :
  data w = ledger_to_py l -> "Food" ∈ categories w ->
  add_expense (PStr "nan") "Food" d w
  = (Ret tt, committed w (mkLedger (l_income l)
                            (l_expenses l ++ [mkExpense PrimFloat.nan "Food" d (now w)])
                            PrimFloat.nan)
                         (MAddedExpense PrimFloat.nan "Food" PrimFloat.nan)).
Proof.
  intros Hd Hc. rewrite (add_expense_contract w l _ PrimFloat.nan _ _ Hd) by reflexivity.
  unfold contract_outcome, spec_add_expense; cbn [num_leb num_sub Float_PyNum].
  replace (PrimFloat.nan <=? 0)%float with false by (vm_compute; reflexivity).
  assert (existsb (String.eqb "Food") (categories w) = true) as ->.
  { apply existsb_exists. exists "Food". split; [by apply list_elem_of_In|apply String.eqb_refl]. }
  by rewrite float_sub_nan_r.
Qed.

(** With binary64 amounts, after income 0.3 and expenses 0.1 and 0.2 the
    stored balance differs from income minus the summed expenses. *)
Example float_balance_drift :
  (drift_run fw_fresh).1 = Ret tt /\
  data (drift_run fw_fresh).2 = ledger_to_py drift_ledger /\
  (l_balance drift_ledger =? num_sub (l_income drift_ledger) (ledger_total drift_ledger))%float = false.
Proof. split; [|split]; vm_compute; reflexivity. Qed.

(** Ten records of 0.1 in Food: the summary's [sum()] (compensated) gives
    1.0, the chart's [+=] gives 0.9999999999999999. *)
Definition tenth_ledger : ledger float :=
  mkLedger (flt 1 0) (repeat (mkExpense (flt 1 (-1)) "Food" "" fclock) 10) 0%float.

Example summary_chart_disagree :
  ledger_cat_total "Food" tenth_ledger = flt 1 0 /\
  (chart_cat_total "Food" tenth_ledger =? flt 1 0)%float = false.
Proof. split; vm_compute; reflexivity. Qed.

(** C31: add_income(None) raises TypeError from float(), which except
    ValueError does not catch, leaving the world unchanged. *)
Theorem add_income_none_escapes {A T} `{PyNum A} `{JsonCodec A T} (w : world A T) :
  add_income PNone w = (Exc TypeError, w).
Proof. by rewrite (add_income_float_error w PNone TypeError). Qed.

(** C32: For every amount type and codec, a data file holding any JSON list is
    loaded without the corruption notice, after which add_income and
    add_expense with valid arguments raise TypeError and change nothing. *)
Theorem list_document_breaks_tracker {A T} `{PyNum A} `{JsonCodec A T} (w : world A T) t xs
    amount a c d :
  files w !! "expenses.json" = Some t -> read_error t = None -> loads t = Some (PList xs) ->
  py_float amount = inr a -> num_ltb a num_zero = false -> num_leb a num_zero = false ->
  c ∈ default_categories ->
  let w' := set_data (PList xs) (set_self "expenses.json" default_categories w) in
  tracker_init "expenses.json" w = (Ret tt, w') /\
  add_income amount w' = (Exc TypeError, w') /\ add_expense amount c d w' = (Exc TypeError, w').
Proof.
  intros Hf Hr Hl Hp Ha' Ha Hc w'. split; [exact (tracker_init_doc w _ t _ Hf Hr Hl)|].
  split.
  - unfold add_income, ptry, pbind, plift. rewrite Hp. cbv beta iota delta [pret]. rewrite Ha'. by subst w'; destruct w.
  - unfold add_expense, ptry, pbind, plift. rewrite Hp. cbv beta iota delta [pret]. rewrite Ha.
    subst w'; destruct w; cbn -[existsb default_categories].
    assert (existsb (String.eqb c) default_categories = true) as ->; [|reflexivity].
    apply existsb_exists. exists c. split; [by apply list_elem_of_In|apply String.eqb_refl].
Qed.

(** C33: On any world whose data is a dict with a numeric 'income' and no
    'balance', add_income with a valid amount adds it to 'income' in memory
    and then raises KeyError('balance'), saving and printing nothing. *)
Theorem add_income_half_applied {A T} `{PyNum A} `{JsonCodec A T} (w : world A T) kvs amount a inc :
  data w = PDict kvs -> assoc "income" kvs = Some (PNum inc) -> assoc "balance" kvs = None ->
  py_float amount = inr a -> num_ltb a num_zero = false ->
  add_income amount w
  = (Exc (KeyError (PStr "balance")), set_data (PDict (assoc_set "income" (PNum (num_add inc a)) kvs)) w).
Proof.
  destruct w as [df cs dd fs o i n ch]; cbn. intros -> Hi Hb Hp Ha.
  unfold add_income, ptry, pbind, plift. rewrite Hp. cbv beta iota delta [pret]. rewrite Ha.
  unfold iadd_item, set_item, get_item, pbind, pget, plift, pmodify, getitem, setitem. cbn.
  rewrite Hi. cbn. rewrite assoc_set_other, Hb by done. reflexivity.
Qed.

(** C39: When the data file is missing or reads as text, main() with no input
    left raises EOFError from the first input() call instead of ending
    normally. *)
Theorem main_eof_escapes {A T} `{PyNum A} `{JsonCodec A T} (w : world A T) :
  (forall t, files w !! "expenses.json" = Some t -> read_error t = None) ->
  stdin w = [] -> (main w).1 = Exc EOFError.
Proof.
  intros Htext Hin. pose proof (tracker_init_stdin "expenses.json" w) as Hs.
  unfold main, pbind at 1.
  destruct (tracker_init "expenses.json" w) as [[u|e] w1] eqn:Hi; cbn [fst snd] in *.
  - rewrite Hin in Hs. destruct w1 as [df cs d fs o i nw c]; cbn in Hs; subst i. reflexivity.
  - exfalso. revert Hi. destruct w as [df cs d fs o i nw c]; cbn in Htext.
    unfold tracker_init, load_data, py_print, pmodify, pbind, pget, pput, pret, praise. cbn -[lookup].
    destruct (fs !! "expenses.json") as [t|] eqn:Hf; [|discriminate].
    rewrite (Htext t eq_refl). destruct (loads t); discriminate.
Qed.

(** C37: When the data file exists but does not decode as text, json.load
    raises UnicodeDecodeError, which except json.JSONDecodeError does not
    catch: main() stops in the constructor instead of starting fresh. *)
Theorem main_undecodable_file {A T} `{PyNum A} `{JsonCodec A T} (w : world A T) t m :
  files w !! "expenses.json" = Some t -> read_error t = Some m ->
  main w = (Exc (ValueError (VEDecode m)), set_self "expenses.json" default_categories w).
Proof.
  intros Hf Hr. unfold main, pbind at 1. by rewrite (tracker_init_undecodable w _ t m Hf Hr).
Qed.

(** C19: When the process dies while save_data writes a ledger, after any
    strict prefix of json.dump's output, the next start prints the corruption
    notice and starts from the empty ledger: the whole saved ledger is lost. *)
Theorem crash_during_save_loses_ledger (w : world float string) (l : ledger float) n :
  data w = ledger_to_py l -> (n < List.length (dump_text (ledger_to_py l)))%nat ->
  let w' := set_files (<[data_file w := cut_bytes n (dumps (data w))]> (files w)) w in
  tracker_init (data_file w) w'
  = (Ret tt, set_data default_data (printed (set_self (data_file w) default_categories w') MCorrupted)).
Proof.
  intros Hd Hn w'. destruct (loads_cut_file (ledger_to_py l) n) as [Hr Hl]; [destruct l; cbn; intros []|done|].
  rewrite <- Hd in Hr, Hl. apply (tracker_init_corrupted _ _ (cut_bytes n (dumps (data w)))); [|done|done].
  subst w'. destruct w; apply lookup_insert_eq.
Qed.

(** ** Witnesses *)

Lemma add_income_accepts_nan_witness :
  data fw_fresh = ledger_to_py empty_ledger /\
  add_income (PStr "nan") fw_fresh
  = (Ret tt, committed fw_fresh (mkLedger PrimFloat.nan [] PrimFloat.nan)
                              (MAddedIncome PrimFloat.nan PrimFloat.nan)).
Proof. split; [reflexivity|]. apply (add_income_accepts_nan fw_fresh empty_ledger). reflexivity. Defined.

Lemma add_expense_accepts_nan_witness :
  data fw_fresh = ledger_to_py empty_ledger /\ "Food" ∈ categories fw_fresh /\
  add_expense (PStr "nan") "Food" "" fw_fresh
  = (Ret tt, committed fw_fresh (mkLedger num_zero [mkExpense PrimFloat.nan "Food" "" fclock]
                                          PrimFloat.nan)
                              (MAddedExpense PrimFloat.nan "Food" PrimFloat.nan)).
Proof.
  assert ("Food" ∈ categories fw_fresh) as Hc by (apply (bool_decide_unpack _); vm_compute; exact I).
  split; [reflexivity|split; [exact Hc|]].
  apply (add_expense_accepts_nan fw_fresh empty_ledger); [reflexivity|exact Hc].
Defined.

Lemma main_eof_escapes_witness :
  (forall t, files fw_fresh !! "expenses.json" = Some t -> read_error t = None) /\
  stdin fw_fresh = [] /\ (main fw_fresh).1 = Exc EOFError.
Proof.
  assert (forall t, files fw_fresh !! "expenses.json" = Some t -> read_error t = None) as Ht
    by (intros t Hf; discriminate Hf).
  split; [exact Ht|split; [reflexivity|]]. apply main_eof_escapes; [exact Ht|reflexivity].
Defined.

Lemma main_undecodable_file_witness :
  exists t m, files fw_binary_file !! "expenses.json" = Some t /\ read_error t = Some m /\
    main fw_binary_file
    = (Exc (ValueError (VEDecode m)), set_self "expenses.json" default_categories fw_binary_file).
Proof.
  exists (String (ascii_of_nat 255) EmptyString), utf8_error. split; [reflexivity|].
  assert (read_error (String (ascii_of_nat 255) EmptyString) = Some utf8_error) as Hr
    by (vm_compute; reflexivity).
  split; [exact Hr|]. apply (main_undecodable_file fw_binary_file _ _ eq_refl Hr).
Defined.

(** float('1.7976931348623159e308') lies above the overflow midpoint. *)
Lemma round_ratio_overflow_witness :
  (0 < 17976931348623159 * 10 ^ 292)%Z /\ (0 < 1)%Z /\
  round_ratio (17976931348623159 * 10 ^ 292) 1
  = if ((2 ^ 1024 - 2 ^ 970) * 1 <=? 17976931348623159 * 10 ^ 292)%Z then PrimFloat.infinity
    else let '(m, e) := round_parts (17976931348623159 * 10 ^ 292) 1 in Z.ldexp (float_of_Z m) e.
Proof. split; [lia|split; [lia|]]. apply round_ratio_overflow; lia. Defined.

(** A ledger of income 100 and its file cut after ten bytes. *)
Definition fw_saving : world float string :=
  mkWorld "expenses.json" default_categories (ledger_to_py (mkLedger 100%float [] 100%float))
    ∅ [] [] fclock None.

Lemma crash_during_save_loses_ledger_witness :
  data fw_saving = ledger_to_py (mkLedger 100%float [] 100%float) /\
  (10 < List.length (dump_text (ledger_to_py (mkLedger 100%float [] 100%float))))%nat /\
  let w' := set_files (<[data_file fw_saving := cut_bytes 10 (dumps (data fw_saving))]> (files fw_saving))
              fw_saving in
  tracker_init (data_file fw_saving) w'
  = (Ret tt, set_data default_data (printed (set_self (data_file fw_saving) default_categories w') MCorrupted)).
Proof.
  assert (10 < List.length (dump_text (ledger_to_py (mkLedger 100%float [] 100%float))))%nat as Hn.
  { vm_compute. lia. }
  split; [reflexivity|split; [exact Hn|]].
  exact (crash_during_save_loses_ledger fw_saving (mkLedger 100%float [] 100%float) 10 eq_refl Hn).
Defined.

Lemma list_document_breaks_tracker_witness :
  files fw_list_file !! "expenses.json" = Some (SDoc (PList [])) /\
  py_float (PStr "5") = inr (flt 5 0) /\ num_ltb (flt 5 0) num_zero = false /\
  num_leb (flt 5 0) num_zero = false /\ "Food" ∈ default_categories /\
  let w' := set_data (PList []) (set_self "expenses.json" default_categories fw_list_file) in
  tracker_init "expenses.json" fw_list_file = (Ret tt, w') /\
  add_income (PStr "5") w' = (Exc TypeError, w') /\ add_expense (PStr "5") "Food" "" w' = (Exc TypeError, w').
Proof.
  assert ("Food" ∈ default_categories) as Hc by (apply (bool_decide_unpack _); vm_compute; exact I).
  split; [reflexivity|split; [reflexivity|split; [reflexivity|split; [reflexivity|split; [exact Hc|]]]]].
  exact (list_document_breaks_tracker fw_list_file (SDoc (PList [])) [] (PStr "5") (flt 5 0) "Food" ""
           eq_refl eq_refl eq_refl eq_refl eq_refl eq_refl Hc).
Defined.

Lemma add_income_half_applied_witness :
  data fw_no_balance = PDict [("income", PNum 0%float); ("expenses", PList [])] /\
  py_float (PStr "5") = inr (flt 5 0) /\ num_ltb (flt 5 0) num_zero = false /\
  add_income (PStr "5") fw_no_balance
  = (Exc (KeyError (PStr "balance")),
     set_data (PDict (assoc_set "income" (PNum (num_add 0%float (flt 5 0)))
                       [("income", PNum 0%float); ("expenses", PList [])])) fw_no_balance).
Proof.
  split; [reflexivity|split; [reflexivity|split; [reflexivity|]]].
  exact (add_income_half_applied fw_no_balance _ (PStr "5") (flt 5 0) 0%float
           eq_refl eq_refl eq_refl eq_refl eq_refl).
Defined.
